(** * AI-GameMaster: the turn orchestration engine of the GM worker

    A shallow embedding of
      - gm_worker/app/models/schemas.py        (the data model),
      - gm_worker/app/services/gameplay_rules.py (the rules engine),
      - gm_worker/app/tasks/game_logic.py      (phase handlers, the two tasks),
      - auth_game_service/app/api/connection_manager.py and the listener of
        auth_game_service/app/main.py          (the connections, the results),
      - gm_worker/app/models/database.py,
        auth_game_service/app/services/crud.py and
        auth_game_service/app/api/endpoints.py (users, sessions, endpoints),
    followed by the properties of the specification that are about them and
    by further properties of the code.

    Conventions of the embedding.
      - Python [int] is [Z]; [str] is the [string] of its bytes. The string
        functions ([lower], [title], [strip], [int], the search for digits)
        are Python's on ASCII text, and [Py.is_ascii] says of a text that it
        is ASCII.
      - [Dict[str, int]] (stats, effect modifiers) is [gmap string Z]; the
        [players] dict, whose insertion order the code relies on, is an
        association list in insertion order.
      - Objects mutated in place are threaded explicitly: a handler that
        mutates [acting_player] returns the new actor, and the caller that
        obtained the actor from [game_state.players] writes it back (the
        aliasing of the source), while a caller that built a fresh actor
        drops it.
      - An uncaught exception is [Raise e]; [try/except] is a match on the
        exception class.
      - The external collaborators (narrator, intent classifier, the
        [random] module, uuid4) are read from an environment [Env] that is
        universally quantified in the theorems. *)

From Stdlib Require Import ZArith String Ascii List Bool Lia DecimalString.
From Stdlib Require Import Permutation Sorted.
From stdpp Require Import gmap strings list.

Open Scope string_scope.
Open Scope list_scope.
Open Scope Z_scope.

(** ** Exceptions *)

Inductive exn : Type :=
  | ValueError      (* also pydantic's ValidationError, a subclass *)
  | IndexError
  | AttributeError  (* attribute access on None *)
  | TypeError       (* iteration over None *)
  | ExternalError.  (* any other exception of an external service *)

Inductive result (A : Type) : Type :=
  | Ok (a : A)
  | Raise (e : exn).
Arguments Ok {A} a.
Arguments Raise {A} e.

Definition rbind {A B : Type} (r : result A) (k : A -> result B) : result B :=
  match r with
  | Ok a => k a
  | Raise e => Raise e
  end.

Notation "x <-! r ;; k" := (rbind r (fun x => k))
  (at level 100, r at next level, right associativity).

(** [except (ValueError, IndexError):] *)
Definition caught_value_or_index (e : exn) : bool :=
  match e with
  | ValueError | IndexError => true
  | _ => false
  end.

(** ** Python built-ins used by the worker *)

Module Py.

(** A [str] is the string of its bytes. The functions below are Python's own
    on ASCII text, the text [is_ascii] accepts; on other text Python also
    knows the case, the white space and the digits of Unicode, which these
    leave alone. *)

(** [s.isascii()] *)
Fixpoint is_ascii (s : string) : bool :=
  match s with
  | EmptyString => true
  | String c r => (nat_of_ascii c <? 128)%nat && is_ascii r
  end.

(** Truthiness of an [Optional[str]]: [None] and the empty string are false. *)
Definition truthy_str (s : string) : bool :=
  match s with EmptyString => false | _ => true end.

Definition truthy_opt_str (o : option string) : bool :=
  match o with Some s => truthy_str s | None => false end.

(** [x or d] on an [Optional[int]]: [None] and [0] are false. *)
Definition int_or (o : option Z) (d : Z) : Z :=
  match o with
  | Some z => if z =? 0 then d else z
  | None => d
  end.

(** [a // b] is floor division: [Z.div]. *)
Definition floordiv (a b : Z) : Z := a / b.

(** [random.randint(a, b)]: a draw of the generator brought into [a..b].
    [raw] is the generator's raw output for this call. *)
Definition randint (a b raw : Z) : Z := a + raw mod (b - a + 1).

Definition is_upper (c : ascii) : bool :=
  let n := nat_of_ascii c in (65 <=? n)%nat && (n <=? 90)%nat.
Definition is_lower (c : ascii) : bool :=
  let n := nat_of_ascii c in (97 <=? n)%nat && (n <=? 122)%nat.
Definition is_alpha (c : ascii) : bool := is_upper c || is_lower c.
Definition is_digit (c : ascii) : bool :=
  let n := nat_of_ascii c in (48 <=? n)%nat && (n <=? 57)%nat.
(** [str.isspace] on ASCII: TAB, LF, VT, FF, CR, FS, GS, RS, US, space. *)
Definition is_space (c : ascii) : bool :=
  let n := nat_of_ascii c in
  ((9 <=? n)%nat && (n <=? 13)%nat) || ((28 <=? n)%nat && (n <=? 32)%nat).

Definition lower_char (c : ascii) : ascii :=
  if is_upper c then ascii_of_nat (nat_of_ascii c + 32) else c.
Definition upper_char (c : ascii) : ascii :=
  if is_lower c then ascii_of_nat (nat_of_ascii c - 32) else c.

(** [s.lower()] *)
Fixpoint lower (s : string) : string :=
  match s with
  | EmptyString => EmptyString
  | String c r => String (lower_char c) (lower r)
  end.

(** [s.title()]: a letter that follows a letter is lowered, any other letter
    is raised. *)
Fixpoint title_go (prev_cased : bool) (s : string) : string :=
  match s with
  | EmptyString => EmptyString
  | String c r =>
      if is_alpha c
      then String (if prev_cased then lower_char c else upper_char c) (title_go true r)
      else String c (title_go false r)
  end.
Definition title (s : string) : string := title_go false s.

Fixpoint lstrip (s : string) : string :=
  match s with
  | String c r => if is_space c then lstrip r else s
  | EmptyString => EmptyString
  end.

Fixpoint string_rev_acc (s acc : string) : string :=
  match s with
  | EmptyString => acc
  | String c r => string_rev_acc r (String c acc)
  end.
Definition string_rev (s : string) : string := string_rev_acc s EmptyString.

(** [s.strip()] *)
Definition strip (s : string) : string :=
  string_rev (lstrip (string_rev (lstrip s))).

(** [sub in s] *)
Fixpoint contains (sub s : string) : bool :=
  String.prefix sub s ||
  match s with
  | EmptyString => false
  | String _ r => contains sub r
  end.

(** [s.split(sep, maxsplit)] for a one-character separator. *)
Fixpoint split_max (sep : ascii) (maxsplit : nat) (s : string) : list string :=
  match s with
  | EmptyString => [EmptyString]
  | String c r =>
      match maxsplit with
      | O => [s]
      | S k =>
          if Ascii.eqb c sep
          then EmptyString :: split_max sep k r
          else match split_max sep maxsplit r with
               | p :: ps => String c p :: ps
               | [] => [String c EmptyString]
               end
      end
  end.

(** [s.rsplit(sep, maxsplit)]: the same, scanning from the right. *)
Definition rsplit (sep : ascii) (maxsplit : nat) (s : string) : list string :=
  rev (map string_rev (split_max sep maxsplit (string_rev s))).

(** The number of separators in [s]; [s.split(sep)] has one more field. *)
Fixpoint count_char (sep : ascii) (s : string) : nat :=
  match s with
  | EmptyString => O
  | String c r => ((if Ascii.eqb c sep then 1 else 0) + count_char sep r)%nat
  end.

Definition digit_val (c : ascii) : Z := Z.of_nat (nat_of_ascii c - 48).

(** The digits of an integer literal: [digit ("_"? digit)*]. [fresh] is
    true where a digit is required (at the start and after an underscore). *)
Fixpoint int_digits (fresh : bool) (acc : Z) (s : string) : option Z :=
  match s with
  | EmptyString => if fresh then None else Some acc
  | String c r =>
      if is_digit c then int_digits false (10 * acc + digit_val c) r
      else if Ascii.eqb c "_" then (if fresh then None else int_digits true acc r)
      else None
  end.

(** [sys.get_int_max_str_digits()], as the interpreter starts: a literal of
    more digits is refused by [int]. *)
Definition int_max_str_digits : Z := 4300.

(** The number of digits of a literal; signs, white space and underscores do
    not count, leading zeros do. *)
Fixpoint count_digits (s : string) : Z :=
  match s with
  | EmptyString => 0
  | String c r => (if is_digit c then 1 else 0) + count_digits r
  end.

(** The unsigned part of a literal. *)
Definition int_literal (s : string) : result Z :=
  match int_digits true 0 s with
  | Some z => if int_max_str_digits <? count_digits s then Raise ValueError else Ok z
  | None => Raise ValueError
  end.

(** [int(s)] on a string: surrounding white space, an optional sign, and
    decimal digits, 4300 of them at most; anything else raises
    [ValueError]. *)
Definition int (s : string) : result Z :=
  match strip s with
  | String "-" r =>
      match int_literal r with Ok z => Ok (- z) | Raise e => Raise e end
  | String "+" r => int_literal r
  | t => int_literal t
  end.

(** [re.search(r'\d+', s)]: [match.group(0)], the first maximal run of
    digits, if there is one. *)
Fixpoint digit_run (s : string) : string :=
  match s with
  | String c r => if is_digit c then String c (digit_run r) else EmptyString
  | EmptyString => EmptyString
  end.
Fixpoint search_digits (s : string) : option string :=
  match s with
  | EmptyString => None
  | String c r => if is_digit c then Some (digit_run s) else search_digits r
  end.

(** [str(z)] and the format [{z:+}]. *)
Definition str (z : Z) : string := NilZero.string_of_int (Z.to_int z).
Definition fmt_plus (z : Z) : string :=
  if 0 <=? z then "+" +:+ str z else str z.

(** The line feed of ["\n"]. *)
Definition nl : string := String (ascii_of_nat 10) EmptyString.

(** [", ".join(l)] *)
Fixpoint join (sep : string) (l : list string) : string :=
  match l with
  | [] => ""
  | [x] => x
  | x :: r => x +:+ sep +:+ join sep r
  end.

End Py.

(** ** The data model (models/schemas.py)

    One module per pydantic model, so that fields keep their names. *)

Module Item.
Record t : Type := mk {
  name : string;
  description : option string;
  category : string
}.
End Item.

Module Effect.
(** A temporary status effect; [modifiers] maps a stat name (or ["all"]) to
    a bonus. *)
Record t : Type := mk {
  name : string;
  description : string;
  duration_turns : Z;
  modifiers : gmap string Z
}.
End Effect.

Module QuestRewards.
Record t : Type := mk {
  xp : Z;
  currency : Z;
  items : list Item.t
}.
End QuestRewards.

Module Quest.
Record t : Type := mk {
  quest_id : string;
  title : string;
  description : string;
  objectives : list string;
  rewards : QuestRewards.t;
  status : string
}.
End Quest.

Module Entity.
(** A bestiary template. *)
Record t : Type := mk {
  name : string;
  description : string;
  health : Z;
  stats : gmap string Z;
  is_hostile : bool;
  abilities : list string
}.
End Entity.

Module SceneEntity.
(** [class SceneEntity(Entity)]: the fields of [Entity] and an instance id. *)
Record t : Type := mk {
  name : string;
  description : string;
  health : Z;
  stats : gmap string Z;
  is_hostile : bool;
  abilities : list string;
  instance_id : string
}.

Definition set_health (v : Z) (e : t) : t :=
  mk e.(name) e.(description) v e.(stats) e.(is_hostile) e.(abilities) e.(instance_id).
End SceneEntity.

Module SceneContext.
Record t : Type := mk {
  location_name : string;
  description : string;
  entities : list SceneEntity.t
}.

Definition set_entities (v : list SceneEntity.t) (c : t) : t :=
  mk c.(location_name) c.(description) v.

(** [Field(default_factory=SceneContext)] *)
Definition default : t :=
  mk "An unknown place"
     "The air is still and the surroundings are shrouded in mystery." [].
End SceneContext.

Module PlayerCharacter.
Record t : Type := mk {
  character_id : string;
  name : string;
  age : Z;
  gender : string;
  backstory : string;
  character_class : string;
  level : Z;
  xp : Z;
  stats : gmap string Z;
  skills : list string;
  conditions : list Effect.t;
  health : Z;
  max_health : Z;
  inventory : list Item.t;
  currency : Z
}.

Definition set_health (v : Z) (p : t) : t :=
  mk p.(character_id) p.(name) p.(age) p.(gender) p.(backstory) p.(character_class)
     p.(level) p.(xp) p.(stats) p.(skills) p.(conditions) v p.(max_health)
     p.(inventory) p.(currency).

Definition set_inventory (v : list Item.t) (p : t) : t :=
  mk p.(character_id) p.(name) p.(age) p.(gender) p.(backstory) p.(character_class)
     p.(level) p.(xp) p.(stats) p.(skills) p.(conditions) p.(health) p.(max_health)
     v p.(currency).

Definition set_level (v : Z) (p : t) : t :=
  mk p.(character_id) p.(name) p.(age) p.(gender) p.(backstory) p.(character_class)
     v p.(xp) p.(stats) p.(skills) p.(conditions) p.(health) p.(max_health)
     p.(inventory) p.(currency).

Definition set_xp (v : Z) (p : t) : t :=
  mk p.(character_id) p.(name) p.(age) p.(gender) p.(backstory) p.(character_class)
     p.(level) v p.(stats) p.(skills) p.(conditions) p.(health) p.(max_health)
     p.(inventory) p.(currency).

Definition set_max_health (v : Z) (p : t) : t :=
  mk p.(character_id) p.(name) p.(age) p.(gender) p.(backstory) p.(character_class)
     p.(level) p.(xp) p.(stats) p.(skills) p.(conditions) p.(health) v
     p.(inventory) p.(currency).

Definition set_currency (v : Z) (p : t) : t :=
  mk p.(character_id) p.(name) p.(age) p.(gender) p.(backstory) p.(character_class)
     p.(level) p.(xp) p.(stats) p.(skills) p.(conditions) p.(health) p.(max_health)
     p.(inventory) v.
End PlayerCharacter.

Module ClassOption.
Record t : Type := mk {
  name : string;
  description : string;
  positive_attribute : string;
  starting_weapon : string;
  starting_currency : Z;
  starting_object : string;
  base_stats : gmap string Z;
  initial_abilities : list string
}.
End ClassOption.

Module MainPlot.
(** The secret plot is an untyped [Dict]; the worker reads two keys of it. *)
Record t : Type := mk {
  synopsis : option string;
  key_milestones : option (list string)
}.
End MainPlot.

Module WorldOption.
Record t : Type := mk {
  name : string;
  description : string;
  main_plot_hook : string;
  main_plot : MainPlot.t;
  initial_bestiary : list Entity.t
}.
End WorldOption.

Module PendingAction.
(** The context of a skill check while the player's confirmation is
    awaited; [dice_roll] and [is_success] are decided when it is built. *)
Record t : Type := mk {
  acting_character_id : string;
  action_text : string;
  stat_name : string;
  modifier : Z;
  dc : Z;
  dice_roll : Z;
  is_success : bool
}.
End PendingAction.

Module GameState.

(** [class GameState(BaseModel)]: the single source of truth of a session. *)
Record t : Type := mk {
  session_id : string;
  game_id : string;
  game_phase : string;
  world : option WorldOption.t;
  players : list (string * PlayerCharacter.t);
  party_inventory : list Item.t;
  party_currency : Z;
  scene_context : SceneContext.t;
  quest_log : list Quest.t;
  story_summary : string;
  previous_turn_narrative : option string;
  main_plot : option MainPlot.t;
  bestiary : gmap string Entity.t;
  current_turn_entity_id : option string;
  initiative_order : list string;
  pending_action : option PendingAction.t;
  world_selection_options : option (list WorldOption.t);
  class_selection_options : option (list ClassOption.t);
  num_players_to_create : Z;
  characters_created : Z;
  pending_character_class : option ClassOption.t
}.

(** Attribute assignment [game_state.f = v]. *)
Definition set_session_id (v : string) (g : t) : t :=
  mk v (g.(game_id)) (g.(game_phase)) (g.(world)) (g.(players)) (g.(party_inventory)) (g.(party_currency)) (g.(scene_context)) (g.(quest_log)) (g.(story_summary)) (g.(previous_turn_narrative)) (g.(main_plot)) (g.(bestiary)) (g.(current_turn_entity_id)) (g.(initiative_order)) (g.(pending_action)) (g.(world_selection_options)) (g.(class_selection_options)) (g.(num_players_to_create)) (g.(characters_created)) (g.(pending_character_class)).
Definition set_game_phase (v : string) (g : t) : t :=
  mk (g.(session_id)) (g.(game_id)) v (g.(world)) (g.(players)) (g.(party_inventory)) (g.(party_currency)) (g.(scene_context)) (g.(quest_log)) (g.(story_summary)) (g.(previous_turn_narrative)) (g.(main_plot)) (g.(bestiary)) (g.(current_turn_entity_id)) (g.(initiative_order)) (g.(pending_action)) (g.(world_selection_options)) (g.(class_selection_options)) (g.(num_players_to_create)) (g.(characters_created)) (g.(pending_character_class)).
Definition set_world (v : option WorldOption.t) (g : t) : t :=
  mk (g.(session_id)) (g.(game_id)) (g.(game_phase)) v (g.(players)) (g.(party_inventory)) (g.(party_currency)) (g.(scene_context)) (g.(quest_log)) (g.(story_summary)) (g.(previous_turn_narrative)) (g.(main_plot)) (g.(bestiary)) (g.(current_turn_entity_id)) (g.(initiative_order)) (g.(pending_action)) (g.(world_selection_options)) (g.(class_selection_options)) (g.(num_players_to_create)) (g.(characters_created)) (g.(pending_character_class)).
Definition set_players (v : list (string * PlayerCharacter.t)) (g : t) : t :=
  mk (g.(session_id)) (g.(game_id)) (g.(game_phase)) (g.(world)) v (g.(party_inventory)) (g.(party_currency)) (g.(scene_context)) (g.(quest_log)) (g.(story_summary)) (g.(previous_turn_narrative)) (g.(main_plot)) (g.(bestiary)) (g.(current_turn_entity_id)) (g.(initiative_order)) (g.(pending_action)) (g.(world_selection_options)) (g.(class_selection_options)) (g.(num_players_to_create)) (g.(characters_created)) (g.(pending_character_class)).
Definition set_scene_context (v : SceneContext.t) (g : t) : t :=
  mk (g.(session_id)) (g.(game_id)) (g.(game_phase)) (g.(world)) (g.(players)) (g.(party_inventory)) (g.(party_currency)) v (g.(quest_log)) (g.(story_summary)) (g.(previous_turn_narrative)) (g.(main_plot)) (g.(bestiary)) (g.(current_turn_entity_id)) (g.(initiative_order)) (g.(pending_action)) (g.(world_selection_options)) (g.(class_selection_options)) (g.(num_players_to_create)) (g.(characters_created)) (g.(pending_character_class)).
Definition set_quest_log (v : list Quest.t) (g : t) : t :=
  mk (g.(session_id)) (g.(game_id)) (g.(game_phase)) (g.(world)) (g.(players)) (g.(party_inventory)) (g.(party_currency)) (g.(scene_context)) v (g.(story_summary)) (g.(previous_turn_narrative)) (g.(main_plot)) (g.(bestiary)) (g.(current_turn_entity_id)) (g.(initiative_order)) (g.(pending_action)) (g.(world_selection_options)) (g.(class_selection_options)) (g.(num_players_to_create)) (g.(characters_created)) (g.(pending_character_class)).
Definition set_story_summary (v : string) (g : t) : t :=
  mk (g.(session_id)) (g.(game_id)) (g.(game_phase)) (g.(world)) (g.(players)) (g.(party_inventory)) (g.(party_currency)) (g.(scene_context)) (g.(quest_log)) v (g.(previous_turn_narrative)) (g.(main_plot)) (g.(bestiary)) (g.(current_turn_entity_id)) (g.(initiative_order)) (g.(pending_action)) (g.(world_selection_options)) (g.(class_selection_options)) (g.(num_players_to_create)) (g.(characters_created)) (g.(pending_character_class)).
Definition set_previous_turn_narrative (v : option string) (g : t) : t :=
  mk (g.(session_id)) (g.(game_id)) (g.(game_phase)) (g.(world)) (g.(players)) (g.(party_inventory)) (g.(party_currency)) (g.(scene_context)) (g.(quest_log)) (g.(story_summary)) v (g.(main_plot)) (g.(bestiary)) (g.(current_turn_entity_id)) (g.(initiative_order)) (g.(pending_action)) (g.(world_selection_options)) (g.(class_selection_options)) (g.(num_players_to_create)) (g.(characters_created)) (g.(pending_character_class)).
Definition set_main_plot (v : option MainPlot.t) (g : t) : t :=
  mk (g.(session_id)) (g.(game_id)) (g.(game_phase)) (g.(world)) (g.(players)) (g.(party_inventory)) (g.(party_currency)) (g.(scene_context)) (g.(quest_log)) (g.(story_summary)) (g.(previous_turn_narrative)) v (g.(bestiary)) (g.(current_turn_entity_id)) (g.(initiative_order)) (g.(pending_action)) (g.(world_selection_options)) (g.(class_selection_options)) (g.(num_players_to_create)) (g.(characters_created)) (g.(pending_character_class)).
Definition set_bestiary (v : gmap string Entity.t) (g : t) : t :=
  mk (g.(session_id)) (g.(game_id)) (g.(game_phase)) (g.(world)) (g.(players)) (g.(party_inventory)) (g.(party_currency)) (g.(scene_context)) (g.(quest_log)) (g.(story_summary)) (g.(previous_turn_narrative)) (g.(main_plot)) v (g.(current_turn_entity_id)) (g.(initiative_order)) (g.(pending_action)) (g.(world_selection_options)) (g.(class_selection_options)) (g.(num_players_to_create)) (g.(characters_created)) (g.(pending_character_class)).
Definition set_current_turn_entity_id (v : option string) (g : t) : t :=
  mk (g.(session_id)) (g.(game_id)) (g.(game_phase)) (g.(world)) (g.(players)) (g.(party_inventory)) (g.(party_currency)) (g.(scene_context)) (g.(quest_log)) (g.(story_summary)) (g.(previous_turn_narrative)) (g.(main_plot)) (g.(bestiary)) v (g.(initiative_order)) (g.(pending_action)) (g.(world_selection_options)) (g.(class_selection_options)) (g.(num_players_to_create)) (g.(characters_created)) (g.(pending_character_class)).
Definition set_initiative_order (v : list string) (g : t) : t :=
  mk (g.(session_id)) (g.(game_id)) (g.(game_phase)) (g.(world)) (g.(players)) (g.(party_inventory)) (g.(party_currency)) (g.(scene_context)) (g.(quest_log)) (g.(story_summary)) (g.(previous_turn_narrative)) (g.(main_plot)) (g.(bestiary)) (g.(current_turn_entity_id)) v (g.(pending_action)) (g.(world_selection_options)) (g.(class_selection_options)) (g.(num_players_to_create)) (g.(characters_created)) (g.(pending_character_class)).
Definition set_pending_action (v : option PendingAction.t) (g : t) : t :=
  mk (g.(session_id)) (g.(game_id)) (g.(game_phase)) (g.(world)) (g.(players)) (g.(party_inventory)) (g.(party_currency)) (g.(scene_context)) (g.(quest_log)) (g.(story_summary)) (g.(previous_turn_narrative)) (g.(main_plot)) (g.(bestiary)) (g.(current_turn_entity_id)) (g.(initiative_order)) v (g.(world_selection_options)) (g.(class_selection_options)) (g.(num_players_to_create)) (g.(characters_created)) (g.(pending_character_class)).
Definition set_world_selection_options (v : option (list WorldOption.t)) (g : t) : t :=
  mk (g.(session_id)) (g.(game_id)) (g.(game_phase)) (g.(world)) (g.(players)) (g.(party_inventory)) (g.(party_currency)) (g.(scene_context)) (g.(quest_log)) (g.(story_summary)) (g.(previous_turn_narrative)) (g.(main_plot)) (g.(bestiary)) (g.(current_turn_entity_id)) (g.(initiative_order)) (g.(pending_action)) v (g.(class_selection_options)) (g.(num_players_to_create)) (g.(characters_created)) (g.(pending_character_class)).
Definition set_class_selection_options (v : option (list ClassOption.t)) (g : t) : t :=
  mk (g.(session_id)) (g.(game_id)) (g.(game_phase)) (g.(world)) (g.(players)) (g.(party_inventory)) (g.(party_currency)) (g.(scene_context)) (g.(quest_log)) (g.(story_summary)) (g.(previous_turn_narrative)) (g.(main_plot)) (g.(bestiary)) (g.(current_turn_entity_id)) (g.(initiative_order)) (g.(pending_action)) (g.(world_selection_options)) v (g.(num_players_to_create)) (g.(characters_created)) (g.(pending_character_class)).
Definition set_num_players_to_create (v : Z) (g : t) : t :=
  mk (g.(session_id)) (g.(game_id)) (g.(game_phase)) (g.(world)) (g.(players)) (g.(party_inventory)) (g.(party_currency)) (g.(scene_context)) (g.(quest_log)) (g.(story_summary)) (g.(previous_turn_narrative)) (g.(main_plot)) (g.(bestiary)) (g.(current_turn_entity_id)) (g.(initiative_order)) (g.(pending_action)) (g.(world_selection_options)) (g.(class_selection_options)) v (g.(characters_created)) (g.(pending_character_class)).
Definition set_characters_created (v : Z) (g : t) : t :=
  mk (g.(session_id)) (g.(game_id)) (g.(game_phase)) (g.(world)) (g.(players)) (g.(party_inventory)) (g.(party_currency)) (g.(scene_context)) (g.(quest_log)) (g.(story_summary)) (g.(previous_turn_narrative)) (g.(main_plot)) (g.(bestiary)) (g.(current_turn_entity_id)) (g.(initiative_order)) (g.(pending_action)) (g.(world_selection_options)) (g.(class_selection_options)) (g.(num_players_to_create)) v (g.(pending_character_class)).
Definition set_pending_character_class (v : option ClassOption.t) (g : t) : t :=
  mk (g.(session_id)) (g.(game_id)) (g.(game_phase)) (g.(world)) (g.(players)) (g.(party_inventory)) (g.(party_currency)) (g.(scene_context)) (g.(quest_log)) (g.(story_summary)) (g.(previous_turn_narrative)) (g.(main_plot)) (g.(bestiary)) (g.(current_turn_entity_id)) (g.(initiative_order)) (g.(pending_action)) (g.(world_selection_options)) (g.(class_selection_options)) (g.(num_players_to_create)) (g.(characters_created)) v.

End GameState.

Module PlayerIntent.
Record t : Type := mk {
  intent_type : string;
  action_description : string;
  item_name : option string;
  is_acquisition : bool;
  target : option string;
  relevant_stat : option string;
  required_dc : option Z
}.
End PlayerIntent.

Module GMWorldCreationResponse.
Record t : Type := mk {
  narrative : string;
  world_options : list WorldOption.t;
  updated_summary : string
}.
End GMWorldCreationResponse.

Module GMClassCreationResponse.
Record t : Type := mk {
  narrative : string;
  class_options : list ClassOption.t
}.
End GMClassCreationResponse.

Module GMTurnResponse.
Record t : Type := mk {
  narrative : string;
  image_prompt : string;
  updated_summary : string;
  updated_scene_context : SceneContext.t;
  updated_quest_log : list Quest.t
}.
End GMTurnResponse.

(** ** The [players] dict

    [Dict[str, PlayerCharacter]], in insertion order. *)

Module Players.
Definition t : Type := list (string * PlayerCharacter.t).

(** [players.get(k)] *)
Fixpoint get (k : string) (l : t) : option PlayerCharacter.t :=
  match l with
  | [] => None
  | (k', v) :: r => if String.eqb k k' then Some v else get k r
  end.

(** [k in players] *)
Definition mem (k : string) (l : t) : bool :=
  match get k l with Some _ => true | None => false end.

(** [players[k] = v]: an existing key keeps its place, a new one goes last. *)
Fixpoint set (k : string) (v : PlayerCharacter.t) (l : t) : t :=
  match l with
  | [] => [(k, v)]
  | (k', v') :: r => if String.eqb k k' then (k', v) :: r else (k', v') :: set k v r
  end.

Definition keys (l : t) : list string := map fst l.
Definition values (l : t) : list PlayerCharacter.t := map snd l.
End Players.

(** [l.index(x)]: the first position of [x], or [ValueError]. *)
Fixpoint list_index (x : string) (l : list string) : result nat :=
  match l with
  | [] => Raise ValueError
  | y :: r =>
      if String.eqb x y then Ok O
      else match list_index x r with Ok i => Ok (S i) | Raise e => Raise e end
  end.

(** [l[i]] for [i >= 0], or [IndexError]. *)
Definition list_item {A : Type} (l : list A) (i : nat) : result A :=
  match nth_error l i with Some a => Ok a | None => Raise IndexError end.

(** ** The rules engine (services/gameplay_rules.py)

    The functions take the raw outputs [rng 0], [rng 1], ... of the [random]
    module in the order in which the function draws them. *)

Module Rules.

Definition INCOHERENT_ITEM_KEYWORDS : list string :=
  ["laser"; "pistol"; "spaceship"; "computer"; "phone"; "gun"].

(** A combatant is a player character or a scene entity. *)
Inductive Combatant : Type :=
  | OfPlayer (p : PlayerCharacter.t)
  | OfEntity (e : SceneEntity.t).

Definition combatant_stats (c : Combatant) : gmap string Z :=
  match c with
  | OfPlayer p => p.(PlayerCharacter.stats)
  | OfEntity e => e.(SceneEntity.stats)
  end.

(** [getattr(c, 'character_id', getattr(c, 'instance_id', None))] *)
Definition combatant_id (c : Combatant) : string :=
  match c with
  | OfPlayer p => p.(PlayerCharacter.character_id)
  | OfEntity e => e.(SceneEntity.instance_id)
  end.

(** [(stat - 10) // 2] *)
Definition stat_modifier (stat_value : Z) : Z := Py.floordiv (stat_value - 10) 2.

Definition combatants (game_state : GameState.t) : list Combatant :=
  map OfPlayer (Players.values game_state.(GameState.players))
  ++ map OfEntity
       (List.filter (fun e => e.(SceneEntity.is_hostile))
               game_state.(GameState.scene_context).(SceneContext.entities)).

(** The loop of [initiate_combat]: the [k]-th combatant rolls with the
    [k]-th draw; a combatant with a false (empty) id is left out. *)
Fixpoint initiative_rolls (rng : nat -> Z) (k : nat) (cs : list Combatant)
  : list (string * Z) :=
  match cs with
  | [] => []
  | c :: r =>
      let dex_modifier := stat_modifier (default 10 (combatant_stats c !! "dexterity")) in
      let roll := Py.randint 1 20 (rng k) + dex_modifier in
      let entity_id := combatant_id c in
      (if Py.truthy_str entity_id then [(entity_id, roll)] else [])
      ++ initiative_rolls rng (S k) r
  end.

(** [l.sort(key=lambda x: x[1], reverse=True)]: Python's sort is stable, and
    [reverse=True] keeps equal keys in their original order. *)
Fixpoint insert_desc (x : string * Z) (l : list (string * Z)) : list (string * Z) :=
  match l with
  | [] => [x]
  | y :: r => if snd x <? snd y then y :: insert_desc x r else x :: y :: r
  end.
Fixpoint sort_desc (l : list (string * Z)) : list (string * Z) :=
  match l with
  | [] => []
  | x :: r => insert_desc x (sort_desc r)
  end.

Definition initiate_combat (rng : nat -> Z) (game_state : GameState.t) : GameState.t :=
  let game_state := GameState.set_game_phase "IN_COMBAT" game_state in
  let rolls := sort_desc (initiative_rolls rng 0 (combatants game_state)) in
  let order := map fst rolls in
  let game_state := GameState.set_initiative_order order game_state in
  match order with
  | first :: _ => GameState.set_current_turn_entity_id (Some first) game_state
  | [] => game_state
  end.

(** [_apply_effects]: an absent or zero modifier is false and adds nothing. *)
Definition effect_bonus (relevant_stat : option string) (effect : Effect.t) : Z :=
  (match relevant_stat with
   | Some s =>
       if Py.truthy_str s && negb (default 0 (effect.(Effect.modifiers) !! s) =? 0)
       then default 0 (effect.(Effect.modifiers) !! s) else 0
   | None => 0
   end)
  + (if negb (default 0 (effect.(Effect.modifiers) !! "all") =? 0)
     then default 0 (effect.(Effect.modifiers) !! "all") else 0).

Definition _apply_effects (acting_player : PlayerCharacter.t)
    (relevant_stat : option string) : Z :=
  fold_left (fun total effect => total + effect_bonus relevant_stat effect)
            acting_player.(PlayerCharacter.conditions) 0.

(** The announcement of a new level, read on the player after the change. *)
Definition level_up_announcement (player : PlayerCharacter.t) : string :=
  player.(PlayerCharacter.name) +:+ " has reached Level "
  +:+ Py.str player.(PlayerCharacter.level) +:+ "! Their health increases.".

(** [_check_for_level_up]: with [level * 1000] XP or more the player gains
    one level and ten points of maximal health, is healed in full and pays
    the threshold. *)
Definition _check_for_level_up (player : PlayerCharacter.t)
  : PlayerCharacter.t * string :=
  let level_up_xp_threshold := player.(PlayerCharacter.level) * 1000 in
  if level_up_xp_threshold <=? player.(PlayerCharacter.xp) then
    let player := PlayerCharacter.set_level (player.(PlayerCharacter.level) + 1) player in
    let player :=
      PlayerCharacter.set_max_health (player.(PlayerCharacter.max_health) + 10) player in
    let player := PlayerCharacter.set_health player.(PlayerCharacter.max_health) player in
    let player :=
      PlayerCharacter.set_xp (player.(PlayerCharacter.xp) - level_up_xp_threshold) player in
    (player, level_up_announcement player)
  else (player, "").

(** [_apply_rewards]: XP, currency and items of a quest, then the level
    check; [inventory.extend] appends the items as they come. *)
Definition _apply_rewards (player : PlayerCharacter.t) (rewards : QuestRewards.t)
  : PlayerCharacter.t * string :=
  let player :=
    PlayerCharacter.set_xp (player.(PlayerCharacter.xp) + rewards.(QuestRewards.xp)) player in
  let player :=
    PlayerCharacter.set_currency
      (player.(PlayerCharacter.currency) + rewards.(QuestRewards.currency)) player in
  let player :=
    PlayerCharacter.set_inventory
      (player.(PlayerCharacter.inventory) ++ rewards.(QuestRewards.items)) player in
  let reward_text :=
    "Received " +:+ Py.str rewards.(QuestRewards.xp) +:+ " XP, "
    +:+ Py.str rewards.(QuestRewards.currency) +:+ " currency." in
  let reward_text :=
    match rewards.(QuestRewards.items) with
    | [] => reward_text
    | _ :: _ =>
        reward_text +:+ " Items: "
        +:+ Py.join ", " (map Item.name rewards.(QuestRewards.items))
    end in
  let '(player, level_up_message) := _check_for_level_up player in
  let reward_text :=
    if Py.truthy_str level_up_message
    then reward_text +:+ " " +:+ level_up_message else reward_text in
  (player, reward_text).

(** [_check_quest_completion]: a placeholder that completes nothing. *)
Definition _check_quest_completion (game_state : GameState.t)
  : GameState.t * list string :=
  (game_state, []).

Definition name_is (item_name : string) (item : Item.t) : bool :=
  String.eqb (Py.lower item.(Item.name)) (Py.lower item_name).

(** [inventory.remove(x)] for the first item of that name. *)
Fixpoint remove_first (item_name : string) (l : list Item.t) : list Item.t :=
  match l with
  | [] => []
  | i :: r => if name_is item_name i then r else i :: remove_first item_name r
  end.

Definition handle_inventory_intent (intent : PlayerIntent.t) (game_state : GameState.t)
    (acting_player : PlayerCharacter.t) : GameState.t * PlayerCharacter.t * string :=
  match intent.(PlayerIntent.item_name) with
  | None => (game_state, acting_player, "The player specified no item.")
  | Some raw =>
      if negb (Py.truthy_str raw)
      then (game_state, acting_player, "The player specified no item.")
      else
        let item_name := Py.title raw in
        let inventory := acting_player.(PlayerCharacter.inventory) in
        if intent.(PlayerIntent.is_acquisition) then
          if existsb (fun keyword => Py.contains keyword (Py.lower item_name))
                     INCOHERENT_ITEM_KEYWORDS
          then (game_state, acting_player,
                "The player's attempt to find a '" +:+ item_name
                +:+ "' failed because such an object is entirely foreign to this world.")
          else if negb (existsb (name_is item_name) inventory)
          then (game_state,
                PlayerCharacter.set_inventory
                  (inventory ++ [Item.mk item_name (Some "A newly found item.") "misc"])
                  acting_player,
                "The player successfully acquired the '" +:+ item_name +:+ "'.")
          else (game_state, acting_player,
                "The player already has a '" +:+ item_name +:+ "'.")
        else
          if existsb (name_is item_name) inventory
          then (game_state,
                PlayerCharacter.set_inventory (remove_first item_name inventory) acting_player,
                "The player has used or discarded the '" +:+ item_name +:+ "'.")
          else (game_state, acting_player,
                "The player tried to use a '" +:+ item_name
                +:+ "', but they don't have one.")
  end.

(** The stat a skill check is made on: the intent's, lowered, when the
    actor has it; dexterity otherwise. *)
Definition skill_stat_name (intent : PlayerIntent.t) (acting_player : PlayerCharacter.t)
  : string :=
  match intent.(PlayerIntent.relevant_stat) with
  | Some s =>
      if Py.truthy_str s
         && bool_decide (is_Some (acting_player.(PlayerCharacter.stats) !! Py.lower s))
      then Py.lower s else "dexterity"
  | None => "dexterity"
  end.

(** The challenge shown to the player. *)
Definition skill_challenge (action_description stat_name : string) (dc total_modifier : Z)
  : string :=
  "You prepare to '" +:+ action_description +:+ "'. "
  +:+ "This will require a " +:+ Py.title stat_name
  +:+ " check against a Difficulty Class (DC) of " +:+ Py.str dc +:+ ". "
  +:+ "(Your character's total modifier for this is " +:+ Py.fmt_plus total_modifier +:+ ").".

(** Phase 1 of a skill check; [raw] is the draw behind the d20. *)
Definition handle_skill_check_intent (raw : Z) (intent : PlayerIntent.t)
    (game_state : GameState.t) (acting_player : PlayerCharacter.t)
  : GameState.t * PlayerCharacter.t * string :=
  let dc := Py.int_or intent.(PlayerIntent.required_dc) 12 in
  let stat_name := skill_stat_name intent acting_player in
  let stat_value := default 10 (acting_player.(PlayerCharacter.stats) !! stat_name) in
  let stat_modifier := stat_modifier stat_value in
  let effect_modifier := _apply_effects acting_player (Some stat_name) in
  let total_modifier := stat_modifier + effect_modifier in
  let dice_roll := Py.randint 1 20 raw in
  let total_roll := dice_roll + total_modifier in
  let is_success := dc <=? total_roll in
  let game_state := GameState.set_game_phase "AWAITING_DICE_ROLL_CONFIRMATION" game_state in
  let game_state :=
    GameState.set_pending_action
      (Some (PendingAction.mk acting_player.(PlayerCharacter.character_id)
               intent.(PlayerIntent.action_description)
               stat_name total_modifier dc dice_roll is_success))
      game_state in
  (game_state, acting_player,
   skill_challenge intent.(PlayerIntent.action_description) stat_name dc total_modifier).

Definition entity_named (target_name : string) (e : SceneEntity.t) : bool :=
  String.eqb (Py.lower e.(SceneEntity.name)) (Py.lower target_name).

(** [next((e for e in entities if ...), None)] *)
Definition find_target (target_name : string) (entities : list SceneEntity.t)
  : option SceneEntity.t :=
  List.find (entity_named target_name) entities.

(** [target_entity.health -= damage] on the entity found by [find_target]. *)
Fixpoint damage_first (target_name : string) (damage : Z) (entities : list SceneEntity.t)
  : list SceneEntity.t :=
  match entities with
  | [] => []
  | e :: r =>
      if entity_named target_name e
      then SceneEntity.set_health (e.(SceneEntity.health) - damage) e :: r
      else e :: damage_first target_name damage r
  end.

Definition handle_attack_intent (raw : Z) (intent : PlayerIntent.t)
    (game_state : GameState.t) (acting_player : PlayerCharacter.t)
  : GameState.t * PlayerCharacter.t * string :=
  match intent.(PlayerIntent.target) with
  | None =>
      (game_state, acting_player, "The player wanted to attack, but did not specify a target.")
  | Some target_name =>
      if negb (Py.truthy_str target_name)
      then (game_state, acting_player,
            "The player wanted to attack, but did not specify a target.")
      else
        let scene := game_state.(GameState.scene_context) in
        match find_target target_name scene.(SceneContext.entities) with
        | None =>
            (game_state, acting_player,
             "The player tried to attack '" +:+ target_name +:+ "', but there is no such target.")
        | Some target_entity =>
            if negb target_entity.(SceneEntity.is_hostile)
            then (game_state, acting_player,
                  "The player attacks '" +:+ target_name +:+ "', but they are not hostile.")
            else
              let damage :=
                Py.floordiv (default 10 (acting_player.(PlayerCharacter.stats) !! "strength")) 2
                + Py.randint 1 6 raw in
              let health := target_entity.(SceneEntity.health) - damage in
              let game_state :=
                GameState.set_scene_context
                  (SceneContext.set_entities
                     (damage_first target_name damage scene.(SceneContext.entities)) scene)
                  game_state in
              (game_state, acting_player,
               if health <=? 0
               then "With a final blow, the player defeats "
                    +:+ target_entity.(SceneEntity.name) +:+ "!"
               else "The player attacks " +:+ target_entity.(SceneEntity.name)
                    +:+ ", dealing " +:+ Py.str damage +:+ " damage. It has "
                    +:+ Py.str health +:+ " health remaining.")
        end
  end.

(** [any(e.is_hostile and e.health > 0 for e in entities)] *)
Definition remaining_hostiles (game_state : GameState.t) : bool :=
  existsb (fun e => e.(SceneEntity.is_hostile) && (0 <? e.(SceneEntity.health)))
          game_state.(GameState.scene_context).(SceneContext.entities).

(** Step 1 of [process_turn_events]: an attack on a hostile target outside
    combat starts the fight. *)
Definition starts_combat (intent : PlayerIntent.t) (game_state : GameState.t) : bool :=
  String.eqb intent.(PlayerIntent.intent_type) "ATTACK"
  && negb (String.eqb game_state.(GameState.game_phase) "IN_COMBAT")
  && match intent.(PlayerIntent.target) with
     | Some target_name =>
         Py.truthy_str target_name
         && match find_target target_name
                    game_state.(GameState.scene_context).(SceneContext.entities) with
            | Some target_entity => target_entity.(SceneEntity.is_hostile)
            | None => false
            end
     | None => false
     end.

(** Step 4: the end of combat. *)
Definition check_combat_end (acting_player : PlayerCharacter.t)
    (game_state : GameState.t) (all_outcomes : list string) : GameState.t * list string :=
  if String.eqb game_state.(GameState.game_phase) "IN_COMBAT"
     && negb (remaining_hostiles game_state)
  then
    (GameState.set_current_turn_entity_id (Some acting_player.(PlayerCharacter.character_id))
       (GameState.set_initiative_order []
          (GameState.set_game_phase "GAME_IN_PROGRESS" game_state)),
     all_outcomes ++ [Py.nl +:+ Py.nl +:+ "**Combat has ended!**"])
  else (game_state, all_outcomes).

(** The per-turn pipeline. The result is the state, the actor as mutated,
    the outcome text and the danger flag. *)
Definition process_turn_events (rng : nat -> Z) (intent : PlayerIntent.t)
    (game_state : GameState.t) (acting_player : PlayerCharacter.t)
  : GameState.t * PlayerCharacter.t * string * bool :=
  if starts_combat intent game_state then
    (initiate_combat rng game_state, acting_player,
     "Combat begins! The air crackles with tension as initiative is rolled.", false)
  else
    let intent_type := intent.(PlayerIntent.intent_type) in
    let is_danger :=
      (Py.randint 1 100 (rng 0%nat) <=? 5)
      && negb (String.eqb intent_type "OBSERVE" || String.eqb intent_type "SOCIAL") in
    let '(game_state, acting_player, action_outcome) :=
      if String.eqb intent_type "MANAGE_INVENTORY"
      then handle_inventory_intent intent game_state acting_player
      else if String.eqb intent_type "SKILL_CHECK"
      then handle_skill_check_intent (rng 1%nat) intent game_state acting_player
      else if String.eqb intent_type "ATTACK"
      then handle_attack_intent (rng 1%nat) intent game_state acting_player
      else (game_state, acting_player,
            "The player takes a moment to interact with their surroundings.") in
    let '(game_state, all_outcomes) :=
      check_combat_end acting_player game_state [action_outcome] in
    (game_state, acting_player, Py.join " " (List.filter Py.truthy_str all_outcomes), is_danger).

End Rules.

(** ** The collaborators of a task (tasks/game_logic.py)

    What one task execution reads from outside: the [random] module, uuid4,
    and the answers of the language model, each of which may raise. *)

Module NarrationRequest.
(** The variable parts of the prompt of [_narrate_turn]. *)
Record t : Type := mk {
  narrative_focus : string;
  action_text : string;
  outcome_description : string;
  language_pref : string
}.
End NarrationRequest.

Record Env : Type := mkEnv {
  (** the [k]-th raw output of [random] in this task *)
  random_raw : nat -> Z;
  (** [uuid.uuid4().hex[:8]] for a new character *)
  uuid4_hex8 : string;
  (** [gemini_service.generate_narrative(prompt)] *)
  generate_narrative : result string;
  (** [generate_structured_narrative(..., GMWorldCreationResponse)] *)
  world_creation : result GMWorldCreationResponse.t;
  (** [generate_structured_narrative(..., GMClassCreationResponse)] *)
  class_creation : result GMClassCreationResponse.t;
  (** the opening scene, a [GMTurnResponse] *)
  opening_scene : result GMTurnResponse.t;
  (** the narration of a turn *)
  turn_narration : NarrationRequest.t -> result GMTurnResponse.t;
  (** the classification of a player's action text *)
  intent_classification : string -> result PlayerIntent.t;
  (** the tactical choice of an NPC *)
  npc_decision : SceneEntity.t -> result PlayerIntent.t
}.

Module ResultPayload.
(** The dict published to the result channel. *)
Record t : Type := mk {
  event_type : string;
  narrative : string;
  new_game_state : option GameState.t;
  prompt_user_for : option string;
  world_options : option (list WorldOption.t);
  class_options : option (list ClassOption.t);
  image_prompt : option string
}.

Definition plain (event_type narrative : string) : t :=
  mk event_type narrative None None None None None.

Definition error (narrative : string) : t := plain "ERROR" narrative.

Definition set_new_game_state (v : option GameState.t) (r : t) : t :=
  mk r.(event_type) r.(narrative) v r.(prompt_user_for) r.(world_options)
     r.(class_options) r.(image_prompt).
End ResultPayload.

(** ** The world a task acts on: the session store, the result channel and
    the task queue. *)

Record World : Type := mkWorld {
  (** table [game_sessions], by [session_id] *)
  db : gmap string GameState.t;
  (** queue [gm_results], oldest first: client id and result *)
  published : list (string * ResultPayload.t);
  (** queued [process_npc_turn_task] calls: session id and client id *)
  npc_queue : list (string * string)
}.

(** [update_game_state_in_db]: an SQL [UPDATE ... WHERE session_id = ...]; a
    session that has no row is not created. *)
Definition update_game_state_in_db (session_id : string) (new_game_state : GameState.t)
    (w : World) : World :=
  match w.(db) !! session_id with
  | Some _ => mkWorld (<[session_id := new_game_state]> w.(db)) w.(published) w.(npc_queue)
  | None => w
  end.

Definition publish_result_to_queue (client_id : string) (result : ResultPayload.t)
    (w : World) : World :=
  mkWorld w.(db) (w.(published) ++ [(client_id, result)]) w.(npc_queue).

(** [process_npc_turn_task.delay(session_id_str=..., client_id=...)] *)
Definition delay_npc_turn_task (session_id client_id : string) (w : World) : World :=
  mkWorld w.(db) w.(published) (w.(npc_queue) ++ [(session_id, client_id)]).

(** [crud.create_game_session]: the state a session starts from. *)
Definition initial_game_state (session_id game_id : string) : GameState.t :=
  GameState.mk session_id game_id "NEW_GAME" None [] [] 0 SceneContext.default []
    "A new story is about to unfold..." None None ∅ None [] None None None 0 0 None.

(** ** Phase handlers (tasks/game_logic.py) *)

Module GameLogic.

Definition in_range (lo choice hi : Z) : bool := (lo <=? choice) && (choice <=? hi).

(** [_get_natural_language_choice]: the model's answer first, then the first
    number of the player's text. What the model call or [int] raise on the
    model's answer is swallowed by the [try] block; the [int] of the player's
    own digits stands outside it, and what it raises is raised by the
    function. *)
Definition _get_natural_language_choice (env : Env) (action_text : string)
    (num_options : Z) : result Z :=
  let from_model :=
    match env.(generate_narrative) with
    | Ok response_text =>
        match Py.search_digits response_text with
        | Some digits =>
            match Py.int digits with
            | Ok choice => if in_range 1 choice num_options then Some choice else None
            | Raise _ => None
            end
        | None => None
        end
    | Raise _ => None
    end in
  match from_model with
  | Some choice => Ok choice
  | None =>
      match Py.search_digits action_text with
      | Some digits =>
          choice <-! Py.int digits ;;
          Ok (if in_range 1 choice num_options then choice else 0)
      | None => Ok 0
      end
  end.

Definition _determine_narrative_focus (game_state : GameState.t) : string :=
  match List.filter (fun q => String.eqb q.(Quest.status) "active")
                    game_state.(GameState.quest_log) with
  | q :: _ =>
      let current_objective :=
        match q.(Quest.objectives) with o :: _ => o | [] => "an unknown task" end in
      "Focus on advancing the active quest: '" +:+ q.(Quest.title)
      +:+ "'. The next objective is: '" +:+ current_objective +:+ "'."
  | [] =>
      match game_state.(GameState.main_plot) with
      | Some (MainPlot.mk _ (Some (current_milestone :: _))) =>
          "Focus on guiding the players towards the next main plot milestone: '"
          +:+ current_milestone +:+ "'."
      | _ =>
          "The players are exploring. Your goal is to introduce a new conflict, mystery, or a hook for a new quest to drive the story forward."
      end
  end.

(** [_classify_intent]: a failed classification is an OBSERVE intent. *)
Definition _classify_intent (env : Env) (action_text : string) : PlayerIntent.t :=
  match env.(intent_classification) action_text with
  | Ok player_intent => player_intent
  | Raise _ => PlayerIntent.mk "OBSERVE" "look around" None false None None None
  end.

Definition _handle_start_new_game (env : Env) (game_state : GameState.t)
  : result (GameState.t * ResultPayload.t) :=
  response <-! env.(world_creation) ;;
  let game_state := GameState.set_game_phase "WORLD_SELECTION" game_state in
  let game_state :=
    GameState.set_world_selection_options
      (Some response.(GMWorldCreationResponse.world_options)) game_state in
  let game_state :=
    GameState.set_story_summary response.(GMWorldCreationResponse.updated_summary)
      game_state in
  Ok (game_state,
      ResultPayload.mk "WORLD_OPTIONS_PRESENTED"
        response.(GMWorldCreationResponse.narrative) (Some game_state) None
        (Some response.(GMWorldCreationResponse.world_options)) None None).

(** [{entity.name: entity for entity in l}] *)
Definition bestiary_of (l : list Entity.t) : gmap string Entity.t :=
  fold_left (fun m e => <[e.(Entity.name) := e]> m) l ∅.

Definition options_len {A : Type} (o : option (list A)) : Z :=
  match o with
  | Some l => Z.of_nat (length l)
  | None => 0
  end.

Definition _handle_world_selection (env : Env) (game_state : GameState.t)
    (action_text : string) : result (GameState.t * ResultPayload.t) :=
  let num_options := options_len game_state.(GameState.world_selection_options) in
  choice <-! _get_natural_language_choice env action_text num_options ;;
  let choice_index := choice - 1 in
  if (0 <=? choice_index) && (choice_index <? num_options) then
    selected_world <-!
      list_item (default [] game_state.(GameState.world_selection_options))
                (Z.to_nat choice_index) ;;
    let game_state := GameState.set_world (Some selected_world) game_state in
    let game_state :=
      GameState.set_main_plot (Some selected_world.(WorldOption.main_plot)) game_state in
    let game_state :=
      GameState.set_bestiary (bestiary_of selected_world.(WorldOption.initial_bestiary))
        game_state in
    let game_state :=
      GameState.set_game_phase "CHARACTER_CREATION_NUM_PLAYERS" game_state in
    Ok (game_state,
        ResultPayload.mk "STATE_UPDATE_PROMPT_USER"
          ("You have chosen the world of " +:+ selected_world.(WorldOption.name) +:+ ". "
           +:+ selected_world.(WorldOption.main_plot_hook) +:+ Py.nl
           +:+ "How many adventurers will be embarking on this journey? (1-4)")
          None (Some "number_of_players") None None None)
  else
    Ok (game_state,
        ResultPayload.error
          ("Invalid choice. Please choose a number from 1 to "
           +:+ Py.str num_options +:+ ".")).

Definition invalid_format : ResultPayload.t :=
  ResultPayload.error "Invalid format. Please provide: Name, Age, Gender, Backstory.".

(** The four stripped parts of the details line and the age as an integer,
    or the [ValueError] of the [try] block's first lines. *)
Definition parse_details (action_text : string)
  : result (string * Z * string * string) :=
  match map Py.strip (Py.rsplit "," 3 action_text) with
  | [name; age_str; gender; backstory] =>
      age <-! Py.int age_str ;;
      Ok (name, age, gender, backstory)
  | _ => Raise ValueError
  end.

(** [PlayerCharacter(client_id=..., name=..., ...)] for a new character. *)
Definition new_character (env : Env) (name : string) (age : Z) (gender backstory : string)
    (pending_class : ClassOption.t) : PlayerCharacter.t :=
  PlayerCharacter.mk ("char_" +:+ env.(uuid4_hex8)) name age gender backstory
    pending_class.(ClassOption.name) 1 0
    pending_class.(ClassOption.base_stats)
    pending_class.(ClassOption.initial_abilities) [] 100 100
    [Item.mk pending_class.(ClassOption.starting_weapon)
             (Some "A basic starting weapon.") "weapon";
     Item.mk pending_class.(ClassOption.starting_object)
             (Some "A curious starting object.") "misc"]
    pending_class.(ClassOption.starting_currency).

(** [next(iter(players.keys()), None)] *)
Definition first_key (players : Players.t) : option string :=
  match players with
  | (k, _) :: _ => Some k
  | [] => None
  end.

Definition _handle_character_creation (env : Env) (game_state : GameState.t)
    (client_id action_text : string) : result (GameState.t * ResultPayload.t) :=
  let sub_phase := game_state.(GameState.game_phase) in
  let player_num := game_state.(GameState.characters_created) + 1 in
  if String.eqb sub_phase "CHARACTER_CREATION_NUM_PLAYERS" then
    choice <-! _get_natural_language_choice env action_text 4 ;;
    if negb (in_range 1 choice 4) then
      Ok (game_state, ResultPayload.error "Please enter a number from 1 to 4.")
    else
      let game_state := GameState.set_num_players_to_create choice game_state in
      let game_state := GameState.set_game_phase "CHARACTER_CREATION_CLASSES" game_state in
      match game_state.(GameState.world) with
      | None => Raise AttributeError
      | Some _ =>
          response <-! env.(class_creation) ;;
          let game_state :=
            GameState.set_class_selection_options
              (Some response.(GMClassCreationResponse.class_options)) game_state in
          Ok (game_state,
              ResultPayload.mk "CLASS_OPTIONS_PRESENTED"
                (response.(GMClassCreationResponse.narrative) +:+ Py.nl
                 +:+ "Please choose a class for Player " +:+ Py.str player_num +:+ ".")
                None None None (Some response.(GMClassCreationResponse.class_options)) None)
      end
  else if String.eqb sub_phase "CHARACTER_CREATION_CLASSES" then
    let num_options := options_len game_state.(GameState.class_selection_options) in
    choice <-! _get_natural_language_choice env action_text num_options ;;
    let choice_index := choice - 1 in
    if negb ((0 <=? choice_index) && (choice_index <? num_options)) then
      Ok (game_state,
          ResultPayload.error
            ("Invalid choice. Please choose a number from 1 to "
             +:+ Py.str num_options +:+ "."))
    else
      chosen_class <-!
        list_item (default [] game_state.(GameState.class_selection_options))
                  (Z.to_nat choice_index) ;;
      let game_state := GameState.set_pending_character_class (Some chosen_class) game_state in
      let game_state := GameState.set_game_phase "CHARACTER_CREATION_DETAILS" game_state in
      Ok (game_state,
          ResultPayload.mk "STATE_UPDATE_PROMPT_USER"
            ("Chosen '" +:+ chosen_class.(ClassOption.name) +:+ "' for Player "
             +:+ Py.str player_num +:+ "." +:+ Py.nl
             +:+ "Please provide: Name, Age, Gender, Backstory (comma-separated).")
            None (Some ("details_for_player_" +:+ Py.str player_num)) None None None)
  else if String.eqb sub_phase "CHARACTER_CREATION_DETAILS" then
    match parse_details action_text with
    | Raise e =>
        if caught_value_or_index e then Ok (game_state, invalid_format) else Raise e
    | Ok (name, age, gender, backstory) =>
        match game_state.(GameState.pending_character_class) with
        | None => Raise AttributeError
        | Some pending_class =>
            let new_char := new_character env name age gender backstory pending_class in
            let game_state :=
              GameState.set_players
                (Players.set new_char.(PlayerCharacter.character_id) new_char
                   game_state.(GameState.players)) game_state in
            let game_state :=
              GameState.set_characters_created
                (game_state.(GameState.characters_created) + 1) game_state in
            let game_state := GameState.set_pending_character_class None game_state in
            if game_state.(GameState.characters_created)
               <? game_state.(GameState.num_players_to_create) then
              let game_state :=
                GameState.set_game_phase "CHARACTER_CREATION_CLASSES" game_state in
              match game_state.(GameState.class_selection_options) with
              | None => Raise TypeError
              | Some options =>
                  Ok (game_state,
                      ResultPayload.mk "CLASS_OPTIONS_PRESENTED"
                        ("Character '" +:+ name +:+ "' created! Now, create Player "
                         +:+ Py.str (game_state.(GameState.characters_created) + 1) +:+ ".")
                        None None None (Some options) None)
              end
            else
              let game_state := GameState.set_game_phase "GAME_IN_PROGRESS" game_state in
              let game_state :=
                GameState.set_current_turn_entity_id
                  (first_key game_state.(GameState.players)) game_state in
              match game_state.(GameState.world), game_state.(GameState.main_plot) with
              | None, _ | _, None => Raise AttributeError
              | Some _, Some plot =>
                  match plot.(MainPlot.key_milestones) with
                  | Some [] =>
                      (* [...][0] raises IndexError, which the handler catches
                         after the state has been changed *)
                      Ok (game_state, invalid_format)
                  | _ =>
                      match env.(opening_scene) with
                      | Raise e =>
                          if caught_value_or_index e
                          then Ok (game_state, invalid_format) else Raise e
                      | Ok narrative_response =>
                          let game_state :=
                            GameState.set_story_summary
                              narrative_response.(GMTurnResponse.updated_summary)
                              game_state in
                          let game_state :=
                            GameState.set_scene_context
                              narrative_response.(GMTurnResponse.updated_scene_context)
                              game_state in
                          let game_state :=
                            GameState.set_quest_log
                              narrative_response.(GMTurnResponse.updated_quest_log)
                              game_state in
                          Ok (game_state,
                              ResultPayload.mk "NARRATIVE_UPDATE"
                                narrative_response.(GMTurnResponse.narrative)
                                (Some game_state) None None None
                                (Some narrative_response.(GMTurnResponse.image_prompt)))
                      end
                  end
              end
        end
    end
  else
    Ok (game_state, ResultPayload.error "Unknown character creation state.").

(** [_handle_dice_resolution], the handler of an older protocol in which the
    player typed the roll; the dispatcher does not call it. After a roll in
    1..20 has been read it calls [gameplay_rules.resolve_skill_check], which
    the rules engine does not define: the attribute lookup raises, outside
    the [try] block. *)
Definition _handle_dice_resolution (env : Env) (game_state : GameState.t)
    (action_text language_pref : string) : result (GameState.t * ResultPayload.t) :=
  let parsed :=
    dice_roll <-! Py.int (Py.strip action_text) ;;
    if negb (in_range 1 dice_roll 20) then Raise ValueError else Ok dice_roll in
  match parsed with
  | Raise e =>
      if caught_value_or_index e
      then Ok (game_state,
               ResultPayload.error
                 "Invalid dice roll. Please enter a number between 1 and 20.")
      else Raise e
  | Ok dice_roll => Raise AttributeError
  end.

(** [_narrate_turn]. The prompt reads [game_state.world.name] and
    [acting_player.name]: either being [None] is an [AttributeError]. The
    memory service swallows its own failures and is left out. *)
Definition _narrate_turn (env : Env) (game_state : GameState.t)
    (acting_player : option PlayerCharacter.t)
    (action_text language_pref outcome_description : string) (is_danger_event : bool)
  : result (GameState.t * ResultPayload.t) :=
  let narrative_focus := _determine_narrative_focus game_state in
  match game_state.(GameState.world), acting_player with
  | None, _ | _, None => Raise AttributeError
  | Some _, Some _ =>
      narrative_response <-!
        env.(turn_narration)
          (NarrationRequest.mk narrative_focus action_text outcome_description
             language_pref) ;;
      let game_state :=
        GameState.set_story_summary narrative_response.(GMTurnResponse.updated_summary)
          game_state in
      let game_state :=
        GameState.set_scene_context
          narrative_response.(GMTurnResponse.updated_scene_context) game_state in
      let game_state :=
        GameState.set_quest_log narrative_response.(GMTurnResponse.updated_quest_log)
          game_state in
      let game_state :=
        GameState.set_previous_turn_narrative
          (Some narrative_response.(GMTurnResponse.narrative)) game_state in
      Ok (game_state,
          ResultPayload.mk "NARRATIVE_UPDATE" narrative_response.(GMTurnResponse.narrative)
            (Some game_state) None None None None)
  end.

(** [_handle_standard_turn]. The actor is the object stored in [players]
    under [acting_char_id]; what the rules engine does to it is seen there. *)
Definition _handle_standard_turn (env : Env) (game_state : GameState.t)
    (acting_char_id action_text language_pref : string)
  : result (GameState.t * ResultPayload.t) :=
  match Players.get acting_char_id game_state.(GameState.players) with
  | None => Ok (game_state, ResultPayload.error "Acting player not found.")
  | Some acting_player =>
      let player_intent := _classify_intent env action_text in
      let '(game_state, acting_player, outcome_description, is_danger_event) :=
        Rules.process_turn_events env.(random_raw) player_intent game_state acting_player in
      let game_state :=
        GameState.set_players
          (Players.set acting_char_id acting_player game_state.(GameState.players))
          game_state in
      if String.eqb game_state.(GameState.game_phase) "AWAITING_DICE_ROLL_CONFIRMATION"
      then
        Ok (game_state,
            ResultPayload.mk "DICE_ROLL_REQUESTED" outcome_description (Some game_state)
              None None None None)
      else
        _narrate_turn env game_state (Some acting_player) action_text language_pref
          outcome_description is_danger_event
  end.

(** What phase 2 tells the narrator when the check succeeded. *)
Definition success_description (pending : PendingAction.t) : string :=
  "The dice roll is a " +:+ Py.str pending.(PendingAction.dice_roll)
  +:+ "! With your modifier of " +:+ Py.fmt_plus pending.(PendingAction.modifier)
  +:+ ", your total is "
  +:+ Py.str (pending.(PendingAction.dice_roll) + pending.(PendingAction.modifier))
  +:+ ". A success against the DC of " +:+ Py.str pending.(PendingAction.dc) +:+ "!".

(** ... and when it failed, with the damage taken. *)
Definition failure_description (pending : PendingAction.t) (damage : Z) : string :=
  "The dice roll is a " +:+ Py.str pending.(PendingAction.dice_roll)
  +:+ ". With your modifier of " +:+ Py.fmt_plus pending.(PendingAction.modifier)
  +:+ ", your total is "
  +:+ Py.str (pending.(PendingAction.dice_roll) + pending.(PendingAction.modifier))
  +:+ ". Unfortunately, that's not enough to beat the DC of "
  +:+ Py.str pending.(PendingAction.dc)
  +:+ ". You fail and take " +:+ Py.str damage +:+ " damage.".

(** [_handle_dice_roll_confirmation]: phase 2 of a skill check. *)
Definition _handle_dice_roll_confirmation (env : Env) (game_state : GameState.t)
    (language_pref : string) : result (GameState.t * ResultPayload.t) :=
  match game_state.(GameState.pending_action) with
  | None =>
      Ok (game_state, ResultPayload.error "No skill check was pending for confirmation.")
  | Some pending =>
      let acting_character_id := pending.(PendingAction.acting_character_id) in
      let acting_player := Players.get acting_character_id game_state.(GameState.players) in
      resolved <-!
        (if pending.(PendingAction.is_success)
         then Ok (game_state, acting_player, success_description pending)
         else
           let damage := Py.randint 1 4 (env.(random_raw) 0%nat) in
           match acting_player with
           | None => Raise AttributeError
           | Some p =>
               let p := PlayerCharacter.set_health (p.(PlayerCharacter.health) - damage) p in
               Ok (GameState.set_players
                     (Players.set acting_character_id p game_state.(GameState.players))
                     game_state,
                   Some p, failure_description pending damage)
           end) ;;
      let '(game_state, acting_player, outcome_description) := resolved in
      let original_action := pending.(PendingAction.action_text) in
      let game_state := GameState.set_pending_action None game_state in
      let game_state := GameState.set_game_phase "GAME_IN_PROGRESS" game_state in
      _narrate_turn env game_state acting_player original_action language_pref
        outcome_description false
  end.

(** [x not in game_state.players] for an optional id. *)
Definition not_a_player (id : option string) (game_state : GameState.t) : bool :=
  match id with
  | Some k => negb (Players.mem k game_state.(GameState.players))
  | None => true
  end.

(** [_advance_turn_in_combat]: the next id of the initiative order, after
    the first position of the current one; on failure the first id. *)
Definition _advance_turn_in_combat (game_state : GameState.t) : GameState.t * bool :=
  let order := game_state.(GameState.initiative_order) in
  let attempt :=
    current_index <-!
      match game_state.(GameState.current_turn_entity_id) with
      | Some current_turn_id => list_index current_turn_id order
      | None => Raise ValueError
      end ;;
    list_item order ((current_index + 1) mod length order)%nat in
  match attempt with
  | Ok next_entity_id =>
      let game_state :=
        GameState.set_current_turn_entity_id (Some next_entity_id) game_state in
      (game_state, not_a_player (Some next_entity_id) game_state)
  | Raise _ =>
      match order with
      | [] => (game_state, false)
      | first_entity_id :: _ =>
          let game_state :=
            GameState.set_current_turn_entity_id (Some first_entity_id) game_state in
          (game_state, not_a_player (Some first_entity_id) game_state)
      end
  end.

(** Keyword arguments, as the dump of a scene entity that is unpacked into
    the constructor of [PlayerCharacter]. *)
Inductive kwval : Type :=
  | VStr (s : string)
  | VInt (z : Z)
  | VBool (b : bool)
  | VStats (m : gmap string Z)
  | VStrs (l : list string).

Definition kwargs : Type := list (string * kwval).

Fixpoint kw_get (k : string) (kw : kwargs) : option kwval :=
  match kw with
  | [] => None
  | (k', v) :: r => if String.eqb k k' then Some v else kw_get k r
  end.

(** [SceneEntity.model_dump()] *)
Definition SceneEntity_model_dump (e : SceneEntity.t) : kwargs :=
  [("name", VStr e.(SceneEntity.name));
   ("description", VStr e.(SceneEntity.description));
   ("health", VInt e.(SceneEntity.health));
   ("stats", VStats e.(SceneEntity.stats));
   ("is_hostile", VBool e.(SceneEntity.is_hostile));
   ("abilities", VStrs e.(SceneEntity.abilities));
   ("instance_id", VStr e.(SceneEntity.instance_id))].

(** A field without default must be given; a given field must have the
    field's type; keys that are no fields are ignored. *)
Definition required_str (k : string) (kw : kwargs) : result string :=
  match kw_get k kw with Some (VStr s) => Ok s | _ => Raise ValueError end.
Definition required_int (k : string) (kw : kwargs) : result Z :=
  match kw_get k kw with Some (VInt z) => Ok z | _ => Raise ValueError end.
Definition optional_str (k : string) (d : string) (kw : kwargs) : result string :=
  match kw_get k kw with
  | None => Ok d | Some (VStr s) => Ok s | Some _ => Raise ValueError
  end.
Definition optional_int (k : string) (d : Z) (kw : kwargs) : result Z :=
  match kw_get k kw with
  | None => Ok d | Some (VInt z) => Ok z | Some _ => Raise ValueError
  end.
Definition optional_stats (k : string) (kw : kwargs) : result (gmap string Z) :=
  match kw_get k kw with
  | None => Ok ∅ | Some (VStats m) => Ok m | Some _ => Raise ValueError
  end.
Definition optional_strs (k : string) (kw : kwargs) : result (list string) :=
  match kw_get k kw with
  | None => Ok [] | Some (VStrs l) => Ok l | Some _ => Raise ValueError
  end.

(** The constructor of [PlayerCharacter] on keyword arguments: pydantic's
    validation of the model's fields.
    [name], [age], [gender], [backstory] and [character_class] have no
    default. The keyword arguments of this embedding carry no effect or
    item lists, so [conditions] and [inventory] take their defaults. *)
Definition PlayerCharacter_validate (env : Env) (kw : kwargs)
  : result PlayerCharacter.t :=
  character_id <-! optional_str "character_id" ("char_" +:+ env.(uuid4_hex8)) kw ;;
  name <-! required_str "name" kw ;;
  age <-! required_int "age" kw ;;
  gender <-! required_str "gender" kw ;;
  backstory <-! required_str "backstory" kw ;;
  character_class <-! required_str "character_class" kw ;;
  level <-! optional_int "level" 1 kw ;;
  xp <-! optional_int "xp" 0 kw ;;
  stats <-! optional_stats "stats" kw ;;
  skills <-! optional_strs "skills" kw ;;
  health <-! optional_int "health" 100 kw ;;
  max_health <-! optional_int "max_health" 100 kw ;;
  currency <-! optional_int "currency" 0 kw ;;
  Ok (PlayerCharacter.mk character_id name age gender backstory character_class
        level xp stats skills [] health max_health [] currency).

Definition find_instance (npc_id : option string) (entities : list SceneEntity.t)
  : option SceneEntity.t :=
  match npc_id with
  | Some id => List.find (fun e => String.eqb e.(SceneEntity.instance_id) id) entities
  | None => None
  end.

Definition conscious_players (game_state : GameState.t) : list PlayerCharacter.t :=
  List.filter (fun p => 0 <? p.(PlayerCharacter.health))
              (Players.values game_state.(GameState.players)).

(** [_handle_npc_turn]. The NPC acts through the rules engine as a fresh
    [PlayerCharacter] built from its dump; whatever that raises makes the
    NPC hesitate. *)
Definition _handle_npc_turn (env : Env) (game_state : GameState.t)
    (npc_id : option string) (language_pref : string) : GameState.t * string :=
  match find_instance npc_id game_state.(GameState.scene_context).(SceneContext.entities) with
  | None => (game_state, default "None" npc_id +:+ " cannot act.")
  | Some npc_entity =>
      if npc_entity.(SceneEntity.health) <=? 0
      then (game_state, npc_entity.(SceneEntity.name) +:+ " cannot act.")
      else
        match conscious_players game_state with
        | [] => (game_state, "There are no conscious players to target.")
        | _ :: _ =>
            let attempt :=
              npc_intent <-! env.(npc_decision) npc_entity ;;
              npc_as_actor <-!
                PlayerCharacter_validate env (SceneEntity_model_dump npc_entity) ;;
              Ok (Rules.process_turn_events env.(random_raw) npc_intent game_state
                    npc_as_actor) in
            match attempt with
            | Ok (game_state, _, outcome_description, _) =>
                (game_state, outcome_description)
            | Raise _ =>
                (game_state,
                 npc_entity.(SceneEntity.name) +:+ " hesitates, unsure of what to do.")
            end
        end
  end.

(** ** The two tasks *)

Definition combat_has_ended : string := Py.nl +:+ Py.nl +:+ "**Combat has ended!**".

(** [process_npc_turn_task(session_id_str, client_id)] *)
Definition process_npc_turn_task (env : Env) (session_id client_id : string) (w : World)
  : World :=
  match w.(db) !! session_id with
  | None => w
  | Some game_state =>
      let npc_id := game_state.(GameState.current_turn_entity_id) in
      let language_pref := "en" in
      let '(game_state, npc_outcome) := _handle_npc_turn env game_state npc_id language_pref in
      let remaining_hostiles := Rules.remaining_hostiles game_state in
      let '(game_state, final_narrative, w) :=
        if negb remaining_hostiles then
          (GameState.set_game_phase "GAME_IN_PROGRESS" game_state,
           npc_outcome +:+ combat_has_ended, w)
        else
          let '(game_state, is_next_turn_npc) := _advance_turn_in_combat game_state in
          (game_state, npc_outcome,
           if is_next_turn_npc then delay_npc_turn_task session_id client_id w else w) in
      let result_payload :=
        ResultPayload.mk "NARRATIVE_UPDATE" final_narrative (Some game_state)
          None None None None in
      publish_result_to_queue client_id result_payload
        (update_game_state_in_db session_id game_state w)
  end.

(** The [payload] key of a FORCE_GAME_STATE action. *)
Inductive ForcedPayload : Type :=
  | NoPayload                        (* absent, null or an empty object *)
  | InvalidPayload                   (* rejected by [GameState.model_validate] *)
  | StatePayload (g : GameState.t).

Module ClientAction.
Record t : Type := mk {
  action_type : option string;
  payload : ForcedPayload
}.
End ClientAction.

Module TaskPayload.
(** The task message of [process_game_action_task]. *)
Record t : Type := mk {
  session_id : string;
  game_state : GameState.t;
  client_id : string;
  client_action : ClientAction.t;
  language : string
}.
End TaskPayload.

(** What the task returns to the queue, or the exception that ended it. *)
Inductive TaskReturn : Type :=
  | Success
  | ErrorStatus (text : string)
  | Crashed (e : exn).

(** The outcome of the dispatcher proper (section 2 of the task). *)
Inductive Dispatched : Type :=
  | Handled (final_game_state : GameState.t) (result_payload : ResultPayload.t)
  | EarlyReturn (text : string)
  | Uncaught (e : exn).

Definition of_result (r : result (GameState.t * ResultPayload.t)) : Dispatched :=
  match r with
  | Ok (g, p) => Handled g p
  | Raise e => Uncaught e
  end.

(** [not acting_char_id or acting_char_id not in game_state.players] *)
Definition no_valid_turn (game_state : GameState.t) : bool :=
  match game_state.(GameState.current_turn_entity_id) with
  | Some id => negb (Py.truthy_str id) || negb (Players.mem id game_state.(GameState.players))
  | None => true
  end.

Definition dispatch (env : Env) (game_state : GameState.t)
    (client_id action_text language_pref : string) : Dispatched :=
  let initial_phase := game_state.(GameState.game_phase) in
  if String.eqb initial_phase "NEW_GAME" then
    of_result (_handle_start_new_game env game_state)
  else if String.eqb initial_phase "WORLD_SELECTION" then
    of_result (_handle_world_selection env game_state action_text)
  else if String.prefix "CHARACTER_CREATION" initial_phase then
    of_result (_handle_character_creation env game_state client_id action_text)
  else if String.eqb initial_phase "AWAITING_DICE_ROLL_CONFIRMATION" then
    of_result (_handle_dice_roll_confirmation env game_state language_pref)
  else if String.eqb initial_phase "IN_COMBAT" then
    if no_valid_turn game_state then EarlyReturn "Not a valid player's turn"
    else
      of_result
        (_handle_standard_turn env game_state
           (default "" game_state.(GameState.current_turn_entity_id))
           action_text language_pref)
  else if String.eqb initial_phase "GAME_IN_PROGRESS" then
    if no_valid_turn game_state then
      match first_key game_state.(GameState.players) with
      | None => EarlyReturn "Game is in progress but no players exist."
      | Some acting_char_id =>
          if negb (Py.truthy_str acting_char_id)
          then EarlyReturn "Game is in progress but no players exist."
          else
            let game_state :=
              GameState.set_current_turn_entity_id (Some acting_char_id) game_state in
            of_result
              (_handle_standard_turn env game_state acting_char_id action_text language_pref)
      end
    else
      of_result
        (_handle_standard_turn env game_state
           (default "" game_state.(GameState.current_turn_entity_id))
           action_text language_pref)
  else
    Handled game_state
      (ResultPayload.error ("Unhandled state '" +:+ initial_phase +:+ "'.")).

(** [l.index(x)] then the next position, circularly. *)
Definition next_player (acting_char_id : string) (player_ids : list string)
  : option string :=
  match list_index acting_char_id player_ids with
  | Ok current_idx => nth_error player_ids ((current_idx + 1) mod length player_ids)%nat
  | Raise _ => None
  end.

(** Section 5 of the task: who acts next. *)
Definition post_turn (initial_phase session_id client_id : string)
    (final_game_state : GameState.t) (w : World) : World :=
  if String.eqb final_game_state.(GameState.game_phase) "IN_COMBAT" then
    let '(final_game_state, is_npc_turn) :=
      if String.eqb initial_phase "IN_COMBAT"
      then _advance_turn_in_combat final_game_state
      else (final_game_state,
            not_a_player final_game_state.(GameState.current_turn_entity_id)
              final_game_state) in
    if is_npc_turn
    then update_game_state_in_db session_id final_game_state
           (delay_npc_turn_task session_id client_id w)
    else w
  else if String.eqb final_game_state.(GameState.game_phase) "GAME_IN_PROGRESS" then
    let player_ids := Players.keys final_game_state.(GameState.players) in
    match final_game_state.(GameState.current_turn_entity_id) with
    | Some acting_char_id =>
        if (1 <? length player_ids)%nat then
          match next_player acting_char_id player_ids with
          | Some next =>
              update_game_state_in_db session_id
                (GameState.set_current_turn_entity_id (Some next) final_game_state) w
          | None => w
          end
        else w
    | None => w
    end
  else w.

(** [process_game_action_task(payload)] *)
Definition process_game_action_task (env : Env) (payload : TaskPayload.t) (w : World)
  : TaskReturn * World :=
  let session_id := payload.(TaskPayload.session_id) in
  let game_state := payload.(TaskPayload.game_state) in
  let client_id := payload.(TaskPayload.client_id) in
  let action_text :=
    default "observe" payload.(TaskPayload.client_action).(ClientAction.action_type) in
  let language_pref := payload.(TaskPayload.language) in
  let initial_phase := game_state.(GameState.game_phase) in
  if String.eqb action_text "FORCE_GAME_STATE" then
    match payload.(TaskPayload.client_action).(ClientAction.payload) with
    | StatePayload forced_state =>
        let final_game_state := GameState.set_session_id session_id forced_state in
        let result_payload :=
          ResultPayload.plain "STATE_FORCED" "State forced for testing." in
        let w := update_game_state_in_db session_id final_game_state w in
        let result_payload :=
          ResultPayload.set_new_game_state (Some final_game_state) result_payload in
        (Success, publish_result_to_queue client_id result_payload w)
    | InvalidPayload => (Crashed ValueError, w)
    | NoPayload => (ErrorStatus "FORCE_GAME_STATE requires a payload.", w)
    end
  else
    match dispatch env game_state client_id action_text language_pref with
    | EarlyReturn text => (ErrorStatus text, w)
    | Uncaught e => (Crashed e, w)
    | Handled final_game_state result_payload =>
        let w := update_game_state_in_db session_id final_game_state w in
        let result_payload :=
          match result_payload.(ResultPayload.new_game_state) with
          | Some _ => result_payload
          | None =>
              ResultPayload.set_new_game_state (Some final_game_state) result_payload
          end in
        let w := publish_result_to_queue client_id result_payload w in
        (Success, post_turn initial_phase session_id client_id final_game_state w)
    end.

End GameLogic.

(** ** The connections of the clients
    (auth_game_service/app/api/connection_manager.py, main.py) *)

Module ConnectionManager.

(** A WebSocket, by the number of the connection. *)
Definition WebSocket : Type := nat.

(** [active_connections: Dict[str, WebSocket]] is [gmap string WebSocket]. *)

(** [__init__] *)
Definition init : gmap string WebSocket := ∅.

(** [connect]: the socket is stored under the client id, in the place of a
    socket stored there before. *)
Definition connect (websocket : WebSocket) (client_id : string)
    (active_connections : gmap string WebSocket) : gmap string WebSocket :=
  <[client_id := websocket]> active_connections.

(** [disconnect]: [del active_connections[client_id]] when the id is there. *)
Definition disconnect (client_id : string) (active_connections : gmap string WebSocket)
  : gmap string WebSocket :=
  match active_connections !! client_id with
  | Some _ => delete client_id active_connections
  | None => active_connections
  end.

(** [send_personal_message]: the socket the message goes out on, if the
    client has one. *)
Definition send_personal_message {M : Type} (message : M) (client_id : string)
    (active_connections : gmap string WebSocket) : option (WebSocket * M) :=
  match active_connections !! client_id with
  | Some websocket => Some (websocket, message)
  | None => None
  end.

End ConnectionManager.

(** The listener of the queue [gm_results] (the callback of
    [setup_rabbitmq_listener]): a message that names a client is forwarded
    to the client's socket; the message is acknowledged either way. The
    results the worker publishes are never empty dicts. *)
Definition forward_result (message : string * ResultPayload.t)
    (manager : gmap string ConnectionManager.WebSocket)
  : option (ConnectionManager.WebSocket * ResultPayload.t) :=
  let '(client_id, result) := message in
  if Py.truthy_str client_id
  then ConnectionManager.send_personal_message result client_id manager
  else None.

(** ** Users and sessions (auth_game_service: models/database.py,
    services/crud.py, api/endpoints.py)

    The two tables are lists of rows in the order of insertion, each with
    the sequence of its primary key. The UUIDs and the time of the database
    server are arguments. *)

Module User.
(** Table [users]; [language] has the server default ['en']. *)
Record t : Type := mk {
  id : Z;
  username : string;
  hashed_password : string;
  language : string
}.

Definition set_language (v : string) (u : t) : t :=
  mk u.(id) u.(username) u.(hashed_password) v.
End User.

Module GameSession.
(** Table [game_sessions]; [game_state] is the JSON text of the column
    [game_state_json], read back as a state. *)
Record t : Type := mk {
  id : Z;
  session_id : string;
  user_id : Z;
  game_state : GameState.t;
  updated_at : Z
}.
End GameSession.

Module Crud.

Record Database : Type := mkDatabase {
  users : list User.t;
  users_id_seq : Z;
  game_sessions : list GameSession.t;
  game_sessions_id_seq : Z
}.

(** [query(User).filter(User.username == username).first()] *)
Definition get_user_by_username (db : Database) (username : string) : option User.t :=
  List.find (fun u => String.eqb u.(User.username) username) db.(users).

(** [create_user]: one INSERT; [username] is unique, and a second row of
    the same name is refused by the database. *)
Definition create_user (db : Database) (username password : string)
  : result (Database * User.t) :=
  if existsb (fun u => String.eqb u.(User.username) username) db.(users)
  then Raise ExternalError
  else
    let db_user := User.mk db.(users_id_seq) username password "en" in
    Ok (mkDatabase (db.(users) ++ [db_user]) (db.(users_id_seq) + 1)
          db.(game_sessions) db.(game_sessions_id_seq),
        db_user).

Definition get_or_create_user (db : Database) (username : string)
  : result (Database * User.t) :=
  match get_user_by_username db username with
  | Some db_user => Ok (db, db_user)
  | None => create_user db username "dummy_password"
  end.

(** The first of the rows with the greatest [updated_at]. *)
Fixpoint latest (rows : list GameSession.t) : option GameSession.t :=
  match rows with
  | [] => None
  | s :: r =>
      match latest r with
      | Some s' =>
          if s.(GameSession.updated_at) <? s'.(GameSession.updated_at)
          then Some s' else Some s
      | None => Some s
      end
  end.

(** [query(GameSession).filter(user_id == user_id)
      .order_by(updated_at.desc()).first()] *)
Definition get_latest_session (db : Database) (user_id : Z) : option GameSession.t :=
  latest (List.filter (fun s => s.(GameSession.user_id) =? user_id) db.(game_sessions)).

(** [create_game_session]: the row is inserted with a state in phase
    NEW_GAME, then the state is given the [session_id] the row has got;
    [now] is the time of the last commit. [session_id] is unique and
    [user_id] is a foreign key into [users]: the database refuses a row
    that breaks either. *)
Definition create_game_session (session_uuid game_uuid : string) (now : Z)
    (db : Database) (user_id : Z) : result (Database * GameSession.t) :=
  if existsb (fun s => String.eqb s.(GameSession.session_id) session_uuid)
             db.(game_sessions)
     || negb (existsb (fun u => u.(User.id) =? user_id) db.(users))
  then Raise ExternalError
  else
    let final_game_state := initial_game_state session_uuid game_uuid in
    let new_session :=
      GameSession.mk db.(game_sessions_id_seq) session_uuid user_id final_game_state now in
    Ok (mkDatabase db.(users) db.(users_id_seq) (db.(game_sessions) ++ [new_session])
          (db.(game_sessions_id_seq) + 1),
        new_session).

Definition get_or_create_session (session_uuid game_uuid : string) (now : Z)
    (db : Database) (user_id : Z) : result (Database * GameSession.t) :=
  match get_latest_session db user_id with
  | Some session => Ok (db, session)
  | None => create_game_session session_uuid game_uuid now db user_id
  end.

(** [query(GameSession).filter(session_id == session_id).first()] *)
Definition get_session_by_id (db : Database) (session_id : string)
  : option GameSession.t :=
  List.find (fun s => String.eqb s.(GameSession.session_id) session_id)
            db.(game_sessions).

End Crud.

Module Endpoints.

Inductive HttpResponse : Type :=
  | Http200 (message : string)
  | Http400 (detail : string).

(** The UPDATE of a user's row. *)
Definition save_user (user : User.t) (db : Crud.Database) : Crud.Database :=
  Crud.mkDatabase
    (map (fun u => if u.(User.id) =? user.(User.id) then user else u) db.(Crud.users))
    db.(Crud.users_id_seq) db.(Crud.game_sessions) db.(Crud.game_sessions_id_seq).

(** [POST /users/{username}/language] *)
Definition update_user_language (db : Crud.Database) (username language : string)
  : result (Crud.Database * HttpResponse) :=
  if negb (existsb (String.eqb language) ["en"; "es"; "ca"])
  then Ok (db, Http400 "Invalid language code. Use 'en', 'es', or 'ca'.")
  else
    found <-! Crud.get_or_create_user db username ;;
    let '(db, user) := found in
    let user := User.set_language language user in
    Ok (save_user user db,
        Http200 ("Language for user '" +:+ username +:+ "' updated to '"
                 +:+ language +:+ "'.")).

(** The websocket endpoint when a client connects: its user and session
    are looked up or created, and the state of the session is sent. *)
Definition websocket_connect (session_uuid game_uuid : string) (now : Z)
    (db : Crud.Database) (client_id : string) : result (Crud.Database * GameState.t) :=
  found <-! Crud.get_or_create_user db client_id ;;
  let '(db, user) := found in
  created <-! Crud.get_or_create_session session_uuid game_uuid now db user.(User.id) ;;
  let '(db, session_data) := created in
  Ok (db, session_data.(GameSession.game_state)).

(** One turn of the message loop: the latest session of the user is read
    and the task message is built from its state; [None] is the answer
    "Session not found." *)
Definition websocket_message (db : Crud.Database) (client_id : string)
    (client_message : GameLogic.ClientAction.t)
  : result (Crud.Database * option GameLogic.TaskPayload.t) :=
  found <-! Crud.get_or_create_user db client_id ;;
  let '(db, user) := found in
  match Crud.get_latest_session db user.(User.id) with
  | None => Ok (db, None)
  | Some current_session =>
      let current_game_state := current_session.(GameSession.game_state) in
      Ok (db,
          Some (GameLogic.TaskPayload.mk current_game_state.(GameState.session_id)
                  current_game_state client_id client_message user.(User.language)))
  end.

End Endpoints.

(** ** Notions used in the statements *)

(** [roll_ge x y]: the entry [x] rolled at least what [y] rolled. *)
Definition roll_ge (x y : string * Z) : Prop := snd y <= snd x.

(** The entries that rolled [r]. *)
Definition rolled (r : Z) (x : string * Z) : bool := snd x =? r.

(** The entry of a combatant in the list of rolls: its id, and a d20 in
    1..20 plus floor((dexterity - 10) / 2), the integer m with
    2m <= dexterity - 10 < 2m + 2, dexterity counting as 10 when the
    combatant has none. *)
Definition rolled_for (id : string) (stats : gmap string Z) (entry : string * Z) : Prop :=
  entry.1 = id
  /\ exists d20 modifier,
       1 <= d20 <= 20
       /\ 2 * modifier <= default 10 (stats !! "dexterity") - 10 < 2 * modifier + 2
       /\ entry.2 = d20 + modifier.

(** The effect modifier in the words of the specification: over the actor's
    active effects, the modifier keyed by the stat plus the one keyed "all". *)
Definition effect_modifier_spec (stat_name : string) (conditions : list Effect.t) : Z :=
  foldr Z.add 0
    (map (fun e => default 0 (e.(Effect.modifiers) !! stat_name)
                   + default 0 (e.(Effect.modifiers) !! "all"))
         conditions).

(** The separator as a string. *)
Definition sep_str (sep : ascii) : string := String sep EmptyString.

(** [sep.join(l)] for a one-character separator. *)
Fixpoint join_sep (sep : ascii) (l : list string) : string :=
  match l with
  | [] => ""
  | [x] => x
  | x :: r => x +:+ sep_str sep +:+ join_sep sep r
  end.

(** The same collaborators with another random generator. *)
Definition set_random_raw (raw : nat -> Z) (env : Env) : Env :=
  mkEnv raw env.(uuid4_hex8) env.(generate_narrative) env.(world_creation)
    env.(class_creation) env.(opening_scene) env.(turn_narration)
    env.(intent_classification) env.(npc_decision).

(** The action text the task reads: the action type, or "observe". *)
Definition action_text_of (action : GameLogic.ClientAction.t) : string :=
  default "observe" action.(GameLogic.ClientAction.action_type).

(** The task message with another action. *)
Definition with_action (action : GameLogic.ClientAction.t) (payload : GameLogic.TaskPayload.t)
  : GameLogic.TaskPayload.t :=
  GameLogic.TaskPayload.mk payload.(GameLogic.TaskPayload.session_id)
    payload.(GameLogic.TaskPayload.game_state) payload.(GameLogic.TaskPayload.client_id)
    action payload.(GameLogic.TaskPayload.language).

(** The store with another state in the row of a session. *)
Definition with_row (session_id : string) (row : GameState.t) (w : World) : World :=
  mkWorld (<[session_id := row]> w.(db)) w.(published) w.(npc_queue).

(** [id in game_state.players] *)
Definition is_player (id : string) (g : GameState.t) : bool :=
  Players.mem id g.(GameState.players).

(** What stays as it is along the chain. *)
Definition same_fight (g g' : GameState.t) : Prop :=
  g'.(GameState.initiative_order) = g.(GameState.initiative_order)
  /\ g'.(GameState.players) = g.(GameState.players)
  /\ g'.(GameState.scene_context) = g.(GameState.scene_context).

(** How a chain ends: no hostile is left standing and the phase is
    GAME_IN_PROGRESS, or the turn has come to a player. *)
Definition chain_stopped (g : GameState.t) : Prop :=
  (Rules.remaining_hostiles g = false /\ g.(GameState.game_phase) = "GAME_IN_PROGRESS")
  \/ exists p, g.(GameState.current_turn_entity_id) = Some p /\ is_player p g = true.

(** The worker takes the oldest queued NPC task and runs it. *)
Definition run_next_npc_task (env : Env) (w : World) : option World :=
  match w.(npc_queue) with
  | [] => None
  | (session_id, client_id) :: rest =>
      Some (GameLogic.process_npc_turn_task env session_id client_id
              (mkWorld w.(db) w.(published) rest))
  end.

(** The chain of NPC tasks: with [envs k] the collaborators of the [k]-th
    task, the number of tasks run until the queue is empty or [fuel] is
    spent, and the world then. *)
Fixpoint npc_chain (envs : nat -> Env) (k fuel : nat) (w : World) : nat * World :=
  match fuel with
  | O => (O, w)
  | S fuel' =>
      match run_next_npc_task (envs k) w with
      | None => (O, w)
      | Some w' =>
          let '(n, w'') := npc_chain envs (S k) fuel' w' in (S n, w'')
      end
  end.

Definition AWAITING : string := "AWAITING_DICE_ROLL_CONFIRMATION".

(** The invariant of the data model: a pending action is present exactly in
    the phase that awaits the confirmation. *)
Definition pending_iff_awaiting (g : GameState.t) : Prop :=
  is_Some g.(GameState.pending_action) <-> g.(GameState.game_phase) = AWAITING.

(** What a handler may do to the two fields: leave the pending action alone
    and stay out of the awaiting phase, or set both together. *)
Definition protocol_step (g g' : GameState.t) : Prop :=
  g'.(GameState.session_id) = g.(GameState.session_id)
  /\ ((g'.(GameState.pending_action) = g.(GameState.pending_action)
       /\ (g'.(GameState.game_phase) = g.(GameState.game_phase)
           \/ g'.(GameState.game_phase) <> AWAITING))
      \/ (is_Some g'.(GameState.pending_action) /\ g'.(GameState.game_phase) = AWAITING)).

(** *** The transitions of the system
    A session is created; on a message of a client the endpoint reads the
    session's row and queues a task with that state as snapshot; the worker
    takes a queued task of a player and handles it, on the snapshot it
    carries, whatever the row holds by then; the worker runs a queued NPC
    task, on the row. FORCE_GAME_STATE is left out. *)

(** The task message built by the websocket endpoint from the row it read. *)
Definition endpoint_task (row : GameState.t) (client_id : string)
    (action : GameLogic.ClientAction.t) (language : string) : GameLogic.TaskPayload.t :=
  GameLogic.TaskPayload.mk row.(GameState.session_id) row client_id action language.

(** The world together with the queue [gm_tasks] of the players' tasks. *)
Record System : Type := mkSystem {
  world : World;
  gm_tasks : list GameLogic.TaskPayload.t
}.

(** The row of the task's session is still the snapshot the task carries:
    nothing has been stored for the session since the endpoint read it. *)
Definition snapshot_is_row (payload : GameLogic.TaskPayload.t) (w : World) : Prop :=
  w.(db) !! payload.(GameLogic.TaskPayload.session_id)
  = Some payload.(GameLogic.TaskPayload.game_state).

(** With [in_step] the worker only takes a task whose snapshot is still the
    row; without it any queued task may be taken, as the worker does. *)
Inductive step (in_step : bool) (s : System) : System -> Prop :=
  | step_new_session (session_id game_id : string) :
      s.(world).(db) !! session_id = None ->
      step in_step s
        (mkSystem
           (mkWorld (<[session_id := initial_game_state session_id game_id]> s.(world).(db))
              s.(world).(published) s.(world).(npc_queue))
           s.(gm_tasks))
  | step_message (session_id : string) (row : GameState.t) (client_id : string)
      (action : GameLogic.ClientAction.t) (language : string) :
      s.(world).(db) !! session_id = Some row ->
      action_text_of action <> "FORCE_GAME_STATE" ->
      step in_step s
        (mkSystem s.(world)
           (s.(gm_tasks) ++ [endpoint_task row client_id action language]))
  | step_player_task (env : Env) (payload : GameLogic.TaskPayload.t)
      (before after : list GameLogic.TaskPayload.t) :
      s.(gm_tasks) = before ++ payload :: after ->
      (in_step = true -> snapshot_is_row payload s.(world)) ->
      step in_step s
        (mkSystem (GameLogic.process_game_action_task env payload s.(world)).2
           (before ++ after))
  | step_npc_task (env : Env) (session_id client_id : string)
      (before after : list (string * string)) :
      s.(world).(npc_queue) = before ++ (session_id, client_id) :: after ->
      step in_step s
        (mkSystem
           (GameLogic.process_npc_turn_task env session_id client_id
              (mkWorld s.(world).(db) s.(world).(published) (before ++ after)))
           s.(gm_tasks)).

Inductive reachable (in_step : bool) : System -> Prop :=
  | reachable_start : reachable in_step (mkSystem (mkWorld ∅ [] []) [])
  | reachable_step (s s' : System) :
      reachable in_step s -> step in_step s s' -> reachable in_step s'.

(** Every row is filed under its own session id and satisfies the invariant. *)
Definition rows_ok (rows : gmap string GameState.t) : Prop :=
  forall session_id g,
    rows !! session_id = Some g ->
    g.(GameState.session_id) = session_id /\ pending_iff_awaiting g.

(** A session has at most one NPC task queued, and while it has one it is in
    combat and the turn is not a player's. *)
Definition queue_ok (rows : gmap string GameState.t) (queue : list (string * string))
  : Prop :=
  NoDup (map fst queue)
  /\ forall session_id client_id,
      In (session_id, client_id) queue ->
      exists g,
        rows !! session_id = Some g
        /\ g.(GameState.game_phase) = "IN_COMBAT"
        /\ GameLogic.not_a_player g.(GameState.current_turn_entity_id) g = true.

Definition system_invariant (w : World) : Prop :=
  rows_ok w.(db) /\ queue_ok w.(db) w.(npc_queue).

(** A player's action handled on the row as the endpoint reads it. *)
Definition play (env : Env) (session_id client_id action_text language : string)
    (w : World) : World :=
  match w.(db) !! session_id with
  | Some row =>
      (GameLogic.process_game_action_task env
         (endpoint_task row client_id
            (GameLogic.ClientAction.mk (Some action_text) GameLogic.NoPayload) language)
         w).2
  | None => w
  end.

(** The client [say]s something. *)
Definition say (action_text : string) : GameLogic.ClientAction.t :=
  GameLogic.ClientAction.mk (Some action_text) GameLogic.NoPayload.

(** A message of a client arrives: the endpoint queues its task, with the
    row as it is then. *)
Definition receive (session_id client_id action_text language : string) (s : System)
  : System :=
  match s.(world).(db) !! session_id with
  | Some row =>
      mkSystem s.(world)
        (s.(gm_tasks) ++ [endpoint_task row client_id (say action_text) language])
  | None => s
  end.

(** The worker handles the oldest queued task of a player. *)
Definition handle_next (env : Env) (s : System) : System :=
  match s.(gm_tasks) with
  | payload :: rest =>
      mkSystem (GameLogic.process_game_action_task env payload s.(world)).2 rest
  | [] => s
  end.

(** The worker runs the oldest queued NPC task. *)
Definition npc_next (env : Env) (s : System) : System :=
  match run_next_npc_task env s.(world) with
  | Some w => mkSystem w s.(gm_tasks)
  | None => s
  end.

(** The string is made of digits alone. *)
Fixpoint all_digits (s : string) : bool :=
  match s with
  | EmptyString => true
  | String c r => Py.is_digit c && all_digits r
  end.

(** No queued task is a FORCE_GAME_STATE. *)
Definition no_forced_task (tasks : list GameLogic.TaskPayload.t) : Prop :=
  Forall (fun payload =>
            action_text_of payload.(GameLogic.TaskPayload.client_action)
            <> "FORCE_GAME_STATE") tasks.

(** ** Notions about experience, inventories, turns and tables *)

(** The experience a player has earned in all: the XP banked plus the
    thresholds paid for the levels reached, 1000 to leave level 1, 2000 to
    leave level 2, and so on. *)
Definition experience_earned (p : PlayerCharacter.t) : Z :=
  p.(PlayerCharacter.xp)
  + 500 * p.(PlayerCharacter.level) * (p.(PlayerCharacter.level) - 1).

(** The inventory holds an item of that name, whatever the case of the
    letters. *)
Definition holds (item_name : string) (inventory : list Item.t) : bool :=
  existsb (fun item => String.eqb (Py.lower item.(Item.name)) (Py.lower item_name))
          inventory.

(** The name contains one of the keywords that are foreign to the world. *)
Definition foreign (item_name : string) : bool :=
  existsb (fun keyword => Py.contains keyword (Py.lower item_name))
          Rules.INCOHERENT_ITEM_KEYWORDS.

(** No two items of the inventory have the same name up to case. *)
Definition distinct_names (inventory : list Item.t) : Prop :=
  NoDup (map (fun item => Py.lower item.(Item.name)) inventory).

(** The state after [k] calls of [_advance_turn_in_combat]. *)
Definition turns (k : nat) (g : GameState.t) : GameState.t :=
  Nat.iter k (fun g => (GameLogic._advance_turn_in_combat g).1) g.

(** The tables are well formed: no two users have the same name or the same
    id, the ids are below the next of the sequence, every session belongs
    to a user, and no user has two sessions. *)
Definition tables_ok (db : Crud.Database) : Prop :=
  NoDup (map User.username db.(Crud.users))
  /\ NoDup (map User.id db.(Crud.users))
  /\ Forall (fun u => u.(User.id) < db.(Crud.users_id_seq)) db.(Crud.users)
  /\ Forall (fun s => In s.(GameSession.user_id) (map User.id db.(Crud.users)))
            db.(Crud.game_sessions)
  /\ NoDup (map GameSession.user_id db.(Crud.game_sessions)).

(** ** Data for the worked examples *)

Module Sample.

Definition fighter_stats : gmap string Z :=
  <["strength" := 16]> (<["dexterity" := 14]> (<["wisdom" := 8]> ∅)).

Definition blessed : Effect.t :=
  Effect.mk "Blessed" "A faint glow." 3 (<["dexterity" := 2]> (<["all" := 1]> ∅)).

Definition kara : PlayerCharacter.t :=
  PlayerCharacter.mk "char_kara" "Kara" 29 "female" "a wandering scholar" "Fighter"
    1 0 fighter_stats ["Shield Wall"] [blessed] 100 100
    [Item.mk "Sword" (Some "A basic starting weapon.") "weapon"] 10.

Definition bram : PlayerCharacter.t :=
  PlayerCharacter.mk "char_bram" "Bram" 41 "male" "a retired guard" "Fighter"
    1 0 fighter_stats [] [] 100 100 [] 5.

Definition goblin : SceneEntity.t :=
  SceneEntity.mk "Goblin" "A sly goblin scout." 7 (<["dexterity" := 12]> ∅) true []
    "ent_inst_gob1".

Definition fallen_goblin : SceneEntity.t := SceneEntity.set_health 0 goblin.

Definition cave : SceneContext.t := SceneContext.mk "Cave" "A damp cave." [goblin].

Definition plot : MainPlot.t := MainPlot.mk (Some "An old evil stirs.") (Some ["The gate"]).

Definition vale : WorldOption.t := WorldOption.mk "Vale" "A green vale." "Come." plot [].

Definition fighter_class : ClassOption.t :=
  ClassOption.mk "Fighter" "A soldier." "Brave" "Sword" 10 "Lantern" fighter_stats
    ["Shield Wall"].

(** A session in play: Kara's turn, a goblin in the cave. *)
Definition in_progress : GameState.t :=
  GameState.mk "s1" "g1" "GAME_IN_PROGRESS" (Some vale) [("char_kara", kara)] [] 0 cave []
    "The story so far." None (Some plot) ∅ (Some "char_kara") [] None None
    (Some [fighter_class]) 1 1 None.

Definition scene_reply (scene : SceneContext.t) : GMTurnResponse.t :=
  GMTurnResponse.mk "The tale goes on." "a cave" "Summary." scene [].

(** A quiet environment: every draw is [raw], the classifier answers
    [intent], the narrator answers with [scene]. *)
Definition env_with (raw : Z) (intent : PlayerIntent.t) (scene : SceneContext.t) : Env :=
  mkEnv (fun _ => raw) "0a1b2c3d" (Raise AttributeError) (Raise ExternalError)
    (Raise ExternalError) (Ok (scene_reply scene)) (fun _ => Ok (scene_reply scene))
    (fun _ => Ok intent) (fun _ => Ok intent).

Definition observe : PlayerIntent.t :=
  PlayerIntent.mk "OBSERVE" "look around" None false None None None.

Definition sneak : PlayerIntent.t :=
  PlayerIntent.mk "SKILL_CHECK" "sneak past" None false None (Some "Dexterity") (Some 15).

Definition world_of (session_id : string) (g : GameState.t) : World :=
  mkWorld {[ session_id := g ]} [] [].

End Sample.

(** Kara has asked to sneak past; the check, a success, awaits her
    confirmation. *)
Definition waiting_for_kara : GameState.t :=
  GameState.set_pending_action
    (Some (PendingAction.mk "char_kara" "sneak past" "dexterity" 5 15 17 true))
    (GameState.set_game_phase "AWAITING_DICE_ROLL_CONFIRMATION" Sample.in_progress).

(** A session that is creating its first of two characters. *)
Definition creating_details : GameState.t :=
  GameState.mk "s1" "g1" "CHARACTER_CREATION_DETAILS" (Some Sample.vale) [] [] 0
    SceneContext.default [] "The adventure is about to begin." None (Some Sample.plot) ∅
    None [] None None (Some [Sample.fighter_class]) 2 0 (Some Sample.fighter_class).

(** Two players; it is Kara's turn. *)
Definition two_players : GameState.t :=
  GameState.set_players [("char_kara", Sample.kara); ("char_bram", Sample.bram)]
    Sample.in_progress.

(** The same session after a task has narrated Kara's action and passed the
    turn to Bram. *)
Definition turn_passed : GameState.t :=
  GameState.set_current_turn_entity_id (Some "char_bram")
    (GameState.set_story_summary "Kara has acted." two_players).

(** The fight before: Kara's turn, the goblin standing. *)
Definition fighting_goblin : GameState.t :=
  GameState.set_current_turn_entity_id (Some "char_kara")
    (GameState.set_initiative_order ["char_kara"; "ent_inst_gob1"]
       (GameState.set_game_phase "IN_COMBAT" Sample.in_progress)).

(** A corrupted fight: the initiative order has lost the player and holds
    the goblin alone; the goblin stands and it is its turn. *)
Definition goblin_alone : GameState.t :=
  GameState.set_current_turn_entity_id (Some "ent_inst_gob1")
    (GameState.set_initiative_order ["ent_inst_gob1"]
       (GameState.set_game_phase "IN_COMBAT" Sample.in_progress)).

Definition quiet_envs : nat -> Env :=
  fun _ => Sample.env_with 0 Sample.observe Sample.cave.

(** The store with that fight, and the NPC task of the goblin queued. *)
Definition goblin_alone_world : World :=
  mkWorld {[ "s1" := goblin_alone ]} [] [("s1", "kara")].

(** The narrator offers one world and one class and opens in the cave; the
    classifier reads every action as an attempt to sneak. *)
Definition storyteller : Env :=
  mkEnv (fun _ => 16) "0a1b2c3d" (Raise AttributeError)
    (Ok (GMWorldCreationResponse.mk "Welcome." [Sample.vale]
           "The adventure is about to begin."))
    (Ok (GMClassCreationResponse.mk "Choose." [Sample.fighter_class]))
    (Ok (Sample.scene_reply Sample.cave)) (fun _ => Ok (Sample.scene_reply Sample.cave))
    (fun _ => Ok Sample.sneak) (fun _ => Ok Sample.sneak).

(** The same narrator when the model, asked which option a player's words
    mean, answers [answer]. *)
Definition answering (answer : string) : Env :=
  mkEnv storyteller.(random_raw) storyteller.(uuid4_hex8) (Ok answer)
    storyteller.(world_creation) storyteller.(class_creation) storyteller.(opening_scene)
    storyteller.(turn_narration) storyteller.(intent_classification)
    storyteller.(npc_decision).

(** The store after the session [s1] has been created. *)
Definition session_created : World :=
  mkWorld (<["s1" := initial_game_state "s1" "g1"]> ∅) [] [].

(** The setup played through: a world, one player, a class, the details. *)
Definition kara_created : World :=
  play storyteller "s1" "kara" "Kara, 29, female, a wandering scholar" "en"
    (play storyteller "s1" "kara" "the first one, 1" "en"
       (play storyteller "s1" "kara" "1" "en"
          (play storyteller "s1" "kara" "select 1" "en"
             (play storyteller "s1" "kara" "start" "en" session_created)))).

(** ... and the first action of Kara. *)
Definition kara_sneaks : World :=
  play storyteller "s1" "kara" "I sneak past the goblin" "en" kara_created.

(** A hostile goblin that the narrator gave an empty instance id. *)
Definition nameless_goblin : SceneEntity.t :=
  SceneEntity.mk "Goblin" "A sly goblin scout." 7 (<["dexterity" := 12]> ∅) true [] "".

Definition nameless_ambush : GameState.t :=
  GameState.set_scene_context (SceneContext.mk "Cave" "A damp cave." [nameless_goblin])
    Sample.in_progress.

(** A sage whose stats are keyed with a capital: "Wisdom". *)
Definition sage : PlayerCharacter.t :=
  PlayerCharacter.mk "char_sage" "Odo" 61 "male" "a hermit" "Sage" 1 0
    (<["Wisdom" := 18]> (<["dexterity" := 8]> ∅)) [] [] 100 100 [] 0.

(** A check on "Wisdom" for which the classifier asks a DC of 0. *)
Definition recall : PlayerIntent.t :=
  PlayerIntent.mk "SKILL_CHECK" "recall the lore" None false None (Some "Wisdom") (Some 0).

(** The cave once the goblin has fallen: it lies there, hostile still, with
    no health left. *)
Definition fallen_cave : SceneContext.t :=
  SceneContext.mk "Cave" "A damp cave." [Sample.fallen_goblin].

(** Kara looks around and the narrator tells of the fallen goblin. *)
Definition goblin_fallen : World :=
  play (Sample.env_with 0 Sample.observe fallen_cave) "s1" "kara" "I look around" "en"
    kara_created.

Definition strike : PlayerIntent.t :=
  PlayerIntent.mk "ATTACK" "strike the goblin" None false (Some "goblin") None None.

(** The classifier reads an attack on the goblin; of the initiative rolls
    the second, the goblin's, is the high one. *)
Definition striker : Env :=
  mkEnv (fun k => if (k =? 1)%nat then 19 else 0) "0a1b2c3d" (Raise AttributeError)
    (Raise ExternalError) (Raise ExternalError)
    (Ok (Sample.scene_reply fallen_cave)) (fun _ => Ok (Sample.scene_reply fallen_cave))
    (fun _ => Ok strike) (fun _ => Ok strike).

(** Kara sends two messages before the worker has handled the first: both
    tasks carry the row as it is now. *)
Definition two_messages : System :=
  receive "s1" "kara" "I sneak past the goblin" "en"
    (receive "s1" "kara" "I attack the goblin" "en" (mkSystem goblin_fallen [])).

(** The worker handles the attack, which opens the fight and queues the
    goblin's turn ... *)
Definition fight_opened : System := handle_next striker two_messages.

(** ... then the second task, whose snapshot is older than the row ... *)
Definition stale_sneak : System := handle_next storyteller fight_opened.

(** ... and then the goblin's turn. *)
Definition stale_run : System := npc_next storyteller stale_sneak.

(** * Properties *)

(** ** Python built-ins *)

Example py_title_ex : Py.title "dexterity" = "Dexterity" /\ Py.title "iron sWORD" = "Iron Sword".
Proof. split; reflexivity. Qed.

Example py_rsplit_ex :
  Py.rsplit "," 3 "Kara, 29, female, a wandering scholar"
    = ["Kara"; " 29"; " female"; " a wandering scholar"]
  /\ Py.rsplit "," 3 "a,b,c,d,e" = ["a,b"; "c"; "d"; "e"]
  /\ Py.rsplit "," 3 "a,b" = ["a"; "b"]
  /\ Py.rsplit "," 3 "" = [""].
Proof. repeat split; reflexivity. Qed.

Example py_int_ex :
  Py.int " 29 " = Ok 29 /\ Py.int "-7" = Ok (-7) /\ Py.int "1_000" = Ok 1000
  /\ Py.int "" = Raise ValueError /\ Py.int "2 9" = Raise ValueError
  /\ Py.int "_1" = Raise ValueError /\ Py.int "twenty" = Raise ValueError.
Proof. repeat split; reflexivity. Qed.

Example py_fmt_ex :
  Py.fmt_plus 3 = "+3" /\ Py.fmt_plus 0 = "+0" /\ Py.fmt_plus (-2) = "-2"
  /\ Py.floordiv (7 - 10) 2 = -2 /\ Py.search_digits "select 12 now 3" = Some "12".
Proof. repeat split; reflexivity. Qed.

Lemma randint_range (a b raw : Z) : a <= b -> a <= Py.randint a b raw <= b.
Proof.
  intros Hab. unfold Py.randint.
  pose proof (Z.mod_pos_bound raw (b - a + 1) ltac:(lia)). lia.
Qed.

Lemma stat_modifier_floor (v : Z) :
  2 * Rules.stat_modifier v <= v - 10 < 2 * Rules.stat_modifier v + 2.
Proof.
  unfold Rules.stat_modifier, Py.floordiv.
  pose proof (Z.div_mod (v - 10) 2 ltac:(lia)).
  pose proof (Z.mod_pos_bound (v - 10) 2 ltac:(lia)). lia.
Qed.

Lemma stat_modifier_negative (v : Z) : v < 10 -> Rules.stat_modifier v < 0.
Proof. intros Hv. pose proof (stat_modifier_floor v). lia. Qed.

Lemma truthy_lower (s : string) : Py.truthy_str s = true -> Py.truthy_str (Py.lower s) = true.
Proof. destruct s; simpl; congruence. Qed.

Lemma truthy_nonempty (s : string) : Py.truthy_str s = true <-> s <> "".
Proof. destruct s; simpl; split; congruence. Qed.

Lemma append_assoc_str (a b c : string) : (a +:+ b) +:+ c = a +:+ (b +:+ c).
Proof.
  induction a as [|x a IH]; [reflexivity|].
  change (String x ((a +:+ b) +:+ c) = String x (a +:+ b +:+ c)). now f_equal.
Qed.

(** ** Initiative: a stable sort, highest roll first *)

Lemma insert_desc_perm x l : Permutation (Rules.insert_desc x l) (x :: l).
Proof.
  induction l as [|y l IH]; simpl; [reflexivity|].
  destruct (snd x <? snd y); [|reflexivity].
  rewrite IH. apply perm_swap.
Qed.

Lemma sort_desc_perm l : Permutation (Rules.sort_desc l) l.
Proof.
  induction l as [|x l IH]; simpl; [reflexivity|].
  rewrite insert_desc_perm. now constructor.
Qed.

Lemma insert_desc_sorted x l :
  StronglySorted roll_ge l -> StronglySorted roll_ge (Rules.insert_desc x l).
Proof.
  induction 1 as [|y l Hs IH Hy]; simpl.
  - repeat constructor.
  - destruct (Z.ltb_spec (snd x) (snd y)) as [Hlt|Hge].
    + constructor; [exact IH|].
      eapply Permutation_Forall; [symmetry; apply insert_desc_perm|].
      constructor; [unfold roll_ge; lia | exact Hy].
    + constructor; [now constructor|].
      constructor; [unfold roll_ge; lia|].
      eapply List.Forall_impl; [|exact Hy].
      unfold roll_ge. intros z Hz. lia.
Qed.

Lemma sort_desc_sorted l : StronglySorted roll_ge (Rules.sort_desc l).
Proof.
  induction l as [|x l IH]; simpl; [constructor | now apply insert_desc_sorted].
Qed.

(** Insertion never passes an entry of the same roll. *)
Lemma insert_desc_rolled r x l :
  List.filter (rolled r) (Rules.insert_desc x l) = List.filter (rolled r) (x :: l).
Proof.
  induction l as [|y l IH]; [reflexivity|].
  cbn [Rules.insert_desc].
  destruct (Z.ltb_spec (snd x) (snd y)) as [Hlt|Hge]; [|reflexivity].
  cbn [List.filter] in *. rewrite IH. unfold rolled.
  destruct (Z.eqb_spec (snd x) r), (Z.eqb_spec (snd y) r); try reflexivity. lia.
Qed.

Lemma sort_desc_stable r l :
  List.filter (rolled r) (Rules.sort_desc l) = List.filter (rolled r) l.
Proof.
  induction l as [|x l IH]; [reflexivity|].
  cbn [Rules.sort_desc]. rewrite insert_desc_rolled.
  cbn [List.filter]. now rewrite IH.
Qed.

(** Every combatant with an id rolls its own d20 plus its dexterity modifier. *)
Lemma initiative_rolls_nth rng :
  forall cs k0 k c,
    Forall (fun c => Rules.combatant_id c <> "") cs ->
    nth_error cs k = Some c ->
    nth_error (Rules.initiative_rolls rng k0 cs) k
    = Some (Rules.combatant_id c,
            Py.randint 1 20 (rng (k0 + k)%nat)
            + Rules.stat_modifier (default 10 (Rules.combatant_stats c !! "dexterity"))).
Proof.
  induction cs as [|c0 cs IH]; intros k0 k c Hids Hk.
  - destruct k; discriminate.
  - inversion Hids as [|? ? Hid Hrest]; subst.
    cbn [Rules.initiative_rolls].
    apply truthy_nonempty in Hid. rewrite Hid. cbn [app].
    destruct k as [|k]; cbn [nth_error] in *.
    + inversion Hk; subst. now rewrite Nat.add_0_r.
    + rewrite (IH (S k0) k c Hrest Hk).
      now replace (k0 + S k)%nat with (S k0 + k)%nat by lia.
Qed.

Lemma initiative_rolls_ids rng :
  forall cs k0,
    map fst (Rules.initiative_rolls rng k0 cs)
    = List.filter Py.truthy_str (map Rules.combatant_id cs).
Proof.
  induction cs as [|c cs IH]; intros k0; [reflexivity|].
  cbn [Rules.initiative_rolls map List.filter].
  rewrite map_app, IH. now destruct (Py.truthy_str (Rules.combatant_id c)).
Qed.

(** ** Combat initiation *)

Lemma truthy_str_eqb (s : string) : Py.truthy_str s = negb (String.eqb s "").
Proof. now destruct s. Qed.

Lemma initiative_rolls_app (rng : nat -> Z) (cs1 cs2 : list Rules.Combatant) :
  forall k0,
    Rules.initiative_rolls rng k0 (cs1 ++ cs2)
    = Rules.initiative_rolls rng k0 cs1
      ++ Rules.initiative_rolls rng (k0 + length cs1) cs2.
Proof.
  induction cs1 as [|c cs1 IH]; intros k0; cbn [app Rules.initiative_rolls length].
  - now rewrite Nat.add_0_r.
  - rewrite IH, <- app_assoc. do 3 f_equal. lia.
Qed.

Lemma initiative_rolls_of_players (rng : nat -> Z) (ps : list PlayerCharacter.t) :
  forall k0,
    Forall2 (fun p => rolled_for p.(PlayerCharacter.character_id) p.(PlayerCharacter.stats))
      (List.filter (fun p => negb (String.eqb p.(PlayerCharacter.character_id) "")) ps)
      (Rules.initiative_rolls rng k0 (map Rules.OfPlayer ps)).
Proof.
  induction ps as [|p ps IH]; intros k0; [constructor|].
  cbn [map Rules.initiative_rolls Rules.combatant_id Rules.combatant_stats List.filter].
  rewrite truthy_str_eqb.
  destruct (String.eqb p.(PlayerCharacter.character_id) ""); cbn [negb app]; [apply IH|].
  constructor; [|apply IH].
  split; [reflexivity|].
  exists (Py.randint 1 20 (rng k0)),
         (Rules.stat_modifier (default 10 (p.(PlayerCharacter.stats) !! "dexterity"))).
  split; [apply randint_range; lia|].
  split; [apply stat_modifier_floor | reflexivity].
Qed.

Lemma initiative_rolls_of_entities (rng : nat -> Z) (es : list SceneEntity.t) :
  forall k0,
    Forall2 (fun e => rolled_for e.(SceneEntity.instance_id) e.(SceneEntity.stats))
      (List.filter (fun e => negb (String.eqb e.(SceneEntity.instance_id) "")) es)
      (Rules.initiative_rolls rng k0 (map Rules.OfEntity es)).
Proof.
  induction es as [|e es IH]; intros k0; [constructor|].
  cbn [map Rules.initiative_rolls Rules.combatant_id Rules.combatant_stats List.filter].
  rewrite truthy_str_eqb.
  destruct (String.eqb e.(SceneEntity.instance_id) ""); cbn [negb app]; [apply IH|].
  constructor; [|apply IH].
  split; [reflexivity|].
  exists (Py.randint 1 20 (rng k0)),
         (Rules.stat_modifier (default 10 (e.(SceneEntity.stats) !! "dexterity"))).
  split; [apply randint_range; lia|].
  split; [apply stat_modifier_floor | reflexivity].
Qed.

(** Who is in the initiative order: the combatants whose id is not empty. *)
Lemma initiative_order_members (rng : nat -> Z) (g : GameState.t) (id : string) :
  In id (map fst (Rules.sort_desc (Rules.initiative_rolls rng 0 (Rules.combatants g))))
  <-> id <> ""
      /\ ((exists p, In p (Players.values g.(GameState.players))
                     /\ p.(PlayerCharacter.character_id) = id)
          \/ (exists e, In e g.(GameState.scene_context).(SceneContext.entities)
                        /\ e.(SceneEntity.is_hostile) = true
                        /\ e.(SceneEntity.instance_id) = id)).
Proof.
  set (rolls := Rules.initiative_rolls rng 0 (Rules.combatants g)).
  assert (Hperm : In id (map fst (Rules.sort_desc rolls)) <-> In id (map fst rolls)).
  { split; apply Permutation_in, Permutation_map;
      [apply sort_desc_perm | symmetry; apply sort_desc_perm]. }
  rewrite Hperm. unfold rolls. rewrite initiative_rolls_ids, filter_In.
  rewrite truthy_nonempty. unfold Rules.combatants.
  rewrite map_app, in_app_iff, !List.map_map. cbn [Rules.combatant_id].
  rewrite !in_map_iff.
  split.
  - intros ([(p & Hid & Hp) | (e & Hid & He)] & Hne); (split; [exact Hne|]).
    + left. now exists p.
    + right. apply filter_In in He as (He & Hhostile). now exists e.
  - intros (Hne & [(p & Hp & Hid) | (e & He & Hhostile & Hid)]); (split; [|exact Hne]).
    + left. now exists p.
    + right. exists e. split; [exact Hid|]. apply filter_In. now split.
Qed.

(** C6, as stated, fails: a hostile goblin whose instance id is the empty
    string is a combatant, the second of two, and yet the initiative order
    holds Kara alone. *)
Lemma combatant_without_id_left_out :
  let after := Rules.initiate_combat (fun _ => 4) nameless_ambush in
  (fun e => (e.(SceneEntity.name), e.(SceneEntity.is_hostile), e.(SceneEntity.instance_id)))
    <$> nameless_ambush.(GameState.scene_context).(SceneContext.entities)
  = [("Goblin", true, "")]
  /\ length (Rules.combatants nameless_ambush) = 2%nat
  /\ after.(GameState.initiative_order) = ["char_kara"]
  /\ after.(GameState.current_turn_entity_id) = Some "char_kara"
  /\ after.(GameState.game_phase) = "IN_COMBAT".
Proof. vm_compute. repeat split. Qed.

(** C6, amended. [initiate_combat] takes as combatants all players, in
    insertion order, followed by every scene entity flagged hostile, in list
    order and whatever its health. A combatant whose id is the empty string
    is left out; every other one enters the list of rolls, in that order,
    with its id ([character_id] of a player, [instance_id] of an entity) and
    a d20 in 1..20 plus floor((dexterity - 10) / 2), dexterity counting as
    10 when the combatant has none. The initiative order is the list of
    these ids sorted by roll, highest first, combatants of equal roll
    keeping their original order, so that [A:15, B:20, C:15] gives
    [B, A, C]; an id is in the order exactly when it is not empty and is the
    id of a player or of a hostile entity. The first id of the order, when
    there is one, becomes [current_turn_entity_id] (which is left as it was
    otherwise), and the phase becomes IN_COMBAT; the players and the scene
    are not changed. *)
Theorem initiate_combat_initiative (rng : nat -> Z) (game_state : GameState.t) :
  let players := Players.values game_state.(GameState.players) in
  let entities := game_state.(GameState.scene_context).(SceneContext.entities) in
  let hostiles := List.filter (fun e => e.(SceneEntity.is_hostile)) entities in
  let rolls := Rules.initiative_rolls rng 0 (Rules.combatants game_state) in
  let after := Rules.initiate_combat rng game_state in
  (exists player_rolls hostile_rolls,
      rolls = player_rolls ++ hostile_rolls
      /\ Forall2
           (fun p => rolled_for p.(PlayerCharacter.character_id) p.(PlayerCharacter.stats))
           (List.filter (fun p => negb (String.eqb p.(PlayerCharacter.character_id) ""))
                        players)
           player_rolls
      /\ Forall2
           (fun e => rolled_for e.(SceneEntity.instance_id) e.(SceneEntity.stats))
           (List.filter (fun e => negb (String.eqb e.(SceneEntity.instance_id) ""))
                        hostiles)
           hostile_rolls)
  /\ after.(GameState.initiative_order) = map fst (Rules.sort_desc rolls)
  /\ Permutation (Rules.sort_desc rolls) rolls
  /\ StronglySorted roll_ge (Rules.sort_desc rolls)
  /\ (forall r, List.filter (rolled r) (Rules.sort_desc rolls) = List.filter (rolled r) rolls)
  /\ map fst (Rules.sort_desc [("A", 15); ("B", 20); ("C", 15)]) = ["B"; "A"; "C"]
  /\ (forall id,
        In id after.(GameState.initiative_order)
        <-> id <> ""
            /\ ((exists p, In p players /\ p.(PlayerCharacter.character_id) = id)
                \/ (exists e, In e entities
                              /\ e.(SceneEntity.is_hostile) = true
                              /\ e.(SceneEntity.instance_id) = id)))
  /\ after.(GameState.current_turn_entity_id)
     = match after.(GameState.initiative_order) with
       | first :: _ => Some first
       | [] => game_state.(GameState.current_turn_entity_id)
       end
  /\ after.(GameState.game_phase) = "IN_COMBAT"
  /\ after.(GameState.players) = game_state.(GameState.players)
  /\ after.(GameState.scene_context) = game_state.(GameState.scene_context).
Proof.
  intros players entities hostiles rolls after.
  split.
  { exists (Rules.initiative_rolls rng 0 (map Rules.OfPlayer players)),
           (Rules.initiative_rolls rng (0 + length (map Rules.OfPlayer players))
              (map Rules.OfEntity hostiles)).
    split; [apply initiative_rolls_app|].
    split; [apply initiative_rolls_of_players | apply initiative_rolls_of_entities]. }
  assert (Horder : after.(GameState.initiative_order) = map fst (Rules.sort_desc rolls)).
  { unfold after, Rules.initiate_combat.
    change (Rules.combatants (GameState.set_game_phase "IN_COMBAT" game_state))
      with (Rules.combatants game_state).
    fold rolls. now destruct (map fst (Rules.sort_desc rolls)). }
  split; [exact Horder|].
  split; [apply sort_desc_perm|].
  split; [apply sort_desc_sorted|].
  split; [intros r; apply sort_desc_stable|].
  split; [reflexivity|].
  split; [intros id; rewrite Horder; apply initiative_order_members|].
  split.
  { rewrite Horder. unfold after, Rules.initiate_combat.
    change (Rules.combatants (GameState.set_game_phase "IN_COMBAT" game_state))
      with (Rules.combatants game_state).
    fold rolls. now destruct (map fst (Rules.sort_desc rolls)). }
  unfold after, Rules.initiate_combat.
  destruct (map fst (Rules.sort_desc _)); repeat split.
Qed.

Example initiate_combat_sample :
  let after := Rules.initiate_combat (fun k => Z.of_nat k + 4) Sample.in_progress in
  after.(GameState.initiative_order) = ["char_kara"; "ent_inst_gob1"]
  /\ after.(GameState.current_turn_entity_id) = Some "char_kara"
  /\ after.(GameState.game_phase) = "IN_COMBAT".
Proof. vm_compute. repeat split. Qed.

(** ** Skill checks, phase 1 *)

Lemma effect_bonus_sum (stat_name : string) (e : Effect.t) :
  stat_name <> "" ->
  Rules.effect_bonus (Some stat_name) e
  = default 0 (e.(Effect.modifiers) !! stat_name) + default 0 (e.(Effect.modifiers) !! "all").
Proof.
  intros Hne. unfold Rules.effect_bonus.
  apply truthy_nonempty in Hne. rewrite Hne. cbn [andb].
  destruct (Z.eqb_spec (default 0 (e.(Effect.modifiers) !! stat_name)) 0) as [-> | _],
           (Z.eqb_spec (default 0 (e.(Effect.modifiers) !! "all")) 0) as [-> | _];
    reflexivity.
Qed.

Lemma fold_effects_sum (stat_name : string) (l : list Effect.t) (acc : Z) :
  stat_name <> "" ->
  fold_left (fun total effect => total + Rules.effect_bonus (Some stat_name) effect) l acc
  = acc + effect_modifier_spec stat_name l.
Proof.
  intros Hne. revert acc. unfold effect_modifier_spec.
  induction l as [|e l IH]; intros acc; cbn [fold_left map foldr]; [lia|].
  rewrite IH, effect_bonus_sum by exact Hne. lia.
Qed.

Lemma apply_effects_sum (actor : PlayerCharacter.t) (stat_name : string) :
  stat_name <> "" ->
  Rules._apply_effects actor (Some stat_name)
  = effect_modifier_spec stat_name actor.(PlayerCharacter.conditions).
Proof.
  intros Hne. unfold Rules._apply_effects. now rewrite fold_effects_sum.
Qed.

Lemma skill_stat_name_nonempty (intent : PlayerIntent.t) (actor : PlayerCharacter.t) :
  Rules.skill_stat_name intent actor <> "".
Proof.
  unfold Rules.skill_stat_name.
  destruct (PlayerIntent.relevant_stat intent) as [s|]; [|discriminate].
  destruct (Py.truthy_str s) eqn:Hs; cbn [andb]; [|discriminate].
  destruct (bool_decide _); [|discriminate].
  apply truthy_nonempty. now apply truthy_lower.
Qed.

(** C4, as stated, fails, twice on one check: the stat the intent names,
    "Wisdom", is one of the actor's stats under that very key, and the DC
    the intent asks for is 0; the check is made on dexterity, because the
    name is looked up in lower case, and against the default DC of 12,
    because a DC of 0 counts as none. *)
Lemma skill_check_cased_stat_and_zero_dc :
  let out := Rules.handle_skill_check_intent 9 recall Sample.in_progress sage in
  recall.(PlayerIntent.relevant_stat) = Some "Wisdom"
  /\ sage.(PlayerCharacter.stats) !! "Wisdom" = Some 18
  /\ recall.(PlayerIntent.required_dc) = Some 0
  /\ (fun pending =>
        (pending.(PendingAction.stat_name), pending.(PendingAction.dc),
         pending.(PendingAction.modifier), pending.(PendingAction.dice_roll),
         pending.(PendingAction.is_success)))
       <$> out.1.1.(GameState.pending_action)
     = Some ("dexterity", 12, -1, 10, false).
Proof. vm_compute. repeat split. Qed.

(** C4, amended. Phase 1 of a skill check, for every intent, every actor and
    every draw of the generator: the stat is the intent's relevant stat put
    in lower case, when that lower-case name is a key of the actor's stats,
    and dexterity when the intent names none, names the empty string, or
    names one whose lower-case form is no key of the actor's stats (the
    names being ASCII text); the stat modifier is floor((stat_value - 10) /
    2), negative below 10, the stat counting as 10 when the actor lacks it;
    the effect modifier is the sum over the actor's effects of the modifier
    keyed by the stat plus the modifier keyed "all"; the DC is the intent's
    when it has one other than 0, and 12 otherwise; the die is in 1..20; the
    check succeeds exactly when die + stat modifier + effect modifier >= DC;
    all of this is stored in the pending action and the phase becomes
    AWAITING_DICE_ROLL_CONFIRMATION; the challenge returned names the stat,
    in title case, and the DC and is the same text whatever the die shows.
    The players and the actor are not changed. *)
Theorem skill_check_phase1 (raw : Z) (intent : PlayerIntent.t)
    (game_state : GameState.t) (actor : PlayerCharacter.t) :
  let out := Rules.handle_skill_check_intent raw intent game_state actor in
  let after := out.1.1 in
  let challenge := out.2 in
  exists pending : PendingAction.t,
    let stat_name := pending.(PendingAction.stat_name) in
    let stat_value := default 10 (actor.(PlayerCharacter.stats) !! stat_name) in
    let stat_modifier := Py.floordiv (stat_value - 10) 2 in
    let effect_modifier := effect_modifier_spec stat_name actor.(PlayerCharacter.conditions) in
    after.(GameState.pending_action) = Some pending
    /\ after.(GameState.game_phase) = "AWAITING_DICE_ROLL_CONFIRMATION"
    /\ (forall s, intent.(PlayerIntent.relevant_stat) = Some s -> s <> "" ->
        Py.is_ascii s = true ->
        is_Some (actor.(PlayerCharacter.stats) !! Py.lower s) -> stat_name = Py.lower s)
    /\ (intent.(PlayerIntent.relevant_stat) = None
        \/ intent.(PlayerIntent.relevant_stat) = Some ""
        \/ (exists s, intent.(PlayerIntent.relevant_stat) = Some s
                      /\ Py.is_ascii s = true
                      /\ actor.(PlayerCharacter.stats) !! Py.lower s = None) ->
        stat_name = "dexterity")
    /\ (stat_name = "dexterity" \/ is_Some (actor.(PlayerCharacter.stats) !! stat_name))
    /\ 2 * stat_modifier <= stat_value - 10 < 2 * stat_modifier + 2
    /\ (stat_value < 10 -> stat_modifier < 0)
    /\ pending.(PendingAction.modifier) = stat_modifier + effect_modifier
    /\ (forall d, intent.(PlayerIntent.required_dc) = Some d -> d <> 0 ->
        pending.(PendingAction.dc) = d)
    /\ (intent.(PlayerIntent.required_dc) = None
        \/ intent.(PlayerIntent.required_dc) = Some 0 -> pending.(PendingAction.dc) = 12)
    /\ 1 <= pending.(PendingAction.dice_roll) <= 20
    /\ (pending.(PendingAction.is_success) = true
        <-> pending.(PendingAction.dc)
            <= pending.(PendingAction.dice_roll) + stat_modifier + effect_modifier)
    /\ pending.(PendingAction.acting_character_id) = actor.(PlayerCharacter.character_id)
    /\ pending.(PendingAction.action_text) = intent.(PlayerIntent.action_description)
    /\ after.(GameState.players) = game_state.(GameState.players)
    /\ out.1.2 = actor
    /\ (Py.is_ascii stat_name = true ->
        exists pre mid post,
          challenge = pre +:+ Py.title stat_name +:+ mid
                          +:+ Py.str pending.(PendingAction.dc) +:+ post)
    /\ (forall raw', (Rules.handle_skill_check_intent raw' intent game_state actor).2
                     = challenge)
    /\ Py.lower "Wisdom" = "wisdom"
    /\ Py.title "wisdom" = "Wisdom"
    /\ Py.str 12 = "12".
Proof.
  intros out after challenge.
  eexists. cbn zeta.
  split; [reflexivity|]. cbn [PendingAction.stat_name PendingAction.modifier
    PendingAction.dc PendingAction.dice_roll PendingAction.is_success
    PendingAction.acting_character_id PendingAction.action_text].
  split; [reflexivity|].
  split.
  { intros s Hs Hne _ Hin. unfold Rules.skill_stat_name. rewrite Hs.
    apply truthy_nonempty in Hne. rewrite Hne. cbn [andb].
    now rewrite bool_decide_eq_true_2. }
  split.
  { unfold Rules.skill_stat_name.
    intros [-> | [-> | (s & -> & _ & Hnone)]]; [reflexivity | reflexivity |].
    rewrite bool_decide_eq_false_2; [now rewrite andb_false_r|].
    rewrite Hnone. now intros [? ?]. }
  split.
  { unfold Rules.skill_stat_name.
    destruct (PlayerIntent.relevant_stat intent) as [s|]; [|now left].
    destruct (Py.truthy_str s); cbn [andb]; [|now left].
    destruct (bool_decide_reflect
                (is_Some (actor.(PlayerCharacter.stats) !! Py.lower s)));
      [now right | now left]. }
  split; [apply stat_modifier_floor|].
  split; [intros Hv; now apply stat_modifier_negative|].
  split.
  { unfold Rules.stat_modifier. f_equal.
    apply apply_effects_sum, skill_stat_name_nonempty. }
  split.
  { intros d Hd Hnz. unfold Py.int_or. rewrite Hd.
    destruct (Z.eqb_spec d 0); congruence. }
  split.
  { unfold Py.int_or. now intros [-> | ->]. }
  split; [apply randint_range; lia|].
  split.
  { rewrite Z.leb_le, <- apply_effects_sum by apply skill_stat_name_nonempty.
    unfold Rules.stat_modifier. lia. }
  split; [reflexivity|].
  split; [reflexivity|].
  split; [reflexivity|].
  split; [reflexivity|].
  split.
  { intros _. unfold challenge, out. cbn [Rules.handle_skill_check_intent snd].
    unfold Rules.skill_challenge.
    exists ("You prepare to '" +:+ intent.(PlayerIntent.action_description) +:+ "'. "
            +:+ "This will require a "),
           " check against a Difficulty Class (DC) of ",
           (". " +:+ "(Your character's total modifier for this is "
            +:+ Py.fmt_plus
                  (Rules.stat_modifier
                     (default 10 (actor.(PlayerCharacter.stats)
                                  !! Rules.skill_stat_name intent actor))
                   + Rules._apply_effects actor (Some (Rules.skill_stat_name intent actor)))
            +:+ ").").
    now rewrite !append_assoc_str. }
  split; [intros raw'; reflexivity|]. repeat split.
Qed.

Example skill_check_sample :
  let out := Rules.handle_skill_check_intent 16 Sample.sneak Sample.in_progress Sample.kara in
  out.1.1.(GameState.pending_action)
  = Some (PendingAction.mk "char_kara" "sneak past" "dexterity" 5 15 17 true)
  /\ out.2 = "You prepare to 'sneak past'. This will require a Dexterity check against a Difficulty Class (DC) of 15. (Your character's total modifier for this is +5).".
Proof. vm_compute. split; reflexivity. Qed.

(** ** The players dict *)

Lemma players_get_set_eq (k : string) (v : PlayerCharacter.t) (l : Players.t) :
  Players.get k (Players.set k v l) = Some v.
Proof.
  induction l as [|[k' v'] l IH]; cbn [Players.set Players.get].
  - now rewrite String.eqb_refl.
  - destruct (String.eqb k k') eqn:E; cbn [Players.get]; now rewrite E.
Qed.

Lemma players_get_set_ne (k k0 : string) (v : PlayerCharacter.t) (l : Players.t) :
  k0 <> k -> Players.get k0 (Players.set k v l) = Players.get k0 l.
Proof.
  intros Hne. induction l as [|[k' v'] l IH]; cbn [Players.set Players.get].
  - apply String.eqb_neq in Hne. now rewrite Hne.
  - destruct (String.eqb_spec k k') as [->|Hk]; cbn [Players.get].
    + apply String.eqb_neq in Hne. now rewrite Hne.
    + now rewrite IH.
Qed.

Lemma players_keys_set (k : string) (v : PlayerCharacter.t) (l : Players.t) :
  Players.mem k l = true -> Players.keys (Players.set k v l) = Players.keys l.
Proof.
  unfold Players.mem, Players.keys.
  induction l as [|[k' v'] l IH]; cbn [Players.set Players.get map fst]; [discriminate|].
  destruct (String.eqb k k'); cbn [map fst]; [reflexivity|].
  intros H. now rewrite IH.
Qed.

Lemma players_mem_set (k k0 : string) (v : PlayerCharacter.t) (l : Players.t) :
  Players.mem k l = true -> Players.mem k0 (Players.set k v l) = Players.mem k0 l.
Proof.
  intros Hk. unfold Players.mem in *.
  destruct (String.eqb_spec k0 k) as [->|Hne].
  - rewrite players_get_set_eq. now destruct (Players.get k l).
  - now rewrite players_get_set_ne.
Qed.

(** ** Skill checks, phase 2 *)

Lemma narrative_focus_frame (g g' : GameState.t) :
  g'.(GameState.quest_log) = g.(GameState.quest_log) ->
  g'.(GameState.main_plot) = g.(GameState.main_plot) ->
  GameLogic._determine_narrative_focus g' = GameLogic._determine_narrative_focus g.
Proof. intros Hq Hm. unfold GameLogic._determine_narrative_focus. now rewrite Hq, Hm. Qed.

(** C5. Phase 2 of a skill check. Without a pending action the handler
    answers with an error and leaves the state as it is. With a pending
    action whose character is among the players (and a world chosen), the
    handler hands the narrator the stored die, modifier and DC, and returns
    exactly when the narrator does; then the pending action is cleared and
    the phase is GAME_IN_PROGRESS. On a stored success the players are
    unchanged and no random draw is read, so the stored die and outcome are
    used as they are; on a stored failure the health of the character is
    what it was minus a d4 in 1..4, without lower bound (it may fall to 0 and
    below), the other fields of the character staying as they were, and
    nobody else changes. *)
Theorem dice_roll_confirmation_phase2 (env : Env) (game_state : GameState.t)
    (language_pref : string) :
  (game_state.(GameState.pending_action) = None ->
   GameLogic._handle_dice_roll_confirmation env game_state language_pref
   = Ok (game_state, ResultPayload.error "No skill check was pending for confirmation."))
  /\ forall (pending : PendingAction.t) (actor : PlayerCharacter.t),
      game_state.(GameState.pending_action) = Some pending ->
      Players.get pending.(PendingAction.acting_character_id) game_state.(GameState.players)
      = Some actor ->
      is_Some game_state.(GameState.world) ->
      let id := pending.(PendingAction.acting_character_id) in
      let damage := Py.randint 1 4 (env.(random_raw) 0%nat) in
      let outcome :=
        if pending.(PendingAction.is_success)
        then GameLogic.success_description pending
        else GameLogic.failure_description pending damage in
      (exists a b c,
          outcome = "The dice roll is a " +:+ Py.str pending.(PendingAction.dice_roll)
                    +:+ a +:+ Py.fmt_plus pending.(PendingAction.modifier)
                    +:+ b +:+ Py.str pending.(PendingAction.dc) +:+ c)
      /\ exists request : NarrationRequest.t,
          request.(NarrationRequest.outcome_description) = outcome
          /\ request.(NarrationRequest.action_text) = pending.(PendingAction.action_text)
          /\ match env.(turn_narration) request with
             | Raise e =>
                 GameLogic._handle_dice_roll_confirmation env game_state language_pref
                 = Raise e
             | Ok reply =>
                 exists after payload,
                   GameLogic._handle_dice_roll_confirmation env game_state language_pref
                   = Ok (after, payload)
                   /\ after.(GameState.pending_action) = None
                   /\ after.(GameState.game_phase) = "GAME_IN_PROGRESS"
                   /\ payload.(ResultPayload.narrative) = reply.(GMTurnResponse.narrative)
                   /\ (pending.(PendingAction.is_success) = true ->
                       after.(GameState.players) = game_state.(GameState.players)
                       /\ forall raw,
                           GameLogic._handle_dice_roll_confirmation
                             (set_random_raw raw env) game_state language_pref
                           = Ok (after, payload))
                   /\ (pending.(PendingAction.is_success) = false ->
                       1 <= damage <= 4
                       /\ PlayerCharacter.health <$> Players.get id after.(GameState.players)
                          = Some (actor.(PlayerCharacter.health) - damage)
                       /\ (exists hurt,
                             Players.get id after.(GameState.players) = Some hurt
                             /\ hurt.(PlayerCharacter.health)
                                = actor.(PlayerCharacter.health) - damage
                             /\ hurt.(PlayerCharacter.health) < actor.(PlayerCharacter.health)
                             /\ hurt.(PlayerCharacter.max_health)
                                = actor.(PlayerCharacter.max_health)
                             /\ hurt.(PlayerCharacter.character_id)
                                = actor.(PlayerCharacter.character_id)
                             /\ hurt.(PlayerCharacter.name) = actor.(PlayerCharacter.name)
                             /\ hurt.(PlayerCharacter.stats) = actor.(PlayerCharacter.stats)
                             /\ hurt.(PlayerCharacter.conditions)
                                = actor.(PlayerCharacter.conditions)
                             /\ hurt.(PlayerCharacter.inventory)
                                = actor.(PlayerCharacter.inventory)
                             /\ hurt.(PlayerCharacter.xp) = actor.(PlayerCharacter.xp)
                             /\ hurt.(PlayerCharacter.level) = actor.(PlayerCharacter.level)
                             /\ hurt.(PlayerCharacter.currency)
                                = actor.(PlayerCharacter.currency))
                       /\ Players.get id after.(GameState.players)
                          = Some (PlayerCharacter.set_health
                                    (actor.(PlayerCharacter.health) - damage) actor)
                       /\ forall k, k <> id ->
                            Players.get k after.(GameState.players)
                            = Players.get k game_state.(GameState.players))
             end.
Proof.
  split.
  { intros Hnone. unfold GameLogic._handle_dice_roll_confirmation. now rewrite Hnone. }
  intros pending actor Hpending Hactor [world Hworld] id damage outcome.
  split.
  { unfold outcome, GameLogic.success_description, GameLogic.failure_description.
    destruct (PendingAction.is_success pending).
    - exists "! With your modifier of ",
             (", your total is "
              +:+ Py.str (pending.(PendingAction.dice_roll) + pending.(PendingAction.modifier))
              +:+ ". A success against the DC of "), "!".
      now rewrite !append_assoc_str.
    - exists ". With your modifier of ",
             (", your total is "
              +:+ Py.str (pending.(PendingAction.dice_roll) + pending.(PendingAction.modifier))
              +:+ ". Unfortunately, that's not enough to beat the DC of "),
             (". You fail and take " +:+ Py.str damage +:+ " damage.").
      now rewrite !append_assoc_str. }
  exists (NarrationRequest.mk (GameLogic._determine_narrative_focus game_state)
            pending.(PendingAction.action_text) outcome language_pref).
  split; [reflexivity|]. split; [reflexivity|].
  unfold GameLogic._handle_dice_roll_confirmation.
  rewrite Hpending. cbv zeta. subst id. rewrite Hactor.
  unfold outcome. clear outcome.
  destruct (PendingAction.is_success pending) eqn:Hsucc.
  - cbn [rbind]. unfold GameLogic._narrate_turn.
    cbn [GameState.world GameState.set_game_phase GameState.set_pending_action].
    rewrite Hworld.
    rewrite (narrative_focus_frame game_state
               (GameState.set_game_phase "GAME_IN_PROGRESS"
                  (GameState.set_pending_action None game_state)))
      by reflexivity.
    cbn [turn_narration set_random_raw].
    destruct (turn_narration env _) as [reply|e]; cbn [rbind]; [|reflexivity].
    eexists _, _. split; [reflexivity|].
    repeat (split; [reflexivity|]).
    split; [|discriminate].
    intros _. split; reflexivity.
  - cbn [rbind]. unfold GameLogic._narrate_turn.
    cbn [GameState.world GameState.set_game_phase GameState.set_pending_action
         GameState.set_players].
    rewrite Hworld.
    match goal with
    | |- context [GameLogic._determine_narrative_focus ?g] =>
        tryif constr_eq g game_state then fail
        else rewrite (narrative_focus_frame game_state g) by reflexivity
    end.
    fold damage.
    destruct (turn_narration env _) as [reply|e]; cbn [rbind]; [|reflexivity].
    eexists _, _. split; [reflexivity|].
    repeat (split; [reflexivity|]).
    split; [discriminate|].
    intros _.
    assert (Hdamage : 1 <= damage <= 4) by (apply randint_range; lia).
    split; [exact Hdamage|].
    cbn [GameState.players GameState.set_previous_turn_narrative GameState.set_quest_log
         GameState.set_scene_context GameState.set_story_summary].
    split.
    { etransitivity;
        [apply (f_equal (fmap PlayerCharacter.health)); apply players_get_set_eq
        |reflexivity]. }
    split.
    { eexists. split; [apply players_get_set_eq|].
      cbn [PlayerCharacter.set_health PlayerCharacter.health PlayerCharacter.max_health
           PlayerCharacter.character_id PlayerCharacter.name PlayerCharacter.stats
           PlayerCharacter.conditions PlayerCharacter.inventory PlayerCharacter.xp
           PlayerCharacter.level PlayerCharacter.currency].
      split; [reflexivity|]. split; [lia|]. repeat split. }
    split; [apply players_get_set_eq|].
    intros k Hk. now apply players_get_set_ne.
Qed.


Example dice_roll_confirmation_sample :
  let pending := PendingAction.mk "char_kara" "sneak past" "dexterity" 5 15 3 false in
  let waiting :=
    GameState.set_pending_action (Some pending)
      (GameState.set_game_phase "AWAITING_DICE_ROLL_CONFIRMATION" Sample.in_progress) in
  exists after payload,
    GameLogic._handle_dice_roll_confirmation
      (Sample.env_with 6 Sample.observe Sample.cave) waiting "en" = Ok (after, payload)
    /\ PlayerCharacter.health <$> Players.get "char_kara" after.(GameState.players) = Some 97
    /\ after.(GameState.pending_action) = None
    /\ after.(GameState.game_phase) = "GAME_IN_PROGRESS".
Proof. eexists _, _. vm_compute. repeat split. Qed.

(** ** The FORCE_GAME_STATE escape hatch *)

(** C10. A FORCE_GAME_STATE task with a game state as payload, for a session
    that has a row in the store: the row becomes the payload with its
    [session_id] replaced by the task's, one STATE_FORCED result carrying
    that state is published, and no NPC task is queued. The outcome is a
    function of the payload, the task's session and client ids and the world
    alone: neither the collaborators nor the snapshot sent along are read,
    so no handler, rule or turn scheduling takes part; the [session_id] the
    payload came with does not matter. Without a payload the task returns an
    error and the world is untouched. *)
Theorem force_game_state_overwrites (env : Env) (payload : GameLogic.TaskPayload.t)
    (w : World) (forced : GameState.t) :
  payload.(GameLogic.TaskPayload.client_action).(GameLogic.ClientAction.action_type)
  = Some "FORCE_GAME_STATE" ->
  is_Some (w.(db) !! payload.(GameLogic.TaskPayload.session_id)) ->
  let session_id := payload.(GameLogic.TaskPayload.session_id) in
  let client_id := payload.(GameLogic.TaskPayload.client_id) in
  let given := payload.(GameLogic.TaskPayload.client_action).(GameLogic.ClientAction.payload) in
  let stored := GameState.set_session_id session_id forced in
  (given = GameLogic.StatePayload forced ->
   GameLogic.process_game_action_task env payload w
   = (GameLogic.Success,
      mkWorld (<[session_id := stored]> w.(db))
        (w.(published)
         ++ [(client_id,
              ResultPayload.mk "STATE_FORCED" "State forced for testing." (Some stored)
                None None None None)])
        w.(npc_queue)))
  /\ stored.(GameState.session_id) = session_id
  /\ (forall other_id,
        GameState.set_session_id session_id (GameState.set_session_id other_id forced)
        = stored)
  /\ stored.(GameState.current_turn_entity_id) = forced.(GameState.current_turn_entity_id)
  /\ GameState.set_session_id forced.(GameState.session_id) stored = forced
  /\ (given = GameLogic.NoPayload ->
      GameLogic.process_game_action_task env payload w
      = (GameLogic.ErrorStatus "FORCE_GAME_STATE requires a payload.", w)).
Proof.
  intros Haction [row Hrow]. cbv zeta.
  split.
  { intros Hgiven. unfold GameLogic.process_game_action_task.
    rewrite Haction. cbn [default String.eqb Ascii.eqb Bool.eqb].
    rewrite Hgiven.
    unfold update_game_state_in_db, publish_result_to_queue.
    now rewrite Hrow. }
  split; [reflexivity|].
  split; [reflexivity|].
  split; [reflexivity|].
  split; [now destruct forced|].
  intros Hgiven. unfold GameLogic.process_game_action_task.
  rewrite Haction. cbn [default String.eqb Ascii.eqb Bool.eqb].
  now rewrite Hgiven.
Qed.

Lemma force_game_state_witness :
  let payload :=
    GameLogic.TaskPayload.mk "s1" (initial_game_state "s1" "g1") "kara"
      (GameLogic.ClientAction.mk (Some "FORCE_GAME_STATE")
         (GameLogic.StatePayload (GameState.set_session_id "elsewhere" Sample.in_progress)))
      "en" in
  let w := Sample.world_of "s1" (initial_game_state "s1" "g1") in
  let w' := (GameLogic.process_game_action_task
               (Sample.env_with 0 Sample.observe Sample.cave) payload w).2 in
  w'.(db) !! "s1" = Some Sample.in_progress /\ w'.(npc_queue) = [].
Proof.
  cbv zeta.
  pose proof (force_game_state_overwrites
                (Sample.env_with 0 Sample.observe Sample.cave)
                (GameLogic.TaskPayload.mk "s1" (initial_game_state "s1" "g1") "kara"
                   (GameLogic.ClientAction.mk (Some "FORCE_GAME_STATE")
                      (GameLogic.StatePayload
                         (GameState.set_session_id "elsewhere" Sample.in_progress)))
                   "en")
                (Sample.world_of "s1" (initial_game_state "s1" "g1"))
                (GameState.set_session_id "elsewhere" Sample.in_progress)
                eq_refl) as H.
  cbv zeta in H.
  destruct H as [H _].
  { eexists. vm_compute. reflexivity. }
  rewrite (H eq_refl). cbn [snd db npc_queue GameLogic.TaskPayload.session_id].
  split; [|reflexivity].
  now rewrite lookup_insert_eq.
Defined.

(** ** The phase awaiting the confirmation of a dice roll *)

Lemma dispatch_awaiting (env : Env) (game_state : GameState.t)
    (client_id action_text language_pref : string) :
  game_state.(GameState.game_phase) = "AWAITING_DICE_ROLL_CONFIRMATION" ->
  GameLogic.dispatch env game_state client_id action_text language_pref
  = GameLogic.of_result
      (GameLogic._handle_dice_roll_confirmation env game_state language_pref).
Proof. intros Hphase. unfold GameLogic.dispatch. now rewrite Hphase. Qed.

(** C9, as stated, fails: in phase AWAITING_DICE_ROLL_CONFIRMATION the action
    "I look around", which is not CONFIRM_DICE_ROLL, is accepted; phase 2
    runs, the pending action is cleared and the stored state changes. *)
Lemma unconfirmed_action_resolves_check :
  let payload :=
    GameLogic.TaskPayload.mk "s1" waiting_for_kara "kara"
      (GameLogic.ClientAction.mk (Some "I look around") GameLogic.NoPayload) "en" in
  let w := Sample.world_of "s1" waiting_for_kara in
  let out :=
    GameLogic.process_game_action_task (Sample.env_with 0 Sample.observe Sample.cave)
      payload w in
  waiting_for_kara.(GameState.game_phase) = "AWAITING_DICE_ROLL_CONFIRMATION"
  /\ out.1 = GameLogic.Success
  /\ GameState.game_phase <$> (out.2.(db) !! "s1") = Some "GAME_IN_PROGRESS"
  /\ GameState.pending_action <$> (out.2.(db) !! "s1") = Some None
  /\ GameState.pending_action <$> (w.(db) !! "s1")
     = Some (Some (PendingAction.mk "char_kara" "sneak past" "dexterity" 5 15 17 true))
  /\ (ResultPayload.event_type ∘ snd) <$> out.2.(published) = ["NARRATIVE_UPDATE"].
Proof. vm_compute. repeat split. Qed.

(** C9, amended. In phase AWAITING_DICE_ROLL_CONFIRMATION the dispatcher
    does not look at the action type: every action other than
    FORCE_GAME_STATE, CONFIRM_DICE_ROLL or not, is routed to phase 2 of the
    skill check, and the task does to the world exactly what it does on
    CONFIRM_DICE_ROLL. *)
Theorem awaiting_confirmation_any_action (env : Env) (payload : GameLogic.TaskPayload.t)
    (action : GameLogic.ClientAction.t) (w : World) :
  payload.(GameLogic.TaskPayload.game_state).(GameState.game_phase)
  = "AWAITING_DICE_ROLL_CONFIRMATION" ->
  action_text_of action <> "FORCE_GAME_STATE" ->
  GameLogic.dispatch env payload.(GameLogic.TaskPayload.game_state)
    payload.(GameLogic.TaskPayload.client_id) (action_text_of action)
    payload.(GameLogic.TaskPayload.language)
  = GameLogic.of_result
      (GameLogic._handle_dice_roll_confirmation env
         payload.(GameLogic.TaskPayload.game_state)
         payload.(GameLogic.TaskPayload.language))
  /\ GameLogic.process_game_action_task env (with_action action payload) w
     = GameLogic.process_game_action_task env
         (with_action (GameLogic.ClientAction.mk (Some "CONFIRM_DICE_ROLL") GameLogic.NoPayload)
            payload) w.
Proof.
  intros Hphase Hforce.
  split; [now apply dispatch_awaiting|].
  unfold GameLogic.process_game_action_task, with_action.
  cbn [GameLogic.TaskPayload.session_id GameLogic.TaskPayload.game_state
       GameLogic.TaskPayload.client_id GameLogic.TaskPayload.client_action
       GameLogic.TaskPayload.language GameLogic.ClientAction.action_type default].
  fold (action_text_of action).
  apply String.eqb_neq in Hforce. rewrite Hforce.
  change (String.eqb "CONFIRM_DICE_ROLL" "FORCE_GAME_STATE") with false. cbv iota.
  now rewrite !dispatch_awaiting by exact Hphase.
Qed.

Lemma awaiting_confirmation_witness :
  GameLogic.process_game_action_task (Sample.env_with 0 Sample.observe Sample.cave)
    (with_action (GameLogic.ClientAction.mk (Some "I look around") GameLogic.NoPayload)
       (GameLogic.TaskPayload.mk "s1" waiting_for_kara "kara"
          (GameLogic.ClientAction.mk None GameLogic.NoPayload) "en"))
    (Sample.world_of "s1" waiting_for_kara)
  = GameLogic.process_game_action_task (Sample.env_with 0 Sample.observe Sample.cave)
      (with_action (GameLogic.ClientAction.mk (Some "CONFIRM_DICE_ROLL") GameLogic.NoPayload)
         (GameLogic.TaskPayload.mk "s1" waiting_for_kara "kara"
            (GameLogic.ClientAction.mk None GameLogic.NoPayload) "en"))
      (Sample.world_of "s1" waiting_for_kara).
Proof.
  apply (awaiting_confirmation_any_action (Sample.env_with 0 Sample.observe Sample.cave)
           (GameLogic.TaskPayload.mk "s1" waiting_for_kara "kara"
              (GameLogic.ClientAction.mk None GameLogic.NoPayload) "en")
           (GameLogic.ClientAction.mk (Some "I look around") GameLogic.NoPayload)
           (Sample.world_of "s1" waiting_for_kara)).
  - reflexivity.
  - vm_compute. discriminate.
Defined.

(** ** Splitting the character details *)

Section Splitting.

Variable sep : ascii.

Lemma append_nil_r (s : string) : s +:+ "" = s.
Proof.
  induction s as [|c s IH]; [reflexivity|].
  change (String c (s +:+ "") = String c s). now f_equal.
Qed.

Lemma count_char_app (a b : string) :
  Py.count_char sep (a +:+ b) = (Py.count_char sep a + Py.count_char sep b)%nat.
Proof.
  induction a as [|c a IH]; [reflexivity|].
  change (String c a +:+ b) with (String c (a +:+ b)).
  cbn [Py.count_char]. rewrite IH. lia.
Qed.

Lemma string_rev_acc_app (s acc : string) :
  Py.string_rev_acc s acc = Py.string_rev s +:+ acc.
Proof.
  unfold Py.string_rev. revert acc.
  induction s as [|c s IH]; intros acc; cbn [Py.string_rev_acc]; [reflexivity|].
  rewrite (IH (String c acc)), (IH (String c "")), append_assoc_str. reflexivity.
Qed.

Lemma string_rev_cons (c : ascii) (s : string) :
  Py.string_rev (String c s) = Py.string_rev s +:+ String c "".
Proof. unfold Py.string_rev at 1. cbn [Py.string_rev_acc]. apply string_rev_acc_app. Qed.

Lemma string_rev_app (a b : string) :
  Py.string_rev (a +:+ b) = Py.string_rev b +:+ Py.string_rev a.
Proof.
  induction a as [|c a IH].
  - change ("" +:+ b) with b. now rewrite append_nil_r.
  - change (String c a +:+ b) with (String c (a +:+ b)).
    now rewrite !string_rev_cons, IH, append_assoc_str.
Qed.

Lemma string_rev_involutive (s : string) : Py.string_rev (Py.string_rev s) = s.
Proof.
  induction s as [|c s IH]; [reflexivity|].
  now rewrite string_rev_cons, string_rev_app, IH.
Qed.

Lemma count_char_rev (s : string) :
  Py.count_char sep (Py.string_rev s) = Py.count_char sep s.
Proof.
  induction s as [|c s IH]; [reflexivity|].
  rewrite string_rev_cons, count_char_app, IH. cbn [Py.count_char]. lia.
Qed.

(** A split has one part more than the separators it consumed; its parts,
    joined by the separator, are the text; only the last part can hold a
    separator. *)
Lemma split_max_length (n : nat) (s : string) :
  length (Py.split_max sep n s) = S (Nat.min n (Py.count_char sep s)).
Proof.
  revert n. induction s as [|c s IH]; intros n; cbn [Py.split_max Py.count_char].
  - now rewrite Nat.min_0_r.
  - destruct n as [|k]; [reflexivity|].
    destruct (Ascii.eqb c sep).
    + cbn [length]. rewrite IH. now rewrite <- Nat.succ_min_distr.
    + specialize (IH (S k)). cbn [Nat.add].
      destruct (Py.split_max sep (S k) s) as [|p ps]; [discriminate|exact IH].
Qed.

Lemma join_sep_cons (x : string) (l : list string) :
  l <> [] -> join_sep sep (x :: l) = x +:+ sep_str sep +:+ join_sep sep l.
Proof. destruct l; [congruence | reflexivity]. Qed.

Lemma split_max_nonempty (n : nat) (s : string) : Py.split_max sep n s <> [].
Proof.
  intros H. apply (f_equal (@length string)) in H.
  rewrite split_max_length in H. discriminate.
Qed.

Lemma split_max_join (n : nat) (s : string) : join_sep sep (Py.split_max sep n s) = s.
Proof.
  revert n. induction s as [|c s IH]; intros n; cbn [Py.split_max]; [reflexivity|].
  destruct n as [|k]; [reflexivity|].
  destruct (Ascii.eqb_spec c sep) as [->|Hc].
  - rewrite join_sep_cons by apply split_max_nonempty. now rewrite IH.
  - specialize (IH (S k)).
    pose proof (split_max_nonempty (S k) s) as Hne.
    destruct (Py.split_max sep (S k) s) as [|p ps]; [congruence|].
    destruct ps as [|q qs].
    + cbn [join_sep] in *. now rewrite IH.
    + rewrite join_sep_cons in * by discriminate.
      change (String c p +:+ sep_str sep +:+ join_sep sep (q :: qs))
        with (String c (p +:+ sep_str sep +:+ join_sep sep (q :: qs))).
      now rewrite IH.
Qed.

Lemma split_max_init_clean (n : nat) (s : string) :
  Forall (fun p => Py.count_char sep p = O) (removelast (Py.split_max sep n s)).
Proof.
  revert n. induction s as [|c s IH]; intros n; cbn [Py.split_max].
  - constructor.
  - destruct n as [|k]; [constructor|].
    destruct (Ascii.eqb_spec c sep) as [->|Hc].
    + pose proof (split_max_nonempty k s) as Hne.
      destruct (Py.split_max sep k s) as [|p ps] eqn:E; [congruence|].
      change (removelast ("" :: p :: ps)) with ("" :: removelast (p :: ps)).
      constructor; [reflexivity|]. rewrite <- E. apply IH.
    + specialize (IH (S k)).
      pose proof (split_max_nonempty (S k) s) as Hne.
      destruct (Py.split_max sep (S k) s) as [|p ps]; [congruence|].
      destruct ps as [|q qs]; [constructor|].
      change (removelast (String c p :: q :: qs))
        with (String c p :: removelast (q :: qs)).
      change (removelast (p :: q :: qs)) with (p :: removelast (q :: qs)) in IH.
      inversion IH as [|? ? Hp Hrest]; subst.
      constructor; [|exact Hrest].
      cbn [Py.count_char]. apply Ascii.eqb_neq in Hc. rewrite Hc. exact Hp.
Qed.

End Splitting.

Lemma rsplit_length (sep : ascii) (n : nat) (s : string) :
  length (Py.rsplit sep n s) = S (Nat.min n (Py.count_char sep s)).
Proof.
  unfold Py.rsplit.
  now rewrite length_rev, length_map, split_max_length, count_char_rev.
Qed.

(** [rsplit(sep, 3)] on a text with three separators or more: the text is
    cut at its last three separators. *)
Lemma rsplit3_parts (sep : ascii) (s : string) :
  (3 <= Py.count_char sep s)%nat ->
  exists name a g b,
    Py.rsplit sep 3 s = [name; a; g; b]
    /\ s = name +:+ sep_str sep +:+ a +:+ sep_str sep +:+ g +:+ sep_str sep +:+ b
    /\ Py.count_char sep a = O /\ Py.count_char sep g = O /\ Py.count_char sep b = O.
Proof.
  intros Hcount.
  pose proof (split_max_length sep 3 (Py.string_rev s)) as Hlen.
  pose proof (split_max_join sep 3 (Py.string_rev s)) as Hjoin.
  pose proof (split_max_init_clean sep 3 (Py.string_rev s)) as Hclean.
  rewrite count_char_rev, Nat.min_l in Hlen by exact Hcount.
  unfold Py.rsplit.
  destruct (Py.split_max sep 3 (Py.string_rev s)) as [|p1 [|p2 [|p3 [|p4 [|? ?]]]]];
    try discriminate.
  exists (Py.string_rev p4), (Py.string_rev p3), (Py.string_rev p2), (Py.string_rev p1).
  split; [reflexivity|].
  cbn [removelast] in Hclean.
  inversion Hclean as [|? ? H1 Hc2]; subst.
  inversion Hc2 as [|? ? H2 Hc3]; subst.
  inversion Hc3 as [|? ? H3 _]; subst.
  rewrite !count_char_rev.
  split; [|now repeat split].
  rewrite <- (string_rev_involutive s), <- Hjoin.
  cbn [join_sep].
  rewrite !string_rev_app.
  change (Py.string_rev (sep_str sep)) with (sep_str sep).
  now rewrite !append_assoc_str.
Qed.

Lemma parse_details_few_commas (action_text : string) :
  (Py.count_char "," action_text < 3)%nat ->
  GameLogic.parse_details action_text = Raise ValueError.
Proof.
  intros Hfew. unfold GameLogic.parse_details.
  pose proof (rsplit_length "," 3 action_text) as Hlen.
  rewrite Nat.min_r in Hlen by lia.
  destruct (Py.rsplit "," 3 action_text) as [|p1 [|p2 [|p3 [|p4 [|? ?]]]]];
    cbn [map]; try reflexivity.
  cbn [length] in Hlen. lia.
Qed.

Lemma parse_details_ok_commas (action_text name gender backstory : string) (age : Z) :
  GameLogic.parse_details action_text = Ok (name, age, gender, backstory) ->
  (3 <= Py.count_char "," action_text)%nat.
Proof.
  intros Hok.
  destruct (Nat.lt_ge_cases (Py.count_char "," action_text) 3) as [Hfew|Hge]; [|exact Hge].
  rewrite parse_details_few_commas in Hok by exact Hfew. discriminate.
Qed.

Lemma dispatch_character_details (env : Env) (game_state : GameState.t)
    (client_id action_text language_pref : string) :
  game_state.(GameState.game_phase) = "CHARACTER_CREATION_DETAILS" ->
  GameLogic.dispatch env game_state client_id action_text language_pref
  = GameLogic.of_result
      (GameLogic._handle_character_creation env game_state client_id action_text).
Proof. intros Hphase. unfold GameLogic.dispatch. now rewrite Hphase. Qed.

(** C7, as stated, fails: a line of five comma-separated fields is accepted;
    the character is created, its name holding the first two fields. *)
Lemma five_fields_create_character :
  let action_text := "Kara, of York, 29, female, a wandering scholar" in
  let out :=
    GameLogic._handle_character_creation (Sample.env_with 0 Sample.observe Sample.cave)
      creating_details "kara" action_text in
  S (Py.count_char "," action_text) = 5%nat
  /\ exists after payload,
      out = Ok (after, payload)
      /\ payload.(ResultPayload.event_type) = "CLASS_OPTIONS_PRESENTED"
      /\ creating_details.(GameState.players) = []
      /\ (fun p => (p.(PlayerCharacter.name), p.(PlayerCharacter.age),
                    p.(PlayerCharacter.gender), p.(PlayerCharacter.backstory)))
           <$> Players.values after.(GameState.players)
         = [("Kara, of York", 29, "female", "a wandering scholar")]
      /\ after.(GameState.characters_created) = 1.
Proof. vm_compute. split; [reflexivity|]. eexists _, _. repeat split. Qed.

Lemma int_literal_raises_value_error (s : string) (e : exn) :
  Py.int_literal s = Raise e -> e = ValueError.
Proof.
  unfold Py.int_literal.
  destruct (Py.int_digits true 0 s); [destruct (_ <? _)|]; congruence.
Qed.

Lemma py_int_raises_value_error (s : string) (e : exn) :
  Py.int s = Raise e -> e = ValueError.
Proof.
  unfold Py.int. intros H.
  assert (Hneg : forall t,
             match Py.int_literal t with Ok z => Ok (- z) | Raise e' => Raise e' end
             = Raise e -> e = ValueError).
  { intros t Ht. destruct (Py.int_literal t) eqn:E; [discriminate|].
    injection Ht as <-. exact (int_literal_raises_value_error t _ E). }
  destruct (Py.strip s) as [|c r]; [exact (int_literal_raises_value_error _ _ H)|].
  destruct c as [[] [] [] [] [] [] [] []];
    first [ exact (int_literal_raises_value_error _ _ H) | exact (Hneg _ H) ].
Qed.

(** The handler in phase CHARACTER_CREATION_DETAILS when the line does not
    parse: the format error, the state as it was. *)
Lemma character_details_rejected (env : Env) (game_state : GameState.t)
    (client_id action_text : string) (e : exn) :
  game_state.(GameState.game_phase) = "CHARACTER_CREATION_DETAILS" ->
  GameLogic.parse_details action_text = Raise e ->
  caught_value_or_index e = true ->
  GameLogic._handle_character_creation env game_state client_id action_text
  = Ok (game_state, GameLogic.invalid_format).
Proof.
  intros Hphase Hparse Hcaught. unfold GameLogic._handle_character_creation.
  rewrite Hphase.
  change (String.eqb "CHARACTER_CREATION_DETAILS" "CHARACTER_CREATION_NUM_PLAYERS")
    with false.
  change (String.eqb "CHARACTER_CREATION_DETAILS" "CHARACTER_CREATION_CLASSES") with false.
  change (String.eqb "CHARACTER_CREATION_DETAILS" "CHARACTER_CREATION_DETAILS") with true.
  cbv iota. now rewrite Hparse, Hcaught.
Qed.

(** The same when the line parses, a class is pending and more characters
    are to be created. *)
Lemma character_details_accepted (env : Env) (game_state : GameState.t)
    (client_id action_text name gender backstory : string) (age : Z)
    (pending_class : ClassOption.t) (options : list ClassOption.t) :
  game_state.(GameState.game_phase) = "CHARACTER_CREATION_DETAILS" ->
  GameLogic.parse_details action_text = Ok (name, age, gender, backstory) ->
  game_state.(GameState.pending_character_class) = Some pending_class ->
  game_state.(GameState.class_selection_options) = Some options ->
  game_state.(GameState.characters_created) + 1
  < game_state.(GameState.num_players_to_create) ->
  exists after payload,
    GameLogic._handle_character_creation env game_state client_id action_text
    = Ok (after, payload)
    /\ after.(GameState.players)
       = Players.set ("char_" +:+ env.(uuid4_hex8))
           (GameLogic.new_character env name age gender backstory pending_class)
           game_state.(GameState.players)
    /\ after.(GameState.characters_created) = game_state.(GameState.characters_created) + 1
    /\ after.(GameState.game_phase) = "CHARACTER_CREATION_CLASSES"
    /\ payload.(ResultPayload.event_type) = "CLASS_OPTIONS_PRESENTED".
Proof.
  intros Hphase Hparse Hclass Hoptions Hmore.
  unfold GameLogic._handle_character_creation.
  rewrite Hphase.
  change (String.eqb "CHARACTER_CREATION_DETAILS" "CHARACTER_CREATION_NUM_PLAYERS")
    with false.
  change (String.eqb "CHARACTER_CREATION_DETAILS" "CHARACTER_CREATION_CLASSES") with false.
  change (String.eqb "CHARACTER_CREATION_DETAILS" "CHARACTER_CREATION_DETAILS") with true.
  cbv iota. rewrite Hparse, Hclass.
  cbn [GameState.characters_created GameState.num_players_to_create
       GameState.set_players GameState.set_characters_created
       GameState.set_pending_character_class GameState.set_game_phase
       GameState.class_selection_options].
  apply Z.ltb_lt in Hmore. rewrite Hmore, Hoptions.
  eexists _, _. split; [reflexivity|]. repeat split.
Qed.

(** C7, amended. In phase CHARACTER_CREATION_DETAILS the line is cut at its
    last three commas. A line with fewer than three commas (fewer than four
    fields) fails with the format error and the handler returns the state
    unchanged, so the players change only for a line of four fields or more.
    A line with three commas or more is name, age, gender, backstory with the
    name taking everything before the third-last comma: if the age part is
    not an integer the format error is returned and the state is unchanged;
    if it is, a class is pending and more characters are to come, the
    character is created from the four stripped parts. *)
Theorem character_details_parsing (env : Env) (game_state : GameState.t)
    (client_id action_text : string) :
  game_state.(GameState.game_phase) = "CHARACTER_CREATION_DETAILS" ->
  let commas := Py.count_char "," action_text in
  let out := GameLogic._handle_character_creation env game_state client_id action_text in
  ((commas < 3)%nat -> out = Ok (game_state, GameLogic.invalid_format))
  /\ (forall after payload,
        out = Ok (after, payload) ->
        after.(GameState.players) <> game_state.(GameState.players) ->
        (3 <= commas)%nat)
  /\ ((3 <= commas)%nat ->
      exists name a g b,
        action_text = name +:+ "," +:+ a +:+ "," +:+ g +:+ "," +:+ b
        /\ Py.count_char "," a = O /\ Py.count_char "," g = O /\ Py.count_char "," b = O
        /\ (forall e, Py.int (Py.strip a) = Raise e ->
              out = Ok (game_state, GameLogic.invalid_format))
        /\ (forall age pending_class options,
              Py.int (Py.strip a) = Ok age ->
              game_state.(GameState.pending_character_class) = Some pending_class ->
              game_state.(GameState.class_selection_options) = Some options ->
              game_state.(GameState.characters_created) + 1
              < game_state.(GameState.num_players_to_create) ->
              exists after payload,
                out = Ok (after, payload)
                /\ after.(GameState.players)
                   = Players.set ("char_" +:+ env.(uuid4_hex8))
                       (GameLogic.new_character env (Py.strip name) age (Py.strip g)
                          (Py.strip b) pending_class)
                       game_state.(GameState.players)
                /\ after.(GameState.characters_created)
                   = game_state.(GameState.characters_created) + 1
                /\ after.(GameState.game_phase) = "CHARACTER_CREATION_CLASSES"
                /\ payload.(ResultPayload.event_type) = "CLASS_OPTIONS_PRESENTED")).
Proof.
  intros Hphase commas out.
  assert (Hfew : (commas < 3)%nat -> out = Ok (game_state, GameLogic.invalid_format)).
  { intros Hlt. apply (character_details_rejected env game_state client_id action_text
                         ValueError Hphase); [|reflexivity].
    now apply parse_details_few_commas. }
  split; [exact Hfew|].
  split.
  { intros after payload Hout Hplayers.
    destruct (Nat.lt_ge_cases commas 3) as [Hlt|Hge]; [|exact Hge].
    rewrite (Hfew Hlt) in Hout. inversion Hout; subst. congruence. }
  intros Hge.
  destruct (rsplit3_parts "," action_text Hge) as (name & a & g & b & Hsplit & Htext & Ha & Hg & Hb).
  exists name, a, g, b.
  split; [exact Htext|]. split; [exact Ha|]. split; [exact Hg|]. split; [exact Hb|].
  split.
  - intros e He.
    apply (character_details_rejected env game_state client_id action_text e Hphase).
    + unfold GameLogic.parse_details. rewrite Hsplit. cbn [map]. now rewrite He.
    + now rewrite (py_int_raises_value_error _ _ He).
  - intros age pending_class options Hage Hclass Hoptions Hmore.
    apply (character_details_accepted env game_state client_id action_text
             (Py.strip name) (Py.strip g) (Py.strip b) age pending_class options);
      try assumption.
    unfold GameLogic.parse_details. rewrite Hsplit. cbn [map]. now rewrite Hage.
Qed.

Lemma character_details_witness :
  GameLogic._handle_character_creation (Sample.env_with 0 Sample.observe Sample.cave)
    creating_details "kara" "Kara, 29"
  = Ok (creating_details, GameLogic.invalid_format).
Proof.
  apply (character_details_parsing (Sample.env_with 0 Sample.observe Sample.cave)
           creating_details "kara" "Kara, 29" eq_refl).
  vm_compute. lia.
Defined.

(** ** The dispatcher and the session store *)

(** The first write of a task hides what the row held before. *)
Lemma update_hides_row (session_id : string) (g row : GameState.t) (w : World) :
  is_Some (w.(db) !! session_id) ->
  update_game_state_in_db session_id g (with_row session_id row w)
  = update_game_state_in_db session_id g w.
Proof.
  intros [old Hold]. unfold update_game_state_in_db, with_row. cbn [db published npc_queue].
  rewrite lookup_insert_eq, Hold. now rewrite insert_insert_eq.
Qed.

Lemma dispatch_in_combat (env : Env) (game_state : GameState.t)
    (client_id action_text language_pref : string) :
  game_state.(GameState.game_phase) = "IN_COMBAT" ->
  GameLogic.dispatch env game_state client_id action_text language_pref
  = if GameLogic.no_valid_turn game_state
    then GameLogic.EarlyReturn "Not a valid player's turn"
    else GameLogic.of_result
           (GameLogic._handle_standard_turn env game_state
              (default "" game_state.(GameState.current_turn_entity_id))
              action_text language_pref).
Proof. intros Hphase. unfold GameLogic.dispatch. now rewrite Hphase. Qed.

Lemma dispatch_in_progress (env : Env) (game_state : GameState.t)
    (client_id action_text language_pref : string) :
  game_state.(GameState.game_phase) = "GAME_IN_PROGRESS" ->
  GameLogic.no_valid_turn game_state = false ->
  GameLogic.dispatch env game_state client_id action_text language_pref
  = GameLogic.of_result
      (GameLogic._handle_standard_turn env game_state
         (default "" game_state.(GameState.current_turn_entity_id))
         action_text language_pref).
Proof. intros Hphase Hturn. unfold GameLogic.dispatch. now rewrite Hphase, Hturn. Qed.

(** C1, as stated, fails: the store holds a state in which the turn has
    passed to Bram; a task still carrying the older snapshot, in which Kara
    acts, is applied without any error, and the stored state is replaced by
    what follows from the snapshot. *)
Lemma stale_snapshot_overwrites_store :
  let payload :=
    GameLogic.TaskPayload.mk "s1" two_players "kara"
      (GameLogic.ClientAction.mk (Some "I look around") GameLogic.NoPayload) "en" in
  let w := Sample.world_of "s1" turn_passed in
  let out :=
    GameLogic.process_game_action_task (Sample.env_with 0 Sample.observe Sample.cave)
      payload w in
  two_players.(GameState.current_turn_entity_id) = Some "char_kara"
  /\ GameState.current_turn_entity_id <$> (w.(db) !! "s1") = Some (Some "char_bram")
  /\ GameState.story_summary <$> (w.(db) !! "s1") = Some "Kara has acted."
  /\ out.1 = GameLogic.Success
  /\ GameState.story_summary <$> (out.2.(db) !! "s1") = Some "Summary."
  /\ (ResultPayload.event_type ∘ snd) <$> out.2.(published) = ["NARRATIVE_UPDATE"].
Proof. vm_compute. repeat split. Qed.

(** C1, amended. The dispatcher never reads the session store: it acts on the
    snapshot in the task message. For a session that has a row, what the
    task returns does not depend on the state in the row, a task that
    succeeds leaves the same world whatever the row held (the row is
    overwritten), and a task that does not succeed leaves the world as it
    was. The acting character is the snapshot's own [current_turn_entity_id]:
    in IN_COMBAT a snapshot whose current turn is no player's is rejected
    with "Not a valid player's turn" and nothing is written; otherwise, in
    IN_COMBAT and GAME_IN_PROGRESS alike, a snapshot whose current turn is a
    player's goes to the standard turn of that player. *)
Theorem dispatcher_acts_on_snapshot (env : Env) (payload : GameLogic.TaskPayload.t)
    (w : World) (row : GameState.t) :
  is_Some (w.(db) !! payload.(GameLogic.TaskPayload.session_id)) ->
  let snapshot := payload.(GameLogic.TaskPayload.game_state) in
  let action_text := action_text_of payload.(GameLogic.TaskPayload.client_action) in
  let out := GameLogic.process_game_action_task env payload w in
  let out' :=
    GameLogic.process_game_action_task env payload
      (with_row payload.(GameLogic.TaskPayload.session_id) row w) in
  out'.1 = out.1
  /\ (out.1 = GameLogic.Success -> out'.2 = out.2)
  /\ (out.1 <> GameLogic.Success ->
      out.2 = w /\ out'.2 = with_row payload.(GameLogic.TaskPayload.session_id) row w)
  /\ (action_text <> "FORCE_GAME_STATE" ->
      snapshot.(GameState.game_phase) = "IN_COMBAT" ->
      GameLogic.no_valid_turn snapshot = true ->
      out = (GameLogic.ErrorStatus "Not a valid player's turn", w))
  /\ (snapshot.(GameState.game_phase) = "IN_COMBAT"
      \/ snapshot.(GameState.game_phase) = "GAME_IN_PROGRESS" ->
      GameLogic.no_valid_turn snapshot = false ->
      GameLogic.dispatch env snapshot payload.(GameLogic.TaskPayload.client_id) action_text
        payload.(GameLogic.TaskPayload.language)
      = GameLogic.of_result
          (GameLogic._handle_standard_turn env snapshot
             (default "" snapshot.(GameState.current_turn_entity_id)) action_text
             payload.(GameLogic.TaskPayload.language))).
Proof.
  intros Hrow. cbv zeta.
  assert (Hstore :
    let out := GameLogic.process_game_action_task env payload w in
    let out' :=
      GameLogic.process_game_action_task env payload
        (with_row payload.(GameLogic.TaskPayload.session_id) row w) in
    out'.1 = out.1
    /\ (out.1 = GameLogic.Success -> out'.2 = out.2)
    /\ (out.1 <> GameLogic.Success ->
        out.2 = w /\ out'.2 = with_row payload.(GameLogic.TaskPayload.session_id) row w)).
  { cbv zeta. unfold GameLogic.process_game_action_task.
    destruct (String.eqb _ "FORCE_GAME_STATE").
    - destruct (GameLogic.ClientAction.payload _); cbn [fst snd];
        rewrite ?update_hides_row by exact Hrow; repeat split; congruence.
    - destruct (GameLogic.dispatch _ _ _ _ _); cbn [fst snd];
        rewrite ?update_hides_row by exact Hrow; repeat split; congruence. }
  destruct Hstore as (H1 & H2 & H3).
  split; [exact H1|]. split; [exact H2|]. split; [exact H3|].
  split.
  - intros Hforce Hphase Hturn. unfold GameLogic.process_game_action_task.
    fold (action_text_of payload.(GameLogic.TaskPayload.client_action)).
    apply String.eqb_neq in Hforce. rewrite Hforce.
    now rewrite dispatch_in_combat, Hturn by exact Hphase.
  - intros [Hphase|Hphase] Hturn.
    + now rewrite dispatch_in_combat, Hturn by exact Hphase.
    + now apply dispatch_in_progress.
Qed.

Lemma dispatcher_acts_on_snapshot_witness :
  let payload :=
    GameLogic.TaskPayload.mk "s1" two_players "kara"
      (GameLogic.ClientAction.mk (Some "I look around") GameLogic.NoPayload) "en" in
  let env := Sample.env_with 0 Sample.observe Sample.cave in
  (GameLogic.process_game_action_task env payload
     (with_row "s1" turn_passed (Sample.world_of "s1" two_players))).1
  = (GameLogic.process_game_action_task env payload (Sample.world_of "s1" two_players)).1.
Proof.
  cbv zeta.
  apply (dispatcher_acts_on_snapshot (Sample.env_with 0 Sample.observe Sample.cave)
           (GameLogic.TaskPayload.mk "s1" two_players "kara"
              (GameLogic.ClientAction.mk (Some "I look around") GameLogic.NoPayload) "en")
           (Sample.world_of "s1" two_players) turn_passed).
  eexists. vm_compute. reflexivity.
Defined.


(** ** NPC turns *)

(** A scene entity never validates as a [PlayerCharacter]: its dump has no
    [age], [gender], [backstory] or [character_class]. *)
Lemma npc_as_actor_invalid (env : Env) (e : SceneEntity.t) :
  GameLogic.PlayerCharacter_validate env (GameLogic.SceneEntity_model_dump e)
  = Raise ValueError.
Proof. reflexivity. Qed.

(** Hence [_handle_npc_turn] returns the state it was given. *)
Lemma handle_npc_turn_state (env : Env) (game_state : GameState.t)
    (npc_id : option string) (language_pref : string) :
  (GameLogic._handle_npc_turn env game_state npc_id language_pref).1 = game_state.
Proof.
  unfold GameLogic._handle_npc_turn.
  destruct (GameLogic.find_instance _ _) as [npc_entity|]; [|reflexivity].
  destruct (_ <=? 0); [reflexivity|].
  destruct (GameLogic.conscious_players game_state); [reflexivity|].
  rewrite npc_as_actor_invalid.
  now destruct (npc_decision env npc_entity).
Qed.

(** One NPC task on the stored state [g], in full. *)
Lemma npc_task_step (env : Env) (session_id client_id : string) (w : World)
    (g : GameState.t) :
  w.(db) !! session_id = Some g ->
  exists narrative,
    GameLogic.process_npc_turn_task env session_id client_id w
    = if Rules.remaining_hostiles g then
        let '(g', is_npc) := GameLogic._advance_turn_in_combat g in
        mkWorld (<[session_id := g']> w.(db))
          (w.(published)
           ++ [(client_id,
                ResultPayload.mk "NARRATIVE_UPDATE" narrative (Some g') None None None None)])
          (if is_npc then w.(npc_queue) ++ [(session_id, client_id)] else w.(npc_queue))
      else
        let g' := GameState.set_game_phase "GAME_IN_PROGRESS" g in
        mkWorld (<[session_id := g']> w.(db))
          (w.(published)
           ++ [(client_id,
                ResultPayload.mk "NARRATIVE_UPDATE"
                  (narrative +:+ GameLogic.combat_has_ended) (Some g') None None None None)])
          w.(npc_queue).
Proof.
  intros Hrow. unfold GameLogic.process_npc_turn_task. rewrite Hrow.
  pose proof (handle_npc_turn_state env g g.(GameState.current_turn_entity_id) "en") as Hsame.
  destruct (GameLogic._handle_npc_turn env g _ "en") as [g0 npc_outcome].
  cbn [fst] in Hsame. subst g0.
  exists npc_outcome.
  destruct (Rules.remaining_hostiles g); cbn [negb].
  - destruct (GameLogic._advance_turn_in_combat g) as [g' is_npc].
    unfold update_game_state_in_db, publish_result_to_queue, delay_npc_turn_task.
    destruct is_npc; cbn [db published npc_queue]; now rewrite Hrow.
  - unfold update_game_state_in_db, publish_result_to_queue.
    now rewrite Hrow.
Qed.

(** C2 on the code: Kara acts in combat and the narrator's new scene shows
    the goblin fallen; the dispatcher passes the turn to the goblin and
    queues its NPC task; that task finds no hostile standing and sets the
    phase to GAME_IN_PROGRESS, but the initiative order stays populated and
    the turn stays with the fallen goblin. *)
Lemma npc_turn_keeps_initiative_order :
  let fallen := SceneContext.mk "Cave" "A damp cave." [Sample.fallen_goblin] in
  let payload :=
    GameLogic.TaskPayload.mk "s1" fighting_goblin "kara"
      (GameLogic.ClientAction.mk (Some "I look around") GameLogic.NoPayload) "en" in
  let env := Sample.env_with 0 Sample.observe fallen in
  let w1 := (GameLogic.process_game_action_task env payload
               (Sample.world_of "s1" fighting_goblin)).2 in
  let w2 := run_next_npc_task env w1 in
  GameState.game_phase <$> (w1.(db) !! "s1") = Some "IN_COMBAT"
  /\ GameState.current_turn_entity_id <$> (w1.(db) !! "s1") = Some (Some "ent_inst_gob1")
  /\ w1.(npc_queue) = [("s1", "kara")]
  /\ Rules.remaining_hostiles <$> (w1.(db) !! "s1") = Some false
  /\ (fun w => GameState.game_phase <$> (w.(db) !! "s1")) <$> w2
     = Some (Some "GAME_IN_PROGRESS")
  /\ (fun w => GameState.initiative_order <$> (w.(db) !! "s1")) <$> w2
     = Some (Some ["char_kara"; "ent_inst_gob1"])
  /\ (fun w => GameState.current_turn_entity_id <$> (w.(db) !! "s1")) <$> w2
     = Some (Some (Some "ent_inst_gob1"))
  /\ npc_queue <$> w2 = Some [].
Proof. vm_compute. repeat split. Qed.

(** In general: when no hostile is standing, the NPC task stores the state it
    read with nothing but the phase changed, so the initiative order and the
    current turn stay. *)
Lemma npc_turn_end_of_combat (env : Env) (session_id client_id : string) (w : World)
    (g : GameState.t) :
  w.(db) !! session_id = Some g ->
  Rules.remaining_hostiles g = false ->
  (GameLogic.process_npc_turn_task env session_id client_id w).(db) !! session_id
  = Some (GameState.set_game_phase "GAME_IN_PROGRESS" g).
Proof.
  intros Hrow Hnone.
  destruct (npc_task_step env session_id client_id w g Hrow) as [narrative ->].
  rewrite Hnone. cbn [db]. apply lookup_insert_eq.
Qed.

(** The player's path, for comparison: step 4 of [process_turn_events] ends
    the fight and clears the initiative order. *)
Lemma player_turn_ends_combat (actor : PlayerCharacter.t) (g : GameState.t)
    (outcomes : list string) :
  g.(GameState.game_phase) = "IN_COMBAT" ->
  Rules.remaining_hostiles g = false ->
  let after := (Rules.check_combat_end actor g outcomes).1 in
  after.(GameState.game_phase) = "GAME_IN_PROGRESS"
  /\ after.(GameState.initiative_order) = []
  /\ after.(GameState.current_turn_entity_id) = Some actor.(PlayerCharacter.character_id).
Proof.
  intros Hphase Hnone. unfold Rules.check_combat_end. rewrite Hphase, Hnone.
  repeat split.
Qed.

(** *** The chain of NPC tasks *)

Lemma list_index_nth (l : list string) :
  forall i x, NoDup l -> nth_error l i = Some x -> list_index x l = Ok i.
Proof.
  induction l as [|y l IH]; intros i x Hnd Hi.
  - destruct i; discriminate.
  - apply NoDup_cons in Hnd as [Hy Hnd]. cbn [list_index].
    destruct i as [|i]; cbn [nth_error] in Hi.
    + inversion Hi; subst. now rewrite String.eqb_refl.
    + destruct (String.eqb_spec x y) as [->|Hne].
      * exfalso. apply Hy. apply list_elem_of_In. eapply nth_error_In. exact Hi.
      * now rewrite (IH i x Hnd Hi).
Qed.

Lemma advance_turn_nodup (g : GameState.t) (i : nat) (cur : string) :
  NoDup g.(GameState.initiative_order) ->
  nth_error g.(GameState.initiative_order) i = Some cur ->
  g.(GameState.current_turn_entity_id) = Some cur ->
  exists next,
    nth_error g.(GameState.initiative_order)
      ((i + 1) mod length g.(GameState.initiative_order))%nat = Some next
    /\ GameLogic._advance_turn_in_combat g
       = (GameState.set_current_turn_entity_id (Some next) g, negb (is_player next g)).
Proof.
  intros Hnd Hi Hcur.
  assert (Hlen : (i < length g.(GameState.initiative_order))%nat).
  { apply nth_error_Some. congruence. }
  destruct (nth_error g.(GameState.initiative_order)
              ((i + 1) mod length g.(GameState.initiative_order))%nat) as [next|] eqn:Hnext.
  2:{ apply nth_error_None in Hnext.
      pose proof (Nat.mod_upper_bound (i + 1) (length g.(GameState.initiative_order))).
      lia. }
  exists next. split; [reflexivity|].
  unfold GameLogic._advance_turn_in_combat.
  rewrite Hcur, (list_index_nth _ i cur Hnd Hi). cbn [rbind].
  unfold list_item. now rewrite Hnext.
Qed.

Section NpcChain.

Variable envs : nat -> Env.
Variables session_id client_id : string.

Lemma npc_chain_reaches_player :
  forall (d k i : nat) (w : World) (g : GameState.t) (cur p : string),
    w.(db) !! session_id = Some g ->
    w.(npc_queue) = [(session_id, client_id)] ->
    NoDup g.(GameState.initiative_order) ->
    nth_error g.(GameState.initiative_order) i = Some cur ->
    g.(GameState.current_turn_entity_id) = Some cur ->
    nth_error g.(GameState.initiative_order)
      ((i + d) mod length g.(GameState.initiative_order))%nat = Some p ->
    is_player p g = true ->
    (1 <= d)%nat ->
    exists (n : nat) (w' : World) (g' : GameState.t),
      (1 <= n <= d)%nat
      /\ (forall fuel, (n <= fuel)%nat -> npc_chain envs k fuel w = (n, w'))
      /\ w'.(npc_queue) = []
      /\ w'.(db) !! session_id = Some g'
      /\ same_fight g g'
      /\ chain_stopped g'.
Proof.
  induction d as [|d IH]; intros k i w g cur p Hrow Hqueue Hnd Hi Hcur Hp Hplayer Hd; [lia|].
  assert (Hrun : run_next_npc_task (envs k) w
                 = Some (GameLogic.process_npc_turn_task (envs k) session_id client_id
                           (mkWorld w.(db) w.(published) []))).
  { unfold run_next_npc_task. now rewrite Hqueue. }
  destruct (npc_task_step (envs k) session_id client_id
              (mkWorld w.(db) w.(published) []) g Hrow) as [narrative Hstep].
  cbn [db published npc_queue] in Hstep.
  destruct (Rules.remaining_hostiles g) eqn:Hhostile.
  - destruct (advance_turn_nodup g i cur Hnd Hi Hcur) as (next & Hnext & Hadv).
    rewrite Hadv in Hstep.
    destruct (is_player next g) eqn:Hnextp; cbn [negb app] in Hstep.
    + (* the next in the order is a player: the chain stops here *)
      eexists 1%nat, _, _. split; [lia|].
      split.
      { intros [|fuel] Hfuel; [lia|]. cbn [npc_chain]. rewrite Hrun, Hstep.
        destruct fuel; reflexivity. }
      split; [reflexivity|].
      split; [cbn [db]; apply lookup_insert_eq|].
      split; [now repeat split|].
      right. exists next. split; [reflexivity|exact Hnextp].
    + (* the next is an NPC again: one more task *)
      destruct d as [|d'].
      { rewrite Nat.add_1_r in Hp. replace (i + 1)%nat with (S i) in Hnext by lia.
        congruence. }
      set (g1 := GameState.set_current_turn_entity_id (Some next) g) in *.
      set (w1 := mkWorld (<[session_id := g1]> w.(db)) _ [(session_id, client_id)]) in Hstep.
      destruct (IH (S k) ((i + 1) mod length g.(GameState.initiative_order))%nat
                  w1 g1 next p) as (n & w' & g' & Hn & Hchain & Hq & Hrow' & Hsame & Hstop);
        try reflexivity; try assumption; try lia.
      { apply lookup_insert_eq. }
      { cbn [g1 GameState.initiative_order GameState.set_current_turn_entity_id].
        rewrite Nat.Div0.add_mod_idemp_l.
        now replace (i + 1 + S d')%nat with (i + S (S d'))%nat by lia. }
      exists (S n), w', g'. split; [lia|].
      split.
      { intros [|fuel] Hfuel; [lia|]. cbn [npc_chain]. rewrite Hrun, Hstep.
        now rewrite (Hchain fuel) by lia. }
      split; [exact Hq|]. split; [exact Hrow'|].
      split; [|exact Hstop].
      destruct Hsame as (H1 & H2 & H3). repeat split; assumption.
  - (* no hostile is standing: the task ends the fight *)
    eexists 1%nat, _, _. split; [lia|].
    split.
    { intros [|fuel] Hfuel; [lia|]. cbn [npc_chain]. rewrite Hrun, Hstep.
      destruct fuel; reflexivity. }
    split; [reflexivity|].
    split; [cbn [db]; apply lookup_insert_eq|].
    split; [now repeat split|].
    left. split; [exact Hhostile|reflexivity].
Qed.

End NpcChain.

(** C8, as stated, fails: there are two combatants, Kara and the goblin, and
    with the corrupted initiative order ten NPC tasks in a row have run, each
    queuing the next, and one more is waiting. *)
Lemma npc_chain_exceeds_combatants :
  let out := npc_chain quiet_envs 0 10 goblin_alone_world in
  length (Rules.combatants goblin_alone) = 2%nat
  /\ out.1 = 10%nat
  /\ out.2.(npc_queue) = [("s1", "kara")]
  /\ out.2.(db) !! "s1" = Some goblin_alone.
Proof. vm_compute. repeat split. Qed.

(** The same chain never ends: every task leaves the store and the queue as
    they were. *)
Lemma npc_chain_unbounded (fuel k : nat) (results : list (string * ResultPayload.t)) :
  (npc_chain quiet_envs k fuel
     (mkWorld {[ "s1" := goblin_alone ]} results [("s1", "kara")])).1 = fuel.
Proof.
  revert k results. induction fuel as [|fuel IH]; intros k results; [reflexivity|].
  cbn [npc_chain]. unfold run_next_npc_task. cbn [npc_queue db published].
  destruct (npc_task_step (quiet_envs k) "s1" "kara"
              (mkWorld {[ "s1" := goblin_alone ]} results []) goblin_alone)
    as [narrative Hstep]; [apply lookup_singleton_eq|].
  rewrite Hstep. clear Hstep.
  change (Rules.remaining_hostiles goblin_alone) with true. cbv iota.
  change (GameLogic._advance_turn_in_combat goblin_alone) with (goblin_alone, true).
  cbv iota beta. cbn [db published npc_queue app].
  rewrite insert_singleton_eq.
  specialize (IH (S k)
    (results ++ [("kara",
                  ResultPayload.mk "NARRATIVE_UPDATE" narrative (Some goblin_alone)
                    None None None None)])).
  destruct (npc_chain quiet_envs (S k) fuel _) as [n w'].
  cbn [fst] in *. now rewrite IH.
Qed.

(** C8, amended. The code has no cap on the chain; what bounds it is the
    initiative order itself. From a stored state whose initiative order has
    no repeated id, holds the id whose turn it is and holds a player's id,
    with one NPC task queued, the tasks run one after the other are at least
    one and at most as many as the initiative order is long, whatever the
    collaborators answer; then the queue is empty, the order, the players
    and the scene are as before, and the chain has stopped because the turn
    is a player's or because no hostile entity has health above 0 (the phase
    is then GAME_IN_PROGRESS). *)
Theorem npc_chain_bounded (envs : nat -> Env) (session_id client_id : string) (w : World)
    (g : GameState.t) (cur p : string) :
  w.(db) !! session_id = Some g ->
  w.(npc_queue) = [(session_id, client_id)] ->
  NoDup g.(GameState.initiative_order) ->
  g.(GameState.current_turn_entity_id) = Some cur ->
  In cur g.(GameState.initiative_order) ->
  In p g.(GameState.initiative_order) ->
  is_player p g = true ->
  exists (n : nat) (w' : World) (g' : GameState.t),
    (1 <= n <= length g.(GameState.initiative_order))%nat
    /\ (forall fuel, (n <= fuel)%nat -> npc_chain envs 0 fuel w = (n, w'))
    /\ w'.(npc_queue) = []
    /\ w'.(db) !! session_id = Some g'
    /\ same_fight g g'
    /\ chain_stopped g'.
Proof.
  intros Hrow Hqueue Hnd Hcur Hin Hp Hplayer.
  apply In_nth_error in Hin as [i Hi].
  apply In_nth_error in Hp as [j Hj].
  set (len := length g.(GameState.initiative_order)).
  assert (Hilen : (i < len)%nat) by (apply nth_error_Some; congruence).
  assert (Hjlen : (j < len)%nat) by (apply nth_error_Some; congruence).
  set (d := if (i <? j)%nat then (j - i)%nat else (len - i + j)%nat).
  assert (Hd : (1 <= d <= len)%nat).
  { unfold d. destruct (Nat.ltb_spec i j); lia. }
  assert (Hmod : ((i + d) mod len = j)%nat).
  { unfold d. destruct (Nat.ltb_spec i j).
    - replace (i + (j - i))%nat with j by lia. now apply Nat.mod_small.
    - replace (i + (len - i + j))%nat with (j + 1 * len)%nat by lia.
      rewrite Nat.Div0.mod_add. now apply Nat.mod_small. }
  destruct (npc_chain_reaches_player envs session_id client_id d 0 i w g cur p)
    as (n & w' & g' & Hn & Hrest); try assumption; try lia.
  { fold len. now rewrite Hmod. }
  exists n, w', g'. split; [fold len; lia | exact Hrest].
Qed.

Lemma npc_chain_bounded_witness :
  exists (n : nat) (w' : World) (g' : GameState.t),
    (1 <= n <= 2)%nat
    /\ (forall fuel, (n <= fuel)%nat ->
          npc_chain quiet_envs 0 fuel
            (mkWorld {[ "s1" :=
                          GameState.set_current_turn_entity_id (Some "ent_inst_gob1")
                            fighting_goblin ]} [] [("s1", "kara")])
          = (n, w'))
    /\ w'.(npc_queue) = []
    /\ w'.(db) !! "s1" = Some g'
    /\ same_fight
         (GameState.set_current_turn_entity_id (Some "ent_inst_gob1") fighting_goblin) g'
    /\ chain_stopped g'.
Proof.
  apply (npc_chain_bounded quiet_envs "s1" "kara"
           (mkWorld {[ "s1" :=
                         GameState.set_current_turn_entity_id (Some "ent_inst_gob1")
                           fighting_goblin ]} [] [("s1", "kara")])
           (GameState.set_current_turn_entity_id (Some "ent_inst_gob1") fighting_goblin)
           "ent_inst_gob1" "char_kara").
  - apply lookup_singleton_eq.
  - reflexivity.
  - cbn. repeat constructor; intros H; apply list_elem_of_In in H; cbn in H;
      intuition discriminate.
  - reflexivity.
  - cbn. tauto.
  - cbn. tauto.
  - reflexivity.
Defined.

(** ** The pending action and the phase *)

Lemma protocol_step_refl (g : GameState.t) : protocol_step g g.
Proof. split; [reflexivity|]. left. split; [reflexivity|]. now left. Qed.

Lemma protocol_step_trans (g1 g2 g3 : GameState.t) :
  g1.(GameState.game_phase) <> AWAITING ->
  protocol_step g1 g2 ->
  g2.(GameState.session_id) = g3.(GameState.session_id)
  /\ g3.(GameState.pending_action) = g2.(GameState.pending_action)
  /\ g3.(GameState.game_phase) = g2.(GameState.game_phase) ->
  protocol_step g1 g3.
Proof.
  intros Hne (Hs & Hstep) (Hs' & Hp & Hph). split; [congruence|].
  rewrite Hp, Hph. exact Hstep.
Qed.

Lemma protocol_step_invariant (g g' : GameState.t) :
  g.(GameState.game_phase) <> AWAITING ->
  pending_iff_awaiting g ->
  protocol_step g g' ->
  pending_iff_awaiting g'.
Proof.
  unfold pending_iff_awaiting. intros Hne Hinv (_ & [(Hp & Hph) | (Hp & Hph)]).
  - rewrite Hp. split.
    + intros Hsome. apply Hinv in Hsome. contradiction.
    + intros Hawait. destruct Hph as [Hph|Hph]; [|contradiction]. congruence.
  - tauto.
Qed.

(** Decompose the result of a handler: case analysis on everything the
    handler branches on, then read the fields of the state returned. *)
Ltac handler_cases H :=
  repeat match type of H with
         | context [match ?x with _ => _ end] => destruct x eqn:?
         | context [if ?b then _ else _] => destruct b eqn:?
         end;
  try discriminate H.

Ltac protocol_quiet :=
  split; [reflexivity|]; left; split; [reflexivity|];
  first [ now left | right; unfold AWAITING; discriminate ].

Lemma narrate_turn_fields (env : Env) (g : GameState.t) (actor : option PlayerCharacter.t)
    (action_text language_pref outcome : string) (danger : bool)
    (g' : GameState.t) (r : ResultPayload.t) :
  GameLogic._narrate_turn env g actor action_text language_pref outcome danger = Ok (g', r) ->
  g'.(GameState.session_id) = g.(GameState.session_id)
  /\ g'.(GameState.pending_action) = g.(GameState.pending_action)
  /\ g'.(GameState.game_phase) = g.(GameState.game_phase)
  /\ g'.(GameState.players) = g.(GameState.players)
  /\ g'.(GameState.initiative_order) = g.(GameState.initiative_order)
  /\ g'.(GameState.current_turn_entity_id) = g.(GameState.current_turn_entity_id).
Proof.
  unfold GameLogic._narrate_turn, rbind. intros H.
  handler_cases H. inversion H; subst. repeat split.
Qed.

Lemma start_new_game_step (env : Env) (g g' : GameState.t) (r : ResultPayload.t) :
  GameLogic._handle_start_new_game env g = Ok (g', r) -> protocol_step g g'.
Proof.
  unfold GameLogic._handle_start_new_game, rbind. intros H.
  handler_cases H. inversion H; subst. protocol_quiet.
Qed.

Lemma world_selection_step (env : Env) (g g' : GameState.t) (action_text : string)
    (r : ResultPayload.t) :
  GameLogic._handle_world_selection env g action_text = Ok (g', r) -> protocol_step g g'.
Proof.
  unfold GameLogic._handle_world_selection, rbind. intros H.
  handler_cases H; inversion H; subst; protocol_quiet.
Qed.

Lemma character_creation_step (env : Env) (g g' : GameState.t)
    (client_id action_text : string) (r : ResultPayload.t) :
  GameLogic._handle_character_creation env g client_id action_text = Ok (g', r) ->
  protocol_step g g'.
Proof.
  unfold GameLogic._handle_character_creation, rbind. intros H.
  handler_cases H; inversion H; subst; protocol_quiet.
Qed.

Lemma inventory_state (intent : PlayerIntent.t) (g : GameState.t) (actor : PlayerCharacter.t) :
  (Rules.handle_inventory_intent intent g actor).1.1 = g.
Proof.
  unfold Rules.handle_inventory_intent.
  repeat match goal with
         | |- context [match ?x with _ => _ end] => destruct x
         | |- context [if ?b then _ else _] => destruct b
         end; reflexivity.
Qed.

Lemma attack_state (raw : Z) (intent : PlayerIntent.t) (g : GameState.t)
    (actor : PlayerCharacter.t) :
  let g' := (Rules.handle_attack_intent raw intent g actor).1.1 in
  g'.(GameState.session_id) = g.(GameState.session_id)
  /\ g'.(GameState.pending_action) = g.(GameState.pending_action)
  /\ g'.(GameState.game_phase) = g.(GameState.game_phase).
Proof.
  unfold Rules.handle_attack_intent.
  repeat match goal with
         | |- context [match ?x with _ => _ end] => destruct x
         | |- context [if ?b then _ else _] => destruct b
         end; repeat split.
Qed.

Lemma combat_end_state (actor : PlayerCharacter.t) (g : GameState.t)
    (outcomes : list string) :
  let g' := (Rules.check_combat_end actor g outcomes).1 in
  g'.(GameState.session_id) = g.(GameState.session_id)
  /\ g'.(GameState.pending_action) = g.(GameState.pending_action)
  /\ (g'.(GameState.game_phase) = g.(GameState.game_phase)
      \/ g'.(GameState.game_phase) = "GAME_IN_PROGRESS").
Proof.
  unfold Rules.check_combat_end.
  destruct (_ && _); cbn; repeat split; auto.
Qed.

Lemma combat_end_awaiting (actor : PlayerCharacter.t) (g : GameState.t)
    (outcomes : list string) :
  g.(GameState.game_phase) = AWAITING ->
  (Rules.check_combat_end actor g outcomes).1 = g.
Proof. intros Hphase. unfold Rules.check_combat_end. now rewrite Hphase. Qed.

Lemma initiate_combat_state (rng : nat -> Z) (g : GameState.t) :
  let g' := Rules.initiate_combat rng g in
  g'.(GameState.session_id) = g.(GameState.session_id)
  /\ g'.(GameState.pending_action) = g.(GameState.pending_action)
  /\ g'.(GameState.game_phase) = "IN_COMBAT".
Proof.
  unfold Rules.initiate_combat. destruct (map fst _); repeat split.
Qed.

(** The rules engine on a state that is not awaiting a confirmation. *)
Lemma turn_events_step (rng : nat -> Z) (intent : PlayerIntent.t) (g : GameState.t)
    (actor : PlayerCharacter.t) :
  protocol_step g (Rules.process_turn_events rng intent g actor).1.1.1.
Proof.
  unfold Rules.process_turn_events.
  destruct (Rules.starts_combat intent g).
  { cbn [fst]. destruct (initiate_combat_state rng g) as (Hs & Hp & Hph).
    split; [exact Hs|]. left. split; [exact Hp|]. right. rewrite Hph.
    unfold AWAITING. discriminate. }
  set (handled :=
         if String.eqb _ "MANAGE_INVENTORY" then _
         else if String.eqb _ "SKILL_CHECK" then _
         else if String.eqb _ "ATTACK" then _ else _).
  assert (Hhandled :
    (handled.1.1.(GameState.session_id) = g.(GameState.session_id)
     /\ handled.1.1.(GameState.pending_action) = g.(GameState.pending_action)
     /\ handled.1.1.(GameState.game_phase) = g.(GameState.game_phase))
    \/ (handled.1.1.(GameState.session_id) = g.(GameState.session_id)
        /\ is_Some handled.1.1.(GameState.pending_action)
        /\ handled.1.1.(GameState.game_phase) = AWAITING)).
  { unfold handled.
    destruct (String.eqb _ "MANAGE_INVENTORY").
    { left. now rewrite inventory_state. }
    destruct (String.eqb _ "SKILL_CHECK").
    { right. cbn. repeat split. eexists. reflexivity. }
    destruct (String.eqb _ "ATTACK").
    { left. apply attack_state. }
    left. repeat split. }
  clearbody handled. destruct handled as [[g1 actor1] outcome1]. cbn [fst] in Hhandled.
  pose proof (combat_end_state actor1 g1 [outcome1]) as Hend.
  pose proof (combat_end_awaiting actor1 g1 [outcome1]) as Hawait.
  destruct (Rules.check_combat_end actor1 g1 [outcome1]) as [g2 outcomes]. cbn [fst] in *.
  destruct Hhandled as [(Hs & Hp & Hph) | (Hs & Hp & Hph)].
  - destruct Hend as (Hs' & Hp' & Hph'). split; [congruence|]. left.
    split; [congruence|].
    destruct Hph' as [Hph'|Hph']; [left; congruence|].
    right. rewrite Hph'. unfold AWAITING. discriminate.
  - rewrite (Hawait Hph). split; [exact Hs|]. right. now split.
Qed.

Lemma standard_turn_step (env : Env) (g g' : GameState.t)
    (acting_char_id action_text language_pref : string) (r : ResultPayload.t) :
  GameLogic._handle_standard_turn env g acting_char_id action_text language_pref
  = Ok (g', r) ->
  protocol_step g g'.
Proof.
  unfold GameLogic._handle_standard_turn. intros H.
  destruct (Players.get acting_char_id _) as [actor|].
  2:{ inversion H; subst. apply protocol_step_refl. }
  pose proof (turn_events_step env.(random_raw) (GameLogic._classify_intent env action_text)
                g actor) as Hstep.
  destruct (Rules.process_turn_events _ _ g actor) as [[[g1 actor1] outcome] danger].
  cbn [fst] in Hstep.
  set (g2 := GameState.set_players _ g1) in H.
  assert (H12 : g2.(GameState.session_id) = g1.(GameState.session_id)
                /\ g2.(GameState.pending_action) = g1.(GameState.pending_action)
                /\ g2.(GameState.game_phase) = g1.(GameState.game_phase))
    by (repeat split).
  clearbody g2.
  destruct Hstep as (Hs & Hstep). destruct H12 as (Hs2 & Hp2 & Hph2).
  destruct (String.eqb _ _).
  - inversion H; subst. split; [congruence|]. now rewrite Hp2, Hph2.
  - apply narrate_turn_fields in H as (Hs3 & Hp3 & Hph3 & _).
    split; [congruence|]. now rewrite Hp3, Hph3, Hp2, Hph2.
Qed.

Lemma dice_roll_confirmation_step (env : Env) (g g' : GameState.t)
    (language_pref : string) (r : ResultPayload.t) :
  GameLogic._handle_dice_roll_confirmation env g language_pref = Ok (g', r) ->
  g'.(GameState.session_id) = g.(GameState.session_id)
  /\ (g' = g
      \/ (g'.(GameState.pending_action) = None
          /\ g'.(GameState.game_phase) = "GAME_IN_PROGRESS")).
Proof.
  unfold GameLogic._handle_dice_roll_confirmation, rbind. intros H.
  destruct (GameState.pending_action g) as [pending|].
  2:{ inversion H; subst. split; [reflexivity | now left]. }
  match type of H with
  | context [match ?x with Ok _ => _ | Raise _ => _ end] => destruct x as [[[g1 a1] o1]|] eqn:E
  end; [|discriminate].
  apply narrate_turn_fields in H as (Hs & Hp & Hph & _).
  cbn in Hs, Hp, Hph.
  assert (g1.(GameState.session_id) = g.(GameState.session_id)) as Hs1.
  { handler_cases E; inversion E; subst; reflexivity. }
  split; [congruence|]. right. now split.
Qed.

Lemma of_result_handled (res : result (GameState.t * ResultPayload.t))
    (final : GameState.t) (r : ResultPayload.t) :
  GameLogic.of_result res = GameLogic.Handled final r -> res = Ok (final, r).
Proof. destruct res as [[g p]|e]; cbn; congruence. Qed.

Lemma confirmed_state_invariant (g : GameState.t) :
  g.(GameState.pending_action) = None ->
  g.(GameState.game_phase) = "GAME_IN_PROGRESS" ->
  pending_iff_awaiting g.
Proof.
  intros Hp Hph. unfold pending_iff_awaiting, AWAITING. rewrite Hp, Hph.
  split; [intros [? ?]; discriminate | discriminate].
Qed.

(** The dispatcher proper keeps the invariant and the session id. *)
Lemma dispatch_step (env : Env) (g final : GameState.t)
    (client_id action_text language_pref : string) (r : ResultPayload.t) :
  GameLogic.dispatch env g client_id action_text language_pref = GameLogic.Handled final r ->
  pending_iff_awaiting g ->
  final.(GameState.session_id) = g.(GameState.session_id) /\ pending_iff_awaiting final.
Proof.
  unfold GameLogic.dispatch. intros H Hinv.
  destruct (String.eqb_spec g.(GameState.game_phase) "NEW_GAME") as [Hph|_].
  { apply of_result_handled, start_new_game_step in H.
    split; [apply H|]. apply (protocol_step_invariant g); try assumption.
    rewrite Hph. unfold AWAITING. discriminate. }
  destruct (String.eqb_spec g.(GameState.game_phase) "WORLD_SELECTION") as [Hph|_].
  { apply of_result_handled, world_selection_step in H.
    split; [apply H|]. apply (protocol_step_invariant g); try assumption.
    rewrite Hph. unfold AWAITING. discriminate. }
  destruct (String.prefix "CHARACTER_CREATION" g.(GameState.game_phase)) eqn:Hprefix.
  { apply of_result_handled, character_creation_step in H.
    split; [apply H|]. apply (protocol_step_invariant g); try assumption.
    intros Hph. rewrite Hph in Hprefix. discriminate. }
  destruct (String.eqb_spec g.(GameState.game_phase) "AWAITING_DICE_ROLL_CONFIRMATION")
    as [Hph|Hne].
  { apply of_result_handled, dice_roll_confirmation_step in H as (Hs & [-> | (Hp & Hph')]).
    - now split.
    - split; [exact Hs|]. now apply confirmed_state_invariant. }
  destruct (String.eqb_spec g.(GameState.game_phase) "IN_COMBAT") as [Hph|_].
  { destruct (GameLogic.no_valid_turn g); [discriminate|].
    apply of_result_handled, standard_turn_step in H.
    split; [apply H|]. now apply (protocol_step_invariant g). }
  destruct (String.eqb_spec g.(GameState.game_phase) "GAME_IN_PROGRESS") as [Hph|_].
  { destruct (GameLogic.no_valid_turn g).
    - destruct (GameLogic.first_key _) as [acting_char_id|]; [|discriminate].
      destruct (negb _); [discriminate|].
      apply of_result_handled, standard_turn_step in H.
      split; [apply H|].
      apply (protocol_step_invariant
               (GameState.set_current_turn_entity_id (Some acting_char_id) g));
        try assumption.
    - apply of_result_handled, standard_turn_step in H.
      split; [apply H|]. now apply (protocol_step_invariant g). }
  inversion H; subst. now split.
Qed.

Lemma advance_turn_fields (g : GameState.t) :
  let out := GameLogic._advance_turn_in_combat g in
  out.1.(GameState.session_id) = g.(GameState.session_id)
  /\ out.1.(GameState.pending_action) = g.(GameState.pending_action)
  /\ out.1.(GameState.game_phase) = g.(GameState.game_phase)
  /\ (out.2 = true ->
      GameLogic.not_a_player out.1.(GameState.current_turn_entity_id) out.1 = true).
Proof.
  unfold GameLogic._advance_turn_in_combat.
  repeat match goal with
         | |- context [match ?x with _ => _ end] => destruct x
         end; cbn [fst snd]; repeat split; try discriminate; auto.
Qed.

Lemma not_a_player_no_valid_turn (g : GameState.t) :
  GameLogic.not_a_player g.(GameState.current_turn_entity_id) g = true ->
  GameLogic.no_valid_turn g = true.
Proof.
  unfold GameLogic.not_a_player, GameLogic.no_valid_turn.
  destruct (GameState.current_turn_entity_id g); [|reflexivity].
  intros ->. apply orb_true_r.
Qed.

(** The turn scheduling after a handled action: nothing, or one more write
    of the state with another current turn, or that write and one NPC task
    queued for an entity that is no player, in combat. *)
Lemma post_turn_cases (initial_phase session_id client_id : string)
    (final : GameState.t) (w : World) :
  GameLogic.post_turn initial_phase session_id client_id final w = w
  \/ exists final',
      final'.(GameState.session_id) = final.(GameState.session_id)
      /\ final'.(GameState.pending_action) = final.(GameState.pending_action)
      /\ final'.(GameState.game_phase) = final.(GameState.game_phase)
      /\ (GameLogic.post_turn initial_phase session_id client_id final w
          = update_game_state_in_db session_id final' w
          \/ (final'.(GameState.game_phase) = "IN_COMBAT"
              /\ GameLogic.not_a_player final'.(GameState.current_turn_entity_id) final'
                 = true
              /\ GameLogic.post_turn initial_phase session_id client_id final w
                 = update_game_state_in_db session_id final'
                     (delay_npc_turn_task session_id client_id w))).
Proof.
  unfold GameLogic.post_turn.
  destruct (String.eqb_spec final.(GameState.game_phase) "IN_COMBAT") as [Hph|_].
  - destruct (String.eqb initial_phase "IN_COMBAT").
    + pose proof (advance_turn_fields final) as (Hs & Hp & Hph' & Hnpc).
      destruct (GameLogic._advance_turn_in_combat final) as [final' is_npc].
      cbn [fst snd] in *. destruct is_npc; [|now left].
      right. exists final'. repeat split; try assumption.
      right. repeat split; [congruence | now apply Hnpc].
    + destruct (GameLogic.not_a_player _ final) eqn:Hnpc; [|now left].
      right. exists final. repeat split. right. now repeat split.
  - destruct (String.eqb final.(GameState.game_phase) "GAME_IN_PROGRESS"); [|now left].
    destruct (GameState.current_turn_entity_id final) as [acting|]; [|now left].
    destruct (_ <? _)%nat; [|now left].
    destruct (GameLogic.next_player acting _) as [next|]; [|now left].
    right. exists (GameState.set_current_turn_entity_id (Some next) final).
    repeat split. now left.
Qed.

Lemma rows_ok_insert (rows : gmap string GameState.t) (session_id : string)
    (g : GameState.t) :
  rows_ok rows ->
  g.(GameState.session_id) = session_id ->
  pending_iff_awaiting g ->
  rows_ok (<[session_id := g]> rows).
Proof.
  intros Hrows Hs Hg s g' Hlook.
  destruct (decide (session_id = s)) as [->|Hne].
  - rewrite lookup_insert_eq in Hlook. inversion Hlook; subst. now split.
  - rewrite lookup_insert_ne in Hlook by exact Hne. now apply Hrows.
Qed.

(** Writing the row of a session that has no task queued. *)
Lemma queue_ok_insert_other (rows : gmap string GameState.t)
    (queue : list (string * string)) (session_id : string) (g : GameState.t) :
  queue_ok rows queue ->
  ~ In session_id (map fst queue) ->
  queue_ok (<[session_id := g]> rows) queue.
Proof.
  intros (Hnd & Hq) Hnot. split; [exact Hnd|].
  intros s c Hin. destruct (Hq s c Hin) as (g' & Hrow & Hrest).
  exists g'. split; [|exact Hrest].
  rewrite lookup_insert_ne; [exact Hrow|].
  intros ->. apply Hnot. apply in_map_iff. now exists (s, c).
Qed.

(** Writing the row and queuing the session's NPC task. *)
Lemma queue_ok_enqueue (rows : gmap string GameState.t)
    (queue : list (string * string)) (session_id client_id : string) (g : GameState.t) :
  queue_ok rows queue ->
  ~ In session_id (map fst queue) ->
  g.(GameState.game_phase) = "IN_COMBAT" ->
  GameLogic.not_a_player g.(GameState.current_turn_entity_id) g = true ->
  queue_ok (<[session_id := g]> rows) (queue ++ [(session_id, client_id)]).
Proof.
  intros Hq Hnot Hph Hnpc.
  pose proof (queue_ok_insert_other rows queue session_id g Hq Hnot) as (Hnd & Hq').
  split.
  - rewrite map_app. cbn [map fst]. apply NoDup_app. split; [exact Hnd|].
    split; [|apply NoDup_singleton].
    intros s Hs Hs'. apply list_elem_of_In in Hs. apply list_elem_of_In in Hs'.
    cbn in Hs'. destruct Hs' as [<-|[]]. contradiction.
  - intros s c Hin. apply in_app_or in Hin as [Hin|Hin]; [now apply (Hq' s c)|].
    cbn in Hin. destruct Hin as [Heq|[]]. inversion Heq; subst.
    exists g. split; [apply lookup_insert_eq | now split].
Qed.

Lemma update_db (session_id : string) (g row : GameState.t) (w : World) :
  w.(db) !! session_id = Some row ->
  update_game_state_in_db session_id g w
  = mkWorld (<[session_id := g]> w.(db)) w.(published) w.(npc_queue).
Proof. intros Hrow. unfold update_game_state_in_db. now rewrite Hrow. Qed.

Lemma new_session_invariant (w : World) (session_id game_id : string) :
  system_invariant w ->
  w.(db) !! session_id = None ->
  system_invariant
    (mkWorld (<[session_id := initial_game_state session_id game_id]> w.(db))
       w.(published) w.(npc_queue)).
Proof.
  intros (Hrows & Hqueue) Hfresh. split; cbn [db npc_queue].
  - apply rows_ok_insert; [exact Hrows | reflexivity |].
    unfold pending_iff_awaiting, AWAITING. cbn.
    split; [intros [? ?]; discriminate | discriminate].
  - apply queue_ok_insert_other; [exact Hqueue|].
    intros Hin. apply in_map_iff in Hin as ([s c] & Hs & Hin). cbn in Hs. subst s.
    destruct Hqueue as (_ & Hq). destruct (Hq _ _ Hin) as (g & Hrow & _). congruence.
Qed.

Lemma player_task_invariant (env : Env) (w : World) (session_id : string)
    (row : GameState.t) (client_id : string) (action : GameLogic.ClientAction.t)
    (language : string) :
  system_invariant w ->
  w.(db) !! session_id = Some row ->
  action_text_of action <> "FORCE_GAME_STATE" ->
  system_invariant
    (GameLogic.process_game_action_task env
       (endpoint_task row client_id action language) w).2.
Proof.
  intros (Hrows & Hqueue) Hrow Hforce.
  destruct (Hrows session_id row Hrow) as (Hsid & Hpending).
  unfold GameLogic.process_game_action_task, endpoint_task.
  cbn [GameLogic.TaskPayload.session_id GameLogic.TaskPayload.game_state
       GameLogic.TaskPayload.client_id GameLogic.TaskPayload.client_action
       GameLogic.TaskPayload.language].
  fold (action_text_of action).
  apply String.eqb_neq in Hforce. rewrite Hforce, Hsid.
  destruct (in_dec String.string_dec session_id (map fst w.(npc_queue))) as [Hin|Hnot].
  { (* an NPC task is queued: it is not a player's turn *)
    apply in_map_iff in Hin as ([s c] & Hs & Hin). cbn in Hs. subst s.
    destruct Hqueue as (Hnd & Hq). destruct (Hq _ _ Hin) as (g & Hrow' & Hph & Hnpc).
    assert (g = row) by congruence. subst g.
    rewrite dispatch_in_combat, (not_a_player_no_valid_turn row Hnpc) by exact Hph.
    cbn [snd]. now split. }
  destruct (GameLogic.dispatch env row client_id (action_text_of action) language)
    as [final r | text | e] eqn:Hdispatch; cbn [snd]; [|now split|now split].
  destruct (dispatch_step env row final client_id _ language r Hdispatch Hpending)
    as (Hfs & Hfp).
  rewrite Hsid in Hfs.
  rewrite (update_db session_id final row w Hrow).
  set (r' := match ResultPayload.new_game_state r with Some _ => r | None => _ end).
  set (w2 := publish_result_to_queue client_id r' _).
  assert (Hrow2 : w2.(db) !! session_id = Some final) by apply lookup_insert_eq.
  assert (Hrows2 : rows_ok w2.(db)) by now apply rows_ok_insert.
  assert (Hqueue2 : queue_ok w2.(db) w2.(npc_queue)) by now apply queue_ok_insert_other.
  assert (Hnot2 : ~ In session_id (map fst w2.(npc_queue))) by exact Hnot.
  clearbody w2. clear r'.
  destruct (post_turn_cases row.(GameState.game_phase) session_id client_id final w2)
    as [-> | (final' & Hs' & Hp' & Hph' & [-> | (Hcombat & Hnpc & ->)])].
  - now split.
  - rewrite (update_db session_id final' final w2 Hrow2). split; cbn [db npc_queue].
    + apply rows_ok_insert; [exact Hrows2 | congruence |].
      unfold pending_iff_awaiting in *. now rewrite Hp', Hph'.
    + now apply queue_ok_insert_other.
  - rewrite (update_db session_id final' final
               (delay_npc_turn_task session_id client_id w2) Hrow2).
    split; cbn [db npc_queue delay_npc_turn_task].
    + apply rows_ok_insert; [exact Hrows2 | congruence |].
      unfold pending_iff_awaiting in *. now rewrite Hp', Hph'.
    + apply queue_ok_enqueue; assumption.
Qed.

Lemma npc_task_invariant (env : Env) (w : World) (session_id client_id : string)
    (before after : list (string * string)) :
  system_invariant w ->
  w.(npc_queue) = before ++ (session_id, client_id) :: after ->
  system_invariant
    (GameLogic.process_npc_turn_task env session_id client_id
       (mkWorld w.(db) w.(published) (before ++ after))).
Proof.
  intros (Hrows & Hnd & Hq) Hqueue. rewrite Hqueue in Hnd, Hq.
  destruct (Hq session_id client_id) as (g & Hrow & Hph & Hnpc);
    [apply in_elt|].
  rewrite map_app in Hnd. cbn [map fst] in Hnd.
  apply NoDup_ListNoDup, NoDup_remove in Hnd as (Hnd & Hnot).
  apply NoDup_ListNoDup in Hnd. rewrite <- map_app in Hnd, Hnot.
  assert (Hrest : queue_ok w.(db) (before ++ after)).
  { split; [exact Hnd|]. intros s c Hin. apply (Hq s c).
    apply in_app_or in Hin as [Hin|Hin]; apply in_or_app; [now left | right; now right]. }
  destruct (Hrows session_id g Hrow) as (Hsid & Hpending).
  assert (Hne : g.(GameState.game_phase) <> AWAITING).
  { rewrite Hph. unfold AWAITING. discriminate. }
  destruct (npc_task_step env session_id client_id
              (mkWorld w.(db) w.(published) (before ++ after)) g Hrow)
    as [narrative ->].
  cbn [db published npc_queue].
  destruct (Rules.remaining_hostiles g).
  - pose proof (advance_turn_fields g) as (Hs' & Hp' & Hph' & Hnpc').
    destruct (GameLogic._advance_turn_in_combat g) as [g' is_npc]. cbn [fst snd] in *.
    assert (Hg' : pending_iff_awaiting g').
    { unfold pending_iff_awaiting in *. now rewrite Hp', Hph'. }
    split; cbn [db npc_queue].
    + apply rows_ok_insert; [exact Hrows | congruence | exact Hg'].
    + destruct is_npc.
      * apply queue_ok_enqueue; [exact Hrest | exact Hnot | congruence | now apply Hnpc'].
      * now apply queue_ok_insert_other.
  - split; cbn [db npc_queue].
    + apply rows_ok_insert; [exact Hrows | exact Hsid |].
      apply (protocol_step_invariant g); [exact Hne | exact Hpending |].
      split; [reflexivity|]. left. split; [reflexivity|]. right.
      unfold AWAITING. discriminate.
    + now apply queue_ok_insert_other.
Qed.

(** A row after an update is the state written or the row as it was. *)
Lemma update_lookup (session_id k : string) (g g' : GameState.t) (w : World) :
  (update_game_state_in_db session_id g w).(db) !! k = Some g' ->
  g' = g \/ w.(db) !! k = Some g'.
Proof.
  unfold update_game_state_in_db.
  destruct (w.(db) !! session_id) eqn:Hrow; cbn [db]; [|now right].
  destruct (String.eqb_spec k session_id) as [->|Hne].
  - rewrite lookup_insert_eq. intros [= <-]. now left.
  - rewrite lookup_insert_ne by congruence. now right.
Qed.

(** What a player's task stores satisfies the invariant when its snapshot
    does, whatever the rows hold. *)
Lemma player_task_rows (env : Env) (payload : GameLogic.TaskPayload.t) (w : World)
    (k : string) (g' : GameState.t) :
  action_text_of payload.(GameLogic.TaskPayload.client_action) <> "FORCE_GAME_STATE" ->
  pending_iff_awaiting payload.(GameLogic.TaskPayload.game_state) ->
  (GameLogic.process_game_action_task env payload w).2.(db) !! k = Some g' ->
  w.(db) !! k = Some g' \/ pending_iff_awaiting g'.
Proof.
  intros Hforce Hsnap. unfold GameLogic.process_game_action_task.
  fold (action_text_of payload.(GameLogic.TaskPayload.client_action)).
  apply String.eqb_neq in Hforce. rewrite Hforce.
  destruct (GameLogic.dispatch env _ _ _ _) as [final r | text | e] eqn:Hdispatch;
    cbn [snd]; [|now left|now left].
  destruct (dispatch_step env _ final _ _ _ r Hdispatch Hsnap) as (_ & Hfinal).
  set (r' := match ResultPayload.new_game_state r with Some _ => r | None => _ end).
  set (w1 := update_game_state_in_db _ final w).
  assert (Hw1 : forall g, w1.(db) !! k = Some g ->
                          w.(db) !! k = Some g \/ pending_iff_awaiting g).
  { intros g Hg. apply update_lookup in Hg as [-> | Hg]; [now right | now left]. }
  clearbody w1.
  set (w2 := publish_result_to_queue _ r' w1).
  assert (Hw2 : w2.(db) = w1.(db)) by reflexivity.
  clearbody w2. clear r'.
  destruct (post_turn_cases payload.(GameLogic.TaskPayload.game_state).(GameState.game_phase)
              payload.(GameLogic.TaskPayload.session_id)
              payload.(GameLogic.TaskPayload.client_id) final w2)
    as [-> | (final' & _ & Hp' & Hph' & [-> | (_ & _ & ->)])].
  - rewrite Hw2. apply Hw1.
  - intros Hg. apply update_lookup in Hg as [-> | Hg].
    + right. unfold pending_iff_awaiting in *. now rewrite Hp', Hph'.
    + rewrite Hw2 in Hg. now apply Hw1.
  - intros Hg. apply update_lookup in Hg as [-> | Hg].
    + right. unfold pending_iff_awaiting in *. now rewrite Hp', Hph'.
    + cbn [delay_npc_turn_task db] in Hg. rewrite Hw2 in Hg. now apply Hw1.
Qed.

(** Whether a hostile entity is left standing. *)
Lemma remaining_hostiles_spec (g : GameState.t) :
  if Rules.remaining_hostiles g
  then Exists (fun e => e.(SceneEntity.is_hostile) = true /\ 0 < e.(SceneEntity.health))
              g.(GameState.scene_context).(SceneContext.entities)
  else Forall (fun e => e.(SceneEntity.is_hostile) = true -> e.(SceneEntity.health) <= 0)
              g.(GameState.scene_context).(SceneContext.entities).
Proof.
  unfold Rules.remaining_hostiles.
  induction (SceneContext.entities (GameState.scene_context g)) as [|e es IH];
    cbn [existsb]; [constructor|].
  destruct (SceneEntity.is_hostile e) eqn:Hhostile; cbn [andb orb].
  - destruct (Z.ltb_spec 0 (SceneEntity.health e)) as [Hpos|Hle]; cbn [orb].
    + left. now split.
    + destruct (existsb _ es); [now right|]. constructor; [intros _; lia | exact IH].
  - destruct (existsb _ es); [now right|].
    constructor; [intros H; congruence | exact IH].
Qed.

(** An NPC task leaves the pending action of the row alone. *)
Lemma npc_task_pending (env : Env) (session_id client_id : string) (w : World)
    (g g' : GameState.t) :
  w.(db) !! session_id = Some g ->
  (GameLogic.process_npc_turn_task env session_id client_id w).(db) !! session_id = Some g' ->
  g'.(GameState.pending_action) = g.(GameState.pending_action)
  /\ (g'.(GameState.game_phase) = g.(GameState.game_phase)
      \/ (Forall (fun e => e.(SceneEntity.is_hostile) = true -> e.(SceneEntity.health) <= 0)
                 g.(GameState.scene_context).(SceneContext.entities)
          /\ g'.(GameState.game_phase) = "GAME_IN_PROGRESS")).
Proof.
  intros Hrow. destruct (npc_task_step env session_id client_id w g Hrow) as [narrative ->].
  pose proof (remaining_hostiles_spec g) as Hhostiles.
  destruct (Rules.remaining_hostiles g).
  - pose proof (advance_turn_fields g) as (_ & Hp & Hph & _).
    destruct (GameLogic._advance_turn_in_combat g) as [g1 is_npc]. cbn [fst snd db] in *.
    rewrite lookup_insert_eq. intros [= <-]. split; [exact Hp | now left].
  - cbn [db]. rewrite lookup_insert_eq. intros [= <-].
    split; [reflexivity | right; now split].
Qed.

(** Without stale deliveries the system keeps its invariant. *)
Lemma reachable_invariant (s : System) :
  reachable true s -> system_invariant s.(world) /\ no_forced_task s.(gm_tasks).
Proof.
  induction 1 as [|s s' _ [IH Htasks] Hstep].
  - split; [split|constructor].
    + intros k g Hrow. cbn [world db] in Hrow. rewrite lookup_empty in Hrow. discriminate.
    + split; [constructor | intros k c []].
  - destruct Hstep as [session_id game_id Hnew
                      | session_id row client_id action language Hrow Hforce
                      | env payload before after Hqueue Hfresh
                      | env session_id client_id before after Hqueue];
      cbn [world gm_tasks].
    + split; [now apply new_session_invariant | exact Htasks].
    + split; [exact IH|]. apply Forall_app. split; [exact Htasks|].
      constructor; [exact Hforce | constructor].
    + unfold no_forced_task in *. rewrite Hqueue in Htasks.
      apply Forall_app in Htasks as (Hbefore & Htask).
      apply Forall_cons_1 in Htask as (Hforce & Hafter).
      split; [|apply Forall_app; now split].
      specialize (Hfresh eq_refl). unfold snapshot_is_row in Hfresh.
      destruct IH as (Hrows & Hq).
      destruct (Hrows _ _ Hfresh) as (Hsid & _).
      destruct payload as [sid g c a l]. cbn in Hfresh, Hsid, Hforce.
      replace (GameLogic.TaskPayload.mk sid g c a l) with (endpoint_task g c a l)
        by (unfold endpoint_task; now rewrite Hsid).
      now apply (player_task_invariant env s.(world) sid g c a l (conj Hrows Hq)).
    + split; [now apply npc_task_invariant | exact Htasks].
Qed.

(** What the system does in step it does at all. *)
Lemma reachable_in_step (s : System) : reachable true s -> reachable false s.
Proof.
  induction 1 as [|s s' _ IH Hstep]; [constructor|].
  apply (reachable_step false s s' IH).
  destruct Hstep as [session_id game_id Hnew
                    | session_id row client_id action language Hrow Hforce
                    | env payload before after Hqueue Hfresh
                    | env session_id client_id before after Hqueue].
  - now apply step_new_session.
  - now apply (step_message false s session_id row).
  - apply step_player_task; [exact Hqueue | discriminate].
  - now apply step_npc_task.
Qed.

(** A client's action handled at once, on the row as the endpoint reads
    it, is a message received and its task handled in step. *)
Lemma play_reachable (env : Env) (session_id client_id action_text language : string)
    (w : World) (tasks : list GameLogic.TaskPayload.t) :
  action_text <> "FORCE_GAME_STATE" ->
  reachable true (mkSystem w tasks) ->
  reachable true (mkSystem (play env session_id client_id action_text language w) tasks).
Proof.
  intros Hforce Hreach. unfold play.
  destruct (w.(db) !! session_id) as [row|] eqn:Hrow; [|exact Hreach].
  destruct (reachable_invariant _ Hreach) as ((Hrows & _) & _).
  destruct (Hrows session_id row Hrow) as (Hsid & _).
  set (payload := endpoint_task row client_id _ language).
  assert (Hsent : reachable true (mkSystem w (tasks ++ [payload]))).
  { eapply reachable_step; [exact Hreach|].
    now apply (step_message true (mkSystem w tasks) session_id row). }
  assert (Hstep : step true (mkSystem w (tasks ++ [payload]))
                    (mkSystem (GameLogic.process_game_action_task env payload w).2
                       (tasks ++ []))).
  { apply (step_player_task true (mkSystem w (tasks ++ [payload])) env payload tasks []);
      [reflexivity|].
    intros _. unfold snapshot_is_row, payload, endpoint_task. cbn. now rewrite Hsid. }
  rewrite app_nil_r in Hstep.
  exact (reachable_step true _ _ Hsent Hstep).
Qed.

Lemma receive_reachable (in_step : bool)
    (session_id client_id action_text language : string) (s : System) :
  action_text <> "FORCE_GAME_STATE" ->
  reachable in_step s ->
  reachable in_step (receive session_id client_id action_text language s).
Proof.
  intros Hforce Hreach. unfold receive.
  destruct (s.(world).(db) !! session_id) as [row|] eqn:Hrow; [|exact Hreach].
  eapply reachable_step; [exact Hreach|].
  now apply (step_message in_step s session_id row).
Qed.

Lemma handle_next_reachable (env : Env) (s : System) :
  reachable false s -> reachable false (handle_next env s).
Proof.
  intros Hreach. unfold handle_next.
  destruct s.(gm_tasks) as [|payload rest] eqn:Hqueue; [exact Hreach|].
  eapply reachable_step; [exact Hreach|].
  apply (step_player_task false s env payload [] rest); [exact Hqueue | discriminate].
Qed.

Lemma npc_next_reachable (in_step : bool) (env : Env) (s : System) :
  reachable in_step s -> reachable in_step (npc_next env s).
Proof.
  intros Hreach. unfold npc_next, run_next_npc_task.
  destruct s.(world).(npc_queue) as [|[session_id client_id] rest] eqn:Hqueue;
    [exact Hreach|].
  eapply reachable_step; [exact Hreach|].
  apply (step_npc_task in_step s env session_id client_id [] rest). exact Hqueue.
Qed.

(** C3, as stated, fails: the worker handles a task on the snapshot it
    carries, also when the row has changed since. Kara sends two messages in
    a row, an attack on the fallen goblin and an attempt to sneak, and both
    tasks carry the same row. The attack opens the fight and queues the
    goblin's turn; the second task, stale by now, stores a state that awaits
    the confirmation of Kara's check; the goblin's turn then finds no hostile
    standing and sets the phase of that row to GAME_IN_PROGRESS, the pending
    action staying where it is. *)
Lemma stale_task_leaves_pending_action :
  reachable false stale_run
  /\ GameState.game_phase <$> (goblin_fallen.(db) !! "s1") = Some "GAME_IN_PROGRESS"
  /\ length two_messages.(gm_tasks) = 2%nat
  /\ GameState.game_phase <$> (fight_opened.(world).(db) !! "s1") = Some "IN_COMBAT"
  /\ fight_opened.(world).(npc_queue) = [("s1", "kara")]
  /\ GameState.game_phase <$> (stale_sneak.(world).(db) !! "s1")
     = Some "AWAITING_DICE_ROLL_CONFIRMATION"
  /\ GameState.game_phase <$> (stale_run.(world).(db) !! "s1") = Some "GAME_IN_PROGRESS"
  /\ (fun g => PendingAction.action_text <$> g.(GameState.pending_action))
       <$> (stale_run.(world).(db) !! "s1") = Some (Some "sneak past").
Proof.
  split; [|vm_compute; repeat split].
  assert (Hstart : reachable false (mkSystem goblin_fallen [])).
  { apply reachable_in_step.
    unfold goblin_fallen, kara_created.
    repeat (apply play_reachable; [discriminate|]).
    unfold session_created.
    eapply reachable_step; [apply reachable_start|].
    now apply (step_new_session true (mkSystem (mkWorld ∅ [] []) []) "s1" "g1"). }
  unfold stale_run, stale_sneak, fight_opened, two_messages.
  apply npc_next_reachable.
  do 2 apply handle_next_reachable.
  do 2 (apply receive_reachable; [discriminate|]).
  exact Hstart.
Qed.

(** C3, amended. As long as the worker handles every task of a player while
    the row of the session is still the snapshot the task carries, in every
    state the system reaches from the empty store (sessions created,
    messages received, tasks other than FORCE_GAME_STATE handled, queued NPC
    tasks run) the pending action is present if and only if the phase is
    AWAITING_DICE_ROLL_CONFIRMATION. Phase 1 of a skill check sets the two
    together; phase 2, when it returns on a pending action, clears it and
    leaves the phase for GAME_IN_PROGRESS. A player's task, stale or not,
    writes only states in which the two agree when they agree in its
    snapshot; an NPC task never touches the pending action of the row and
    changes the phase only to GAME_IN_PROGRESS, when no hostile entity has
    health above 0. *)
Theorem pending_action_iff_awaiting_phase :
  (forall (s : System) (session_id : string) (g : GameState.t),
      reachable true s ->
      s.(world).(db) !! session_id = Some g ->
      (is_Some g.(GameState.pending_action)
       <-> g.(GameState.game_phase) = "AWAITING_DICE_ROLL_CONFIRMATION"))
  /\ (forall raw intent g actor,
        let after := (Rules.handle_skill_check_intent raw intent g actor).1.1 in
        is_Some after.(GameState.pending_action)
        /\ after.(GameState.game_phase) = "AWAITING_DICE_ROLL_CONFIRMATION")
  /\ (forall env g language_pref after payload,
        is_Some g.(GameState.pending_action) ->
        GameLogic._handle_dice_roll_confirmation env g language_pref = Ok (after, payload) ->
        after.(GameState.pending_action) = None
        /\ after.(GameState.game_phase) = "GAME_IN_PROGRESS")
  /\ (forall env payload w session_id g',
        action_text_of payload.(GameLogic.TaskPayload.client_action) <> "FORCE_GAME_STATE" ->
        (is_Some payload.(GameLogic.TaskPayload.game_state).(GameState.pending_action)
         <-> payload.(GameLogic.TaskPayload.game_state).(GameState.game_phase)
             = "AWAITING_DICE_ROLL_CONFIRMATION") ->
        (GameLogic.process_game_action_task env payload w).2.(db) !! session_id = Some g' ->
        w.(db) !! session_id = Some g'
        \/ (is_Some g'.(GameState.pending_action)
            <-> g'.(GameState.game_phase) = "AWAITING_DICE_ROLL_CONFIRMATION"))
  /\ (forall env session_id client_id w g g',
        w.(db) !! session_id = Some g ->
        (GameLogic.process_npc_turn_task env session_id client_id w).(db) !! session_id
        = Some g' ->
        g'.(GameState.pending_action) = g.(GameState.pending_action)
        /\ (g'.(GameState.game_phase) = g.(GameState.game_phase)
            \/ (Forall (fun e => e.(SceneEntity.is_hostile) = true
                                 -> e.(SceneEntity.health) <= 0)
                       g.(GameState.scene_context).(SceneContext.entities)
                /\ g'.(GameState.game_phase) = "GAME_IN_PROGRESS"))).
Proof.
  split; [|split; [|split; [|split]]].
  - intros s session_id g Hreach Hrow.
    destruct (reachable_invariant s Hreach) as ((Hrows & _) & _).
    now destruct (Hrows session_id g Hrow).
  - intros raw intent g actor. cbn. split; [eexists|]; reflexivity.
  - intros env g language_pref after payload [pending Hpending] Hok.
    unfold GameLogic._handle_dice_roll_confirmation, rbind in Hok.
    rewrite Hpending in Hok.
    match type of Hok with
    | context [match ?x with Ok _ => _ | Raise _ => _ end] =>
        destruct x as [[[g1 a1] o1]|]; [|discriminate]
    end.
    apply narrate_turn_fields in Hok as (_ & Hp & Hph & _).
    now split.
  - intros env payload w session_id g'. apply player_task_rows.
  - intros env session_id client_id w g g'. apply npc_task_pending.
Qed.

(** *** A session played from its creation to a pending skill check *)

Lemma pending_action_iff_awaiting_phase_witness :
  exists g,
    kara_sneaks.(db) !! "s1" = Some g
    /\ (is_Some g.(GameState.pending_action)
        <-> g.(GameState.game_phase) = "AWAITING_DICE_ROLL_CONFIRMATION").
Proof.
  destruct (kara_sneaks.(db) !! "s1") as [g|] eqn:Hrow; [|vm_compute in Hrow; discriminate].
  exists g. split; [reflexivity|].
  apply (proj1 pending_action_iff_awaiting_phase (mkSystem kara_sneaks []) "s1" g);
    [|exact Hrow].
  unfold kara_sneaks, kara_created.
  repeat (apply play_reachable; [discriminate|]).
  unfold session_created.
  eapply reachable_step; [apply reachable_start|].
  now apply (step_new_session true (mkSystem (mkWorld ∅ [] []) []) "s1" "g1").
Defined.

Example session_played :
  reachable true (mkSystem kara_sneaks [])
  /\ GameState.game_phase <$> (kara_created.(db) !! "s1") = Some "GAME_IN_PROGRESS"
  /\ GameState.current_turn_entity_id <$> (kara_created.(db) !! "s1")
     = Some (Some "char_0a1b2c3d")
  /\ (fun g => PlayerCharacter.name <$> Players.values g.(GameState.players))
       <$> (kara_created.(db) !! "s1") = Some ["Kara"]
  /\ GameState.scene_context <$> (kara_created.(db) !! "s1") = Some Sample.cave
  /\ GameState.game_phase <$> (kara_sneaks.(db) !! "s1")
     = Some "AWAITING_DICE_ROLL_CONFIRMATION"
  /\ (fun g => PendingAction.dice_roll <$> g.(GameState.pending_action))
       <$> (kara_sneaks.(db) !! "s1") = Some (Some 17)
  /\ (ResultPayload.event_type ∘ snd) <$> kara_sneaks.(published)
     = ["WORLD_OPTIONS_PRESENTED"; "STATE_UPDATE_PROMPT_USER"; "CLASS_OPTIONS_PRESENTED";
        "STATE_UPDATE_PROMPT_USER"; "NARRATIVE_UPDATE"; "DICE_ROLL_REQUESTED"].
Proof.
  split.
  { unfold kara_sneaks, kara_created.
    repeat (apply play_reachable; [discriminate|]).
    unfold session_created.
    eapply reachable_step; [apply reachable_start|].
    now apply (step_new_session true (mkSystem (mkWorld ∅ [] []) []) "s1" "g1"). }
  vm_compute. repeat split.
Qed.

(** ** The rules engine on the scenarios of the specification *)

(** Acquiring "Sword" and then "sword" leaves one sword in the inventory. *)
Example inventory_acquisition_idempotent :
  let acquire name :=
    PlayerIntent.mk "MANAGE_INVENTORY" "pick up" (Some name) true None None None in
  let first := Rules.handle_inventory_intent (acquire "Sword") Sample.in_progress Sample.bram in
  let second := Rules.handle_inventory_intent (acquire "sword") first.1.1 first.1.2 in
  Item.name <$> second.1.2.(PlayerCharacter.inventory) = ["Sword"]
  /\ second.2 = "The player already has a 'Sword'.".
Proof. vm_compute. split; reflexivity. Qed.

(** Attacking a target that is not in the scene changes nothing. *)
Example attack_absent_target :
  let attack :=
    PlayerIntent.mk "ATTACK" "strike" None false (Some "Dragon") None None in
  Rules.handle_attack_intent 3 attack fighting_goblin Sample.kara
  = (fighting_goblin, Sample.kara,
     "The player tried to attack 'Dragon', but there is no such target.").
Proof. reflexivity. Qed.

(** An attack on a hostile entity outside combat starts the fight and
    nothing else: the attack itself waits for the next turn. *)
Example attack_begins_combat :
  let attack :=
    PlayerIntent.mk "ATTACK" "strike" None false (Some "goblin") None None in
  let out := Rules.process_turn_events (fun _ => 9) attack Sample.in_progress Sample.kara in
  out.1.1.1.(GameState.game_phase) = "IN_COMBAT"
  /\ out.1.1.1.(GameState.initiative_order) = ["char_kara"; "ent_inst_gob1"]
  /\ out.1.1.1.(GameState.scene_context) = Sample.cave
  /\ out.1.2 = "Combat begins! The air crackles with tension as initiative is rolled."
  /\ out.2 = false.
Proof. vm_compute. repeat split. Qed.

(** In combat, the blow that fells the last hostile ends the fight. *)
Example last_blow_ends_combat :
  let attack :=
    PlayerIntent.mk "ATTACK" "strike" None false (Some "Goblin") None None in
  let out := Rules.process_turn_events (fun _ => 0) attack fighting_goblin Sample.kara in
  out.1.1.1.(GameState.game_phase) = "GAME_IN_PROGRESS"
  /\ out.1.1.1.(GameState.initiative_order) = []
  /\ out.1.1.1.(GameState.current_turn_entity_id) = Some "char_kara"
  /\ SceneEntity.health
       <$> out.1.1.1.(GameState.scene_context).(SceneContext.entities) = [-2].
Proof. vm_compute. repeat split. Qed.

(** * Further properties of the code *)

(** ** Levels and rewards *)

Lemma level_up_announcement_nonempty (p : PlayerCharacter.t) :
  Py.truthy_str (Rules.level_up_announcement p) = true.
Proof.
  unfold Rules.level_up_announcement.
  now destruct (PlayerCharacter.name p).
Qed.

Lemma prefix_refl (a : string) : String.prefix a a = true.
Proof.
  induction a as [|c a IH]; [reflexivity|].
  cbn [String.prefix]. now destruct (ascii_dec c c).
Qed.

Lemma prefix_append (a b : string) : String.prefix a (a +:+ b) = true.
Proof.
  induction a as [|c a IH]; [now destruct b|].
  change (String c a +:+ b) with (String c (a +:+ b)).
  cbn [String.prefix]. now destruct (ascii_dec c c).
Qed.

(** What [_check_for_level_up] does, field by field. *)
Lemma check_for_level_up_cases (player : PlayerCharacter.t) :
  (player.(PlayerCharacter.xp) < player.(PlayerCharacter.level) * 1000
   /\ Rules._check_for_level_up player = (player, ""))
  \/ (player.(PlayerCharacter.level) * 1000 <= player.(PlayerCharacter.xp)
      /\ exists after,
          Rules._check_for_level_up player = (after, Rules.level_up_announcement after)
          /\ after
             = PlayerCharacter.set_xp
                 (player.(PlayerCharacter.xp) - player.(PlayerCharacter.level) * 1000)
                 (PlayerCharacter.set_health (player.(PlayerCharacter.max_health) + 10)
                    (PlayerCharacter.set_max_health (player.(PlayerCharacter.max_health) + 10)
                       (PlayerCharacter.set_level (player.(PlayerCharacter.level) + 1)
                          player)))).
Proof.
  unfold Rules._check_for_level_up.
  destruct (Z.leb_spec (player.(PlayerCharacter.level) * 1000) player.(PlayerCharacter.xp))
    as [Hge|Hlt].
  - right. split; [exact Hge|]. eexists. split; reflexivity.
  - left. now split.
Qed.

(** X1. [_check_for_level_up] raises the level by one at most, whatever the XP
    banked, and exactly when the XP reach [level * 1000]; the experience
    earned in all is conserved (the threshold is paid out of the banked XP);
    a level gained brings ten points of maximal health and a full heal; the
    message is empty exactly when nothing changed; a player whose health
    does not exceed the maximum stays so, and from level 1 on the banked XP
    never become negative. *)
Theorem level_up_conserves_experience (player : PlayerCharacter.t) :
  let out := Rules._check_for_level_up player in
  let after := out.1 in
  experience_earned after = experience_earned player
  /\ (after.(PlayerCharacter.level) = player.(PlayerCharacter.level) + 1
      <-> player.(PlayerCharacter.level) * 1000 <= player.(PlayerCharacter.xp))
  /\ (after.(PlayerCharacter.level) = player.(PlayerCharacter.level)
      <-> player.(PlayerCharacter.xp) < player.(PlayerCharacter.level) * 1000)
  /\ (after.(PlayerCharacter.level) = player.(PlayerCharacter.level) ->
      after = player /\ out.2 = "")
  /\ (after.(PlayerCharacter.level) = player.(PlayerCharacter.level) + 1 ->
      after.(PlayerCharacter.max_health) = player.(PlayerCharacter.max_health) + 10
      /\ after.(PlayerCharacter.health) = after.(PlayerCharacter.max_health)
      /\ out.2 = Rules.level_up_announcement after /\ out.2 <> "")
  /\ (player.(PlayerCharacter.health) <= player.(PlayerCharacter.max_health) ->
      after.(PlayerCharacter.health) <= after.(PlayerCharacter.max_health))
  /\ (1 <= player.(PlayerCharacter.level) -> 0 <= player.(PlayerCharacter.xp) ->
      0 <= after.(PlayerCharacter.xp) <= player.(PlayerCharacter.xp))
  /\ after.(PlayerCharacter.inventory) = player.(PlayerCharacter.inventory)
  /\ after.(PlayerCharacter.currency) = player.(PlayerCharacter.currency)
  /\ after.(PlayerCharacter.character_id) = player.(PlayerCharacter.character_id).
Proof.
  intros out after. subst after out.
  destruct (check_for_level_up_cases player) as [[Hlt ->] | [Hge (after & -> & Hafter)]];
    cbn [fst snd].
  - repeat split; try tauto; try lia.
  - assert (Hmsg : Rules.level_up_announcement after <> "").
    { apply truthy_nonempty, level_up_announcement_nonempty. }
    subst after. unfold experience_earned. cbn.
    repeat split; try tauto; try lia; try (intros; lia).
Qed.

(** X2. [_apply_rewards]: the currency and the experience earned grow by the
    reward's, the items are appended to the inventory in their order
    (nothing is merged or dropped), the level rises by one at most however
    large the reward, and the text starts with the XP and currency received
    and ends with the announcement of the new level exactly when one was
    gained. *)
Theorem apply_rewards_effect (player : PlayerCharacter.t) (rewards : QuestRewards.t) :
  let out := Rules._apply_rewards player rewards in
  let after := out.1 in
  experience_earned after = experience_earned player + rewards.(QuestRewards.xp)
  /\ after.(PlayerCharacter.currency)
     = player.(PlayerCharacter.currency) + rewards.(QuestRewards.currency)
  /\ after.(PlayerCharacter.inventory)
     = player.(PlayerCharacter.inventory) ++ rewards.(QuestRewards.items)
  /\ (after.(PlayerCharacter.level) = player.(PlayerCharacter.level)
      \/ after.(PlayerCharacter.level) = player.(PlayerCharacter.level) + 1)
  /\ (after.(PlayerCharacter.level) = player.(PlayerCharacter.level) + 1
      <-> player.(PlayerCharacter.level) * 1000
          <= player.(PlayerCharacter.xp) + rewards.(QuestRewards.xp))
  /\ exists summary,
       String.prefix
         ("Received " +:+ Py.str rewards.(QuestRewards.xp) +:+ " XP, "
          +:+ Py.str rewards.(QuestRewards.currency) +:+ " currency.") summary = true
       /\ (after.(PlayerCharacter.level) = player.(PlayerCharacter.level) ->
           out.2 = summary)
       /\ (after.(PlayerCharacter.level) = player.(PlayerCharacter.level) + 1 ->
           out.2 = summary +:+ " " +:+ Rules.level_up_announcement after).
Proof.
  intros out after. subst after out. unfold Rules._apply_rewards.
  set (p1 := PlayerCharacter.set_inventory _ _).
  set (text := match QuestRewards.items rewards with [] => _ | _ :: _ => _ end).
  assert (Hprefix :
    String.prefix
      ("Received " +:+ Py.str rewards.(QuestRewards.xp) +:+ " XP, "
       +:+ Py.str rewards.(QuestRewards.currency) +:+ " currency.") text = true).
  { subst text. destruct (QuestRewards.items rewards).
    - apply prefix_refl.
    - apply prefix_append. }
  assert (Hxp : p1.(PlayerCharacter.xp)
                = player.(PlayerCharacter.xp) + rewards.(QuestRewards.xp)) by reflexivity.
  assert (Hlevel : p1.(PlayerCharacter.level) = player.(PlayerCharacter.level))
    by reflexivity.
  assert (Hearned : experience_earned p1
                    = experience_earned player + rewards.(QuestRewards.xp)).
  { unfold experience_earned. rewrite Hxp, Hlevel. lia. }
  destruct (check_for_level_up_cases p1) as [[Hlt Heq] | [Hge (after & Heq & Hafter)]];
    rewrite Heq; cbn [fst snd].
  - split; [exact Hearned|]. split; [reflexivity|]. split; [reflexivity|].
    split; [now left|]. split; [rewrite <- Hxp, <- Hlevel; split; [lia|intros; lia]|].
    exists text. split; [exact Hprefix|]. split; [reflexivity|]. intros; lia.
  - rewrite level_up_announcement_nonempty.
    assert (Hl : after.(PlayerCharacter.level) = player.(PlayerCharacter.level) + 1)
      by now subst after.
    assert (Hx : after.(PlayerCharacter.xp)
                 = player.(PlayerCharacter.xp) + rewards.(QuestRewards.xp)
                   - player.(PlayerCharacter.level) * 1000) by now subst after.
    split; [unfold experience_earned; rewrite Hl, Hx; lia|].
    split; [now subst after|]. split; [now subst after|].
    split; [now right|]. split; [rewrite <- Hxp, <- Hlevel; tauto|].
    exists text. split; [exact Hprefix|]. split; [intros; lia | reflexivity].
Qed.

(** ** The inventory *)

Lemma lower_char_idem (c : ascii) : Py.lower_char (Py.lower_char c) = Py.lower_char c.
Proof. destruct c as [[] [] [] [] [] [] [] []]; reflexivity. Qed.

Lemma lower_upper_char (c : ascii) : Py.lower_char (Py.upper_char c) = Py.lower_char c.
Proof. destruct c as [[] [] [] [] [] [] [] []]; reflexivity. Qed.

Lemma lower_title_go (prev_cased : bool) (s : string) :
  Py.lower (Py.title_go prev_cased s) = Py.lower s.
Proof.
  revert prev_cased. induction s as [|c s IH]; intros prev_cased; [reflexivity|].
  cbn [Py.title_go]. destruct (Py.is_alpha c); cbn [Py.lower]; rewrite IH; [|reflexivity].
  destruct prev_cased; now rewrite ?lower_char_idem, ?lower_upper_char.
Qed.

(** Title-casing changes the case of letters only. *)
Lemma lower_title (s : string) : Py.lower (Py.title s) = Py.lower s.
Proof. apply lower_title_go. Qed.

Lemma lower_app (a b : string) : Py.lower (a +:+ b) = Py.lower a +:+ Py.lower b.
Proof.
  induction a as [|c a IH]; [reflexivity|].
  change (String c a +:+ b) with (String c (a +:+ b)). cbn [Py.lower]. rewrite IH.
  reflexivity.
Qed.

Lemma truthy_title (s : string) : Py.truthy_str (Py.title s) = Py.truthy_str s.
Proof. destruct s as [|c s]; [reflexivity|]. unfold Py.title. cbn. now destruct (Py.is_alpha c). Qed.

Lemma name_is_title (n : string) (item : Item.t) :
  Rules.name_is (Py.title n) item
  = String.eqb (Py.lower item.(Item.name)) (Py.lower n).
Proof. unfold Rules.name_is. now rewrite lower_title. Qed.

Lemma holds_title (n : string) (inventory : list Item.t) :
  existsb (Rules.name_is (Py.title n)) inventory = holds n inventory.
Proof.
  unfold holds. induction inventory as [|i l IH]; [reflexivity|].
  cbn [existsb]. now rewrite IH, name_is_title.
Qed.

Lemma foreign_title (n : string) :
  existsb (fun keyword => Py.contains keyword (Py.lower (Py.title n)))
          Rules.INCOHERENT_ITEM_KEYWORDS
  = foreign n.
Proof. unfold foreign. now rewrite lower_title. Qed.

Lemma set_inventory_same (p : PlayerCharacter.t) :
  PlayerCharacter.set_inventory p.(PlayerCharacter.inventory) p = p.
Proof. now destruct p. Qed.

(** An acquisition, case by case. *)
Lemma acquisition_cases (intent : PlayerIntent.t) (n : string) (g : GameState.t)
    (p : PlayerCharacter.t) :
  intent.(PlayerIntent.item_name) = Some n ->
  intent.(PlayerIntent.is_acquisition) = true ->
  (Rules.handle_inventory_intent intent g p).1
  = (g,
     if Py.truthy_str n && negb (foreign n) && negb (holds n p.(PlayerCharacter.inventory))
     then PlayerCharacter.set_inventory
            (p.(PlayerCharacter.inventory)
             ++ [Item.mk (Py.title n) (Some "A newly found item.") "misc"]) p
     else p).
Proof.
  intros Hname Hacq. unfold Rules.handle_inventory_intent. rewrite Hname, Hacq.
  destruct (Py.truthy_str n); cbn [negb andb]; [|reflexivity].
  rewrite foreign_title, holds_title.
  destruct (foreign n); cbn [negb andb]; [reflexivity|].
  now destruct (holds n _).
Qed.

(** A disposal, case by case. *)
Lemma disposal_cases (intent : PlayerIntent.t) (n : string) (g : GameState.t)
    (p : PlayerCharacter.t) :
  intent.(PlayerIntent.item_name) = Some n ->
  intent.(PlayerIntent.is_acquisition) = false ->
  (Rules.handle_inventory_intent intent g p).1
  = (g,
     if Py.truthy_str n && holds n p.(PlayerCharacter.inventory)
     then PlayerCharacter.set_inventory
            (Rules.remove_first (Py.title n) p.(PlayerCharacter.inventory)) p
     else p).
Proof.
  intros Hname Hacq. unfold Rules.handle_inventory_intent. rewrite Hname, Hacq.
  destruct (Py.truthy_str n); cbn [negb andb]; [|reflexivity].
  rewrite holds_title. now destruct (holds n _).
Qed.

Lemma holds_lower (n1 n2 : string) (inventory : list Item.t) :
  Py.lower n1 = Py.lower n2 -> holds n1 inventory = holds n2 inventory.
Proof. intros H. unfold holds. now rewrite H. Qed.

Lemma foreign_lower (n1 n2 : string) :
  Py.lower n1 = Py.lower n2 -> foreign n1 = foreign n2.
Proof. intros H. unfold foreign. now rewrite H. Qed.

Lemma truthy_lower_eq (n1 n2 : string) :
  Py.lower n1 = Py.lower n2 -> Py.truthy_str n1 = Py.truthy_str n2.
Proof. destruct n1, n2; simpl; congruence. Qed.

Lemma holds_app (n : string) (l1 l2 : list Item.t) :
  holds n (l1 ++ l2) = holds n l1 || holds n l2.
Proof. unfold holds. apply existsb_app. Qed.

(** X3. An item is acquired once. For names in ASCII text: after an
    acquisition, whatever its outcome, a second acquisition of an item of
    the same name, in any casing of its letters ("Sword", then "sWORD"),
    leaves the player exactly as the first left them, whatever state the
    handler is given; the first acquisition adds one item at most, at the
    end of the inventory, under the name in title case, and it does add it
    when the name is not empty, holds no foreign keyword and is not held
    yet. *)
Theorem item_acquired_once (first again : PlayerIntent.t) (n1 n2 : string)
    (g g' : GameState.t) (p : PlayerCharacter.t) :
  first.(PlayerIntent.item_name) = Some n1 ->
  again.(PlayerIntent.item_name) = Some n2 ->
  first.(PlayerIntent.is_acquisition) = true ->
  again.(PlayerIntent.is_acquisition) = true ->
  Py.is_ascii n1 = true ->
  Py.is_ascii n2 = true ->
  Forall (fun item => Py.is_ascii item.(Item.name) = true) p.(PlayerCharacter.inventory) ->
  Py.lower n1 = Py.lower n2 ->
  let once := (Rules.handle_inventory_intent first g p).1.2 in
  let twice := (Rules.handle_inventory_intent again g' once).1.2 in
  twice = once
  /\ twice.(PlayerCharacter.inventory) = once.(PlayerCharacter.inventory)
  /\ (once.(PlayerCharacter.inventory) = p.(PlayerCharacter.inventory)
      \/ exists item,
           once.(PlayerCharacter.inventory) = p.(PlayerCharacter.inventory) ++ [item]
           /\ item.(Item.name) = Py.title n1)
  /\ (n1 <> "" -> foreign n1 = false -> holds n1 p.(PlayerCharacter.inventory) = false ->
      once.(PlayerCharacter.inventory)
      = p.(PlayerCharacter.inventory)
        ++ [Item.mk (Py.title n1) (Some "A newly found item.") "misc"])
  /\ Py.lower "sWORD" = Py.lower "Sword"
  /\ Py.title "sWORD" = "Sword".
Proof.
  intros H1 H2 Ha1 Ha2 _ _ _ Hlow once twice.
  assert (Hadded : n1 <> "" -> foreign n1 = false ->
                   holds n1 p.(PlayerCharacter.inventory) = false ->
                   once.(PlayerCharacter.inventory)
                   = p.(PlayerCharacter.inventory)
                     ++ [Item.mk (Py.title n1) (Some "A newly found item.") "misc"]).
  { intros Hne Hf Hh. subst once.
    rewrite (acquisition_cases first n1 g p H1 Ha1). cbn [fst snd].
    apply truthy_nonempty in Hne. now rewrite Hne, Hf, Hh. }
  cut (twice = once
       /\ twice.(PlayerCharacter.inventory) = once.(PlayerCharacter.inventory)
       /\ (once.(PlayerCharacter.inventory) = p.(PlayerCharacter.inventory)
           \/ exists item,
                once.(PlayerCharacter.inventory) = p.(PlayerCharacter.inventory) ++ [item]
                /\ item.(Item.name) = Py.title n1)).
  { intros (Ha & Hb & Hc). repeat split; assumption. }
  clear Hadded. subst twice once.
  rewrite (acquisition_cases first n1 g p H1 Ha1). cbn [fst snd].
  rewrite (acquisition_cases again n2 g' _ H2 Ha2). cbn [fst snd].
  rewrite <- (truthy_lower_eq n1 n2 Hlow), <- (foreign_lower n1 n2 Hlow).
  destruct (Py.truthy_str n1) eqn:Ht; cbn [andb negb];
    [|split; [reflexivity|split; [reflexivity|now left]]].
  destruct (foreign n1) eqn:Hf; cbn [andb negb];
    [split; [reflexivity|split; [reflexivity|now left]]|].
  destruct (holds n1 p.(PlayerCharacter.inventory)) eqn:Hh; cbn [andb negb].
  - rewrite <- (holds_lower n1 n2 _ Hlow), Hh. cbn [negb].
    split; [reflexivity|split; [reflexivity|now left]].
  - cbn [PlayerCharacter.inventory PlayerCharacter.set_inventory].
    rewrite holds_app. replace (holds n2 [_]) with true.
    + rewrite orb_true_r. cbn [negb].
      split; [reflexivity|]. split; [reflexivity|]. right. eexists. split; reflexivity.
    + unfold holds. cbn [existsb Item.name]. rewrite lower_title, Hlow, String.eqb_refl.
      reflexivity.
Qed.

Lemma item_acquired_once_witness :
  let first :=
    PlayerIntent.mk "MANAGE_INVENTORY" "pick up" (Some "lantern") true None None None in
  let again :=
    PlayerIntent.mk "MANAGE_INVENTORY" "pick up" (Some "LANTERN") true None None None in
  let once := (Rules.handle_inventory_intent first Sample.in_progress Sample.kara).1.2 in
  let twice := (Rules.handle_inventory_intent again Sample.in_progress once).1.2 in
  Item.name <$> once.(PlayerCharacter.inventory) = ["Sword"; "Lantern"]
  /\ twice = once.
Proof.
  split; [reflexivity|].
  apply (item_acquired_once
           (PlayerIntent.mk "MANAGE_INVENTORY" "pick up" (Some "lantern") true None None None)
           (PlayerIntent.mk "MANAGE_INVENTORY" "pick up" (Some "LANTERN") true None None None)
           "lantern" "LANTERN" Sample.in_progress Sample.in_progress Sample.kara);
    try reflexivity.
  repeat constructor.
Defined.

Lemma holds_in (n : string) (inventory : list Item.t) :
  holds n inventory = true
  <-> In (Py.lower n) (map (fun item => Py.lower item.(Item.name)) inventory).
Proof.
  unfold holds. rewrite existsb_exists, in_map_iff. split.
  - intros (i & Hi & Heq). apply String.eqb_eq in Heq. now exists i.
  - intros (i & Heq & Hi). exists i. split; [exact Hi|]. now apply String.eqb_eq.
Qed.

Lemma remove_first_sublist (n : string) (l : list Item.t) :
  sublist (Rules.remove_first n l) l.
Proof.
  induction l as [|i l IH]; cbn [Rules.remove_first]; [constructor|].
  destruct (Rules.name_is n i); [now apply sublist_cons | now apply sublist_skip].
Qed.

(** [remove_first] takes out the first item of that name and nothing else. *)
Lemma remove_first_split (n : string) (pre post : list Item.t) (item : Item.t) :
  holds n pre = false ->
  Py.lower item.(Item.name) = Py.lower n ->
  Rules.remove_first (Py.title n) (pre ++ item :: post) = pre ++ post.
Proof.
  intros Hpre Hitem. induction pre as [|i pre IH]; cbn [app Rules.remove_first].
  - now rewrite name_is_title, Hitem, String.eqb_refl.
  - unfold holds in Hpre. cbn [existsb] in Hpre. apply orb_false_iff in Hpre as [Hi Hpre].
    rewrite name_is_title, Hi. f_equal. now apply IH.
Qed.

(** X4. The names of the inventory stay distinct: if no two items of the
    player have the same name up to case, this is still so after an
    inventory intent, acquisition or disposal. *)
Theorem inventory_names_stay_distinct (intent : PlayerIntent.t) (g : GameState.t)
    (p : PlayerCharacter.t) :
  distinct_names p.(PlayerCharacter.inventory) ->
  distinct_names (Rules.handle_inventory_intent intent g p).1.2.(PlayerCharacter.inventory).
Proof.
  intros Hdistinct.
  destruct (PlayerIntent.item_name intent) as [n|] eqn:Hname;
    [|unfold Rules.handle_inventory_intent; now rewrite Hname].
  destruct (PlayerIntent.is_acquisition intent) eqn:Hacq.
  - rewrite (acquisition_cases intent n g p Hname Hacq). cbn [snd].
    destruct (Py.truthy_str n && negb (foreign n)); cbn [andb]; [|exact Hdistinct].
    destruct (holds n p.(PlayerCharacter.inventory)) eqn:Hh; cbn [negb]; [exact Hdistinct|].
    cbn [PlayerCharacter.inventory PlayerCharacter.set_inventory].
    unfold distinct_names in *. rewrite map_app. cbn [map Item.name].
    apply NoDup_app. split; [exact Hdistinct|]. split; [|apply NoDup_singleton].
    intros x Hx Hin. apply list_elem_of_In in Hx, Hin. cbn [In] in Hin.
    destruct Hin as [<-|[]]. rewrite lower_title in Hx.
    apply holds_in in Hx. congruence.
  - rewrite (disposal_cases intent n g p Hname Hacq). cbn [snd].
    destruct (Py.truthy_str n && holds n _); [|exact Hdistinct].
    cbn [PlayerCharacter.inventory PlayerCharacter.set_inventory].
    unfold distinct_names in *.
    eapply sublist_NoDup; [exact Hdistinct|].
    apply (fmap_sublist (fun item => Py.lower item.(Item.name))), remove_first_sublist.
Qed.

Lemma inventory_names_stay_distinct_witness :
  distinct_names
    (Rules.handle_inventory_intent
       (PlayerIntent.mk "MANAGE_INVENTORY" "pick up" (Some "lantern") true None None None)
       Sample.in_progress Sample.kara).1.2.(PlayerCharacter.inventory).
Proof.
  apply (inventory_names_stay_distinct
           (PlayerIntent.mk "MANAGE_INVENTORY" "pick up" (Some "lantern") true None None None)
           Sample.in_progress Sample.kara).
  unfold distinct_names. vm_compute. apply NoDup_singleton.
Defined.

(** A disposal takes the first item of that name, up to case, out of the
    inventory and leaves the others in their order; the game state is not
    touched. *)
Lemma disposal_removes_first_match (intent : PlayerIntent.t) (n : string)
    (g : GameState.t) (p : PlayerCharacter.t) (pre post : list Item.t) (item : Item.t) :
  intent.(PlayerIntent.item_name) = Some n ->
  intent.(PlayerIntent.is_acquisition) = false ->
  p.(PlayerCharacter.inventory) = pre ++ item :: post ->
  holds n pre = false ->
  Py.lower item.(Item.name) = Py.lower n ->
  n <> "" ->
  (Rules.handle_inventory_intent intent g p).1
  = (g, PlayerCharacter.set_inventory (pre ++ post) p).
Proof.
  intros Hname Hacq Hinv Hpre Hitem Hne.
  rewrite (disposal_cases intent n g p Hname Hacq).
  apply truthy_nonempty in Hne. rewrite Hne, Hinv. cbn [andb].
  rewrite holds_app. replace (holds n (item :: post)) with true.
  - rewrite orb_true_r. now rewrite remove_first_split.
  - unfold holds. cbn [existsb]. now rewrite Hitem, String.eqb_refl.
Qed.

(** X5. For names in ASCII text: acquiring an item the player does not hold
    and disposing of it again, under the same name in any casing, gives back
    the player exactly as they were, inventory included, whatever states the
    handler is given; in between the item is in the inventory, at its end,
    unless the name is empty or holds a foreign keyword. *)
Theorem acquire_then_dispose_restores (take drop : PlayerIntent.t) (n1 n2 : string)
    (g g' : GameState.t) (p : PlayerCharacter.t) :
  take.(PlayerIntent.item_name) = Some n1 ->
  take.(PlayerIntent.is_acquisition) = true ->
  drop.(PlayerIntent.item_name) = Some n2 ->
  drop.(PlayerIntent.is_acquisition) = false ->
  Py.is_ascii n1 = true ->
  Py.is_ascii n2 = true ->
  Forall (fun item => Py.is_ascii item.(Item.name) = true) p.(PlayerCharacter.inventory) ->
  Py.lower n1 = Py.lower n2 ->
  holds n1 p.(PlayerCharacter.inventory) = false ->
  let acquired := (Rules.handle_inventory_intent take g p).1.2 in
  let disposed := (Rules.handle_inventory_intent drop g' acquired).1.2 in
  disposed = p
  /\ disposed.(PlayerCharacter.inventory) = p.(PlayerCharacter.inventory)
  /\ (n1 <> "" -> foreign n1 = false ->
      acquired.(PlayerCharacter.inventory)
      = p.(PlayerCharacter.inventory)
        ++ [Item.mk (Py.title n1) (Some "A newly found item.") "misc"])
  /\ Py.lower "LANTERN" = Py.lower "lantern"
  /\ Py.title "lantern" = "Lantern".
Proof.
  intros Ht Hta Hd Hda _ _ _ Hlow Hh acquired disposed.
  assert (Hadded : n1 <> "" -> foreign n1 = false ->
                   acquired.(PlayerCharacter.inventory)
                   = p.(PlayerCharacter.inventory)
                     ++ [Item.mk (Py.title n1) (Some "A newly found item.") "misc"]).
  { intros Hne Hf. subst acquired.
    rewrite (acquisition_cases take n1 g p Ht Hta). cbn [fst snd].
    apply truthy_nonempty in Hne. now rewrite Hne, Hf, Hh. }
  assert (Hsame : disposed = p);
    [|rewrite Hsame; repeat split; assumption].
  clear Hadded.
  subst disposed acquired.
  rewrite (acquisition_cases take n1 g p Ht Hta). cbn [fst snd].
  rewrite (disposal_cases drop n2 g' _ Hd Hda). cbn [fst snd].
  rewrite Hh. cbn [negb]. rewrite andb_true_r.
  destruct (Py.truthy_str n1 && negb (foreign n1)) eqn:Hok.
  - cbn [PlayerCharacter.inventory PlayerCharacter.set_inventory].
    apply andb_true_iff in Hok as [Htruthy _].
    rewrite <- (truthy_lower_eq n1 n2 Hlow), Htruthy. cbn [andb].
    rewrite holds_app. replace (holds n2 [_]) with true.
    + rewrite orb_true_r. rewrite remove_first_split.
      * rewrite app_nil_r. now destruct p.
      * now rewrite <- (holds_lower n1 n2 _ Hlow).
      * cbn [Item.name]. now rewrite lower_title.
    + unfold holds. cbn [existsb Item.name]. now rewrite lower_title, Hlow, String.eqb_refl.
  - rewrite <- (holds_lower n1 n2 _ Hlow), Hh. now rewrite andb_false_r.
Qed.

Lemma acquire_then_dispose_restores_witness :
  let take :=
    PlayerIntent.mk "MANAGE_INVENTORY" "pick up" (Some "lantern") true None None None in
  let drop :=
    PlayerIntent.mk "MANAGE_INVENTORY" "drop" (Some "LANTERN") false None None None in
  let acquired := (Rules.handle_inventory_intent take Sample.in_progress Sample.kara).1.2 in
  let disposed := (Rules.handle_inventory_intent drop Sample.in_progress acquired).1.2 in
  Item.name <$> acquired.(PlayerCharacter.inventory) = ["Sword"; "Lantern"]
  /\ disposed = Sample.kara.
Proof.
  split; [reflexivity|].
  apply (acquire_then_dispose_restores
           (PlayerIntent.mk "MANAGE_INVENTORY" "pick up" (Some "lantern") true None None None)
           (PlayerIntent.mk "MANAGE_INVENTORY" "drop" (Some "LANTERN") false None None None)
           "lantern" "LANTERN" Sample.in_progress Sample.in_progress Sample.kara);
    try reflexivity.
  repeat constructor.
Defined.

Lemma contains_prefix (sub s : string) :
  String.prefix sub s = true -> Py.contains sub s = true.
Proof. intros H. destruct s; cbn [Py.contains]; now rewrite H. Qed.

Lemma contains_middle (sub a b : string) : Py.contains sub (a +:+ sub +:+ b) = true.
Proof.
  induction a as [|c a IH].
  - change ("" +:+ sub +:+ b) with (sub +:+ b). apply contains_prefix, prefix_append.
  - change (String c a +:+ sub +:+ b) with (String c (a +:+ sub +:+ b)).
    cbn [Py.contains]. rewrite IH. apply orb_true_r.
Qed.

(** X6. An item whose name contains one of the six keywords, anywhere in the
    name and in any casing of its letters ("Shogun Armor" contains "gun"),
    is never acquired: the player and the state are returned as they
    were. *)
Theorem foreign_item_never_acquired (intent : PlayerIntent.t)
    (before word rest keyword : string) (g : GameState.t) (p : PlayerCharacter.t) :
  In keyword Rules.INCOHERENT_ITEM_KEYWORDS ->
  Py.lower word = keyword ->
  intent.(PlayerIntent.item_name) = Some (before +:+ word +:+ rest) ->
  intent.(PlayerIntent.is_acquisition) = true ->
  (Rules.handle_inventory_intent intent g p).1 = (g, p)
  /\ foreign (before +:+ word +:+ rest) = true.
Proof.
  intros Hkw Hword Hname Hacq.
  assert (Hforeign : foreign (before +:+ word +:+ rest) = true).
  { unfold foreign. apply existsb_exists. exists keyword. split; [exact Hkw|].
    rewrite !lower_app, Hword. apply contains_middle. }
  split; [|exact Hforeign].
  rewrite (acquisition_cases intent _ g p Hname Hacq), Hforeign.
  cbn [negb]. now rewrite andb_false_r.
Qed.

Lemma foreign_item_never_acquired_witness :
  (Rules.handle_inventory_intent
     (PlayerIntent.mk "MANAGE_INVENTORY" "pick up" (Some ("Sho" +:+ "GUN" +:+ " armor"))
        true None None None)
     Sample.in_progress Sample.kara).1
  = (Sample.in_progress, Sample.kara)
  /\ foreign ("Sho" +:+ "GUN" +:+ " armor") = true.
Proof.
  apply (foreign_item_never_acquired
           (PlayerIntent.mk "MANAGE_INVENTORY" "pick up"
              (Some ("Sho" +:+ "GUN" +:+ " armor")) true None None None)
           "Sho" "GUN" " armor" "gun" Sample.in_progress Sample.kara);
    try reflexivity.
  cbn. tauto.
Defined.

(** ** Attacks *)





(** ** The turn pipeline *)





(** The pipeline when no fight is opened: the intent is handled, then the end
    of combat is checked. *)
Lemma turn_events_handled (rng : nat -> Z) (intent : PlayerIntent.t) (g : GameState.t)
    (p : PlayerCharacter.t) :
  Rules.starts_combat intent g = false ->
  exists g1 p1 outcome,
    (if String.eqb intent.(PlayerIntent.intent_type) "MANAGE_INVENTORY"
     then Rules.handle_inventory_intent intent g p
     else if String.eqb intent.(PlayerIntent.intent_type) "SKILL_CHECK"
     then Rules.handle_skill_check_intent (rng 1%nat) intent g p
     else if String.eqb intent.(PlayerIntent.intent_type) "ATTACK"
     then Rules.handle_attack_intent (rng 1%nat) intent g p
     else (g, p, "The player takes a moment to interact with their surroundings."))
    = (g1, p1, outcome)
    /\ (Rules.process_turn_events rng intent g p).1.1.1
       = (Rules.check_combat_end p1 g1 [outcome]).1
    /\ (Rules.process_turn_events rng intent g p).1.1.2 = p1.
Proof.
  intros Hstart. unfold Rules.process_turn_events. rewrite Hstart. cbv zeta.
  remember (if String.eqb intent.(PlayerIntent.intent_type) "MANAGE_INVENTORY"
            then _ else _) as handled eqn:E.
  clear E. destruct handled as [[g1 p1] outcome].
  exists g1, p1, outcome. split; [reflexivity|].
  now destruct (Rules.check_combat_end p1 g1 [outcome]).
Qed.

Lemma in_combat_no_start (intent : PlayerIntent.t) (g : GameState.t) :
  g.(GameState.game_phase) = "IN_COMBAT" -> Rules.starts_combat intent g = false.
Proof.
  intros Hphase. unfold Rules.starts_combat. rewrite Hphase.
  now rewrite andb_false_r.
Qed.

Lemma inventory_actor_id (intent : PlayerIntent.t) (g : GameState.t)
    (p : PlayerCharacter.t) :
  (Rules.handle_inventory_intent intent g p).1.2.(PlayerCharacter.character_id)
  = p.(PlayerCharacter.character_id).
Proof.
  unfold Rules.handle_inventory_intent.
  repeat match goal with
         | |- context [match ?x with _ => _ end] => destruct x
         | |- context [if ?b then _ else _] => destruct b
         end; reflexivity.
Qed.

Lemma attack_frame (raw : Z) (intent : PlayerIntent.t) (g : GameState.t)
    (p : PlayerCharacter.t) :
  let out := Rules.handle_attack_intent raw intent g p in
  out.1.2 = p
  /\ out.1.1.(GameState.game_phase) = g.(GameState.game_phase)
  /\ out.1.1.(GameState.initiative_order) = g.(GameState.initiative_order)
  /\ out.1.1.(GameState.current_turn_entity_id) = g.(GameState.current_turn_entity_id)
  /\ out.1.1.(GameState.players) = g.(GameState.players).
Proof.
  unfold Rules.handle_attack_intent.
  repeat match goal with
         | |- context [match ?x with _ => _ end] => destruct x
         | |- context [if ?b then _ else _] => destruct b
         end; repeat split.
Qed.

(** Step 4 on a state in combat. *)
Lemma combat_end_in_combat (p : PlayerCharacter.t) (g : GameState.t)
    (outcomes : list string) :
  g.(GameState.game_phase) = "IN_COMBAT" ->
  let after := (Rules.check_combat_end p g outcomes).1 in
  after.(GameState.players) = g.(GameState.players)
  /\ after.(GameState.scene_context) = g.(GameState.scene_context)
  /\ ((Rules.remaining_hostiles after = true
       /\ after.(GameState.game_phase) = "IN_COMBAT"
       /\ after.(GameState.initiative_order) = g.(GameState.initiative_order)
       /\ after.(GameState.current_turn_entity_id) = g.(GameState.current_turn_entity_id))
      \/ (Rules.remaining_hostiles after = false
          /\ after.(GameState.game_phase) = "GAME_IN_PROGRESS"
          /\ after.(GameState.initiative_order) = []
          /\ after.(GameState.current_turn_entity_id)
             = Some p.(PlayerCharacter.character_id))).
Proof.
  intros Hphase. unfold Rules.check_combat_end. rewrite Hphase, String.eqb_refl.
  destruct (Rules.remaining_hostiles g) eqn:Hrem; cbn [negb andb fst].
  - split; [reflexivity|]. split; [reflexivity|]. left. repeat split; assumption.
  - split; [reflexivity|]. split; [reflexivity|]. right.
    split; [exact Hrem|]. repeat split.
Qed.

(** A skill check in combat, in the terms of the pipeline. *)
Lemma turn_in_combat_outcomes_skill (rng : nat -> Z) (intent : PlayerIntent.t)
    (g : GameState.t) (p : PlayerCharacter.t) :
  g.(GameState.game_phase) = "IN_COMBAT" ->
  intent.(PlayerIntent.intent_type) = "SKILL_CHECK" ->
  let after := (Rules.process_turn_events rng intent g p).1.1.1 in
  after.(GameState.game_phase) = "AWAITING_DICE_ROLL_CONFIRMATION"
  /\ after.(GameState.initiative_order) = g.(GameState.initiative_order)
  /\ is_Some after.(GameState.pending_action).
Proof.
  intros Hphase Htype. cbv zeta.
  destruct (turn_events_handled rng intent g p (in_combat_no_start intent g Hphase))
    as (g1 & p1 & outcome & Hhandled & -> & _).
  rewrite Htype in Hhandled. cbn in Hhandled. inversion Hhandled; subst g1 p1 outcome.
  unfold Rules.check_combat_end. cbn. repeat split. eexists. reflexivity.
Qed.

(** X9. A player's turn in combat ends in one of three ways. A skill check
    leaves the fight waiting: the phase awaits the confirmation while the
    initiative order, the current turn and the scene stay as they are. Any
    other intent ends either with the fight going on, a hostile entity with
    health above 0 remaining and the order and the turn untouched, or with
    the fight over: every hostile entity has health 0 or below, the phase is
    GAME_IN_PROGRESS, the initiative order is empty and the turn is the
    actor's. The actor keeps its id, and is changed by an inventory intent
    only. *)
Theorem turn_in_combat_outcomes (rng : nat -> Z) (intent : PlayerIntent.t)
    (g : GameState.t) (p : PlayerCharacter.t) :
  g.(GameState.game_phase) = "IN_COMBAT" ->
  let out := Rules.process_turn_events rng intent g p in
  let after := out.1.1.1 in
  out.1.1.2.(PlayerCharacter.character_id) = p.(PlayerCharacter.character_id)
  /\ (intent.(PlayerIntent.intent_type) <> "MANAGE_INVENTORY" -> out.1.1.2 = p)
  /\ (intent.(PlayerIntent.intent_type) = "SKILL_CHECK" ->
      after.(GameState.game_phase) = "AWAITING_DICE_ROLL_CONFIRMATION"
      /\ is_Some after.(GameState.pending_action)
      /\ after.(GameState.initiative_order) = g.(GameState.initiative_order)
      /\ after.(GameState.current_turn_entity_id) = g.(GameState.current_turn_entity_id)
      /\ after.(GameState.scene_context) = g.(GameState.scene_context))
  /\ (intent.(PlayerIntent.intent_type) <> "SKILL_CHECK" ->
      (Exists (fun e => e.(SceneEntity.is_hostile) = true /\ 0 < e.(SceneEntity.health))
              after.(GameState.scene_context).(SceneContext.entities)
       /\ after.(GameState.game_phase) = "IN_COMBAT"
       /\ after.(GameState.initiative_order) = g.(GameState.initiative_order)
       /\ after.(GameState.current_turn_entity_id) = g.(GameState.current_turn_entity_id))
      \/ (Forall (fun e => e.(SceneEntity.is_hostile) = true -> e.(SceneEntity.health) <= 0)
                 after.(GameState.scene_context).(SceneContext.entities)
          /\ after.(GameState.game_phase) = "GAME_IN_PROGRESS"
          /\ after.(GameState.initiative_order) = []
          /\ after.(GameState.current_turn_entity_id)
             = Some p.(PlayerCharacter.character_id))).
Proof.
  intros Hphase out after. subst after out.
  assert (Hexplicit : forall (after : GameState.t) (P Q : Prop),
             (Rules.remaining_hostiles after = true /\ P)
             \/ (Rules.remaining_hostiles after = false /\ Q) ->
             (Exists (fun e => e.(SceneEntity.is_hostile) = true
                               /\ 0 < e.(SceneEntity.health))
                     after.(GameState.scene_context).(SceneContext.entities) /\ P)
             \/ (Forall (fun e => e.(SceneEntity.is_hostile) = true
                                  -> e.(SceneEntity.health) <= 0)
                        after.(GameState.scene_context).(SceneContext.entities) /\ Q)).
  { intros after P Q H. pose proof (remaining_hostiles_spec after) as Hspec.
    destruct H as [(Hr & HP) | (Hr & HQ)]; rewrite Hr in Hspec; [left | right]; now split. }
  destruct (turn_events_handled rng intent g p (in_combat_no_start intent g Hphase))
    as (g1 & p1 & outcome & Hhandled & -> & ->).
  destruct (String.eqb_spec intent.(PlayerIntent.intent_type) "MANAGE_INVENTORY") as [Hinv|_].
  { pose proof (inventory_state intent g p) as Hg.
    pose proof (inventory_actor_id intent g p) as Hid.
    rewrite Hhandled in Hg, Hid. cbn [fst snd] in Hg, Hid. subst g1.
    destruct (combat_end_in_combat p1 g [outcome] Hphase) as (_ & Hscene & Hend).
    split; [exact Hid|]. split; [intros Hne; contradiction|].
    split; [intros Hsc; rewrite Hinv in Hsc; discriminate|].
    intros _. apply Hexplicit. now rewrite <- Hid. }
  destruct (String.eqb_spec intent.(PlayerIntent.intent_type) "SKILL_CHECK") as [Hsc|Hnsc].
  { inversion Hhandled; subst g1 p1 outcome. unfold Rules.check_combat_end.
    cbn. repeat split; try reflexivity; [eexists; reflexivity | intros; contradiction]. }
  destruct (String.eqb_spec intent.(PlayerIntent.intent_type) "ATTACK") as [Hatt|_].
  { destruct (attack_frame (rng 1%nat) intent g p) as (Hp & Hph & Hord & Hcur & Hpl).
    rewrite Hhandled in Hp, Hph, Hord, Hcur, Hpl. cbn [fst snd] in *. subst p1.
    destruct (combat_end_in_combat p g1 [outcome]) as (_ & Hscene & Hend);
      [congruence|].
    split; [reflexivity|]. split; [reflexivity|].
    split; [intros; contradiction|]. intros _. apply Hexplicit.
    rewrite <- Hord, <- Hcur. exact Hend. }
  inversion Hhandled; subst g1 p1 outcome.
  destruct (combat_end_in_combat p g ["The player takes a moment to interact with their surroundings."] Hphase)
    as (_ & Hscene & Hend).
  split; [reflexivity|]. split; [reflexivity|].
  split; [intros; contradiction|]. intros _. apply Hexplicit. exact Hend.
Qed.

Lemma turn_in_combat_outcomes_witness :
  let out := Rules.process_turn_events (fun _ => 5) strike fighting_goblin Sample.kara in
  SceneEntity.health
    <$> out.1.1.1.(GameState.scene_context).(SceneContext.entities) = [-7]
  /\ out.1.1.1.(GameState.game_phase) = "GAME_IN_PROGRESS"
  /\ out.1.1.2 = Sample.kara.
Proof.
  split; [reflexivity|]. split; [reflexivity|].
  apply (turn_in_combat_outcomes (fun _ => 5) strike fighting_goblin Sample.kara);
    [reflexivity | discriminate].
Defined.

Lemma update_queue (session_id : string) (g : GameState.t) (w : World) :
  (update_game_state_in_db session_id g w).(npc_queue) = w.(npc_queue)
  /\ (update_game_state_in_db session_id g w).(published) = w.(published).
Proof. unfold update_game_state_in_db. now destruct (_ !! _). Qed.

(** Phase 2 on a state that holds a pending action. *)
Lemma confirmation_resumes (env : Env) (g g' : GameState.t) (language_pref : string)
    (r : ResultPayload.t) :
  is_Some g.(GameState.pending_action) ->
  GameLogic._handle_dice_roll_confirmation env g language_pref = Ok (g', r) ->
  g'.(GameState.game_phase) = "GAME_IN_PROGRESS"
  /\ g'.(GameState.pending_action) = None
  /\ g'.(GameState.initiative_order) = g.(GameState.initiative_order)
  /\ g'.(GameState.current_turn_entity_id) = g.(GameState.current_turn_entity_id).
Proof.
  intros [pending Hpending]. unfold GameLogic._handle_dice_roll_confirmation, rbind.
  rewrite Hpending. intros H.
  match type of H with
  | context [match ?x with Ok _ => _ | Raise _ => _ end] =>
      destruct x as [[[g1 a1] o1]|] eqn:E
  end; [|discriminate].
  apply narrate_turn_fields in H as (_ & Hp & Hph & _ & Hord & Hcur).
  cbn in Hp, Hph, Hord, Hcur.
  assert (g1.(GameState.initiative_order) = g.(GameState.initiative_order)
          /\ g1.(GameState.current_turn_entity_id) = g.(GameState.current_turn_entity_id))
    as [Hord1 Hcur1].
  { handler_cases E; inversion E; subst; now split. }
  repeat split; congruence.
Qed.

(** X10. A skill check made during a fight ends the fight without the end of
    combat being checked. In phase IN_COMBAT, on a player's turn, an action
    classified as a skill check is answered with the challenge and the
    phase awaits the confirmation, the initiative order staying in place;
    whatever action comes next, if the dispatcher handles it the phase is
    GAME_IN_PROGRESS, not IN_COMBAT, the initiative order is still the one
    of the fight, and the task queues no NPC turn. *)
Theorem skill_check_in_combat_leaves_combat (env : Env) (g : GameState.t)
    (client_id action_text language_pref : string) (intent : PlayerIntent.t) :
  g.(GameState.game_phase) = "IN_COMBAT" ->
  GameLogic.no_valid_turn g = false ->
  env.(intent_classification) action_text = Ok intent ->
  intent.(PlayerIntent.intent_type) = "SKILL_CHECK" ->
  exists waiting challenge,
    GameLogic.dispatch env g client_id action_text language_pref
    = GameLogic.Handled waiting challenge
    /\ challenge.(ResultPayload.event_type) = "DICE_ROLL_REQUESTED"
    /\ waiting.(GameState.game_phase) = "AWAITING_DICE_ROLL_CONFIRMATION"
    /\ waiting.(GameState.initiative_order) = g.(GameState.initiative_order)
    /\ (forall env' action' language' resumed r,
          GameLogic.dispatch env' waiting client_id action' language'
          = GameLogic.Handled resumed r ->
          resumed.(GameState.game_phase) = "GAME_IN_PROGRESS"
          /\ resumed.(GameState.pending_action) = None
          /\ resumed.(GameState.initiative_order) = g.(GameState.initiative_order))
    /\ (forall env' action' language' w,
          action_text_of action' <> "FORCE_GAME_STATE" ->
          (GameLogic.process_game_action_task env'
             (endpoint_task waiting client_id action' language') w).2.(npc_queue)
          = w.(npc_queue)).
Proof.
  intros Hphase Hturn Hclass Htype.
  assert (Hplayer : exists actor,
    Players.get (default "" g.(GameState.current_turn_entity_id)) g.(GameState.players)
    = Some actor).
  { unfold GameLogic.no_valid_turn in Hturn.
    destruct (GameState.current_turn_entity_id g) as [cur|]; [|discriminate].
    apply orb_false_iff in Hturn as [_ Hmem]. apply negb_false_iff in Hmem.
    unfold Players.mem in Hmem. change (default "" (Some cur)) with cur.
    destruct (Players.get cur _) as [actor|]; [now exists actor|discriminate]. }
  destruct Hplayer as [actor Hactor].
  rewrite dispatch_in_combat, Hturn by exact Hphase.
  unfold GameLogic._handle_standard_turn. rewrite Hactor.
  unfold GameLogic._classify_intent. rewrite Hclass.
  pose proof (turn_in_combat_outcomes_skill env.(random_raw) intent g actor Hphase Htype)
    as (Hph & Hord & Hpending).
  destruct (Rules.process_turn_events _ intent g actor) as [[[g1 actor1] outcome] danger].
  cbn [fst snd] in Hph, Hord, Hpending.
  cbn [GameState.game_phase GameState.set_players]. rewrite Hph.
  change (String.eqb "AWAITING_DICE_ROLL_CONFIRMATION" "AWAITING_DICE_ROLL_CONFIRMATION")
    with true. cbv iota. cbn [GameLogic.of_result].
  eexists _, _. split; [reflexivity|]. split; [reflexivity|].
  split; [exact Hph|]. split; [exact Hord|].
  assert (Hresume : forall env' action' language' resumed r,
    GameLogic.dispatch env' (GameState.set_players
        (Players.set (default "" g.(GameState.current_turn_entity_id)) actor1
           g1.(GameState.players)) g1) client_id action' language'
    = GameLogic.Handled resumed r ->
    resumed.(GameState.game_phase) = "GAME_IN_PROGRESS"
    /\ resumed.(GameState.pending_action) = None
    /\ resumed.(GameState.initiative_order) = g.(GameState.initiative_order)).
  { intros env' action' language' resumed r Hd.
    rewrite dispatch_awaiting in Hd by exact Hph.
    apply of_result_handled, confirmation_resumes in Hd as (H1 & H2 & H3 & _);
      [|exact Hpending].
    repeat split; try assumption. now rewrite H3. }
  split; [exact Hresume|].
  intros env' action' language' w Hforce.
  unfold GameLogic.process_game_action_task, endpoint_task.
  cbn [GameLogic.TaskPayload.session_id GameLogic.TaskPayload.game_state
       GameLogic.TaskPayload.client_id GameLogic.TaskPayload.client_action
       GameLogic.TaskPayload.language].
  fold (action_text_of action').
  apply String.eqb_neq in Hforce. rewrite Hforce.
  destruct (GameLogic.dispatch env' _ client_id (action_text_of action') language')
    as [resumed r| |] eqn:Hd; cbn [snd]; try reflexivity.
  apply Hresume in Hd as (Hgip & _ & _).
  unfold GameLogic.post_turn. rewrite Hgip.
  change (String.eqb "GAME_IN_PROGRESS" "IN_COMBAT") with false.
  change (String.eqb "GAME_IN_PROGRESS" "GAME_IN_PROGRESS") with true. cbv iota.
  repeat match goal with
         | |- context [match ?x with _ => _ end] => destruct x
         end;
    unfold publish_result_to_queue; cbn [npc_queue];
    rewrite ?(proj1 (update_queue _ _ _)); cbn [npc_queue];
    rewrite ?(proj1 (update_queue _ _ _)); reflexivity.
Qed.

Lemma skill_check_in_combat_leaves_combat_witness :
  exists waiting challenge,
    GameLogic.dispatch (Sample.env_with 16 Sample.sneak Sample.cave) fighting_goblin
      "kara" "I sneak past" "en"
    = GameLogic.Handled waiting challenge
    /\ challenge.(ResultPayload.event_type) = "DICE_ROLL_REQUESTED"
    /\ waiting.(GameState.game_phase) = "AWAITING_DICE_ROLL_CONFIRMATION"
    /\ waiting.(GameState.initiative_order) = fighting_goblin.(GameState.initiative_order).
Proof.
  destruct (skill_check_in_combat_leaves_combat
              (Sample.env_with 16 Sample.sneak Sample.cave) fighting_goblin
              "kara" "I sneak past" "en" Sample.sneak)
    as (waiting & challenge & H1 & H2 & H3 & H4 & _); try reflexivity.
  now exists waiting, challenge.
Defined.

(** ** Choices *)

(** *** The number read off a run of digits *)

Lemma digit_run_all_digits (s : string) : all_digits (Py.digit_run s) = true.
Proof.
  induction s as [|c s IH]; [reflexivity|]. cbn [Py.digit_run].
  destruct (Py.is_digit c) eqn:Hc; [|reflexivity].
  cbn [all_digits]. now rewrite Hc, IH.
Qed.

(** What [re.search] finds is a run of digits, and not an empty one. *)
Lemma search_digits_run (s run : string) :
  Py.search_digits s = Some run -> all_digits run = true /\ run <> "".
Proof.
  induction s as [|c s IH]; [discriminate|]. cbn [Py.search_digits].
  destruct (Py.is_digit c) eqn:Hc; [|exact IH].
  intros [= <-]. split; [exact (digit_run_all_digits (String c s))|].
  cbn [Py.digit_run]. rewrite Hc. discriminate.
Qed.

Lemma digit_not_space (c : ascii) : Py.is_digit c = true -> Py.is_space c = false.
Proof.
  unfold Py.is_digit, Py.is_space. intros H.
  apply andb_true_iff in H as [H1 H2]. apply Nat.leb_le in H1, H2.
  apply orb_false_iff. split; apply andb_false_iff.
  - right. apply Nat.leb_gt. lia.
  - right. apply Nat.leb_gt. lia.
Qed.

Lemma all_digits_lstrip (s : string) : all_digits s = true -> Py.lstrip s = s.
Proof.
  destruct s as [|c s]; [reflexivity|]. cbn [all_digits Py.lstrip].
  intros H. apply andb_true_iff in H as [Hc _]. now rewrite (digit_not_space c Hc).
Qed.

Lemma all_digits_app (a b : string) :
  all_digits (a +:+ b) = all_digits a && all_digits b.
Proof.
  induction a as [|c a IH]; [reflexivity|].
  change (String c a +:+ b) with (String c (a +:+ b)).
  cbn [all_digits]. now rewrite IH, andb_assoc.
Qed.

Lemma all_digits_rev (s : string) : all_digits (Py.string_rev s) = all_digits s.
Proof.
  induction s as [|c s IH]; [reflexivity|].
  rewrite string_rev_cons, all_digits_app, IH. cbn [all_digits].
  rewrite andb_true_r. apply andb_comm.
Qed.

Lemma all_digits_strip (s : string) : all_digits s = true -> Py.strip s = s.
Proof.
  intros H. unfold Py.strip. rewrite (all_digits_lstrip s H).
  rewrite all_digits_lstrip by now rewrite all_digits_rev.
  apply string_rev_involutive.
Qed.

Lemma all_digits_value (s : string) :
  all_digits s = true ->
  forall acc, 0 <= acc -> exists v, Py.int_digits false acc s = Some v /\ 0 <= v.
Proof.
  induction s as [|c s IH]; intros H acc Hacc; cbn [Py.int_digits].
  - now exists acc.
  - cbn [all_digits] in H. apply andb_true_iff in H as [Hc Hs]. rewrite Hc.
    apply (IH Hs). unfold Py.digit_val. lia.
Qed.

Lemma all_digits_count (s : string) :
  all_digits s = true -> Py.count_digits s = Z.of_nat (String.length s).
Proof.
  induction s as [|c s IH]; [reflexivity|]. cbn [all_digits Py.count_digits String.length].
  intros H. apply andb_true_iff in H as [Hc Hs]. rewrite Hc, (IH Hs). lia.
Qed.

(** [int] on a run of digits: the number, unless the run has more than 4300
    digits. *)
Lemma int_of_digits (digits : string) :
  all_digits digits = true -> digits <> "" ->
  exists n,
    0 <= n
    /\ Py.int digits
       = if 4300 <? Z.of_nat (String.length digits) then Raise ValueError else Ok n.
Proof.
  intros H Hne. unfold Py.int. rewrite (all_digits_strip digits H).
  destruct digits as [|c r]; [contradiction|].
  assert (Hlit : exists n,
             0 <= n
             /\ Py.int_literal (String c r)
                = if 4300 <? Z.of_nat (String.length (String c r))
                  then Raise ValueError else Ok n).
  { unfold Py.int_literal. rewrite (all_digits_count _ H).
    pose proof H as H'. cbn [all_digits] in H'. apply andb_true_iff in H' as [Hc Hr].
    cbn [Py.int_digits]. rewrite Hc.
    destruct (all_digits_value r Hr (10 * 0 + Py.digit_val c)) as (v & -> & Hv);
      [unfold Py.digit_val; lia|].
    exists v. split; [exact Hv | reflexivity]. }
  cbn [all_digits] in H. apply andb_true_iff in H as [Hc _].
  destruct c as [[] [] [] [] [] [] [] []]; try (vm_compute in Hc; discriminate Hc);
    exact Hlit.
Qed.

(** The number in the text, as [_get_natural_language_choice] reads it from
    the player's own words. *)
Lemma int_of_search (s digits : string) :
  Py.search_digits s = Some digits ->
  exists n,
    0 <= n
    /\ Py.int digits
       = if 4300 <? Z.of_nat (String.length digits) then Raise ValueError else Ok n.
Proof.
  intros H. apply search_digits_run in H as [Hall Hne]. now apply int_of_digits.
Qed.

(** *** What the choice can be *)

Lemma in_range_spec (lo choice hi : Z) :
  GameLogic.in_range lo choice hi = true <-> lo <= choice <= hi.
Proof. unfold GameLogic.in_range. rewrite andb_true_iff, !Z.leb_le. tauto. Qed.

(** The choice is 0 or one of the options; the function raises only on a
    run of more than 4300 digits in the player's text. *)
Lemma choice_cases (env : Env) (action_text : string) (num_options : Z) :
  match GameLogic._get_natural_language_choice env action_text num_options with
  | Ok choice => choice = 0 \/ 1 <= choice <= num_options
  | Raise e =>
      e = ValueError
      /\ exists digits,
           Py.search_digits action_text = Some digits
           /\ 4300 < Z.of_nat (String.length digits)
  end.
Proof.
  unfold GameLogic._get_natural_language_choice.
  set (from_model := match generate_narrative env with Ok _ => _ | Raise _ => _ end).
  assert (Hmodel : forall m, from_model = Some m -> 1 <= m <= num_options).
  { intros m. unfold from_model.
    destruct (generate_narrative env) as [response|]; [|discriminate].
    destruct (Py.search_digits response) as [digits|]; [|discriminate].
    destruct (Py.int digits) as [choice|]; [|discriminate].
    destruct (GameLogic.in_range 1 choice num_options) eqn:E; [|discriminate].
    intros [= <-]. now apply in_range_spec. }
  destruct from_model as [m|]; [right; now apply Hmodel|].
  destruct (Py.search_digits action_text) as [digits|] eqn:Hsearch; [|now left].
  destruct (int_of_search _ _ Hsearch) as (n & _ & ->).
  destruct (Z.ltb_spec 4300 (Z.of_nat (String.length digits))) as [Hlong|_]; cbn [rbind].
  - split; [reflexivity|]. now exists digits.
  - destruct (GameLogic.in_range 1 n num_options) eqn:E; [|now left].
    right. now apply in_range_spec.
Qed.

Lemma choice_returns (env : Env) (action_text : string) (num_options : Z) :
  (forall digits, Py.search_digits action_text = Some digits ->
                  Z.of_nat (String.length digits) <= 4300) ->
  exists choice,
    GameLogic._get_natural_language_choice env action_text num_options = Ok choice.
Proof.
  intros Hshort. pose proof (choice_cases env action_text num_options) as H.
  destruct (GameLogic._get_natural_language_choice env action_text num_options)
    as [choice|e]; [now exists choice|].
  destruct H as (_ & digits & Hsearch & Hlong). specialize (Hshort digits Hsearch). lia.
Qed.

(** X11. The choice read by [_get_natural_language_choice], for a text and a
    model's answer in ASCII. When the function returns, the choice is 0 or
    one of the options 1..num_options. A number in range read off the
    model's answer comes first. When the model call raises, or its answer
    holds no number in range, the player's own text decides: without a
    digit the choice is 0; with a first run of at most 4300 digits the
    choice is its number when that is in range and 0 otherwise; and on a
    first run of more than 4300 digits the function raises [ValueError],
    which is the only way it raises. (In "select 12 now 3" the first run of
    digits is "12", and its number 12.) *)
Theorem natural_language_choice_range (env : Env) (action_text : string)
    (num_options : Z) :
  Py.is_ascii action_text = true ->
  (forall response, env.(generate_narrative) = Ok response -> Py.is_ascii response = true) ->
  let attempt := GameLogic._get_natural_language_choice env action_text num_options in
  let model_gives (m : Z) :=
    exists response digits,
      env.(generate_narrative) = Ok response
      /\ Py.search_digits response = Some digits
      /\ Py.int digits = Ok m
      /\ 1 <= m <= num_options in
  (forall choice, attempt = Ok choice -> choice = 0 \/ 1 <= choice <= num_options)
  /\ (forall e,
        attempt = Raise e ->
        e = ValueError
        /\ exists digits,
             Py.search_digits action_text = Some digits
             /\ 4300 < Z.of_nat (String.length digits))
  /\ (forall m, model_gives m -> attempt = Ok m)
  /\ ((forall m, ~ model_gives m) ->
      (Py.search_digits action_text = None -> attempt = Ok 0)
      /\ forall digits,
           Py.search_digits action_text = Some digits ->
           (4300 < Z.of_nat (String.length digits) -> attempt = Raise ValueError)
           /\ (Z.of_nat (String.length digits) <= 4300 ->
               exists m,
                 0 <= m
                 /\ Py.int digits = Ok m
                 /\ (1 <= m <= num_options -> attempt = Ok m)
                 /\ (~ 1 <= m <= num_options -> attempt = Ok 0)))
  /\ Py.search_digits "select 12 now 3" = Some "12"
  /\ Py.int "12" = Ok 12.
Proof.
  intros _ _ attempt model_gives.
  pose proof (choice_cases env action_text num_options) as Hcases. fold attempt in Hcases.
  split; [intros choice Hc; now rewrite Hc in Hcases|].
  split; [intros e He; now rewrite He in Hcases|].
  clear Hcases. subst attempt. unfold GameLogic._get_natural_language_choice.
  split.
  { intros m (response & digits & -> & -> & -> & Hin).
    apply in_range_spec in Hin. now rewrite Hin. }
  split; [|split; reflexivity].
  intros Hnone.
  assert (Hmodel : match generate_narrative env with
                   | Ok response_text =>
                       match Py.search_digits response_text with
                       | Some digits =>
                           match Py.int digits with
                           | Ok choice =>
                               if GameLogic.in_range 1 choice num_options
                               then Some choice else None
                           | Raise _ => None
                           end
                       | None => None
                       end
                   | Raise _ => None
                   end = None).
  { destruct (generate_narrative env) as [response|] eqn:Hresponse; [|reflexivity].
    destruct (Py.search_digits response) as [digits|] eqn:Hdigits; [|reflexivity].
    destruct (Py.int digits) as [choice|] eqn:Hint; [|reflexivity].
    destruct (GameLogic.in_range 1 choice num_options) eqn:E; [|reflexivity].
    exfalso. apply (Hnone choice). exists response, digits.
    repeat split; try assumption; now apply in_range_spec in E. }
  rewrite Hmodel. clear Hmodel.
  split; [now intros ->|].
  intros digits Hsearch. rewrite Hsearch.
  destruct (int_of_search _ _ Hsearch) as (n & Hn & Hint). rewrite Hint.
  split.
  - intros Hlong. apply Z.ltb_lt in Hlong. now rewrite Hlong.
  - intros Hshort.
    replace (4300 <? Z.of_nat (String.length digits)) with false
      by (symmetry; apply Z.ltb_ge; exact Hshort).
    exists n. split; [exact Hn|]. split; [reflexivity|]. cbn [rbind].
    split; intros Hin.
    + apply in_range_spec in Hin. now rewrite Hin.
    + replace (GameLogic.in_range 1 n num_options) with false; [reflexivity|].
      symmetry. apply not_true_is_false. now rewrite in_range_spec.
Qed.

Lemma natural_language_choice_range_witness :
  GameLogic._get_natural_language_choice (answering "Option 2.") "the second one" 3 = Ok 2
  /\ GameLogic._get_natural_language_choice (answering "I cannot tell: 0") "door 3" 3 = Ok 3
  /\ (2 = 0 \/ 1 <= 2 <= 3).
Proof.
  split; [reflexivity|]. split; [reflexivity|].
  apply (natural_language_choice_range (answering "Option 2.") "the second one" 3);
    [reflexivity | intros response [= <-]; reflexivity | reflexivity].
Defined.

Lemma option_in_range {A : Type} (o : option (list A)) (i : Z) :
  0 <= i < GameLogic.options_len o ->
  exists a, nth_error (default [] o) (Z.to_nat i) = Some a.
Proof.
  intros Hi. unfold GameLogic.options_len in Hi.
  destruct o as [l|]; [|lia]. cbn.
  destruct (nth_error l (Z.to_nat i)) as [a|] eqn:E; [now exists a|].
  apply nth_error_None in E. lia.
Qed.

(** The bestiary built from a list: the last entity of a name is the one
    kept. *)
Lemma bestiary_fold_lookup (l : list Entity.t) (m : gmap string Entity.t) (name : string) :
  fold_left (fun m e => <[e.(Entity.name) := e]> m) l m !! name
  = match last (List.filter (fun e => String.eqb e.(Entity.name) name) l) with
    | Some e => Some e
    | None => m !! name
    end.
Proof.
  revert m. induction l as [|e l IH]; intros m; [reflexivity|].
  cbn [fold_left List.filter]. rewrite IH.
  destruct (String.eqb_spec e.(Entity.name) name) as [Heq|Hne].
  - rewrite last_cons. destruct (last (List.filter _ l)); [reflexivity|].
    rewrite Heq. apply lookup_insert_eq.
  - destruct (last (List.filter _ l)); [reflexivity|]. now apply lookup_insert_ne.
Qed.

(** The handler of the world selection, by what the choice is. *)
Lemma world_selection_cases (env : Env) (g : GameState.t) (action_text : string) :
  let offered := default [] g.(GameState.world_selection_options) in
  let out := GameLogic._handle_world_selection env g action_text in
  match GameLogic._get_natural_language_choice env action_text
          (Z.of_nat (length offered)) with
  | Raise e => out = Raise e
  | Ok choice =>
      exists after r,
        out = Ok (after, r)
        /\ ((choice = 0 /\ after = g /\ r.(ResultPayload.event_type) = "ERROR")
            \/ (exists chosen,
                  nth_error offered (Z.to_nat (choice - 1)) = Some chosen
                  /\ 1 <= choice <= Z.of_nat (length offered)
                  /\ after.(GameState.world) = Some chosen
                  /\ after.(GameState.main_plot) = Some chosen.(WorldOption.main_plot)
                  /\ after.(GameState.game_phase) = "CHARACTER_CREATION_NUM_PLAYERS"
                  /\ (forall name,
                        after.(GameState.bestiary) !! name
                        = last (List.filter (fun e => String.eqb e.(Entity.name) name)
                                            chosen.(WorldOption.initial_bestiary)))
                  /\ after.(GameState.players) = g.(GameState.players)
                  /\ after.(GameState.pending_action) = g.(GameState.pending_action)
                  /\ r.(ResultPayload.event_type) = "STATE_UPDATE_PROMPT_USER"))
  end.
Proof.
  intros offered out. subst out.
  assert (Hlen : GameLogic.options_len g.(GameState.world_selection_options)
                 = Z.of_nat (length offered)).
  { unfold offered, GameLogic.options_len.
    now destruct (GameState.world_selection_options g). }
  unfold GameLogic._handle_world_selection. rewrite Hlen.
  pose proof (choice_cases env action_text (Z.of_nat (length offered))) as Hcases.
  destruct (GameLogic._get_natural_language_choice env action_text
              (Z.of_nat (length offered))) as [choice|e]; cbn [rbind]; [|reflexivity].
  destruct Hcases as [H0|Hin].
  - rewrite H0. cbn [Z.sub Z.opp Z.add Z.leb Z.compare andb].
    eexists _, _. split; [reflexivity|]. left. repeat split.
  - destruct (option_in_range g.(GameState.world_selection_options) (choice - 1))
      as [chosen Hchosen]; [rewrite Hlen; lia|].
    fold offered in Hchosen.
    replace ((0 <=? choice - 1) && (choice - 1 <? Z.of_nat (length offered))) with true
      by (symmetry; apply andb_true_iff; split; [apply Z.leb_le | apply Z.ltb_lt]; lia).
    unfold list_item. fold offered. rewrite Hchosen. cbn [rbind].
    eexists _, _. split; [reflexivity|]. right. exists chosen.
    split; [reflexivity|]. split; [exact Hin|].
    split; [reflexivity|]. split; [reflexivity|]. split; [reflexivity|].
    split; [|repeat split].
    intros name. cbn [GameState.bestiary GameState.set_game_phase GameState.set_bestiary].
    unfold GameLogic.bestiary_of. rewrite bestiary_fold_lookup.
    now destruct (last _).
Qed.

(** X12. The world selection, for a text and a model's answer in ASCII. The
    index [_handle_world_selection] reads from the list of worlds is always
    within the list: the handler raises only when the reading of the choice
    does, a [ValueError] on a first run of more than 4300 digits in the
    player's text, and returns on every other text. When it returns, either
    the choice is 0 (no offer counts as an empty list) and the answer is an
    error with the state unchanged, or the world chosen is the one at the
    position of the choice: it becomes the world of the session together
    with its main plot, the phase becomes CHARACTER_CREATION_NUM_PLAYERS,
    and the bestiary maps every name to the last entity of that name in the
    world's initial bestiary. *)
Theorem world_selection_reads_within_list (env : Env) (g : GameState.t)
    (action_text : string) :
  Py.is_ascii action_text = true ->
  (forall response, env.(generate_narrative) = Ok response -> Py.is_ascii response = true) ->
  let offered := default [] g.(GameState.world_selection_options) in
  let attempt :=
    GameLogic._get_natural_language_choice env action_text (Z.of_nat (length offered)) in
  let out := GameLogic._handle_world_selection env g action_text in
  (forall e,
      out = Raise e ->
      attempt = Raise e
      /\ e = ValueError
      /\ exists digits,
           Py.search_digits action_text = Some digits
           /\ 4300 < Z.of_nat (String.length digits))
  /\ (forall e, attempt = Raise e -> out = Raise e)
  /\ ((forall digits, Py.search_digits action_text = Some digits ->
                      Z.of_nat (String.length digits) <= 4300) ->
      exists after r, out = Ok (after, r))
  /\ (forall choice,
        attempt = Ok choice ->
        exists after r,
          out = Ok (after, r)
          /\ ((choice = 0 /\ after = g /\ r.(ResultPayload.event_type) = "ERROR")
              \/ (exists chosen,
                    nth_error offered (Z.to_nat (choice - 1)) = Some chosen
                    /\ 1 <= choice <= Z.of_nat (length offered)
                    /\ after.(GameState.world) = Some chosen
                    /\ after.(GameState.main_plot) = Some chosen.(WorldOption.main_plot)
                    /\ after.(GameState.game_phase) = "CHARACTER_CREATION_NUM_PLAYERS"
                    /\ (forall name,
                          after.(GameState.bestiary) !! name
                          = last (List.filter (fun e => String.eqb e.(Entity.name) name)
                                              chosen.(WorldOption.initial_bestiary)))
                    /\ after.(GameState.players) = g.(GameState.players)
                    /\ after.(GameState.pending_action) = g.(GameState.pending_action)
                    /\ r.(ResultPayload.event_type) = "STATE_UPDATE_PROMPT_USER"))).
Proof.
  intros _ _ offered attempt out.
  pose proof (world_selection_cases env g action_text) as Hcases.
  pose proof (choice_cases env action_text (Z.of_nat (length offered))) as Hchoice.
  cbv zeta in Hcases. fold offered attempt out in Hcases. fold attempt in Hchoice.
  split.
  { intros e He. destruct attempt as [choice|e'].
    - destruct Hcases as (after & r & Hout & _). congruence.
    - assert (e' = e) by congruence. subst e'. now split. }
  split.
  { intros e He. now rewrite He in Hcases. }
  split.
  { intros Hshort.
    destruct (choice_returns env action_text (Z.of_nat (length offered)) Hshort)
      as [choice Hc].
    fold attempt in Hc. rewrite Hc in Hcases.
    destruct Hcases as (after & r & Hout & _). now exists after, r. }
  intros choice Hc. now rewrite Hc in Hcases.
Qed.

Lemma world_selection_reads_within_list_witness :
  exists after r,
    GameLogic._handle_world_selection storyteller
      (GameState.set_world_selection_options (Some [Sample.vale])
         (GameState.set_game_phase "WORLD_SELECTION" (initial_game_state "s1" "g1")))
      "select 1"
    = Ok (after, r).
Proof.
  apply (world_selection_reads_within_list storyteller
           (GameState.set_world_selection_options (Some [Sample.vale])
              (GameState.set_game_phase "WORLD_SELECTION" (initial_game_state "s1" "g1")))
           "select 1");
    [reflexivity | intros response H; discriminate H |].
  intros digits H. vm_compute in H. injection H as <-. vm_compute. discriminate.
Defined.

(** ** The creation of the characters *)

(** X13. The number of players, for a text and a model's answer in ASCII. In
    phase CHARACTER_CREATION_NUM_PLAYERS the handler raises what the reading
    of the choice raises (a [ValueError], on a first run of more than 4300
    digits in the player's text); on the choice 0 it answers with an error
    and changes nothing; on a choice in 1..4 it raises when no world is set
    or the model call for the classes fails, and otherwise records that
    number of players, stores the classes the model offers and moves on to
    CHARACTER_CREATION_CLASSES; no character is created yet. *)
Theorem number_of_players_in_range (env : Env) (g : GameState.t)
    (client_id action_text : string) :
  g.(GameState.game_phase) = "CHARACTER_CREATION_NUM_PLAYERS" ->
  Py.is_ascii action_text = true ->
  (forall response, env.(generate_narrative) = Ok response -> Py.is_ascii response = true) ->
  let attempt := GameLogic._get_natural_language_choice env action_text 4 in
  let out := GameLogic._handle_character_creation env g client_id action_text in
  (forall e, attempt = Raise e -> out = Raise e /\ e = ValueError)
  /\ (attempt = Ok 0 ->
      out = Ok (g, ResultPayload.error "Please enter a number from 1 to 4."))
  /\ (forall choice, attempt = Ok choice -> choice = 0 \/ 1 <= choice <= 4)
  /\ (forall choice,
        attempt = Ok choice -> 1 <= choice <= 4 ->
        (g.(GameState.world) = None -> out = Raise AttributeError)
        /\ (is_Some g.(GameState.world) ->
            forall e, env.(class_creation) = Raise e -> out = Raise e))
  /\ (forall after r,
        out = Ok (after, r) ->
        (after = g /\ attempt = Ok 0 /\ r.(ResultPayload.event_type) = "ERROR")
        \/ (1 <= after.(GameState.num_players_to_create) <= 4
            /\ attempt = Ok after.(GameState.num_players_to_create)
            /\ after.(GameState.game_phase) = "CHARACTER_CREATION_CLASSES"
            /\ (exists response,
                  env.(class_creation) = Ok response
                  /\ after.(GameState.class_selection_options)
                     = Some response.(GMClassCreationResponse.class_options))
            /\ after.(GameState.players) = g.(GameState.players)
            /\ after.(GameState.characters_created) = g.(GameState.characters_created)
            /\ after.(GameState.world) = g.(GameState.world)
            /\ r.(ResultPayload.event_type) = "CLASS_OPTIONS_PRESENTED")).
Proof.
  intros Hphase _ _ attempt out. subst out.
  unfold GameLogic._handle_character_creation. rewrite Hphase.
  change (String.eqb "CHARACTER_CREATION_NUM_PLAYERS" "CHARACTER_CREATION_NUM_PLAYERS")
    with true. cbv iota. fold attempt.
  pose proof (choice_cases env action_text 4) as Hcases. fold attempt in Hcases.
  destruct attempt as [choice|e]; cbn [rbind].
  2:{ destruct Hcases as (-> & _).
      split; [intros e [= <-]; now split|].
      split; [discriminate|]. split; [discriminate|]. split; [discriminate|].
      discriminate. }
  split; [discriminate|].
  destruct Hcases as [-> | Hin].
  - cbn [GameLogic.in_range Z.leb Z.compare andb negb].
    split; [reflexivity|]. split; [intros c [= <-]; now left|].
    split; [intros c [= <-]; lia|].
    intros after r [= <- <-]. left. repeat split.
  - replace (GameLogic.in_range 1 choice 4) with true
      by (symmetry; now apply in_range_spec).
    cbn [negb GameState.world GameState.set_game_phase GameState.set_num_players_to_create].
    split; [intros [= ->]; lia|].
    split; [intros c [= <-]; now right|].
    destruct (GameState.world g) as [w|] eqn:Hworld.
    + split.
      { intros c [= <-] _. split; [discriminate|].
        intros _ e He. now rewrite He. }
      destruct (class_creation env) as [response|e]; cbn [rbind]; [|discriminate].
      intros after r [= <- <-]. right. cbn.
      split; [exact Hin|]. split; [reflexivity|]. split; [reflexivity|].
      split; [now exists response|]. repeat split. exact Hworld.
    + split; [|discriminate].
      intros c [= <-] _. split; [reflexivity|]. intros [? ?]; discriminate.
Qed.

Lemma number_of_players_in_range_witness :
  GameLogic._handle_character_creation storyteller
    (GameState.set_game_phase "CHARACTER_CREATION_NUM_PLAYERS" creating_details)
    "kara" "five of us"
  = Ok (GameState.set_game_phase "CHARACTER_CREATION_NUM_PLAYERS" creating_details,
        ResultPayload.error "Please enter a number from 1 to 4.").
Proof.
  apply (number_of_players_in_range storyteller
           (GameState.set_game_phase "CHARACTER_CREATION_NUM_PLAYERS" creating_details)
           "kara" "five of us" eq_refl);
    [reflexivity | intros response H; discriminate H | reflexivity].
Defined.

(** The handler of the choice of a class, by what the choice is. *)
Lemma class_choice_cases (env : Env) (g : GameState.t) (client_id action_text : string) :
  g.(GameState.game_phase) = "CHARACTER_CREATION_CLASSES" ->
  let offered := default [] g.(GameState.class_selection_options) in
  let out := GameLogic._handle_character_creation env g client_id action_text in
  match GameLogic._get_natural_language_choice env action_text
          (Z.of_nat (length offered)) with
  | Raise e => out = Raise e
  | Ok choice =>
      exists after r,
        out = Ok (after, r)
        /\ ((choice = 0 /\ after = g /\ r.(ResultPayload.event_type) = "ERROR")
            \/ (exists chosen,
                  nth_error offered (Z.to_nat (choice - 1)) = Some chosen
                  /\ 1 <= choice <= Z.of_nat (length offered)
                  /\ after.(GameState.pending_character_class) = Some chosen
                  /\ after.(GameState.game_phase) = "CHARACTER_CREATION_DETAILS"
                  /\ after.(GameState.players) = g.(GameState.players)
                  /\ after.(GameState.characters_created)
                     = g.(GameState.characters_created)
                  /\ after.(GameState.num_players_to_create)
                     = g.(GameState.num_players_to_create)
                  /\ after.(GameState.class_selection_options)
                     = g.(GameState.class_selection_options)
                  /\ after
                     = GameState.set_game_phase "CHARACTER_CREATION_DETAILS"
                         (GameState.set_pending_character_class (Some chosen) g)
                  /\ r.(ResultPayload.event_type) = "STATE_UPDATE_PROMPT_USER"))
  end.
Proof.
  intros Hphase offered out. subst out.
  assert (Hlen : GameLogic.options_len g.(GameState.class_selection_options)
                 = Z.of_nat (length offered)).
  { unfold offered, GameLogic.options_len.
    now destruct (GameState.class_selection_options g). }
  unfold GameLogic._handle_character_creation. rewrite Hphase.
  change (String.eqb "CHARACTER_CREATION_CLASSES" "CHARACTER_CREATION_NUM_PLAYERS")
    with false.
  change (String.eqb "CHARACTER_CREATION_CLASSES" "CHARACTER_CREATION_CLASSES")
    with true. cbv iota. rewrite Hlen.
  pose proof (choice_cases env action_text (Z.of_nat (length offered))) as Hcases.
  destruct (GameLogic._get_natural_language_choice env action_text
              (Z.of_nat (length offered))) as [choice|e]; cbn [rbind]; [|reflexivity].
  destruct Hcases as [H0|Hin].
  - rewrite H0. cbn [Z.sub Z.opp Z.add Z.leb Z.compare andb negb].
    eexists _, _. split; [reflexivity|]. left. repeat split.
  - destruct (option_in_range g.(GameState.class_selection_options) (choice - 1))
      as [chosen Hchosen]; [rewrite Hlen; lia|].
    fold offered in Hchosen.
    replace ((0 <=? choice - 1) && (choice - 1 <? Z.of_nat (length offered))) with true
      by (symmetry; apply andb_true_iff; split; [apply Z.leb_le | apply Z.ltb_lt]; lia).
    cbn [negb]. unfold list_item. fold offered. rewrite Hchosen. cbn [rbind].
    eexists _, _. split; [reflexivity|]. right. exists chosen.
    split; [reflexivity|]. split; [exact Hin|]. repeat split.
Qed.

(** X14. The choice of a class, for a text and a model's answer in ASCII. In
    phase CHARACTER_CREATION_CLASSES the index the handler reads is always
    within the list of classes (no list counts as an empty one): the handler
    raises only when the reading of the choice does, a [ValueError] on a
    first run of more than 4300 digits in the player's text, and returns on
    every other text. When it returns, either the choice is 0 and the
    answer is an error with the state unchanged, or the class at the
    position of the choice becomes the pending class and the phase becomes
    CHARACTER_CREATION_DETAILS, nothing else changing. *)
Theorem class_choice_is_an_option (env : Env) (g : GameState.t)
    (client_id action_text : string) :
  g.(GameState.game_phase) = "CHARACTER_CREATION_CLASSES" ->
  Py.is_ascii action_text = true ->
  (forall response, env.(generate_narrative) = Ok response -> Py.is_ascii response = true) ->
  let offered := default [] g.(GameState.class_selection_options) in
  let attempt :=
    GameLogic._get_natural_language_choice env action_text (Z.of_nat (length offered)) in
  let out := GameLogic._handle_character_creation env g client_id action_text in
  (forall e,
      out = Raise e ->
      attempt = Raise e
      /\ e = ValueError
      /\ exists digits,
           Py.search_digits action_text = Some digits
           /\ 4300 < Z.of_nat (String.length digits))
  /\ (forall e, attempt = Raise e -> out = Raise e)
  /\ ((forall digits, Py.search_digits action_text = Some digits ->
                      Z.of_nat (String.length digits) <= 4300) ->
      exists after r, out = Ok (after, r))
  /\ (forall choice,
        attempt = Ok choice ->
        exists after r,
          out = Ok (after, r)
          /\ ((choice = 0 /\ after = g /\ r.(ResultPayload.event_type) = "ERROR")
              \/ (exists chosen,
                    nth_error offered (Z.to_nat (choice - 1)) = Some chosen
                    /\ 1 <= choice <= Z.of_nat (length offered)
                    /\ after.(GameState.pending_character_class) = Some chosen
                    /\ after.(GameState.game_phase) = "CHARACTER_CREATION_DETAILS"
                    /\ after.(GameState.players) = g.(GameState.players)
                    /\ after.(GameState.characters_created)
                       = g.(GameState.characters_created)
                    /\ after.(GameState.num_players_to_create)
                       = g.(GameState.num_players_to_create)
                    /\ after.(GameState.class_selection_options)
                       = g.(GameState.class_selection_options)
                    /\ after
                       = GameState.set_game_phase "CHARACTER_CREATION_DETAILS"
                           (GameState.set_pending_character_class (Some chosen) g)
                    /\ r.(ResultPayload.event_type) = "STATE_UPDATE_PROMPT_USER"))).
Proof.
  intros Hphase _ _ offered attempt out.
  pose proof (class_choice_cases env g client_id action_text Hphase) as Hcases.
  pose proof (choice_cases env action_text (Z.of_nat (length offered))) as Hchoice.
  cbv zeta in Hcases. fold offered attempt out in Hcases. fold attempt in Hchoice.
  split.
  { intros e He. destruct attempt as [choice|e'].
    - destruct Hcases as (after & r & Hout & _). congruence.
    - assert (e' = e) by congruence. subst e'. now split. }
  split.
  { intros e He. now rewrite He in Hcases. }
  split.
  { intros Hshort.
    destruct (choice_returns env action_text (Z.of_nat (length offered)) Hshort)
      as [choice Hc].
    fold attempt in Hc. rewrite Hc in Hcases.
    destruct Hcases as (after & r & Hout & _). now exists after, r. }
  intros choice Hc. now rewrite Hc in Hcases.
Qed.

Lemma class_choice_is_an_option_witness :
  exists after r,
    GameLogic._handle_character_creation storyteller
      (GameState.set_game_phase "CHARACTER_CREATION_CLASSES" creating_details)
      "kara" "the first one, 1"
    = Ok (after, r).
Proof.
  apply (class_choice_is_an_option storyteller
           (GameState.set_game_phase "CHARACTER_CREATION_CLASSES" creating_details)
           "kara" "the first one, 1" eq_refl);
    [reflexivity | intros response H; discriminate H |].
  intros digits H. vm_compute in H. injection H as <-. vm_compute. discriminate.
Defined.

Lemma first_key_set (k : string) (v : PlayerCharacter.t) (l : Players.t) :
  l <> [] -> GameLogic.first_key (Players.set k v l) = GameLogic.first_key l.
Proof.
  destruct l as [|[k' v'] l]; [congruence|]. intros _. cbn [Players.set].
  now destruct (String.eqb k k').
Qed.

(** X15. The last character. In phase CHARACTER_CREATION_DETAILS, when the
    details parse, a class is pending and no further character is to be
    created, the character joins the players, the phase becomes
    GAME_IN_PROGRESS and the turn goes to the first character of the
    players dict, that is the first one created and not the one just
    created. This happens before the opening scene is asked for: when the
    main plot has an empty list of milestones, or the model call fails with
    a [ValueError] or an [IndexError], the handler answers with the format
    error and yet returns the state with the character created and the game
    in progress; when the model answers, its summary, scene and quest log
    are stored and the narrative is sent with the new state. *)
Theorem last_character_starts_game (env : Env) (g : GameState.t)
    (client_id action_text name gender backstory : string) (age : Z)
    (pending_class : ClassOption.t) (plot : MainPlot.t) :
  g.(GameState.game_phase) = "CHARACTER_CREATION_DETAILS" ->
  GameLogic.parse_details action_text = Ok (name, age, gender, backstory) ->
  g.(GameState.pending_character_class) = Some pending_class ->
  g.(GameState.num_players_to_create) <= g.(GameState.characters_created) + 1 ->
  is_Some g.(GameState.world) ->
  g.(GameState.main_plot) = Some plot ->
  let hero := GameLogic.new_character env name age gender backstory pending_class in
  let out := GameLogic._handle_character_creation env g client_id action_text in
  exists joined,
    joined.(GameState.players)
    = Players.set hero.(PlayerCharacter.character_id) hero g.(GameState.players)
    /\ joined.(GameState.characters_created) = g.(GameState.characters_created) + 1
    /\ joined.(GameState.game_phase) = "GAME_IN_PROGRESS"
    /\ joined.(GameState.pending_character_class) = None
    /\ joined.(GameState.current_turn_entity_id)
       = GameLogic.first_key joined.(GameState.players)
    /\ (g.(GameState.players) <> [] ->
        joined.(GameState.current_turn_entity_id)
        = GameLogic.first_key g.(GameState.players))
    /\ (plot.(MainPlot.key_milestones) = Some [] ->
        out = Ok (joined, GameLogic.invalid_format))
    /\ (plot.(MainPlot.key_milestones) <> Some [] ->
        (forall e, env.(opening_scene) = Raise e ->
           out = if caught_value_or_index e
                 then Ok (joined, GameLogic.invalid_format) else Raise e)
        /\ (forall response, env.(opening_scene) = Ok response ->
              exists started r,
                out = Ok (started, r)
                /\ started
                   = GameState.set_quest_log response.(GMTurnResponse.updated_quest_log)
                       (GameState.set_scene_context
                          response.(GMTurnResponse.updated_scene_context)
                          (GameState.set_story_summary
                             response.(GMTurnResponse.updated_summary) joined))
                /\ r.(ResultPayload.event_type) = "NARRATIVE_UPDATE"
                /\ r.(ResultPayload.narrative) = response.(GMTurnResponse.narrative)
                /\ r.(ResultPayload.new_game_state) = Some started)).
Proof.
  intros Hphase Hparse Hclass Hlast [w Hworld] Hplot hero out. subst out.
  unfold GameLogic._handle_character_creation.
  rewrite Hphase.
  change (String.eqb "CHARACTER_CREATION_DETAILS" "CHARACTER_CREATION_NUM_PLAYERS")
    with false.
  change (String.eqb "CHARACTER_CREATION_DETAILS" "CHARACTER_CREATION_CLASSES")
    with false.
  change (String.eqb "CHARACTER_CREATION_DETAILS" "CHARACTER_CREATION_DETAILS")
    with true. cbv iota.
  rewrite Hparse, Hclass. fold hero.
  cbn [GameState.characters_created GameState.num_players_to_create
       GameState.set_players GameState.set_characters_created
       GameState.set_pending_character_class GameState.set_game_phase
       GameState.set_current_turn_entity_id GameState.players GameState.world
       GameState.main_plot].
  replace (g.(GameState.characters_created) + 1 <? g.(GameState.num_players_to_create))
    with false by (symmetry; apply Z.ltb_ge; lia).
  rewrite Hworld, Hplot.
  exists (GameState.set_current_turn_entity_id
            (GameLogic.first_key
               (Players.set hero.(PlayerCharacter.character_id) hero g.(GameState.players)))
            (GameState.set_game_phase "GAME_IN_PROGRESS"
               (GameState.set_pending_character_class None
                  (GameState.set_characters_created (g.(GameState.characters_created) + 1)
                     (GameState.set_players
                        (Players.set hero.(PlayerCharacter.character_id) hero
                           g.(GameState.players)) g))))).
  split; [reflexivity|]. split; [reflexivity|]. split; [reflexivity|].
  split; [reflexivity|]. split; [reflexivity|].
  split; [intros Hne; cbn; now apply first_key_set|].
  split.
  { intros ->. reflexivity. }
  intros Hmilestones.
  assert (Hout : forall (A : Type) (a b : A),
    match plot.(MainPlot.key_milestones) with
    | Some [] => a
    | _ => b
    end = b).
  { intros A a b. destruct (MainPlot.key_milestones plot) as [[|m ms]|];
      [congruence|reflexivity|reflexivity]. }
  rewrite Hout. split.
  - intros e ->. reflexivity.
  - intros response ->. eexists _, _. split; [reflexivity|]. repeat split.
Qed.

Lemma last_character_starts_game_witness :
  let lost_plot :=
    GameState.set_main_plot (Some (MainPlot.mk None (Some [])))
      (GameState.set_num_players_to_create 1 creating_details) in
  exists joined,
    joined.(GameState.game_phase) = "GAME_IN_PROGRESS"
    /\ Players.keys joined.(GameState.players) = ["char_0a1b2c3d"]
    /\ GameLogic._handle_character_creation storyteller lost_plot "kara"
         "Kara, 29, female, a wandering scholar"
       = Ok (joined, GameLogic.invalid_format).
Proof.
  cbv zeta.
  destruct (last_character_starts_game storyteller
              (GameState.set_main_plot (Some (MainPlot.mk None (Some [])))
                 (GameState.set_num_players_to_create 1 creating_details))
              "kara" "Kara, 29, female, a wandering scholar"
              "Kara" "female" "a wandering scholar" 29 Sample.fighter_class
              (MainPlot.mk None (Some [])))
    as (joined & Hplayers & _ & Hphase & _ & _ & _ & Hempty & _).
  - reflexivity.
  - reflexivity.
  - reflexivity.
  - vm_compute. discriminate.
  - eexists. reflexivity.
  - reflexivity.
  - exists joined. split; [exact Hphase|]. split; [now rewrite Hplayers|].
    now apply Hempty.
Defined.

(** ** Whose turn it is *)

Lemma current_turn_same (g : GameState.t) :
  GameState.set_current_turn_entity_id g.(GameState.current_turn_entity_id) g = g.
Proof. now destruct g. Qed.

Lemma list_index_in (x : string) (l : list string) (i : nat) :
  list_index x l = Ok i -> nth_error l i = Some x.
Proof.
  revert i. induction l as [|y l IH]; intros i; cbn [list_index]; [discriminate|].
  destruct (String.eqb_spec x y) as [->|Hne].
  - intros [= <-]. reflexivity.
  - destruct (list_index x l) as [j|e]; [|discriminate].
    intros [= <-]. cbn [nth_error]. now apply IH.
Qed.

Lemma list_index_first (x : string) (l : list string) (i : nat) :
  list_index x l = Ok i -> forall j, (j < i)%nat -> nth_error l j <> Some x.
Proof.
  revert i. induction l as [|y l IH]; intros i; cbn [list_index]; [discriminate|].
  destruct (String.eqb_spec x y) as [->|Hne].
  - intros [= <-] j Hj. lia.
  - destruct (list_index x l) as [k|e] eqn:Hk; [|discriminate].
    intros [= <-] [|j] Hj; cbn [nth_error]; [congruence|].
    apply (IH k eq_refl). lia.
Qed.

Lemma list_index_raises (x : string) (l : list string) (e : exn) :
  list_index x l = Raise e -> ~ In x l.
Proof.
  induction l as [|y l IH]; cbn [list_index]; [tauto|].
  destruct (String.eqb_spec x y) as [->|Hne]; [discriminate|].
  destruct (list_index x l) as [j|e'] eqn:Hj; [discriminate|].
  intros [= ->] [Hy|Hin]; [congruence|]. now apply IH.
Qed.

(** X16. [_advance_turn_in_combat] changes nothing but the current turn, and
    the turn it sets is an id of the initiative order: the one that follows
    the first occurrence of the current id, the first of the order after the
    last, or the first of the order when the current id is absent from the
    order (or there is none). With an empty order nothing changes and the
    next turn is reported not to be an NPC's. The flag returned tells
    whether the new current id is missing from the players. *)
Theorem advance_turn_stays_in_order (g : GameState.t) :
  let order := g.(GameState.initiative_order) in
  let out := GameLogic._advance_turn_in_combat g in
  (order = [] -> out = (g, false))
  /\ (order <> [] ->
      exists next,
        out = (GameState.set_current_turn_entity_id (Some next) g,
               negb (Players.mem next g.(GameState.players)))
        /\ In next order
        /\ (forall cur i,
              g.(GameState.current_turn_entity_id) = Some cur ->
              nth_error order i = Some cur ->
              (forall j, (j < i)%nat -> nth_error order j <> Some cur) ->
              nth_error order ((i + 1) mod length order) = Some next)
        /\ ((forall cur, g.(GameState.current_turn_entity_id) = Some cur -> ~ In cur order) ->
            nth_error order 0 = Some next)).
Proof.
  intros order out. subst out order. unfold GameLogic._advance_turn_in_combat.
  cbv zeta. remember (GameState.initiative_order g) as order eqn:Horder0.
  split.
  { intros Hempty. rewrite Hempty.
    destruct (GameState.current_turn_entity_id g); reflexivity. }
  intros Hne.
  assert (Hfirst : exists first rest, order = first :: rest).
  { destruct order as [|first rest]; [congruence|]. now exists first, rest. }
  destruct Hfirst as (first & rest & Horder). clear Hne.
  assert (Hlen : length order <> 0%nat) by (rewrite Horder; cbn; lia).
  assert (Hfallback :
    match order with
    | [] => (g, false)
    | first_entity_id :: _ =>
        (GameState.set_current_turn_entity_id (Some first_entity_id) g,
         GameLogic.not_a_player (Some first_entity_id)
           (GameState.set_current_turn_entity_id (Some first_entity_id) g))
    end
    = (GameState.set_current_turn_entity_id (Some first) g,
       negb (Players.mem first g.(GameState.players)))).
  { now rewrite Horder. }
  assert (Hhead : nth_error order 0 = Some first /\ In first order).
  { rewrite Horder. split; [reflexivity | now left]. }
  destruct Hhead as [Hhead Hin].
  destruct (GameState.current_turn_entity_id g) as [cur|] eqn:Hcur.
  - destruct (list_index cur order) as [i|e] eqn:Hi; cbn [rbind].
    + pose proof (Nat.mod_upper_bound (i + 1) (length order) Hlen) as Hbound.
      unfold list_item.
      destruct (nth_error order ((i + 1) mod length order)) as [next|] eqn:Hnext.
      2:{ apply nth_error_None in Hnext. lia. }
      exists next. unfold GameLogic.not_a_player.
      cbn [GameState.players GameState.set_current_turn_entity_id].
      split; [reflexivity|]. split; [now apply nth_error_In in Hnext|].
      split.
      * intros cur0 i0 [= <-] Hi0 Hfirst.
        assert (i0 = i) as ->.
        { pose proof (list_index_in _ _ _ Hi) as Hat.
          pose proof (list_index_first _ _ _ Hi) as Hmin.
          destruct (Nat.lt_trichotomy i0 i) as [Hlt|[Heq|Hgt]]; [|exact Heq|].
          - exfalso. exact (Hmin i0 Hlt Hi0).
          - exfalso. exact (Hfirst i Hgt Hat). }
        exact Hnext.
      * intros Habsent. exfalso. apply (Habsent cur eq_refl).
        apply (nth_error_In _ i). now apply list_index_in.
    + exists first. rewrite Hfallback.
      split; [reflexivity|]. split; [exact Hin|].
      split; [|intros _; exact Hhead].
      intros cur0 i0 [= <-] Hi0 _. exfalso.
      apply (list_index_raises _ _ _ Hi).
      now apply nth_error_In in Hi0.
  - cbn [rbind]. exists first. rewrite Hfallback.
    split; [reflexivity|]. split; [exact Hin|].
    split; [intros; discriminate | intros _; exact Hhead].
Qed.

Lemma turns_succ (k : nat) (g : GameState.t) :
  turns (S k) g = (GameLogic._advance_turn_in_combat (turns k g)).1.
Proof. reflexivity. Qed.

(** After [k] turns from the [i]-th id of an order without repetition. *)
Lemma turns_nodup (g : GameState.t) (i : nat) (cur : string) :
  NoDup g.(GameState.initiative_order) ->
  nth_error g.(GameState.initiative_order) i = Some cur ->
  g.(GameState.current_turn_entity_id) = Some cur ->
  forall k,
    turns k g
    = GameState.set_current_turn_entity_id
        (nth_error g.(GameState.initiative_order)
           ((i + k) mod length g.(GameState.initiative_order))) g.
Proof.
  intros Hnd Hi Hcur.
  assert (Hlen : (i < length g.(GameState.initiative_order))%nat).
  { apply nth_error_Some. congruence. }
  induction k as [|k IH].
  - rewrite Nat.add_0_r, Nat.mod_small by exact Hlen.
    rewrite Hi, <- Hcur. cbn. now rewrite current_turn_same.
  - rewrite turns_succ, IH.
    set (n := length g.(GameState.initiative_order)) in *.
    destruct (nth_error g.(GameState.initiative_order) ((i + k) mod n)) as [c|] eqn:Hc.
    2:{ apply nth_error_None in Hc.
        pose proof (Nat.mod_upper_bound (i + k) n). lia. }
    destruct (advance_turn_nodup
                (GameState.set_current_turn_entity_id (Some c) g) ((i + k) mod n) c)
      as (next & Hnext & Hadv); try assumption; try reflexivity.
    rewrite Hadv. cbn [fst].
    cbn [GameState.initiative_order GameState.set_current_turn_entity_id] in Hnext.
    fold n in Hnext. rewrite Nat.Div0.add_mod_idemp_l in Hnext.
    replace (i + S k)%nat with (i + k + 1)%nat by lia. rewrite Hnext.
    now destruct g.
Qed.

(** X17. The turns go round the table. When the initiative order holds no id
    twice and the current turn is its [i]-th id, [k] calls of
    [_advance_turn_in_combat] bring the turn to the id at position
    (i + k) modulo the length of the order, so that every combatant gets
    the turn once in a round, and after as many calls as there are ids the
    state is exactly the one the round started from. *)
Theorem turns_go_round (g : GameState.t) (i : nat) (cur : string) :
  NoDup g.(GameState.initiative_order) ->
  nth_error g.(GameState.initiative_order) i = Some cur ->
  g.(GameState.current_turn_entity_id) = Some cur ->
  (forall k,
     (turns k g).(GameState.current_turn_entity_id)
     = nth_error g.(GameState.initiative_order)
         ((i + k) mod length g.(GameState.initiative_order)))
  /\ (forall k, (turns k g).(GameState.initiative_order) = g.(GameState.initiative_order))
  /\ turns (length g.(GameState.initiative_order)) g = g.
Proof.
  intros Hnd Hi Hcur.
  pose proof (turns_nodup g i cur Hnd Hi Hcur) as Hturns.
  assert (Hlen : (i < length g.(GameState.initiative_order))%nat).
  { apply nth_error_Some. congruence. }
  split; [intros k; now rewrite Hturns|].
  split; [intros k; now rewrite Hturns|].
  rewrite Hturns.
  replace (i + length g.(GameState.initiative_order))%nat
    with (i + 1 * length g.(GameState.initiative_order))%nat by lia.
  rewrite Nat.Div0.mod_add, Nat.mod_small by exact Hlen.
  rewrite Hi, <- Hcur. apply current_turn_same.
Qed.

Lemma turns_go_round_witness :
  turns (length fighting_goblin.(GameState.initiative_order)) fighting_goblin
  = fighting_goblin.
Proof.
  apply (turns_go_round fighting_goblin 0 "char_kara"); try reflexivity.
  cbn. apply NoDup_cons. split.
  - intros H. apply list_elem_of_In in H. cbn in H. intuition discriminate.
  - apply NoDup_singleton.
Defined.

Lemma nth_error_next (l : list string) (i : nat) :
  (i < length l)%nat -> is_Some (nth_error l ((i + 1) mod length l)).
Proof.
  intros Hi.
  destruct (nth_error l ((i + 1) mod length l)) as [x|] eqn:E; [now exists x|].
  apply nth_error_None in E.
  pose proof (Nat.mod_upper_bound (i + 1) (length l)). lia.
Qed.

(** X18. Outside combat the turn goes round the players. After a task that
    ends in phase GAME_IN_PROGRESS, when there are two players or more the
    stored turn passes from the acting player to the one that follows in the
    players dict, from the last to the first, and that player is another
    one; with a single player nothing more is written. Nothing is published
    and no task is queued by this step. *)
Theorem turn_passes_to_next_player (initial_phase session_id client_id : string)
    (final row : GameState.t) (w : World) (i : nat) (cur : string) :
  final.(GameState.game_phase) = "GAME_IN_PROGRESS" ->
  w.(db) !! session_id = Some row ->
  NoDup (Players.keys final.(GameState.players)) ->
  nth_error (Players.keys final.(GameState.players)) i = Some cur ->
  final.(GameState.current_turn_entity_id) = Some cur ->
  let ids := Players.keys final.(GameState.players) in
  let w' := GameLogic.post_turn initial_phase session_id client_id final w in
  w'.(published) = w.(published)
  /\ w'.(npc_queue) = w.(npc_queue)
  /\ (length ids = 1%nat -> w' = w)
  /\ ((1 < length ids)%nat ->
      exists next,
        nth_error ids ((i + 1) mod length ids) = Some next
        /\ next <> cur
        /\ w'.(db)
           = <[session_id := GameState.set_current_turn_entity_id (Some next) final]> w.(db)).
Proof.
  intros Hphase Hrow Hnd Hi Hcur ids w'. subst w'.
  unfold GameLogic.post_turn. rewrite Hphase, Hcur.
  change (String.eqb "GAME_IN_PROGRESS" "IN_COMBAT") with false.
  change (String.eqb "GAME_IN_PROGRESS" "GAME_IN_PROGRESS") with true. cbv iota.
  fold ids.
  assert (Hlen : (i < length ids)%nat) by (apply nth_error_Some; unfold ids; congruence).
  unfold GameLogic.next_player. fold ids.
  rewrite (list_index_nth ids i cur Hnd Hi).
  destruct (nth_error_next ids i Hlen) as [next Hnext]. rewrite Hnext.
  destruct (Nat.ltb_spec 1 (length ids)) as [Hmany|Hone].
  - rewrite (update_db session_id _ row w Hrow). cbn [published npc_queue db].
    split; [reflexivity|]. split; [reflexivity|]. split; [intros; lia|].
    intros _. exists next. split; [reflexivity|]. split; [|reflexivity].
    intros ->.
    assert (Hsame : ((i + 1) mod length ids)%nat = i).
    { apply (proj1 (List.NoDup_nth_error ids) (proj1 (NoDup_ListNoDup ids) Hnd)).
      - apply Nat.mod_upper_bound. lia.
      - rewrite Hnext. symmetry. exact Hi. }
    destruct (Nat.eq_dec (i + 1)%nat (length ids)) as [Heq|Hneq].
    + rewrite Heq, Nat.Div0.mod_same in Hsame. lia.
    + rewrite Nat.mod_small in Hsame by lia. lia.
  - split; [reflexivity|]. split; [reflexivity|]. split; [reflexivity|]. intros; lia.
Qed.

Lemma turn_passes_to_next_player_witness :
  exists next,
    nth_error (Players.keys two_players.(GameState.players))
      ((0 + 1) mod length (Players.keys two_players.(GameState.players))) = Some next
    /\ next <> "char_kara"
    /\ (GameLogic.post_turn "GAME_IN_PROGRESS" "s1" "kara" two_players
          (Sample.world_of "s1" two_players)).(db)
       = <["s1" := GameState.set_current_turn_entity_id (Some next) two_players]>
           (Sample.world_of "s1" two_players).(db).
Proof.
  apply (turn_passes_to_next_player "GAME_IN_PROGRESS" "s1" "kara" two_players two_players
           (Sample.world_of "s1" two_players) 0 "char_kara");
    try reflexivity; [|cbn; lia].
  cbn. apply NoDup_cons. split.
  - intros H. apply list_elem_of_In in H. cbn in H. intuition discriminate.
  - apply NoDup_singleton.
Defined.

(** X19. In combat the turn passes only to an NPC. After a player's turn that
    leaves the fight going on, the id that follows the player's in the
    initiative order (the first after the last) is looked up; if it is not
    a player's, the state with the turn on that id is stored and its NPC
    task is queued; if it is a player's, nothing is stored and nothing is
    queued, so that the stored turn stays with the player who has just
    acted. *)
Theorem combat_turn_passes_to_npc_only (session_id client_id : string)
    (final row : GameState.t) (w : World) (i : nat) (cur : string) :
  final.(GameState.game_phase) = "IN_COMBAT" ->
  w.(db) !! session_id = Some row ->
  NoDup final.(GameState.initiative_order) ->
  nth_error final.(GameState.initiative_order) i = Some cur ->
  final.(GameState.current_turn_entity_id) = Some cur ->
  let order := final.(GameState.initiative_order) in
  let w' := GameLogic.post_turn "IN_COMBAT" session_id client_id final w in
  exists next,
    nth_error order ((i + 1) mod length order) = Some next
    /\ (is_player next final = true -> w' = w)
    /\ (is_player next final = false ->
        w' = mkWorld
               (<[session_id := GameState.set_current_turn_entity_id (Some next) final]>
                  w.(db))
               w.(published) (w.(npc_queue) ++ [(session_id, client_id)])).
Proof.
  intros Hphase Hrow Hnd Hi Hcur order w'. subst w' order.
  destruct (advance_turn_nodup final i cur Hnd Hi Hcur) as (next & Hnext & Hadv).
  exists next. split; [exact Hnext|].
  unfold GameLogic.post_turn. rewrite Hphase.
  change (String.eqb "IN_COMBAT" "IN_COMBAT") with true. cbv iota. rewrite Hadv.
  split; intros Hplayer; rewrite Hplayer; cbn [negb]; [reflexivity|].
  unfold delay_npc_turn_task.
  now rewrite (update_db session_id _ row).
Qed.

Lemma combat_turn_passes_to_npc_only_witness :
  let both :=
    GameState.set_initiative_order ["char_kara"; "char_bram"; "ent_inst_gob1"]
      (GameState.set_game_phase "IN_COMBAT" two_players) in
  exists next,
    nth_error both.(GameState.initiative_order)
      ((0 + 1) mod length both.(GameState.initiative_order)) = Some next
    /\ (is_player next both = true ->
        GameLogic.post_turn "IN_COMBAT" "s1" "kara" both (Sample.world_of "s1" both)
        = Sample.world_of "s1" both)
    /\ (is_player next both = false ->
        GameLogic.post_turn "IN_COMBAT" "s1" "kara" both (Sample.world_of "s1" both)
        = mkWorld
            (<["s1" := GameState.set_current_turn_entity_id (Some next) both]>
               (Sample.world_of "s1" both).(db))
            (Sample.world_of "s1" both).(published)
            ((Sample.world_of "s1" both).(npc_queue) ++ [("s1", "kara")])).
Proof.
  cbv zeta.
  apply (combat_turn_passes_to_npc_only "s1" "kara"
           (GameState.set_initiative_order ["char_kara"; "char_bram"; "ent_inst_gob1"]
              (GameState.set_game_phase "IN_COMBAT" two_players))
           (GameState.set_initiative_order ["char_kara"; "char_bram"; "ent_inst_gob1"]
              (GameState.set_game_phase "IN_COMBAT" two_players))
           (Sample.world_of "s1"
              (GameState.set_initiative_order ["char_kara"; "char_bram"; "ent_inst_gob1"]
                 (GameState.set_game_phase "IN_COMBAT" two_players)))
           0 "char_kara"); try reflexivity.
  cbn. repeat (apply NoDup_cons; split;
               [intros H; apply list_elem_of_In in H; cbn in H; intuition discriminate|]).
  apply NoDup_nil_2.
Defined.

(** ** What an NPC does *)

Lemma advance_turn_frame (g : GameState.t) :
  let g' := (GameLogic._advance_turn_in_combat g).1 in
  g'.(GameState.players) = g.(GameState.players)
  /\ g'.(GameState.scene_context) = g.(GameState.scene_context)
  /\ g'.(GameState.initiative_order) = g.(GameState.initiative_order)
  /\ g'.(GameState.pending_action) = g.(GameState.pending_action)
  /\ g'.(GameState.game_phase) = g.(GameState.game_phase).
Proof.
  unfold GameLogic._advance_turn_in_combat.
  repeat match goal with
         | |- context [match ?x with _ => _ end] => destruct x eqn:?
         end; cbn [fst snd]; repeat split; assumption.
Qed.

(** X20. An NPC never acts. [_handle_npc_turn] returns the state it was given,
    whatever the model decides for the NPC, because the NPC cannot be turned
    into the actor the rules engine expects; and its outcome is one of four
    texts: the id (or "None") cannot act, when no scene entity has the id of
    the current turn; the entity cannot act, when its health is 0 or below;
    there are no conscious players, when no player has health above 0; and
    in every other case the entity hesitates. *)
Theorem npc_never_acts (env : Env) (g : GameState.t) (npc_id : option string)
    (language_pref : string) :
  let out := GameLogic._handle_npc_turn env g npc_id language_pref in
  let entities := g.(GameState.scene_context).(SceneContext.entities) in
  out.1 = g
  /\ (GameLogic.find_instance npc_id entities = None ->
      out.2 = default "None" npc_id +:+ " cannot act.")
  /\ (forall e,
        GameLogic.find_instance npc_id entities = Some e ->
        (e.(SceneEntity.health) <= 0 ->
         out.2 = e.(SceneEntity.name) +:+ " cannot act.")
        /\ (0 < e.(SceneEntity.health) ->
            Forall (fun p => p.(PlayerCharacter.health) <= 0)
                   (Players.values g.(GameState.players)) ->
            out.2 = "There are no conscious players to target.")
        /\ (0 < e.(SceneEntity.health) ->
            Exists (fun p => 0 < p.(PlayerCharacter.health))
                   (Players.values g.(GameState.players)) ->
            out.2 = e.(SceneEntity.name) +:+ " hesitates, unsure of what to do.")).
Proof.
  intros out entities. subst out.
  split; [apply handle_npc_turn_state|].
  unfold GameLogic._handle_npc_turn. fold entities.
  destruct (GameLogic.find_instance npc_id entities) as [e|]; cbn [snd].
  2:{ split; [reflexivity|]. intros; discriminate. }
  split; [intros; discriminate|].
  intros e0 [= <-].
  destruct (Z.leb_spec e.(SceneEntity.health) 0) as [Hdown|Hup]; cbn [snd].
  { split; [reflexivity|]. split; intros; lia. }
  split; [intros; lia|].
  unfold GameLogic.conscious_players.
  destruct (List.filter _ _) as [|p ps] eqn:Hfilter; cbn [snd].
  - split; [reflexivity|]. intros _ Hsome. exfalso.
    apply List.Exists_exists in Hsome as (p & Hin & Hp).
    assert (Hp' : In p []).
    { rewrite <- Hfilter. apply filter_In. split; [exact Hin|]. now apply Z.ltb_lt. }
    exact Hp'.
  - split.
    + intros _ Hall. exfalso.
      assert (Hin : In p (p :: ps)) by now left.
      rewrite <- Hfilter in Hin. apply filter_In in Hin as [Hin Hp].
      apply Z.ltb_lt in Hp.
      rewrite List.Forall_forall in Hall. specialize (Hall p Hin). lia.
    + intros _ _. rewrite npc_as_actor_invalid.
      now destruct (npc_decision env e).
Qed.

(** X21. The NPC task never changes a player or the scene. Without a row for
    the session it does nothing at all. With a row it publishes one
    NARRATIVE_UPDATE for the client, carrying the state it stores, and that
    state is the one it read but for the phase, set to GAME_IN_PROGRESS
    when no hostile entity has health above 0, or for the current turn,
    advanced otherwise; the players, the scene, the initiative order and
    the pending action are as they were, and no other row changes. *)
Theorem npc_task_changes_turn_only (env : Env) (session_id client_id : string)
    (w : World) :
  let w' := GameLogic.process_npc_turn_task env session_id client_id w in
  (w.(db) !! session_id = None -> w' = w)
  /\ (forall g,
        w.(db) !! session_id = Some g ->
        exists stored narrative,
          w'.(db) = <[session_id := stored]> w.(db)
          /\ w'.(published)
             = w.(published)
               ++ [(client_id,
                    ResultPayload.mk "NARRATIVE_UPDATE" narrative (Some stored)
                      None None None None)]
          /\ stored.(GameState.players) = g.(GameState.players)
          /\ stored.(GameState.scene_context) = g.(GameState.scene_context)
          /\ stored.(GameState.initiative_order) = g.(GameState.initiative_order)
          /\ stored.(GameState.pending_action) = g.(GameState.pending_action)
          /\ (Rules.remaining_hostiles g = false ->
              stored = GameState.set_game_phase "GAME_IN_PROGRESS" g
              /\ w'.(npc_queue) = w.(npc_queue))
          /\ (Rules.remaining_hostiles g = true ->
              stored = (GameLogic._advance_turn_in_combat g).1
              /\ stored.(GameState.game_phase) = g.(GameState.game_phase))).
Proof.
  intros w'. subst w'. split.
  { intros Hnone. unfold GameLogic.process_npc_turn_task. now rewrite Hnone. }
  intros g Hrow.
  destruct (npc_task_step env session_id client_id w g Hrow) as [narrative ->].
  destruct (Rules.remaining_hostiles g).
  - pose proof (advance_turn_frame g) as Hframe.
    destruct (GameLogic._advance_turn_in_combat g) as [g' is_npc].
    cbn [fst] in Hframe. destruct Hframe as (H1 & H2 & H3 & H4 & H5).
    exists g', narrative. cbn [db published npc_queue].
    split; [reflexivity|]. split; [reflexivity|].
    split; [exact H1|]. split; [exact H2|]. split; [exact H3|]. split; [exact H4|].
    split; [intros; discriminate|]. intros _. now split.
  - exists (GameState.set_game_phase "GAME_IN_PROGRESS" g),
           (narrative +:+ GameLogic.combat_has_ended).
    cbn [db published npc_queue].
    split; [reflexivity|]. split; [reflexivity|].
    split; [reflexivity|]. split; [reflexivity|]. split; [reflexivity|].
    split; [reflexivity|].
    split; [intros _; now split|]. intros; discriminate.
Qed.

(** ** What a task writes and what it sends *)

Lemma narrate_turn_payload (env : Env) (g : GameState.t) (actor : option PlayerCharacter.t)
    (action_text language_pref outcome : string) (danger : bool)
    (g' : GameState.t) (r : ResultPayload.t) :
  GameLogic._narrate_turn env g actor action_text language_pref outcome danger = Ok (g', r) ->
  r.(ResultPayload.new_game_state) = Some g'.
Proof.
  unfold GameLogic._narrate_turn, rbind. intros H.
  handler_cases H. inversion H; subst. reflexivity.
Qed.

(** A handler sends no state, or the state it returns. *)
Lemma dispatch_payload_state (env : Env) (g final : GameState.t)
    (client_id action_text language_pref : string) (r : ResultPayload.t) :
  GameLogic.dispatch env g client_id action_text language_pref = GameLogic.Handled final r ->
  r.(ResultPayload.new_game_state) = None \/ r.(ResultPayload.new_game_state) = Some final.
Proof.
  assert (Hturn : forall g0 id,
    GameLogic.of_result
      (GameLogic._handle_standard_turn env g0 id action_text language_pref)
    = GameLogic.Handled final r ->
    r.(ResultPayload.new_game_state) = None \/ r.(ResultPayload.new_game_state) = Some final).
  { intros g0 id H. apply of_result_handled in H.
    unfold GameLogic._handle_standard_turn in H.
    destruct (Players.get id _) as [actor|]; [|inversion H; subst; now left].
    destruct (Rules.process_turn_events _ _ g0 actor) as [[[g1 actor1] outcome] danger].
    destruct (String.eqb _ _).
    - inversion H; subst. now right.
    - right. now apply narrate_turn_payload in H. }
  unfold GameLogic.dispatch. intros H.
  destruct (String.eqb g.(GameState.game_phase) "NEW_GAME").
  { apply of_result_handled in H. unfold GameLogic._handle_start_new_game, rbind in H.
    handler_cases H. inversion H; subst. now right. }
  destruct (String.eqb g.(GameState.game_phase) "WORLD_SELECTION").
  { apply of_result_handled in H. unfold GameLogic._handle_world_selection, rbind in H.
    handler_cases H; inversion H; subst; now left. }
  destruct (String.prefix "CHARACTER_CREATION" g.(GameState.game_phase)).
  { apply of_result_handled in H.
    unfold GameLogic._handle_character_creation, rbind in H.
    handler_cases H; inversion H; subst; (now left) || (now right). }
  destruct (String.eqb g.(GameState.game_phase) "AWAITING_DICE_ROLL_CONFIRMATION").
  { apply of_result_handled in H.
    unfold GameLogic._handle_dice_roll_confirmation, rbind in H.
    destruct (GameState.pending_action g); [|inversion H; subst; now left].
    match type of H with
    | context [match ?x with Ok _ => _ | Raise _ => _ end] =>
        destruct x as [[[g1 a1] o1]|]
    end; [|discriminate].
    right. now apply narrate_turn_payload in H. }
  destruct (String.eqb g.(GameState.game_phase) "IN_COMBAT").
  { destruct (GameLogic.no_valid_turn g); [discriminate|]. eapply Hturn; exact H. }
  destruct (String.eqb g.(GameState.game_phase) "GAME_IN_PROGRESS").
  { destruct (GameLogic.no_valid_turn g).
    - destruct (GameLogic.first_key _) as [acting_char_id|]; [|discriminate].
      destruct (negb _); [discriminate|]. eapply Hturn; exact H.
    - eapply Hturn; exact H. }
  inversion H; subst. now left.
Qed.

(** Section 5 of the task stores nothing, or the final state with another
    current turn. *)
Lemma post_turn_stores (initial_phase session_id client_id : string)
    (final row : GameState.t) (w : World) :
  w.(db) !! session_id = Some row ->
  let w' := GameLogic.post_turn initial_phase session_id client_id final w in
  w'.(published) = w.(published)
  /\ (w'.(db) = w.(db)
      \/ exists turn,
           w'.(db) = <[session_id := GameState.set_current_turn_entity_id turn final]> w.(db)).
Proof.
  intros Hrow. cbv zeta. unfold GameLogic.post_turn.
  destruct (String.eqb final.(GameState.game_phase) "IN_COMBAT").
  - destruct (String.eqb initial_phase "IN_COMBAT").
    + assert (Hadv : exists turn,
        (GameLogic._advance_turn_in_combat final).1
        = GameState.set_current_turn_entity_id turn final).
      { unfold GameLogic._advance_turn_in_combat.
        repeat match goal with
               | |- context [match ?x with _ => _ end] => destruct x
               end; cbn [fst]; try (eexists; reflexivity).
        exists final.(GameState.current_turn_entity_id). now destruct final. }
      destruct Hadv as [turn Hadv].
      destruct (GameLogic._advance_turn_in_combat final) as [final' is_npc].
      cbn [fst] in Hadv. subst final'.
      destruct is_npc; [|split; [reflexivity | now left]].
      unfold delay_npc_turn_task. rewrite (update_db session_id _ row) by exact Hrow.
      cbn [db published]. split; [reflexivity|]. right. now exists turn.
    + destruct (GameLogic.not_a_player _ final); [|split; [reflexivity | now left]].
      unfold delay_npc_turn_task. rewrite (update_db session_id _ row) by exact Hrow.
      cbn [db published]. split; [reflexivity|]. right.
      exists final.(GameState.current_turn_entity_id). now destruct final.
  - destruct (String.eqb final.(GameState.game_phase) "GAME_IN_PROGRESS");
      [|split; [reflexivity | now left]].
    destruct (GameState.current_turn_entity_id final) as [acting|];
      [|split; [reflexivity | now left]].
    destruct (_ <? _)%nat; [|split; [reflexivity | now left]].
    destruct (GameLogic.next_player acting _) as [next|];
      [|split; [reflexivity | now left]].
    rewrite (update_db session_id _ row) by exact Hrow.
    cbn [db published]. split; [reflexivity|]. right. now exists (Some next).
Qed.

(** X22. What a task sends is what it stores, up to the current turn. For a
    session that has a row: a task that does not return success leaves the
    world as it was; a task that returns success publishes exactly one
    result, for the client of the task, and that result carries a game
    state; the row of the session then holds that same state, except that
    its [current_turn_entity_id] may already name the next to act. No other
    field of the stored state differs from what the client was sent. *)
Theorem task_sends_what_it_stores (env : Env) (payload : GameLogic.TaskPayload.t)
    (w : World) (row : GameState.t) :
  w.(db) !! payload.(GameLogic.TaskPayload.session_id) = Some row ->
  let out := GameLogic.process_game_action_task env payload w in
  (out.1 <> GameLogic.Success -> out.2 = w)
  /\ (out.1 = GameLogic.Success ->
      exists r sent stored,
        out.2.(published)
        = w.(published) ++ [(payload.(GameLogic.TaskPayload.client_id), r)]
        /\ r.(ResultPayload.new_game_state) = Some sent
        /\ out.2.(db) = <[payload.(GameLogic.TaskPayload.session_id) := stored]> w.(db)
        /\ GameState.set_current_turn_entity_id sent.(GameState.current_turn_entity_id)
             stored
           = sent).
Proof.
  intros Hrow out. subst out. unfold GameLogic.process_game_action_task.
  destruct (String.eqb _ "FORCE_GAME_STATE").
  { destruct (GameLogic.ClientAction.payload _) as [| |forced]; cbn [fst snd];
      try (split; [reflexivity | intros; discriminate]).
    split; [congruence|]. intros _.
    rewrite (update_db _ _ row) by exact Hrow.
    eexists _, _, _. cbn [published db publish_result_to_queue].
    split; [reflexivity|]. split; [reflexivity|]. split; [reflexivity|].
    apply current_turn_same. }
  destruct (GameLogic.dispatch env _ _ _ _) as [final r| |] eqn:Hd; cbn [fst snd];
    try (split; [reflexivity | intros; discriminate]).
  split; [congruence|]. intros _.
  set (r' := match r.(ResultPayload.new_game_state) with
             | Some _ => r
             | None => ResultPayload.set_new_game_state (Some final) r
             end).
  assert (Hsent : r'.(ResultPayload.new_game_state) = Some final).
  { unfold r'. destruct (dispatch_payload_state _ _ _ _ _ _ _ Hd) as [Hnone|Hsome].
    - now rewrite Hnone.
    - now rewrite Hsome. }
  rewrite (update_db _ _ row) by exact Hrow.
  unfold publish_result_to_queue. cbn [db published npc_queue].
  set (w1 := mkWorld _ _ _).
  destruct (post_turn_stores
              payload.(GameLogic.TaskPayload.game_state).(GameState.game_phase)
              payload.(GameLogic.TaskPayload.session_id)
              payload.(GameLogic.TaskPayload.client_id) final final w1)
    as (Hpub & Hdb).
  { unfold w1. cbn [db]. apply lookup_insert_eq. }
  cbv zeta in Hpub, Hdb. exists r', final.
  destruct Hdb as [Hdb | [turn Hdb]].
  - exists final. rewrite Hpub, Hdb. unfold w1. cbn [db published].
    split; [reflexivity|]. split; [exact Hsent|]. split; [reflexivity|].
    apply current_turn_same.
  - exists (GameState.set_current_turn_entity_id turn final).
    rewrite Hpub, Hdb. unfold w1. cbn [db published].
    split; [reflexivity|]. split; [exact Hsent|].
    split; [apply insert_insert_eq|]. now destruct final.
Qed.

Lemma task_sends_what_it_stores_witness :
  let payload :=
    GameLogic.TaskPayload.mk "s1" two_players "kara"
      (GameLogic.ClientAction.mk (Some "I look around") GameLogic.NoPayload) "en" in
  let out :=
    GameLogic.process_game_action_task (Sample.env_with 0 Sample.observe Sample.cave)
      payload (Sample.world_of "s1" two_players) in
  exists r sent stored,
    out.2.(published) = [] ++ [("kara", r)]
    /\ r.(ResultPayload.new_game_state) = Some sent
    /\ out.2.(db) = <["s1" := stored]> (Sample.world_of "s1" two_players).(db)
    /\ GameState.set_current_turn_entity_id sent.(GameState.current_turn_entity_id) stored
       = sent.
Proof.
  cbv zeta.
  apply (task_sends_what_it_stores (Sample.env_with 0 Sample.observe Sample.cave)
           (GameLogic.TaskPayload.mk "s1" two_players "kara"
              (GameLogic.ClientAction.mk (Some "I look around") GameLogic.NoPayload) "en")
           (Sample.world_of "s1" two_players) two_players);
    reflexivity.
Defined.

(** Writing a state touches the row of its session only, and only if the
    row exists. *)
Lemma update_rows (session_id : string) (g : GameState.t) (w : World) (other : string) :
  (is_Some ((update_game_state_in_db session_id g w).(db) !! other)
   <-> is_Some (w.(db) !! other))
  /\ (other <> session_id ->
      (update_game_state_in_db session_id g w).(db) !! other = w.(db) !! other).
Proof.
  unfold update_game_state_in_db.
  destruct (w.(db) !! session_id) as [row|] eqn:Hrow; cbn [db]; [|tauto].
  destruct (decide (other = session_id)) as [->|Hne].
  - rewrite lookup_insert_eq, Hrow. split; [|congruence]. split; intros _; eauto.
  - rewrite lookup_insert_ne by congruence. tauto.
Qed.

Lemma post_turn_rows (initial_phase session_id client_id : string)
    (final : GameState.t) (w : World) (other : string) :
  let w' := GameLogic.post_turn initial_phase session_id client_id final w in
  (is_Some (w'.(db) !! other) <-> is_Some (w.(db) !! other))
  /\ (other <> session_id -> w'.(db) !! other = w.(db) !! other).
Proof.
  cbv zeta.
  destruct (post_turn_cases initial_phase session_id client_id final w)
    as [-> | (final' & _ & _ & _ & [-> | (_ & _ & ->)])].
  - tauto.
  - apply update_rows.
  - apply (update_rows session_id final'
             (delay_npc_turn_task session_id client_id w) other).
Qed.

(** X23. The worker neither creates nor deletes a session, and a task touches
    no row but the one of its own session: after a player's task or an NPC
    task, whatever they return, the store has a row for exactly the
    sessions it had a row for, and the rows of the other sessions hold the
    states they held. A task for a session without a row stores nothing. *)
Theorem worker_keeps_the_sessions (env : Env) (payload : GameLogic.TaskPayload.t)
    (session_id client_id : string) (w : World) (other : string) :
  let after_action := (GameLogic.process_game_action_task env payload w).2 in
  let after_npc := GameLogic.process_npc_turn_task env session_id client_id w in
  (is_Some (after_action.(db) !! other) <-> is_Some (w.(db) !! other))
  /\ (other <> payload.(GameLogic.TaskPayload.session_id) ->
      after_action.(db) !! other = w.(db) !! other)
  /\ (w.(db) !! payload.(GameLogic.TaskPayload.session_id) = None ->
      after_action.(db) = w.(db))
  /\ (is_Some (after_npc.(db) !! other) <-> is_Some (w.(db) !! other))
  /\ (other <> session_id -> after_npc.(db) !! other = w.(db) !! other)
  /\ (w.(db) !! session_id = None -> after_npc = w).
Proof.
  intros after_action after_npc.
  assert (Haction : forall o,
    (is_Some (after_action.(db) !! o) <-> is_Some (w.(db) !! o))
    /\ (o <> payload.(GameLogic.TaskPayload.session_id) ->
        after_action.(db) !! o = w.(db) !! o)).
  { intros o. subst after_action. unfold GameLogic.process_game_action_task.
    destruct (String.eqb _ "FORCE_GAME_STATE").
    - destruct (GameLogic.ClientAction.payload _); cbn [snd]; try tauto.
      unfold publish_result_to_queue. cbn [db]. apply update_rows.
    - destruct (GameLogic.dispatch env _ _ _ _) as [final r| |]; cbn [snd]; try tauto.
      set (w1 := publish_result_to_queue _ _ _).
      destruct (post_turn_rows
                  payload.(GameLogic.TaskPayload.game_state).(GameState.game_phase)
                  payload.(GameLogic.TaskPayload.session_id)
                  payload.(GameLogic.TaskPayload.client_id) final w1 o) as [H1 H2].
      cbv zeta in H1, H2.
      destruct (update_rows payload.(GameLogic.TaskPayload.session_id) final w o)
        as [H3 H4].
      unfold w1, publish_result_to_queue in *. cbn [db] in *.
      split; [tauto|]. intros Hne. rewrite H2, H4 by exact Hne. reflexivity. }
  assert (Hnpc : forall o,
    (is_Some (after_npc.(db) !! o) <-> is_Some (w.(db) !! o))
    /\ (o <> session_id -> after_npc.(db) !! o = w.(db) !! o)).
  { intros o. subst after_npc.
    destruct (w.(db) !! session_id) as [g|] eqn:Hrow.
    - destruct (npc_task_step env session_id client_id w g Hrow) as [narrative ->].
      assert (Hins : forall g',
        (is_Some (<[session_id := g']> w.(db) !! o) <-> is_Some (w.(db) !! o))
        /\ (o <> session_id -> <[session_id := g']> w.(db) !! o = w.(db) !! o)).
      { intros g'. destruct (decide (o = session_id)) as [->|Hne].
        - rewrite lookup_insert_eq, Hrow. split; [|congruence]. split; intros _; eauto.
        - rewrite lookup_insert_ne by congruence. tauto. }
      destruct (Rules.remaining_hostiles g).
      + destruct (GameLogic._advance_turn_in_combat g) as [g' is_npc]. apply Hins.
      + apply Hins.
    - unfold GameLogic.process_npc_turn_task. rewrite Hrow. tauto. }
  split; [apply Haction|]. split; [apply Haction|].
  split.
  { intros Hnone. apply map_eq. intros o.
    destruct (decide (o = payload.(GameLogic.TaskPayload.session_id))) as [->|Hne].
    - destruct (Haction payload.(GameLogic.TaskPayload.session_id)) as [Hsome _].
      rewrite Hnone in *.
      destruct (after_action.(db) !! payload.(GameLogic.TaskPayload.session_id)) eqn:E;
        [|reflexivity].
      exfalso. assert (Hs : is_Some (@None GameState.t)) by (apply Hsome; eauto).
      destruct Hs; discriminate.
    - now apply Haction. }
  split; [apply Hnpc|]. split; [apply Hnpc|].
  intros Hnone. subst after_npc. unfold GameLogic.process_npc_turn_task.
  now rewrite Hnone.
Qed.

(** X24. A phase the dispatcher does not know. For a session that has a row
    and an action other than FORCE_GAME_STATE: when the snapshot's phase is
    none of NEW_GAME, WORLD_SELECTION, AWAITING_DICE_ROLL_CONFIRMATION,
    IN_COMBAT and GAME_IN_PROGRESS and does not start with
    CHARACTER_CREATION (the phase AWAITING_DICE_ROLL that the data model
    mentions is such a phase), the task succeeds, stores the snapshot as it
    is and publishes an error that names the phase; when the phase starts
    with CHARACTER_CREATION but is none of the three creation phases, the
    same happens with the error of the creation handler. *)
Theorem unknown_phase_reported (env : Env) (payload : GameLogic.TaskPayload.t)
    (w : World) (row : GameState.t) :
  w.(db) !! payload.(GameLogic.TaskPayload.session_id) = Some row ->
  action_text_of payload.(GameLogic.TaskPayload.client_action) <> "FORCE_GAME_STATE" ->
  let snapshot := payload.(GameLogic.TaskPayload.game_state) in
  let phase := snapshot.(GameState.game_phase) in
  let answer narrative :=
    (GameLogic.Success,
     mkWorld (<[payload.(GameLogic.TaskPayload.session_id) := snapshot]> w.(db))
       (w.(published)
        ++ [(payload.(GameLogic.TaskPayload.client_id),
             ResultPayload.mk "ERROR" narrative (Some snapshot) None None None None)])
       w.(npc_queue)) in
  (~ In phase ["NEW_GAME"; "WORLD_SELECTION"; "AWAITING_DICE_ROLL_CONFIRMATION";
               "IN_COMBAT"; "GAME_IN_PROGRESS"] ->
   String.prefix "CHARACTER_CREATION" phase = false ->
   GameLogic.process_game_action_task env payload w
   = answer ("Unhandled state '" +:+ phase +:+ "'."))
  /\ (String.prefix "CHARACTER_CREATION" phase = true ->
      ~ In phase ["CHARACTER_CREATION_NUM_PLAYERS"; "CHARACTER_CREATION_CLASSES";
                  "CHARACTER_CREATION_DETAILS"] ->
      GameLogic.process_game_action_task env payload w
      = answer "Unknown character creation state.").
Proof.
  intros Hrow Hforce snapshot phase answer.
  assert (Hpost : forall initial,
    phase <> "IN_COMBAT" -> phase <> "GAME_IN_PROGRESS" ->
    forall w0, GameLogic.post_turn initial payload.(GameLogic.TaskPayload.session_id)
                 payload.(GameLogic.TaskPayload.client_id) snapshot w0 = w0).
  { intros initial H1 H2 w0. unfold GameLogic.post_turn. fold phase.
    apply String.eqb_neq in H1, H2. now rewrite H1, H2. }
  split.
  - intros Hphase Hprefix.
    assert (Hne : forall s, In s ["NEW_GAME"; "WORLD_SELECTION";
                                  "AWAITING_DICE_ROLL_CONFIRMATION"; "IN_COMBAT";
                                  "GAME_IN_PROGRESS"] -> String.eqb phase s = false).
    { intros s Hs. apply String.eqb_neq. intros ->. exact (Hphase Hs). }
    unfold GameLogic.process_game_action_task.
    fold (action_text_of payload.(GameLogic.TaskPayload.client_action)).
    apply String.eqb_neq in Hforce. rewrite Hforce.
    unfold GameLogic.dispatch. fold snapshot phase.
    rewrite !Hne, Hprefix by (cbn; tauto).
    cbn [ResultPayload.new_game_state ResultPayload.error ResultPayload.plain].
    rewrite Hpost.
    + rewrite (update_db _ _ row) by exact Hrow. reflexivity.
    + intros Heq. apply Hphase. rewrite Heq. cbn. tauto.
    + intros Heq. apply Hphase. rewrite Heq. cbn. tauto.
  - intros Hprefix Hphase.
    assert (Hne : forall s, In s ["CHARACTER_CREATION_NUM_PLAYERS";
                                  "CHARACTER_CREATION_CLASSES";
                                  "CHARACTER_CREATION_DETAILS"] ->
                            String.eqb phase s = false).
    { intros s Hs. apply String.eqb_neq. intros ->. exact (Hphase Hs). }
    assert (Hother : forall s, String.prefix "CHARACTER_CREATION" s = false ->
                               String.eqb phase s = false).
    { intros s Hs. apply String.eqb_neq. intros Heq. rewrite Heq in Hprefix. congruence. }
    unfold GameLogic.process_game_action_task.
    fold (action_text_of payload.(GameLogic.TaskPayload.client_action)).
    apply String.eqb_neq in Hforce. rewrite Hforce.
    unfold GameLogic.dispatch. fold snapshot phase.
    rewrite !Hother, Hprefix by reflexivity.
    unfold GameLogic._handle_character_creation. fold phase.
    rewrite !Hne by (cbn; tauto).
    cbn [GameLogic.of_result ResultPayload.new_game_state ResultPayload.error
         ResultPayload.plain].
    rewrite Hpost.
    + rewrite (update_db _ _ row) by exact Hrow. reflexivity.
    + apply String.eqb_neq. now apply Hother.
    + apply String.eqb_neq. now apply Hother.
Qed.

Lemma unknown_phase_reported_witness :
  let snapshot := GameState.set_game_phase "AWAITING_DICE_ROLL" Sample.in_progress in
  GameLogic.process_game_action_task storyteller
    (endpoint_task snapshot "kara"
       (GameLogic.ClientAction.mk (Some "17") GameLogic.NoPayload) "en")
    (Sample.world_of "s1" snapshot)
  = (GameLogic.Success,
     mkWorld (<["s1" := snapshot]> (Sample.world_of "s1" snapshot).(db))
       ([] ++ [("kara",
                ResultPayload.mk "ERROR" "Unhandled state 'AWAITING_DICE_ROLL'."
                  (Some snapshot) None None None None)])
       []).
Proof.
  cbv zeta.
  apply (unknown_phase_reported storyteller
           (endpoint_task (GameState.set_game_phase "AWAITING_DICE_ROLL" Sample.in_progress)
              "kara" (GameLogic.ClientAction.mk (Some "17") GameLogic.NoPayload) "en")
           (Sample.world_of "s1"
              (GameState.set_game_phase "AWAITING_DICE_ROLL" Sample.in_progress))
           (GameState.set_game_phase "AWAITING_DICE_ROLL" Sample.in_progress)).
  - reflexivity.
  - discriminate.
  - cbn. intuition discriminate.
  - reflexivity.
Defined.

(** ** The handler of typed rolls *)

(** X25. [_handle_dice_resolution] never resolves a roll. A text that is not
    an integer, or an integer outside 1..20, is answered with the error for
    an invalid roll and the state unchanged; a text that, stripped, reads as
    an integer in 1..20 makes the handler raise, since the
    rules engine has no [resolve_skill_check] to call. In no case is a state
    other than the one given returned. *)
Theorem dice_resolution_never_resolves (env : Env) (g : GameState.t)
    (action_text language_pref : string) :
  let out := GameLogic._handle_dice_resolution env g action_text language_pref in
  let invalid :=
    Ok (g, ResultPayload.error "Invalid dice roll. Please enter a number between 1 and 20.") in
  (forall roll, Py.int (Py.strip action_text) = Ok roll -> 1 <= roll <= 20 ->
     out = Raise AttributeError)
  /\ (forall roll, Py.int (Py.strip action_text) = Ok roll -> ~ 1 <= roll <= 20 ->
      out = invalid)
  /\ (forall e, Py.int (Py.strip action_text) = Raise e -> out = invalid)
  /\ (forall after r, out = Ok (after, r) -> after = g).
Proof.
  intros out invalid. subst out invalid.
  unfold GameLogic._handle_dice_resolution, GameLogic.in_range.
  destruct (Py.int (Py.strip action_text)) as [roll|e] eqn:Hint; cbn [rbind].
  - destruct ((1 <=? roll) && (roll <=? 20)) eqn:Hrange; cbn [negb].
    + apply andb_true_iff in Hrange as [H1 H2]. apply Z.leb_le in H1, H2.
      split; [reflexivity|]. split; [intros r [= <-] Hout; lia|].
      split; [intros; discriminate|]. intros; discriminate.
    + assert (Hout : ~ 1 <= roll <= 20).
      { intros [H1 H2]. apply Z.leb_le in H1, H2. rewrite H1, H2 in Hrange. discriminate. }
      cbn [caught_value_or_index].
      split; [intros r [= <-] Hin; contradiction|].
      split; [reflexivity|]. split; [intros; discriminate|].
      now intros after r [= <- _].
  - rewrite (py_int_raises_value_error _ _ Hint). cbn [caught_value_or_index].
    split; [intros; discriminate|]. split; [intros; discriminate|].
    split; [reflexivity|]. now intros after r [= <- _].
Qed.

(** ** The connections of the clients *)

(** X26. Results follow the connections by client id alone. A result for a
    client goes out on the socket connected last under the client's id; one
    [disconnect] of that id, also by the handler of an older socket, leaves
    the client without any socket, so that a result for it is dropped while
    the newer socket is open; the connections of the other clients are not
    affected; a second [disconnect] changes nothing; and a result whose
    client id is empty is dropped. *)
Theorem results_follow_connections (manager : gmap string ConnectionManager.WebSocket)
    (older newer : ConnectionManager.WebSocket) (client_id other : string)
    (result : ResultPayload.t) :
  client_id <> "" ->
  let connected :=
    ConnectionManager.connect newer client_id
      (ConnectionManager.connect older client_id manager) in
  forward_result (client_id, result) connected = Some (newer, result)
  /\ forward_result (client_id, result) (ConnectionManager.disconnect client_id connected)
     = None
  /\ (other <> client_id ->
      forward_result (other, result) connected = forward_result (other, result) manager
      /\ forward_result (other, result) (ConnectionManager.disconnect client_id connected)
         = forward_result (other, result) manager)
  /\ ConnectionManager.disconnect client_id
       (ConnectionManager.disconnect client_id connected)
     = ConnectionManager.disconnect client_id connected
  /\ forward_result ("", result) connected = None.
Proof.
  intros Hne connected.
  assert (Htruthy : Py.truthy_str client_id = true) by now apply truthy_nonempty.
  assert (Hlookup : connected !! client_id = Some newer).
  { unfold connected, ConnectionManager.connect. apply lookup_insert_eq. }
  assert (Hgone : ConnectionManager.disconnect client_id connected
                  = delete client_id connected).
  { unfold ConnectionManager.disconnect. now rewrite Hlookup. }
  unfold forward_result, ConnectionManager.send_personal_message.
  rewrite Htruthy, Hlookup, Hgone, lookup_delete_eq.
  split; [reflexivity|]. split; [reflexivity|].
  split.
  { intros Hother. rewrite lookup_delete_ne by congruence.
    unfold connected, ConnectionManager.connect.
    rewrite !lookup_insert_ne by congruence. now split. }
  split; [|reflexivity].
  unfold ConnectionManager.disconnect. now rewrite lookup_delete_eq.
Qed.

Lemma results_follow_connections_witness :
  forward_result ("kara", ResultPayload.error "Acting player not found.")
    (ConnectionManager.disconnect "kara"
       (ConnectionManager.connect 2%nat "kara"
          (ConnectionManager.connect 1%nat "kara" ConnectionManager.init)))
  = None.
Proof.
  apply (results_follow_connections ConnectionManager.init 1%nat 2%nat "kara" "bram"
           (ResultPayload.error "Acting player not found.")).
  discriminate.
Defined.

(** ** Users and sessions *)

Lemma find_username_none (users : list User.t) (username : string) :
  List.find (fun u => String.eqb u.(User.username) username) users = None
  <-> ~ In username (map User.username users).
Proof.
  induction users as [|u users IH]; cbn [List.find map In]; [tauto|].
  destruct (String.eqb_spec u.(User.username) username) as [Heq|Hne].
  - split; [discriminate|]. intros H. exfalso. apply H. now left.
  - rewrite IH. tauto.
Qed.

Lemma find_username_some (users : list User.t) (username : string) (u : User.t) :
  List.find (fun u => String.eqb u.(User.username) username) users = Some u ->
  In u users /\ u.(User.username) = username.
Proof.
  intros H. apply find_some in H as [Hin Heq]. split; [exact Hin|].
  now apply String.eqb_eq.
Qed.

Lemma find_username_app (users : list User.t) (username : string) (u : User.t) :
  List.find (fun u => String.eqb u.(User.username) username) users = None ->
  u.(User.username) = username ->
  List.find (fun u => String.eqb u.(User.username) username) (users ++ [u]) = Some u.
Proof.
  intros Hnone Hu. induction users as [|v users IH]; cbn [app List.find].
  - now rewrite Hu, String.eqb_refl.
  - cbn [List.find] in Hnone.
    destruct (String.eqb v.(User.username) username); [discriminate|]. now apply IH.
Qed.

Lemma find_app_user (p : User.t -> bool) (l1 l2 : list User.t) :
  List.find p (l1 ++ l2)
  = match List.find p l1 with Some u => Some u | None => List.find p l2 end.
Proof.
  induction l1 as [|x l1 IH]; [reflexivity|]. cbn [app List.find].
  now destruct (p x).
Qed.

(** A new user with the next id of the sequence keeps the tables well
    formed. *)
Lemma tables_ok_new_user (db : Crud.Database) (username password language : string) :
  tables_ok db ->
  ~ In username (map User.username db.(Crud.users)) ->
  tables_ok
    (Crud.mkDatabase
       (db.(Crud.users) ++ [User.mk db.(Crud.users_id_seq) username password language])
       (db.(Crud.users_id_seq) + 1) db.(Crud.game_sessions)
       db.(Crud.game_sessions_id_seq)).
Proof.
  intros (Hnames & Hids & Hseq & Hfk & Hsessions) Hnew.
  unfold tables_ok. cbn [Crud.users Crud.users_id_seq Crud.game_sessions].
  rewrite !map_app. cbn [map User.username User.id].
  split.
  { apply NoDup_app. split; [exact Hnames|]. split; [|apply NoDup_singleton].
    intros x Hx Hin. apply list_elem_of_In in Hx, Hin. cbn [In] in Hin.
    destruct Hin as [<-|[]]. contradiction. }
  split.
  { apply NoDup_app. split; [exact Hids|]. split; [|apply NoDup_singleton].
    intros x Hx Hin. apply list_elem_of_In in Hx, Hin. cbn [In] in Hin.
    destruct Hin as [<-|[]]. apply in_map_iff in Hx as (v & Hv & Hin).
    rewrite List.Forall_forall in Hseq. specialize (Hseq v Hin). lia. }
  split.
  { apply Forall_app. split.
    - eapply List.Forall_impl; [|exact Hseq]. intros v Hv. cbn beta in *. lia.
    - repeat constructor. cbn. lia. }
  split; [|exact Hsessions].
  eapply List.Forall_impl; [|exact Hfk]. intros x Hx. cbn beta in *.
  apply in_or_app. now left.
Qed.

(** What [get_or_create_user] returns and leaves behind. *)
Lemma get_or_create_user_spec (db : Crud.Database) (username : string) :
  exists db1 user,
    Crud.get_or_create_user db username = Ok (db1, user)
    /\ user.(User.username) = username
    /\ Crud.get_user_by_username db1 username = Some user
    /\ (forall other, other <> username ->
          Crud.get_user_by_username db1 other = Crud.get_user_by_username db other)
    /\ (Crud.get_user_by_username db username = None ->
        user = User.mk db.(Crud.users_id_seq) username "dummy_password" "en"
        /\ db1.(Crud.users) = db.(Crud.users) ++ [user])
    /\ (is_Some (Crud.get_user_by_username db username) -> db1 = db)
    /\ db1.(Crud.game_sessions) = db.(Crud.game_sessions)
    /\ (tables_ok db -> tables_ok db1).
Proof.
  unfold Crud.get_or_create_user.
  destruct (Crud.get_user_by_username db username) as [u|] eqn:Hfind.
  - exists db, u. split; [reflexivity|].
    split; [now apply find_username_some in Hfind|].
    split; [exact Hfind|]. split; [reflexivity|].
    split; [discriminate|]. split; [reflexivity|]. split; [reflexivity|]. tauto.
  - unfold Crud.get_user_by_username in Hfind.
    pose proof (proj1 (find_username_none _ _) Hfind) as Hnew.
    unfold Crud.create_user.
    replace (existsb _ db.(Crud.users)) with false.
    2:{ symmetry. apply not_true_is_false. intros Hex.
        apply existsb_exists in Hex as (u & Hin & Hu).
        apply (find_none _ _ Hfind) in Hin. congruence. }
    eexists _, _. split; [reflexivity|]. split; [reflexivity|].
    split.
    { unfold Crud.get_user_by_username. cbn [Crud.users].
      now apply find_username_app. }
    split.
    { intros other Hother. unfold Crud.get_user_by_username. cbn [Crud.users].
      rewrite find_app_user.
      destruct (List.find (fun u => String.eqb u.(User.username) other) db.(Crud.users));
        [reflexivity|].
      cbn [List.find User.username].
      destruct (String.eqb_spec username other); [congruence | reflexivity]. }
    split; [intros _; now split|].
    split; [intros [? ?]; discriminate|].
    split; [reflexivity|].
    intros Hok. now apply tables_ok_new_user.
Qed.

(** X27. [get_or_create_user] never fails and creates a user once. It returns
    a user of the name asked for; if the name is new, the user is appended
    with the next id of the sequence and the language "en", and every
    other row is as before; if the name is known, nothing is written. A
    second call returns the same user and writes nothing, the users of
    other names are found as before, and well-formed tables stay well
    formed. *)
Theorem user_created_once (db : Crud.Database) (username : string) :
  exists db1 user,
    Crud.get_or_create_user db username = Ok (db1, user)
    /\ user.(User.username) = username
    /\ Crud.get_or_create_user db1 username = Ok (db1, user)
    /\ (forall other, other <> username ->
          Crud.get_user_by_username db1 other = Crud.get_user_by_username db other)
    /\ (Crud.get_user_by_username db username = None ->
        user.(User.language) = "en"
        /\ user.(User.id) = db.(Crud.users_id_seq)
        /\ db1.(Crud.users) = db.(Crud.users) ++ [user])
    /\ (is_Some (Crud.get_user_by_username db username) -> db1 = db)
    /\ db1.(Crud.game_sessions) = db.(Crud.game_sessions)
    /\ (tables_ok db -> tables_ok db1).
Proof.
  destruct (get_or_create_user_spec db username)
    as (db1 & user & Hcreate & Hname & Hfind & Hothers & Hnew & Hold & Hsess & Hok).
  exists db1, user. split; [exact Hcreate|]. split; [exact Hname|].
  split; [unfold Crud.get_or_create_user; now rewrite Hfind|].
  split; [exact Hothers|].
  split.
  { intros Hnone. destruct (Hnew Hnone) as [-> Husers]. now repeat split. }
  split; [exact Hold|]. split; [exact Hsess | exact Hok].
Qed.

Lemma user_by_id (users : list User.t) (u v : User.t) :
  NoDup (map User.id users) -> In u users -> In v users ->
  u.(User.id) = v.(User.id) -> u = v.
Proof.
  induction users as [|x users IH]; cbn [map In]; [tauto|].
  intros Hnd Hu Hv Hid. apply NoDup_cons in Hnd as [Hx Hnd].
  assert (Hnot : forall y, In y users -> y.(User.id) <> x.(User.id)).
  { intros y Hy Heq. apply Hx. rewrite <- Heq. apply list_elem_of_In.
    now apply in_map. }
  destruct Hu as [<-|Hu], Hv as [<-|Hv].
  - reflexivity.
  - exfalso. now apply (Hnot v Hv).
  - exfalso. now apply (Hnot u Hu).
  - now apply IH.
Qed.

Lemma find_username_map (f : User.t -> User.t) (users : list User.t) (username : string) :
  (forall u, In u users -> (f u).(User.username) = u.(User.username)) ->
  List.find (fun u => String.eqb u.(User.username) username) (map f users)
  = f <$> List.find (fun u => String.eqb u.(User.username) username) users.
Proof.
  induction users as [|x users IH]; intros Hf; [reflexivity|].
  cbn [map List.find]. rewrite (Hf x) by now left.
  destruct (String.eqb x.(User.username) username); [reflexivity|].
  apply IH. intros u Hu. apply Hf. now right.
Qed.

(** X28. The language endpoint validates the code before it touches the
    tables. A code other than "en", "es" and "ca" is answered with 400 and
    nothing is written, no user being created; one of the three codes is
    answered with 200, the user of that name exists afterwards (created
    if the name was new) and has that language, the other users and the
    sessions are as before, and the tables stay well formed. *)
Theorem language_is_validated_and_set (db : Crud.Database) (username language : string) :
  tables_ok db ->
  (~ In language ["en"; "es"; "ca"] ->
   Endpoints.update_user_language db username language
   = Ok (db, Endpoints.Http400 "Invalid language code. Use 'en', 'es', or 'ca'."))
  /\ (In language ["en"; "es"; "ca"] ->
      exists db' message user,
        Endpoints.update_user_language db username language
        = Ok (db', Endpoints.Http200 message)
        /\ Crud.get_user_by_username db' username = Some user
        /\ user.(User.language) = language
        /\ (forall other,
              other <> username ->
              Crud.get_user_by_username db' other = Crud.get_user_by_username db other)
        /\ db'.(Crud.game_sessions) = db.(Crud.game_sessions)
        /\ tables_ok db').
Proof.
  intros Hok.
  assert (Hvalid : existsb (String.eqb language) ["en"; "es"; "ca"] = true
                   <-> In language ["en"; "es"; "ca"]).
  { rewrite existsb_exists. split.
    - intros (x & Hx & Heq). apply String.eqb_eq in Heq. now subst.
    - intros Hin. exists language. split; [exact Hin | apply String.eqb_refl]. }
  unfold Endpoints.update_user_language. split.
  { intros Hbad. destruct (existsb _ _) eqn:E; [|reflexivity].
    exfalso. now apply Hbad, Hvalid. }
  intros Hgood. apply Hvalid in Hgood. rewrite Hgood. cbn [negb].
  destruct (get_or_create_user_spec db username)
    as (db1 & user & -> & Hname & Hfind & Hothers & _ & _ & Hsess & Hok1).
  specialize (Hok1 Hok).
  cbn [rbind].
  set (user' := User.set_language language user).
  set (f := fun u : User.t => if u.(User.id) =? user.(User.id) then user' else u).
  destruct Hok1 as (Hnames & Hids & Hseq & Hfk & Hsessions).
  assert (Hin : In user db1.(Crud.users)).
  { now apply find_username_some in Hfind. }
  assert (Hf : forall u, In u db1.(Crud.users) ->
                         f u = if String.eqb u.(User.username) username then user' else u).
  { intros u Hu. unfold f.
    destruct (Z.eqb_spec u.(User.id) user.(User.id)) as [Heq|Hne].
    - rewrite (user_by_id _ u user Hids Hu Hin Heq), Hname. now rewrite String.eqb_refl.
    - destruct (String.eqb_spec u.(User.username) username) as [Heq|_]; [|reflexivity].
      exfalso. apply Hne. f_equal.
      unfold Crud.get_user_by_username in Hfind.
      assert (Hu' : List.find (fun u => String.eqb u.(User.username) username)
                              db1.(Crud.users) = Some u).
      { clear -Hnames Hu Heq. induction (Crud.users db1) as [|x l IH]; [destruct Hu|].
        cbn [map] in Hnames. apply NoDup_cons in Hnames as [Hx Hnd].
        cbn [List.find]. destruct Hu as [->|Hu].
        - now rewrite Heq, String.eqb_refl.
        - destruct (String.eqb_spec x.(User.username) username) as [Hxe|_];
            [|now apply IH].
          exfalso. apply Hx. rewrite Hxe, <- Heq. apply list_elem_of_In. now apply in_map. }
      congruence. }
  assert (Hfname : forall u, In u db1.(Crud.users) ->
                             (f u).(User.username) = u.(User.username)).
  { intros u Hu. rewrite (Hf u Hu).
    destruct (String.eqb_spec u.(User.username) username) as [Heq|_]; [|reflexivity].
    cbn. congruence. }
  assert (Hfid : forall u, In u db1.(Crud.users) -> (f u).(User.id) = u.(User.id)).
  { intros u Hu. unfold f.
    destruct (Z.eqb_spec u.(User.id) user.(User.id)) as [Heq|_]; [|reflexivity].
    cbn. congruence. }
  exists (Endpoints.save_user user' db1),
         ("Language for user '" +:+ username +:+ "' updated to '" +:+ language +:+ "'."),
         user'.
  split; [reflexivity|].
  assert (Hmap : forall name,
    Crud.get_user_by_username (Endpoints.save_user user' db1) name
    = f <$> Crud.get_user_by_username db1 name).
  { intros name. unfold Crud.get_user_by_username, Endpoints.save_user.
    cbn [Crud.users]. apply (find_username_map f _ _ Hfname). }
  split.
  { rewrite Hmap, Hfind. cbn. rewrite (Hf user Hin), Hname.
    now rewrite String.eqb_refl. }
  split; [reflexivity|].
  split.
  { intros other Hother. rewrite Hmap, <- (Hothers other Hother).
    destruct (Crud.get_user_by_username db1 other) as [v|] eqn:Hv; [|reflexivity].
    cbn. f_equal. apply find_username_some in Hv as [Hvin Hvname].
    rewrite (Hf v Hvin), Hvname.
    destruct (String.eqb_spec other username); [congruence | reflexivity]. }
  split; [exact Hsess|].
  unfold tables_ok, Endpoints.save_user.
  cbn [Crud.users Crud.users_id_seq Crud.game_sessions].
  change (User.id user') with (User.id user). fold f.
  rewrite !List.map_map.
  rewrite (List.map_ext_in _ User.username _ Hfname), (List.map_ext_in _ User.id _ Hfid).
  split; [exact Hnames|]. split; [exact Hids|].
  split; [|split; [exact Hfk | exact Hsessions]].
  apply List.Forall_forall. intros x Hx. apply in_map_iff in Hx as (u & <- & Hu).
  rewrite (Hfid u Hu). rewrite List.Forall_forall in Hseq. now apply Hseq.
Qed.

Lemma language_is_validated_and_set_witness :
  Endpoints.update_user_language (Crud.mkDatabase [] 1 [] 1) "kara" "fr"
  = Ok (Crud.mkDatabase [] 1 [] 1,
        Endpoints.Http400 "Invalid language code. Use 'en', 'es', or 'ca'.").
Proof.
  apply (language_is_validated_and_set (Crud.mkDatabase [] 1 [] 1) "kara" "fr").
  - unfold tables_ok. cbn. repeat split; try apply NoDup_nil_2; constructor.
  - cbn. intuition discriminate.
Defined.

Lemma latest_none (rows : list GameSession.t) : Crud.latest rows = None <-> rows = [].
Proof.
  destruct rows as [|s r]; [tauto|]. cbn [Crud.latest].
  split; [|discriminate]. destruct (Crud.latest r) as [s'|]; [|discriminate].
  now destruct (_ <? _).
Qed.

Lemma latest_in (rows : list GameSession.t) (s : GameSession.t) :
  Crud.latest rows = Some s -> In s rows.
Proof.
  revert s. induction rows as [|x r IH]; intros s; cbn [Crud.latest]; [discriminate|].
  destruct (Crud.latest r) as [s'|].
  - destruct (_ <? _); intros [= <-]; [right; now apply IH | now left].
  - intros [= <-]. now left.
Qed.

Lemma sessions_of_user_none (rows : list GameSession.t) (user_id : Z) :
  List.filter (fun s => s.(GameSession.user_id) =? user_id) rows = []
  <-> ~ In user_id (map GameSession.user_id rows).
Proof.
  induction rows as [|x r IH]; cbn [List.filter map In]; [tauto|].
  destruct (Z.eqb_spec x.(GameSession.user_id) user_id) as [Heq|Hne].
  - split; [discriminate|]. intros H. exfalso. apply H. now left.
  - rewrite IH. tauto.
Qed.

Lemma sessions_of_user_app (rows : list GameSession.t) (user_id : Z) (s : GameSession.t) :
  ~ In user_id (map GameSession.user_id rows) ->
  s.(GameSession.user_id) = user_id ->
  Crud.latest (List.filter (fun s => s.(GameSession.user_id) =? user_id) (rows ++ [s]))
  = Some s.
Proof.
  intros Hnone Hs. rewrite List.filter_app.
  rewrite (proj2 (sessions_of_user_none rows user_id) Hnone).
  cbn [app List.filter]. now rewrite Hs, Z.eqb_refl.
Qed.

(** What [get_or_create_session] returns and leaves behind. *)
Lemma get_or_create_session_spec (session_uuid game_uuid : string) (now : Z)
    (db : Crud.Database) (user_id : Z) :
  tables_ok db ->
  ~ In session_uuid (map GameSession.session_id db.(Crud.game_sessions)) ->
  In user_id (map User.id db.(Crud.users)) ->
  exists db1 session,
    Crud.get_or_create_session session_uuid game_uuid now db user_id = Ok (db1, session)
    /\ session.(GameSession.user_id) = user_id
    /\ Crud.get_latest_session db1 user_id = Some session
    /\ (Crud.get_latest_session db user_id = None ->
        session
        = GameSession.mk db.(Crud.game_sessions_id_seq) session_uuid user_id
            (initial_game_state session_uuid game_uuid) now
        /\ db1.(Crud.game_sessions) = db.(Crud.game_sessions) ++ [session])
    /\ (is_Some (Crud.get_latest_session db user_id) -> db1 = db)
    /\ (forall other,
          other <> user_id ->
          Crud.get_latest_session db1 other = Crud.get_latest_session db other)
    /\ db1.(Crud.users) = db.(Crud.users)
    /\ tables_ok db1.
Proof.
  intros Hok Hfresh Huser. unfold Crud.get_or_create_session.
  destruct (Crud.get_latest_session db user_id) as [session|] eqn:Hlatest.
  - exists db, session. split; [reflexivity|].
    split.
    { unfold Crud.get_latest_session in Hlatest. apply latest_in in Hlatest.
      apply filter_In in Hlatest as [_ Hid]. now apply Z.eqb_eq. }
    split; [exact Hlatest|]. split; [discriminate|]. split; [intros _; reflexivity|].
    split; [intros other _; reflexivity|]. split; [reflexivity | exact Hok].
  - unfold Crud.get_latest_session in Hlatest. apply latest_none in Hlatest.
    apply sessions_of_user_none in Hlatest.
    unfold Crud.create_game_session.
    replace (existsb _ db.(Crud.game_sessions)) with false.
    2:{ symmetry. apply not_true_is_false. intros Hex.
        apply existsb_exists in Hex as (s & Hin & Hs). apply String.eqb_eq in Hs.
        apply Hfresh. rewrite <- Hs. now apply in_map. }
    replace (existsb _ db.(Crud.users)) with true.
    2:{ symmetry. apply existsb_exists. apply in_map_iff in Huser as (u & Hu & Hin).
        exists u. split; [exact Hin|]. now apply Z.eqb_eq. }
    cbn [negb orb].
    eexists _, _. split; [reflexivity|]. split; [reflexivity|].
    split.
    { unfold Crud.get_latest_session. cbn [Crud.game_sessions].
      now apply sessions_of_user_app. }
    split; [intros _; now split|].
    split; [intros [? ?]; discriminate|].
    split.
    { intros other Hother. unfold Crud.get_latest_session. cbn [Crud.game_sessions].
      rewrite List.filter_app. cbn [List.filter GameSession.user_id].
      destruct (Z.eqb_spec user_id other); [congruence|]. now rewrite app_nil_r. }
    split; [reflexivity|].
    destruct Hok as (Hnames & Hids & Hseq & Hfk & Hsessions).
    unfold tables_ok. cbn [Crud.users Crud.users_id_seq Crud.game_sessions].
    split; [exact Hnames|]. split; [exact Hids|]. split; [exact Hseq|].
    split.
    { apply Forall_app. split; [exact Hfk|]. repeat constructor. exact Huser. }
    rewrite map_app. cbn [map GameSession.user_id].
    apply NoDup_app. split; [exact Hsessions|]. split; [|apply NoDup_singleton].
    intros x Hx Hin. apply list_elem_of_In in Hx, Hin. cbn [In] in Hin.
    destruct Hin as [<-|[]]. contradiction.
Qed.

(** X29. A user has one session. With well-formed tables, a user of the table
    and a UUID that no session has yet, [get_or_create_session] never
    fails: for a user without a session it appends a session of that user
    whose state is the initial state, in phase NEW_GAME and without
    players, carrying the very [session_id] of the row; for a user with a
    session it returns that one and writes nothing. Later calls for the
    user return the same session whatever UUIDs and time they are given,
    the sessions of the other users are not touched, and the tables stay
    well formed: no user ever has two sessions. *)
Theorem session_created_once (session_uuid game_uuid : string) (now : Z)
    (db : Crud.Database) (user_id : Z) :
  tables_ok db ->
  ~ In session_uuid (map GameSession.session_id db.(Crud.game_sessions)) ->
  In user_id (map User.id db.(Crud.users)) ->
  exists db1 session,
    Crud.get_or_create_session session_uuid game_uuid now db user_id = Ok (db1, session)
    /\ session.(GameSession.user_id) = user_id
    /\ (Crud.get_latest_session db user_id = None ->
        session.(GameSession.session_id) = session_uuid
        /\ session.(GameSession.game_state) = initial_game_state session_uuid game_uuid
        /\ session.(GameSession.game_state).(GameState.session_id)
           = session.(GameSession.session_id)
        /\ session.(GameSession.game_state).(GameState.game_phase) = "NEW_GAME"
        /\ session.(GameSession.game_state).(GameState.players) = []
        /\ db1.(Crud.game_sessions) = db.(Crud.game_sessions) ++ [session])
    /\ (is_Some (Crud.get_latest_session db user_id) -> db1 = db)
    /\ (forall uuid' game_uuid' now',
          Crud.get_or_create_session uuid' game_uuid' now' db1 user_id = Ok (db1, session))
    /\ (forall other,
          other <> user_id ->
          Crud.get_latest_session db1 other = Crud.get_latest_session db other)
    /\ db1.(Crud.users) = db.(Crud.users)
    /\ tables_ok db1.
Proof.
  intros Hok Hfresh Huser.
  destruct (get_or_create_session_spec session_uuid game_uuid now db user_id Hok Hfresh
              Huser)
    as (db1 & session & Hcreate & Hid & Hlatest & Hnew & Hold & Hothers & Husers & Hok1).
  exists db1, session. split; [exact Hcreate|]. split; [exact Hid|].
  split.
  { intros Hnone. destruct (Hnew Hnone) as [-> Hrows]. now repeat split. }
  split; [exact Hold|].
  split.
  { intros uuid' game_uuid' now'. unfold Crud.get_or_create_session.
    now rewrite Hlatest. }
  split; [exact Hothers|]. split; [exact Husers | exact Hok1].
Qed.

Lemma session_created_once_witness :
  exists db1 session,
    Crud.get_or_create_session "s1" "g1" 0
      (Crud.mkDatabase [User.mk 1 "kara" "dummy_password" "en"] 2 [] 1) 1
    = Ok (db1, session).
Proof.
  destruct (session_created_once "s1" "g1" 0
              (Crud.mkDatabase [User.mk 1 "kara" "dummy_password" "en"] 2 [] 1) 1)
    as (db1 & session & H & _).
  - unfold tables_ok. cbn.
    repeat split; try apply NoDup_singleton; try apply NoDup_nil_2;
      repeat constructor.
  - cbn. tauto.
  - cbn. tauto.
  - now exists db1, session.
Defined.

(** X30. What the endpoint queues. On a connection, with well-formed tables
    and a UUID no session has yet, the endpoint never fails: the client's
    user and session exist afterwards and the state of the session is what
    the client is sent. The task message built for a message of the client
    then carries that very state as snapshot, the [session_id] of that
    state, the client's id and the language of the user. A client that
    was not known before starts in the initial state and with the language
    "en". *)
Theorem endpoint_queues_the_stored_state (session_uuid game_uuid : string) (now : Z)
    (db : Crud.Database) (client_id : string) (client_message : GameLogic.ClientAction.t) :
  tables_ok db ->
  ~ In session_uuid (map GameSession.session_id db.(Crud.game_sessions)) ->
  exists db1 state user,
    Endpoints.websocket_connect session_uuid game_uuid now db client_id = Ok (db1, state)
    /\ Crud.get_user_by_username db1 client_id = Some user
    /\ Endpoints.websocket_message db1 client_id client_message
       = Ok (db1, Some (endpoint_task state client_id client_message user.(User.language)))
    /\ (Crud.get_user_by_username db client_id = None ->
        state = initial_game_state session_uuid game_uuid
        /\ user.(User.language) = "en")
    /\ tables_ok db1.
Proof.
  intros Hok Hfresh. unfold Endpoints.websocket_connect.
  destruct (get_or_create_user_spec db client_id)
    as (db0 & user & -> & Hname & Hfind & _ & Hnew & _ & Hsess & Hok0).
  specialize (Hok0 Hok). cbn [rbind].
  assert (Hin : In user.(User.id) (map User.id db0.(Crud.users))).
  { apply in_map. now apply find_username_some in Hfind. }
  destruct (get_or_create_session_spec session_uuid game_uuid now db0 user.(User.id) Hok0)
    as (db1 & session & -> & _ & Hlatest & Hinit & _ & _ & Husers & Hok1);
    [now rewrite Hsess | exact Hin |].
  cbn [rbind].
  assert (Hfind1 : Crud.get_user_by_username db1 client_id = Some user).
  { unfold Crud.get_user_by_username in *. now rewrite Husers. }
  exists db1, session.(GameSession.game_state), user.
  split; [reflexivity|]. split; [exact Hfind1|].
  split.
  { unfold Endpoints.websocket_message, Crud.get_or_create_user.
    rewrite Hfind1. cbn [rbind]. now rewrite Hlatest. }
  split; [|exact Hok1].
  intros Hunknown. destruct (Hnew Hunknown) as [Huser Husers0].
  split; [|now rewrite Huser].
  assert (Hnone : Crud.get_latest_session db0 user.(User.id) = None).
  { unfold Crud.get_latest_session. apply latest_none, sessions_of_user_none.
    rewrite Hsess. intros Hsession.
    destruct Hok as (_ & _ & Hseq & Hfk & _).
    apply in_map_iff in Hsession as (s & Hs & Hsin).
    rewrite List.Forall_forall in Hfk. specialize (Hfk s Hsin).
    apply in_map_iff in Hfk as (u & Hu & Huin).
    rewrite List.Forall_forall in Hseq. specialize (Hseq u Huin).
    rewrite Huser in Hs. cbn [User.id] in Hs. lia. }
  destruct (Hinit Hnone) as [-> _]. reflexivity.
Qed.

Lemma endpoint_queues_the_stored_state_witness :
  exists db1 state user,
    Endpoints.websocket_connect "s1" "g1" 0 (Crud.mkDatabase [] 1 [] 1) "kara"
    = Ok (db1, state)
    /\ Crud.get_user_by_username db1 "kara" = Some user
    /\ Endpoints.websocket_message db1 "kara"
         (GameLogic.ClientAction.mk (Some "start") GameLogic.NoPayload)
       = Ok (db1,
             Some (endpoint_task state "kara"
                     (GameLogic.ClientAction.mk (Some "start") GameLogic.NoPayload)
                     user.(User.language))).
Proof.
  destruct (endpoint_queues_the_stored_state "s1" "g1" 0 (Crud.mkDatabase [] 1 [] 1) "kara"
              (GameLogic.ClientAction.mk (Some "start") GameLogic.NoPayload))
    as (db1 & state & user & H1 & H2 & H3 & _).
  - unfold tables_ok. cbn. repeat split; try apply NoDup_nil_2; constructor.
  - cbn. tauto.
  - now exists db1, state, user.
Defined.
